(** * gVsense: precision sampling and timing core of the ADS1263 firmware

    A shallow embedding of [src/main.cpp] and the properties of its timing
    core.  The firmware is one translation unit of global variables mutated
    by the main loop and one interrupt handler; here every global lives in
    one record ([Firmware]) that is passed explicitly, every hardware
    reading ([micros()], [millis()], [Serial1.availableForWrite()], the ADC)
    is an argument of the function that performs it, and everything printed
    on [Serial1] is appended, one record per line, to the field [serial1]. *)

From Stdlib Require Import ZArith Lia Bool List String.
From Stdlib Require Import Floats.SpecFloat.
From coqutil Require Import Byte Word.LittleEndianList.
Import ListNotations.
Local Open Scope Z_scope.

(** ** Machine integers

    Integer variables are values of [Z]; each operation of the source that
    can leave the range of its C++ type is followed by the wrap-around of
    that type. *)

Module Int.

Definition wrap (bits z : Z) : Z := z mod 2 ^ bits.

Definition u8 := wrap 8.
Definition u16 := wrap 16.
Definition u32 := wrap 32.
Definition u64 := wrap 64.

(** [(long long) x] of a 64-bit unsigned [x], and the result of a signed
    64-bit operation (two's complement, as the target computes it). *)
Definition i64 (z : Z) : Z := (z + 2 ^ 63) mod 2 ^ 64 - 2 ^ 63.

(** [(long) x] on the 32-bit target. *)
Definition i32 (z : Z) : Z := (z + 2 ^ 31) mod 2 ^ 32 - 2 ^ 31.

Definition in_u32 (z : Z) : Prop := 0 <= z < 2 ^ 32.
Definition in_u64 (z : Z) : Prop := 0 <= z < 2 ^ 64.

End Int.

(** ** Floating point

    [float] is IEEE-754 binary32 and [double] binary64, both carried by
    [spec_float] with the operations of the Standard Library's executable
    specification (round to nearest, ties to even). *)

Definition float := spec_float.
Definition double := spec_float.

Module F32.
Definition prec := 24.
Definition emax := 128.
Definition of_Z (z : Z) : float := binary_normalize prec emax z 0 false.
Definition add := SFadd prec emax.
Definition sub := SFsub prec emax.
Definition mul := SFmul prec emax.
Definition div := SFdiv prec emax.
Definition valid (x : float) : bool := valid_binary prec emax x.
End F32.

Module F64.
Definition prec := 53.
Definition emax := 1024.
Definition of_Z (z : Z) : double := binary_normalize prec emax z 0 false.
Definition add := SFadd prec emax.
Definition sub := SFsub prec emax.
Definition mul := SFmul prec emax.
Definition div := SFdiv prec emax.
(** A decimal literal [num/den] of the source: the double nearest to it. *)
Definition lit (num den : Z) : double := div (of_Z num) (of_Z den).
End F64.

(** float to double is exact (the value is put in the canonical form of
    binary64, which the comparisons rely on); double to float rounds. *)
Definition to_double (x : float) : double :=
  match x with
  | S754_finite s m e => binary_round F64.prec F64.emax s m e
  | _ => x
  end.

Definition to_float (x : double) : float :=
  match x with
  | S754_finite s m e => binary_round F32.prec F32.emax s m e
  | _ => x
  end.

(** [(long long) x], [(uint64_t) x], [(uint32_t) x]: the integer part.  The
    source never guards these casts; a NaN or an infinity (undefined in
    C++) is given 0 here. *)
Definition trunc (x : spec_float) : Z :=
  match x with
  | S754_finite s m e =>
      let a := match e with
               | Zneg p => Zpos m / 2 ^ Zpos p
               | _ => Zpos m * 2 ^ e
               end in
      if s then - a else a
  | _ => 0
  end.

(** The Arduino macro [abs(x)] is [((x)>0?(x):-(x))], [fabs] is the
    library function. *)
Definition abs_macro (x : spec_float) : spec_float :=
  if SFltb (S754_zero false) x then x else SFopp x.

Definition fabs := SFabs.

(** Comparisons as C++ evaluates them: false whenever a NaN is involved. *)
Definition flt (x y : spec_float) : bool := SFltb x y.
Definition fle (x y : spec_float) : bool := SFleb x y.
Definition fgt (x y : spec_float) : bool := SFltb y x.

(** ** IEEE-754 binary32 object representation

    [EEPROM.put] and [EEPROM.get] copy the bytes of a value; for a [float]
    these are the four bytes of its binary32 encoding. *)

Definition bits_of_float (x : float) : Z :=
  match x with
  | S754_zero s => if s then 2 ^ 31 else 0
  | S754_infinity s => (if s then 2 ^ 31 else 0) + 255 * 2 ^ 23
  | S754_nan => 255 * 2 ^ 23 + 2 ^ 22
  | S754_finite s m e =>
      (if s then 2 ^ 31 else 0) +
      (if 2 ^ 23 <=? Zpos m then (e + 150) * 2 ^ 23 + (Zpos m - 2 ^ 23) else Zpos m)
  end.

Definition float_of_bits (b : Z) : float :=
  let s := 2 ^ 31 <=? b in
  let ex := (b / 2 ^ 23) mod 2 ^ 8 in
  let mant := b mod 2 ^ 23 in
  if ex =? 0 then
    match mant with
    | Zpos m => S754_finite s m (-149)
    | _ => S754_zero s
    end
  else if ex =? 255 then
    (if mant =? 0 then S754_infinity s else S754_nan)
  else
    match mant + 2 ^ 23 with
    | Zpos m => S754_finite s m (ex - 150)
    | _ => S754_nan
    end.


(** ** Types of the state *)

(** [enum TimingSource], with the codes of the source. *)
Inductive TimingSource : Type :=
| TIMING_PPS_ACTIVE
| TIMING_PPS_HOLDOVER
| TIMING_INTERNAL_CAL
| TIMING_INTERNAL_RAW.

Definition source_code (s : TimingSource) : Z :=
  match s with
  | TIMING_PPS_ACTIVE => 0
  | TIMING_PPS_HOLDOVER => 1
  | TIMING_INTERNAL_CAL => 2
  | TIMING_INTERNAL_RAW => 3
  end.

(** The presets [ADS126X_RATE_*], [ADS126X_GAIN_*] and the filters of the ADC
    driver's header, which is not part of the repository: only their names
    are used, and a line that prints one carries the name. *)
Inductive AdcRate : Type :=
| ADS126X_RATE_2_5 | ADS126X_RATE_5 | ADS126X_RATE_10 | ADS126X_RATE_16_6
| ADS126X_RATE_20 | ADS126X_RATE_50 | ADS126X_RATE_60 | ADS126X_RATE_100
| ADS126X_RATE_400 | ADS126X_RATE_1200 | ADS126X_RATE_2400 | ADS126X_RATE_4800
| ADS126X_RATE_7200 | ADS126X_RATE_14400 | ADS126X_RATE_19200 | ADS126X_RATE_38400.

Inductive AdcGain : Type :=
| ADS126X_GAIN_1 | ADS126X_GAIN_2 | ADS126X_GAIN_4 | ADS126X_GAIN_8
| ADS126X_GAIN_16 | ADS126X_GAIN_32.

Inductive AdcFilter : Type :=
| ADS126X_SINC1 | ADS126X_SINC2 | ADS126X_SINC3 | ADS126X_SINC4 | ADS126X_FIR.

(** ** Serial output

    A line is several [Serial1.print] calls closed by a [println].  The
    records the host parses have a constructor each; every other line
    ([DEBUG:], [WARNING:], [OK:], [ERROR:]) is the list of the pieces
    printed. *)

Inductive Piece : Type :=
| Str (s : string)
| Num (z : Z)
| Flt (x : spec_float) (digits : Z).

Inductive Line : Type :=
| SampleFull (seq ts source : Z) (accuracy : float) (v1 v2 v3 : Z)
| SampleCompact (seq ts v1 v2 v3 : Z)
| OFLOW (skipped overflows tx_free : Z)
| SEQUENCE_GAP (expected got gap : Z)
| SEQUENCE_RESET (expected got : Z)
| SESSION (boot stream : Z) (rate : float) (channels : Z) (filter : AdcFilter)
    (gain : AdcGain) (dithering : Z) (source : string) (ppm : float)
| STAT (source : string) (accuracy ppm : float)
    (valid age wraps overflows skipped boot stream misses : Z)
| Msg (pieces : list Piece).

Definition is_sample (l : Line) : bool :=
  match l with
  | SampleFull _ _ _ _ _ _ _ | SampleCompact _ _ _ _ _ => true
  | _ => false
  end.

Definition is_oflow (l : Line) : bool :=
  match l with
  | OFLOW _ _ _ => true
  | _ => false
  end.

Definition sample_seq (l : Line) : option Z :=
  match l with
  | SampleFull seq _ _ _ _ _ _ | SampleCompact seq _ _ _ _ => Some seq
  | _ => None
  end.

(** The persistent store: a byte at every address. *)
Definition EEPROMClass := Z -> byte.

(** Builds the setter of field [proj] from the eta-expansion [eta] of its
    record: the one occurrence of [proj r] is replaced by the new value. *)
Ltac build_setter eta proj :=
  let v := fresh "v" in
  let r := fresh "r" in
  intros v r;
  let body := eval cbv beta delta [eta] in (eta r) in
  match eval pattern (proj r) in body with
  | ?f _ => let res := eval cbv beta in (f v) in exact res
  end.

(** [struct ADCThroughputMonitor] (ADC throughput verification). *)
Record ADCThroughputMonitor : Type := mkADCThroughputMonitor {
  deadline_misses : Z;
  max_conversion_time_us : Z;
  min_conversion_time_us : Z;
  total_conversions : Z;
  throughput_warning_sent : bool
}.

Definition eta_ADCThroughputMonitor (r : ADCThroughputMonitor) : ADCThroughputMonitor :=
  mkADCThroughputMonitor (deadline_misses r) (max_conversion_time_us r)
    (min_conversion_time_us r) (total_conversions r) (throughput_warning_sent r).

Definition set_deadline_misses : Z -> ADCThroughputMonitor -> ADCThroughputMonitor :=
  ltac:(build_setter eta_ADCThroughputMonitor deadline_misses).
Definition set_max_conversion_time_us : Z -> ADCThroughputMonitor -> ADCThroughputMonitor :=
  ltac:(build_setter eta_ADCThroughputMonitor max_conversion_time_us).
Definition set_min_conversion_time_us : Z -> ADCThroughputMonitor -> ADCThroughputMonitor :=
  ltac:(build_setter eta_ADCThroughputMonitor min_conversion_time_us).
Definition set_total_conversions : Z -> ADCThroughputMonitor -> ADCThroughputMonitor :=
  ltac:(build_setter eta_ADCThroughputMonitor total_conversions).
Definition set_throughput_warning_sent : bool -> ADCThroughputMonitor -> ADCThroughputMonitor :=
  ltac:(build_setter eta_ADCThroughputMonitor throughput_warning_sent).

(** [struct SessionTracker] (session tracking for stitching). *)
Record SessionTracker : Type := mkSessionTracker {
  boot_id : Z;
  stream_id : Z;
  session_header_sent : bool
}.

Definition eta_SessionTracker (r : SessionTracker) : SessionTracker :=
  mkSessionTracker (boot_id r) (stream_id r) (session_header_sent r).

Definition set_boot_id : Z -> SessionTracker -> SessionTracker :=
  ltac:(build_setter eta_SessionTracker boot_id).
Definition set_stream_id : Z -> SessionTracker -> SessionTracker :=
  ltac:(build_setter eta_SessionTracker stream_id).
Definition set_session_header_sent : bool -> SessionTracker -> SessionTracker :=
  ltac:(build_setter eta_SessionTracker session_header_sent).

(** [struct SerialBufferMonitor] (serial buffer overflow protection). *)
Record SerialBufferMonitor : Type := mkSerialBufferMonitor {
  buffer_overflows : Z;
  last_overflow_time : Z;
  bytes_sent : Z;
  samples_skipped_due_to_overflow : Z;
  overflow_warning_sent : bool;
  oflow_message_count : Z;
  last_oflow_message_time : Z;
  oflow_report_interval_ms : Z
}.

Definition eta_SerialBufferMonitor (r : SerialBufferMonitor) : SerialBufferMonitor :=
  mkSerialBufferMonitor (buffer_overflows r) (last_overflow_time r) (bytes_sent r)
    (samples_skipped_due_to_overflow r) (overflow_warning_sent r) (oflow_message_count
    r) (last_oflow_message_time r) (oflow_report_interval_ms r).

Definition set_buffer_overflows : Z -> SerialBufferMonitor -> SerialBufferMonitor :=
  ltac:(build_setter eta_SerialBufferMonitor buffer_overflows).
Definition set_last_overflow_time : Z -> SerialBufferMonitor -> SerialBufferMonitor :=
  ltac:(build_setter eta_SerialBufferMonitor last_overflow_time).
Definition set_bytes_sent : Z -> SerialBufferMonitor -> SerialBufferMonitor :=
  ltac:(build_setter eta_SerialBufferMonitor bytes_sent).
Definition set_samples_skipped_due_to_overflow : Z -> SerialBufferMonitor -> SerialBufferMonitor :=
  ltac:(build_setter eta_SerialBufferMonitor samples_skipped_due_to_overflow).
Definition set_overflow_warning_sent : bool -> SerialBufferMonitor -> SerialBufferMonitor :=
  ltac:(build_setter eta_SerialBufferMonitor overflow_warning_sent).
Definition set_oflow_message_count : Z -> SerialBufferMonitor -> SerialBufferMonitor :=
  ltac:(build_setter eta_SerialBufferMonitor oflow_message_count).
Definition set_last_oflow_message_time : Z -> SerialBufferMonitor -> SerialBufferMonitor :=
  ltac:(build_setter eta_SerialBufferMonitor last_oflow_message_time).
Definition set_oflow_report_interval_ms : Z -> SerialBufferMonitor -> SerialBufferMonitor :=
  ltac:(build_setter eta_SerialBufferMonitor oflow_report_interval_ms).

(** [struct SequenceValidator] (sequence validation and recovery). *)
Record SequenceValidator : Type := mkSequenceValidator {
  expected_sequence : Z;
  sequence_gaps_detected : Z;
  sequence_resets_detected : Z;
  last_validation_time : Z;
  validation_enabled : bool
}.

Definition eta_SequenceValidator (r : SequenceValidator) : SequenceValidator :=
  mkSequenceValidator (expected_sequence r) (sequence_gaps_detected r)
    (sequence_resets_detected r) (last_validation_time r) (validation_enabled r).

Definition set_expected_sequence : Z -> SequenceValidator -> SequenceValidator :=
  ltac:(build_setter eta_SequenceValidator expected_sequence).
Definition set_sequence_gaps_detected : Z -> SequenceValidator -> SequenceValidator :=
  ltac:(build_setter eta_SequenceValidator sequence_gaps_detected).
Definition set_sequence_resets_detected : Z -> SequenceValidator -> SequenceValidator :=
  ltac:(build_setter eta_SequenceValidator sequence_resets_detected).
Definition set_last_validation_time : Z -> SequenceValidator -> SequenceValidator :=
  ltac:(build_setter eta_SequenceValidator last_validation_time).
Definition set_validation_enabled : bool -> SequenceValidator -> SequenceValidator :=
  ltac:(build_setter eta_SequenceValidator validation_enabled).

(** [struct AdvancedTiming].  The constant member [PPS_PIN] is left out;
    every other member is a field, in the order of the source. *)
Record AdvancedTiming : Type := mkAdvancedTiming {
  pps_received : bool;
  pps_micros : Z;
  last_pps_time : Z;
  pps_count : Z;
  pps_valid : bool;
  pps_timeout_ms : Z;
  current_source : TimingSource;
  oscillator_calibration_ppm : float;
  cal_base_micros : Z;
  cal_base_millis : Z;
  cal_sample_count : Z;
  calibration_valid : bool;
  last_micros : Z;
  last_millis : Z;
  micros_wraparound_count : Z;
  virtual_micros_offset : Z;
  clock_reset_detected : bool;
  reset_detection_time : Z;
  pre_reset_virtual_time : Z;
  reset_recovery_samples : Z;
  timing_continuity_maintained : bool;
  reference_update_interval : Z;
  last_reference_update_sample : Z;
  timing_base_virtual_micros : Z;
  reference_updates_count : Z;
  sample_interval_us : Z;
  effective_interval_us : double;
  phase_acc_us : double;
  next_sample_micros : Z;
  timing_base_micros : Z;
  timing_established : bool;
  samples_generated : Z;
  sample_index : Z;
  started_on_pps : bool;
  phase_nudge_applied : bool;
  phase_alignment_active : bool;
  phase_error_us : double;
  per_sample_phase_adjust_us : double;
  phase_adjust_samples_remaining : Z;
  pps_phase_lock_enabled : bool;
  sync_start_enabled : bool;
  sync_delay_ms : Z;
  sync_start_time : Z;
  waiting_for_sync_start : bool;
  sync_start_target_us : Z;
  sync_on_pps : bool;
  pps_countdown : Z;
  timing_accuracy_us : float;
  pps_miss_count : Z;
  last_sync_time : Z;
  clock_resets_detected : Z;
  last_stat_time : Z;
  stat_interval_ms : Z;
  temp_coefficient_ppm_per_c : float;
  reference_temp_c : float;
  current_temp_c : float;
  temp_compensation_enabled : bool
}.

Definition eta_AdvancedTiming (r : AdvancedTiming) : AdvancedTiming :=
  mkAdvancedTiming (pps_received r) (pps_micros r) (last_pps_time r) (pps_count r)
    (pps_valid r) (pps_timeout_ms r) (current_source r) (oscillator_calibration_ppm r)
    (cal_base_micros r) (cal_base_millis r) (cal_sample_count r) (calibration_valid r)
    (last_micros r) (last_millis r) (micros_wraparound_count r) (virtual_micros_offset
    r) (clock_reset_detected r) (reset_detection_time r) (pre_reset_virtual_time r)
    (reset_recovery_samples r) (timing_continuity_maintained r)
    (reference_update_interval r) (last_reference_update_sample r)
    (timing_base_virtual_micros r) (reference_updates_count r) (sample_interval_us r)
    (effective_interval_us r) (phase_acc_us r) (next_sample_micros r)
    (timing_base_micros r) (timing_established r) (samples_generated r) (sample_index r)
    (started_on_pps r) (phase_nudge_applied r) (phase_alignment_active r)
    (phase_error_us r) (per_sample_phase_adjust_us r) (phase_adjust_samples_remaining r)
    (pps_phase_lock_enabled r) (sync_start_enabled r) (sync_delay_ms r) (sync_start_time
    r) (waiting_for_sync_start r) (sync_start_target_us r) (sync_on_pps r)
    (pps_countdown r) (timing_accuracy_us r) (pps_miss_count r) (last_sync_time r)
    (clock_resets_detected r) (last_stat_time r) (stat_interval_ms r)
    (temp_coefficient_ppm_per_c r) (reference_temp_c r) (current_temp_c r)
    (temp_compensation_enabled r).

Definition set_pps_received : bool -> AdvancedTiming -> AdvancedTiming :=
  ltac:(build_setter eta_AdvancedTiming pps_received).
Definition set_pps_micros : Z -> AdvancedTiming -> AdvancedTiming :=
  ltac:(build_setter eta_AdvancedTiming pps_micros).
Definition set_last_pps_time : Z -> AdvancedTiming -> AdvancedTiming :=
  ltac:(build_setter eta_AdvancedTiming last_pps_time).
Definition set_pps_count : Z -> AdvancedTiming -> AdvancedTiming :=
  ltac:(build_setter eta_AdvancedTiming pps_count).
Definition set_pps_valid : bool -> AdvancedTiming -> AdvancedTiming :=
  ltac:(build_setter eta_AdvancedTiming pps_valid).
Definition set_pps_timeout_ms : Z -> AdvancedTiming -> AdvancedTiming :=
  ltac:(build_setter eta_AdvancedTiming pps_timeout_ms).
Definition set_current_source : TimingSource -> AdvancedTiming -> AdvancedTiming :=
  ltac:(build_setter eta_AdvancedTiming current_source).
Definition set_oscillator_calibration_ppm : float -> AdvancedTiming -> AdvancedTiming :=
  ltac:(build_setter eta_AdvancedTiming oscillator_calibration_ppm).
Definition set_cal_base_micros : Z -> AdvancedTiming -> AdvancedTiming :=
  ltac:(build_setter eta_AdvancedTiming cal_base_micros).
Definition set_cal_base_millis : Z -> AdvancedTiming -> AdvancedTiming :=
  ltac:(build_setter eta_AdvancedTiming cal_base_millis).
Definition set_cal_sample_count : Z -> AdvancedTiming -> AdvancedTiming :=
  ltac:(build_setter eta_AdvancedTiming cal_sample_count).
Definition set_calibration_valid : bool -> AdvancedTiming -> AdvancedTiming :=
  ltac:(build_setter eta_AdvancedTiming calibration_valid).
Definition set_last_micros : Z -> AdvancedTiming -> AdvancedTiming :=
  ltac:(build_setter eta_AdvancedTiming last_micros).
Definition set_last_millis : Z -> AdvancedTiming -> AdvancedTiming :=
  ltac:(build_setter eta_AdvancedTiming last_millis).
Definition set_micros_wraparound_count : Z -> AdvancedTiming -> AdvancedTiming :=
  ltac:(build_setter eta_AdvancedTiming micros_wraparound_count).
Definition set_virtual_micros_offset : Z -> AdvancedTiming -> AdvancedTiming :=
  ltac:(build_setter eta_AdvancedTiming virtual_micros_offset).
Definition set_clock_reset_detected : bool -> AdvancedTiming -> AdvancedTiming :=
  ltac:(build_setter eta_AdvancedTiming clock_reset_detected).
Definition set_reset_detection_time : Z -> AdvancedTiming -> AdvancedTiming :=
  ltac:(build_setter eta_AdvancedTiming reset_detection_time).
Definition set_pre_reset_virtual_time : Z -> AdvancedTiming -> AdvancedTiming :=
  ltac:(build_setter eta_AdvancedTiming pre_reset_virtual_time).
Definition set_reset_recovery_samples : Z -> AdvancedTiming -> AdvancedTiming :=
  ltac:(build_setter eta_AdvancedTiming reset_recovery_samples).
Definition set_timing_continuity_maintained : bool -> AdvancedTiming -> AdvancedTiming :=
  ltac:(build_setter eta_AdvancedTiming timing_continuity_maintained).
Definition set_reference_update_interval : Z -> AdvancedTiming -> AdvancedTiming :=
  ltac:(build_setter eta_AdvancedTiming reference_update_interval).
Definition set_last_reference_update_sample : Z -> AdvancedTiming -> AdvancedTiming :=
  ltac:(build_setter eta_AdvancedTiming last_reference_update_sample).
Definition set_timing_base_virtual_micros : Z -> AdvancedTiming -> AdvancedTiming :=
  ltac:(build_setter eta_AdvancedTiming timing_base_virtual_micros).
Definition set_reference_updates_count : Z -> AdvancedTiming -> AdvancedTiming :=
  ltac:(build_setter eta_AdvancedTiming reference_updates_count).
Definition set_sample_interval_us : Z -> AdvancedTiming -> AdvancedTiming :=
  ltac:(build_setter eta_AdvancedTiming sample_interval_us).
Definition set_effective_interval_us : double -> AdvancedTiming -> AdvancedTiming :=
  ltac:(build_setter eta_AdvancedTiming effective_interval_us).
Definition set_phase_acc_us : double -> AdvancedTiming -> AdvancedTiming :=
  ltac:(build_setter eta_AdvancedTiming phase_acc_us).
Definition set_next_sample_micros : Z -> AdvancedTiming -> AdvancedTiming :=
  ltac:(build_setter eta_AdvancedTiming next_sample_micros).
Definition set_timing_base_micros : Z -> AdvancedTiming -> AdvancedTiming :=
  ltac:(build_setter eta_AdvancedTiming timing_base_micros).
Definition set_timing_established : bool -> AdvancedTiming -> AdvancedTiming :=
  ltac:(build_setter eta_AdvancedTiming timing_established).
Definition set_samples_generated : Z -> AdvancedTiming -> AdvancedTiming :=
  ltac:(build_setter eta_AdvancedTiming samples_generated).
Definition set_sample_index : Z -> AdvancedTiming -> AdvancedTiming :=
  ltac:(build_setter eta_AdvancedTiming sample_index).
Definition set_started_on_pps : bool -> AdvancedTiming -> AdvancedTiming :=
  ltac:(build_setter eta_AdvancedTiming started_on_pps).
Definition set_phase_nudge_applied : bool -> AdvancedTiming -> AdvancedTiming :=
  ltac:(build_setter eta_AdvancedTiming phase_nudge_applied).
Definition set_phase_alignment_active : bool -> AdvancedTiming -> AdvancedTiming :=
  ltac:(build_setter eta_AdvancedTiming phase_alignment_active).
Definition set_phase_error_us : double -> AdvancedTiming -> AdvancedTiming :=
  ltac:(build_setter eta_AdvancedTiming phase_error_us).
Definition set_per_sample_phase_adjust_us : double -> AdvancedTiming -> AdvancedTiming :=
  ltac:(build_setter eta_AdvancedTiming per_sample_phase_adjust_us).
Definition set_phase_adjust_samples_remaining : Z -> AdvancedTiming -> AdvancedTiming :=
  ltac:(build_setter eta_AdvancedTiming phase_adjust_samples_remaining).
Definition set_pps_phase_lock_enabled : bool -> AdvancedTiming -> AdvancedTiming :=
  ltac:(build_setter eta_AdvancedTiming pps_phase_lock_enabled).
Definition set_sync_start_enabled : bool -> AdvancedTiming -> AdvancedTiming :=
  ltac:(build_setter eta_AdvancedTiming sync_start_enabled).
Definition set_sync_delay_ms : Z -> AdvancedTiming -> AdvancedTiming :=
  ltac:(build_setter eta_AdvancedTiming sync_delay_ms).
Definition set_sync_start_time : Z -> AdvancedTiming -> AdvancedTiming :=
  ltac:(build_setter eta_AdvancedTiming sync_start_time).
Definition set_waiting_for_sync_start : bool -> AdvancedTiming -> AdvancedTiming :=
  ltac:(build_setter eta_AdvancedTiming waiting_for_sync_start).
Definition set_sync_start_target_us : Z -> AdvancedTiming -> AdvancedTiming :=
  ltac:(build_setter eta_AdvancedTiming sync_start_target_us).
Definition set_sync_on_pps : bool -> AdvancedTiming -> AdvancedTiming :=
  ltac:(build_setter eta_AdvancedTiming sync_on_pps).
Definition set_pps_countdown : Z -> AdvancedTiming -> AdvancedTiming :=
  ltac:(build_setter eta_AdvancedTiming pps_countdown).
Definition set_timing_accuracy_us : float -> AdvancedTiming -> AdvancedTiming :=
  ltac:(build_setter eta_AdvancedTiming timing_accuracy_us).
Definition set_pps_miss_count : Z -> AdvancedTiming -> AdvancedTiming :=
  ltac:(build_setter eta_AdvancedTiming pps_miss_count).
Definition set_last_sync_time : Z -> AdvancedTiming -> AdvancedTiming :=
  ltac:(build_setter eta_AdvancedTiming last_sync_time).
Definition set_clock_resets_detected : Z -> AdvancedTiming -> AdvancedTiming :=
  ltac:(build_setter eta_AdvancedTiming clock_resets_detected).
Definition set_last_stat_time : Z -> AdvancedTiming -> AdvancedTiming :=
  ltac:(build_setter eta_AdvancedTiming last_stat_time).
Definition set_stat_interval_ms : Z -> AdvancedTiming -> AdvancedTiming :=
  ltac:(build_setter eta_AdvancedTiming stat_interval_ms).
Definition set_temp_coefficient_ppm_per_c : float -> AdvancedTiming -> AdvancedTiming :=
  ltac:(build_setter eta_AdvancedTiming temp_coefficient_ppm_per_c).
Definition set_reference_temp_c : float -> AdvancedTiming -> AdvancedTiming :=
  ltac:(build_setter eta_AdvancedTiming reference_temp_c).
Definition set_current_temp_c : float -> AdvancedTiming -> AdvancedTiming :=
  ltac:(build_setter eta_AdvancedTiming current_temp_c).
Definition set_temp_compensation_enabled : bool -> AdvancedTiming -> AdvancedTiming :=
  ltac:(build_setter eta_AdvancedTiming temp_compensation_enabled).

(** The global variables of the translation unit, with the two [static]
    locals of [updateTimingSource], the persistent store and the serial
    output.  [cmdBuffer] and the pin numbers are left out: lines arrive
    here already split into command and parameters. *)
Record Firmware : Type := mkFirmware {
  current_adc_rate : AdcRate;
  current_adc_gain : AdcGain;
  current_adc_filter : AdcFilter;
  current_dithering : Z;
  num_channels : Z;
  adc_monitor : ADCThroughputMonitor;
  streaming : bool;
  stream_rate : float;
  sequence : Z;
  session_tracker : SessionTracker;
  serial_monitor : SerialBufferMonitor;
  compact_output : bool;
  seq_validator : SequenceValidator;
  advanced_timing : AdvancedTiming;
  degradation_warned : bool;
  reset_warned : bool;
  eeprom : EEPROMClass;
  serial1 : list Line
}.

Definition eta_Firmware (r : Firmware) : Firmware :=
  mkFirmware (current_adc_rate r) (current_adc_gain r) (current_adc_filter r)
    (current_dithering r) (num_channels r) (adc_monitor r) (streaming r) (stream_rate r)
    (sequence r) (session_tracker r) (serial_monitor r) (compact_output r)
    (seq_validator r) (advanced_timing r) (degradation_warned r) (reset_warned r)
    (eeprom r) (serial1 r).

Definition set_current_adc_rate : AdcRate -> Firmware -> Firmware :=
  ltac:(build_setter eta_Firmware current_adc_rate).
Definition set_current_adc_gain : AdcGain -> Firmware -> Firmware :=
  ltac:(build_setter eta_Firmware current_adc_gain).
Definition set_current_adc_filter : AdcFilter -> Firmware -> Firmware :=
  ltac:(build_setter eta_Firmware current_adc_filter).
Definition set_current_dithering : Z -> Firmware -> Firmware :=
  ltac:(build_setter eta_Firmware current_dithering).
Definition set_num_channels : Z -> Firmware -> Firmware :=
  ltac:(build_setter eta_Firmware num_channels).
Definition set_adc_monitor : ADCThroughputMonitor -> Firmware -> Firmware :=
  ltac:(build_setter eta_Firmware adc_monitor).
Definition set_streaming : bool -> Firmware -> Firmware :=
  ltac:(build_setter eta_Firmware streaming).
Definition set_stream_rate : float -> Firmware -> Firmware :=
  ltac:(build_setter eta_Firmware stream_rate).
Definition set_sequence : Z -> Firmware -> Firmware :=
  ltac:(build_setter eta_Firmware sequence).
Definition set_session_tracker : SessionTracker -> Firmware -> Firmware :=
  ltac:(build_setter eta_Firmware session_tracker).
Definition set_serial_monitor : SerialBufferMonitor -> Firmware -> Firmware :=
  ltac:(build_setter eta_Firmware serial_monitor).
Definition set_compact_output : bool -> Firmware -> Firmware :=
  ltac:(build_setter eta_Firmware compact_output).
Definition set_seq_validator : SequenceValidator -> Firmware -> Firmware :=
  ltac:(build_setter eta_Firmware seq_validator).
Definition set_advanced_timing : AdvancedTiming -> Firmware -> Firmware :=
  ltac:(build_setter eta_Firmware advanced_timing).
Definition set_degradation_warned : bool -> Firmware -> Firmware :=
  ltac:(build_setter eta_Firmware degradation_warned).
Definition set_reset_warned : bool -> Firmware -> Firmware :=
  ltac:(build_setter eta_Firmware reset_warned).
Definition set_eeprom : EEPROMClass -> Firmware -> Firmware :=
  ltac:(build_setter eta_Firmware eeprom).
Definition set_serial1 : list Line -> Firmware -> Firmware :=
  ltac:(build_setter eta_Firmware serial1).

(** ** Statements

    A statement of the source is a function on [Firmware]; [s |> f] runs
    [f] on [s], so that a block reads top to bottom like the source. *)

Notation "s |> f" := (f s) (at level 45, left associativity, only parsing).

(** [advanced_timing.x = v] is [timing (set_x v)], and likewise for the
    other structures. *)
Definition timing (f : AdvancedTiming -> AdvancedTiming) (s : Firmware) : Firmware :=
  set_advanced_timing (f (advanced_timing s)) s.

Definition monitor (f : SerialBufferMonitor -> SerialBufferMonitor) (s : Firmware)
  : Firmware :=
  set_serial_monitor (f (serial_monitor s)) s.

Definition validator (f : SequenceValidator -> SequenceValidator) (s : Firmware)
  : Firmware :=
  set_seq_validator (f (seq_validator s)) s.

Definition session (f : SessionTracker -> SessionTracker) (s : Firmware) : Firmware :=
  set_session_tracker (f (session_tracker s)) s.

Definition adc_mon (f : ADCThroughputMonitor -> ADCThroughputMonitor) (s : Firmware)
  : Firmware :=
  set_adc_monitor (f (adc_monitor s)) s.

Definition println (l : Line) (s : Firmware) : Firmware :=
  set_serial1 (serial1 s ++ [l]) s.

Definition b2z (b : bool) : Z := if b then 1 else 0.

(** ** Virtual clock *)

(** [getVirtualMicros()]; [current_micros] is the reading of [micros()]. *)
Definition getVirtualMicros (current_micros : Z) (s : Firmware) : Firmware * Z :=
  let t := advanced_timing s in
  let s :=
    if current_micros <? last_micros t then
      let backward_jump := Int.u32 (last_micros t - current_micros) in
      if backward_jump >? 1000000000 then
        s |> timing (set_micros_wraparound_count
                       (Int.u32 (micros_wraparound_count t + 1)))
          |> timing (set_virtual_micros_offset
                       (Int.u64 (virtual_micros_offset t + 4294967296)))
          |> println (Msg [Str "DEBUG:Late wraparound detection in getVirtualMicros()"])
      else s
    else s in
  let s := s |> timing (set_last_micros current_micros) in
  (s, Int.u64 (virtual_micros_offset (advanced_timing s) + current_micros)).

(** [detectClockReset()], with its readings of [micros()] and [millis()]. *)
Definition detectClockReset (current_micros current_millis : Z) (s : Firmware)
  : Firmware * bool :=
  let t := advanced_timing s in
  let update_last (s : Firmware) :=
    s |> timing (set_last_micros current_micros)
      |> timing (set_last_millis current_millis) in
  let check_small (s : Firmware) :=
    if (current_micros <? 5000000) && (current_millis <? 5000) &&
       ((last_micros t >? 10000000) || (last_millis t >? 10000))
    then (s |> println (Msg [Str "WARNING:Clock values suggest recent MCU reset"]), true)
    else (update_last s, false) in
  let check_millis (s : Firmware) :=
    if current_millis <? last_millis t then
      let millis_backward := Int.u32 (last_millis t - current_millis) in
      if millis_backward >? 1000 then
        (s |> println (Msg [Str "WARNING:millis() went backward by ";
                            Num millis_backward; Str "ms - MCU reset detected"]), true)
      else check_small s
    else check_small s in
  if current_micros <? last_micros t then
    if (last_micros t >? 4000000000) && (current_micros <? 300000000) then
      let n := Int.u32 (micros_wraparound_count t + 1) in
      (s |> timing (set_micros_wraparound_count n)
         |> timing (set_virtual_micros_offset
                      (Int.u64 (virtual_micros_offset t + 4294967296)))
         |> println (Msg [Str "DEBUG:micros() wraparound detected (#"; Num n; Str ")"])
         |> update_last, false)
    else
      let backward_jump := Int.u32 (last_micros t - current_micros) in
      if backward_jump >? 1000000 then
        (s |> println (Msg [Str "WARNING:Large backward micros() jump detected: ";
                            Num backward_jump; Str "us - MCU reset suspected"]), true)
      else check_millis s
  else check_millis s.

(** The readings [handleClockReset()] takes, in the order it takes them. *)
Record ResetReadings : Type := mkResetReadings {
  reset_millis : Z;        (* reset_detection_time = millis() *)
  reset_last_micros : Z;   (* last_micros = micros() *)
  reset_last_millis : Z;   (* last_millis = millis() *)
  reset_virtual_micros : Z (* micros() inside getVirtualMicros() *)
}.

(** [handleClockReset()]. *)
Definition handleClockReset (i : ResetReadings) (s : Firmware) : Firmware :=
  let s := s |> println (Msg [Str "DEBUG:Handling clock reset - attempting to maintain timing continuity"]) in
  let t := advanced_timing s in
  let pre_reset := Int.u64 (virtual_micros_offset t + last_micros t) in
  let s :=
    s |> timing (set_clock_reset_detected true)
      |> timing (set_reset_detection_time (reset_millis i))
      |> timing (set_clock_resets_detected (Int.u32 (clock_resets_detected t + 1)))
      |> timing (set_reset_recovery_samples 0)
      |> timing (set_pre_reset_virtual_time pre_reset)
      |> timing (set_virtual_micros_offset pre_reset)
      |> timing (set_last_micros (reset_last_micros i))
      |> timing (set_last_millis (reset_last_millis i))
      |> timing (set_calibration_valid false)
      |> timing (set_timing_accuracy_us (F32.of_Z 1000))
      |> timing (set_current_source TIMING_INTERNAL_RAW) in
  let s :=
    if timing_established (advanced_timing s) && streaming s then
      let '(s, virtual_time) := getVirtualMicros (reset_virtual_micros i) s in
      let t := advanced_timing s in
      let time_since_start :=
        Int.u64 (virtual_time - Int.u64 (timing_base_micros t + virtual_micros_offset t)) in
      let expected_sample_index := time_since_start / sample_interval_us t in
      s |> timing (set_sample_index expected_sample_index)
        |> timing (set_timing_continuity_maintained true)
        |> println (Msg [Str "DEBUG:Timing continuity maintained - adjusted to sample index ";
                         Num (Int.u32 expected_sample_index)])
    else s in
  s |> println (Msg [Str "DEBUG:Clock reset #";
                     Num (clock_resets_detected (advanced_timing s)); Str " handled"]).

(** ** Session header, calibration limits and persistence *)

Definition getTimingSourceName (source : TimingSource) : string :=
  match source with
  | TIMING_PPS_ACTIVE => "PPS_ACTIVE"
  | TIMING_PPS_HOLDOVER => "PPS_HOLDOVER"
  | TIMING_INTERNAL_CAL => "INTERNAL_CAL"
  | TIMING_INTERNAL_RAW => "INTERNAL_RAW"
  end.

(** [sendSessionHeader()]; [now_ms] is its reading of [millis()]. *)
Definition sendSessionHeader (now_ms : Z) (s : Firmware) : Firmware :=
  if session_header_sent (session_tracker s) then s
  else
    let s := s |> session (set_stream_id now_ms) in
    s |> println (SESSION (boot_id (session_tracker s)) (stream_id (session_tracker s))
                    (stream_rate s) (num_channels s) (current_adc_filter s)
                    (current_adc_gain s) (current_dithering s)
                    (getTimingSourceName (current_source (advanced_timing s)))
                    (oscillator_calibration_ppm (advanced_timing s)))
      |> session (set_session_header_sent true).

(** [clampOscillatorCalibration()]. *)
Definition clampOscillatorCalibration (s : Firmware) : Firmware :=
  let ppm := oscillator_calibration_ppm (advanced_timing s) in
  if fgt (to_double ppm) (F64.of_Z 200) then
    s |> println (Msg [Str "WARNING:Oscillator calibration clamped from "; Flt ppm 2;
                       Str " ppm to 200 ppm"])
      |> timing (set_oscillator_calibration_ppm (F32.of_Z 200))
  else if flt (to_double ppm) (F64.of_Z (-200)) then
    s |> println (Msg [Str "WARNING:Oscillator calibration clamped from "; Flt ppm 2;
                       Str " ppm to -200 ppm"])
      |> timing (set_oscillator_calibration_ppm (F32.of_Z (-200)))
  else s.

(** The persistent store.  [EEPROM.put] copies the object representation of
    its argument to the store and [EEPROM.get] copies it back; the target is
    little-endian, and a 32-bit integer and a [float] take four bytes. *)
Definition EEPROM_write (addr : Z) (bytes : list byte) (e : EEPROMClass) : EEPROMClass :=
  fun a =>
    if (addr <=? a) && (a <? addr + Z.of_nat (List.length bytes))
    then nth (Z.to_nat (a - addr)) bytes Byte.x00
    else e a.

Definition EEPROM_read (addr : Z) (n : nat) (e : EEPROMClass) : list byte :=
  map (fun k => e (addr + Z.of_nat k)) (seq 0 n).

Definition EEPROM_put_u32 (addr v : Z) : EEPROMClass -> EEPROMClass :=
  EEPROM_write addr (le_split 4 v).

Definition EEPROM_get_u32 (addr : Z) (e : EEPROMClass) : Z :=
  le_combine (EEPROM_read addr 4 e).

Definition EEPROM_put_float (addr : Z) (x : float) : EEPROMClass -> EEPROMClass :=
  EEPROM_write addr (le_split 4 (bits_of_float x)).

Definition EEPROM_get_float (addr : Z) (e : EEPROMClass) : float :=
  float_of_bits (le_combine (EEPROM_read addr 4 e)).

Definition EEPROM_CAL_MAGIC_ADDR : Z := 0.
Definition EEPROM_CAL_PPM_ADDR : Z := 4.
Definition EEPROM_CAL_MAGIC : Z := 0x12345678.

(** [saveOscillatorCalibration()]. *)
Definition saveOscillatorCalibration (s : Firmware) : Firmware :=
  let ppm := oscillator_calibration_ppm (advanced_timing s) in
  s |> set_eeprom (EEPROM_put_u32 EEPROM_CAL_MAGIC_ADDR EEPROM_CAL_MAGIC (eeprom s))
    |> (fun s => set_eeprom (EEPROM_put_float EEPROM_CAL_PPM_ADDR ppm (eeprom s)) s)
    |> println (Msg [Str "DEBUG:Saved oscillator calibration to EEPROM: "; Flt ppm 2;
                     Str " ppm"]).

(** [loadOscillatorCalibration()]. *)
Definition loadOscillatorCalibration (s : Firmware) : Firmware :=
  let magic := EEPROM_get_u32 EEPROM_CAL_MAGIC_ADDR (eeprom s) in
  let stored_ppm := EEPROM_get_float EEPROM_CAL_PPM_ADDR (eeprom s) in
  if (magic =? EEPROM_CAL_MAGIC) && fle (to_double (abs_macro stored_ppm)) (F64.of_Z 200)
  then
    s |> timing (set_oscillator_calibration_ppm stored_ppm)
      |> timing (set_calibration_valid true)
      |> println (Msg [Str "DEBUG:Loaded oscillator calibration from EEPROM: ";
                       Flt stored_ppm 2; Str " ppm"])
  else
    s |> println (Msg [Str "DEBUG:No valid calibration found in EEPROM"]).

(** [readInternalTemperature()]: the placeholder of the source. *)
Definition readInternalTemperature : float := F32.of_Z 25.

(** ** PPS edge capture and discipline engine *)

(** [pps_interrupt()], with the readings the handler takes. *)
Definition pps_interrupt (now_us now_ms : Z) (s : Firmware) : Firmware :=
  s |> timing (set_pps_received true)
    |> timing (set_pps_micros now_us)
    |> timing (set_last_pps_time now_ms).

(** The signed phase of a PPS edge against the sampling grid, as both
    phase blocks of [processPPS()] compute it ([%] of C++ truncates). *)
Definition signed_phase (pps_virtual base interval : Z) : Z :=
  let delta := Int.i64 (Int.i64 pps_virtual - Int.i64 base) in
  let imod := Int.i64 interval in
  let phase_mod := Z.rem (Z.rem delta imod + imod) imod in
  if phase_mod <=? Int.i64 (interval / 2)
  then phase_mod
  else Int.i64 (phase_mod - Int.i64 interval).

(** The per-sample adjustment and the number of samples of a correction of
    [phase] microseconds planned over [planned_samples] samples. *)
Definition spread (phase planned_samples : Z) : double * Z :=
  let per_sample := F64.div (F64.of_Z phase) (F64.of_Z planned_samples) in
  let per_sample := if fgt per_sample (F64.of_Z 20) then F64.of_Z 20 else per_sample in
  let per_sample := if flt per_sample (F64.of_Z (-20)) then F64.of_Z (-20) else per_sample in
  let divisor :=
    if fgt (fabs per_sample) (F64.of_Z 0) then fabs per_sample else F64.of_Z 1 in
  let samples_needed :=
    Int.u32 (trunc (F64.add (F64.div (fabs (F64.of_Z phase)) divisor) (F64.lit 1 2))) in
  (per_sample, if samples_needed =? 0 then 1 else samples_needed).

(** The measured error of one PPS interval, in ppm. *)
Definition error_ppm_of (actual_interval : Z) : float :=
  to_float (F64.mul (F64.div (F64.sub (to_double (F32.of_Z actual_interval))
                                      (F64.of_Z 1000000))
                             (F64.of_Z 1000000))
                    (F64.of_Z 1000000)).

(** Temperature learning inside the smoothing branch. *)
Definition learn_temperature (s : Firmware) : Firmware :=
  let t := advanced_timing s in
  if (pps_count t >? 100) && (pps_count t mod 50 =? 0) then
    let current_temp := readInternalTemperature in
    let temp_change := F32.sub current_temp (reference_temp_c t) in
    if fgt (to_double (abs_macro temp_change)) (F64.of_Z 1) then
      let ppm_change :=
        to_float (F64.sub (to_double (oscillator_calibration_ppm t)) (F64.of_Z 0)) in
      let coefficient := F32.div ppm_change temp_change in
      s |> timing (set_temp_coefficient_ppm_per_c coefficient)
        |> timing (set_temp_compensation_enabled true)
        |> println (Msg [Str "DEBUG:Learned temperature coefficient: "; Flt coefficient 3;
                         Str " ppm/C"])
    else s
  else s.

(** "Calculate oscillator calibration" of [processPPS()]. *)
Definition pps_calibrate (pps_micros : Z) (s : Firmware) : Firmware :=
  let t := advanced_timing s in
  if (pps_count t >? 1) && calibration_valid t && negb (clock_reset_detected t) then
    let actual_interval := Int.u64 (pps_micros - cal_base_micros t) in
    let error_ppm := error_ppm_of actual_interval in
    if flt (abs_macro error_ppm) (F32.of_Z 1000) then
      let s :=
        if pps_count t <? 10 then
          s |> timing (set_oscillator_calibration_ppm (SFopp error_ppm))
        else
          s |> timing (set_oscillator_calibration_ppm
                         (to_float
                            (F64.add
                               (F64.mul (F64.lit 9 10)
                                        (to_double (oscillator_calibration_ppm t)))
                               (F64.mul (F64.lit 1 10) (to_double (SFopp error_ppm))))))
            |> clampOscillatorCalibration
            |> saveOscillatorCalibration
            |> learn_temperature in
      if pps_count t mod 10 =? 0 then
        s |> println (Msg [Str "DEBUG:Oscillator cal: ";
                           Flt (oscillator_calibration_ppm (advanced_timing s)) 2;
                           Str "ppm, interval: "; Num actual_interval; Str "us"])
      else s
    else
      s |> println (Msg [Str "WARNING:PPS calibration error too large: "; Flt error_ppm 1;
                         Str "ppm - ignoring"])
  else s.

(** The one-shot phase nudge of [processPPS()]. *)
Definition pps_phase_nudge (pps_micros : Z) (s : Firmware) : Firmware :=
  let t := advanced_timing s in
  if streaming s && timing_established t && negb (started_on_pps t) &&
     negb (phase_nudge_applied t) then
    let pps_virtual := Int.u64 (virtual_micros_offset t + pps_micros) in
    let interval := sample_interval_us t in
    if interval >? 0 then
      let phase := signed_phase pps_virtual (timing_base_micros t) interval in
      if (phase >? 20) || (phase <? -20) then
        let '(per_sample, samples_needed) := spread phase 200 in
        s |> timing (set_phase_error_us (F64.of_Z phase))
          |> timing (set_per_sample_phase_adjust_us per_sample)
          |> timing (set_phase_adjust_samples_remaining samples_needed)
          |> timing (set_phase_alignment_active true)
          |> timing (set_phase_nudge_applied true)
          |> println (Msg [Str "DEBUG:Applying phase nudge to PPS: error=";
                           Num (Int.i32 phase); Str "us over "; Num samples_needed;
                           Str " samples (~";
                           Flt (F64.div (F64.mul (F64.of_Z samples_needed)
                                                 (F64.of_Z interval))
                                        (F64.of_Z 1000)) 1;
                           Str " ms)"])
      else s
    else s
  else s.

(** The continuous PPS phase lock of [processPPS()]. *)
Definition pps_phase_lock (pps_micros : Z) (s : Firmware) : Firmware :=
  let t := advanced_timing s in
  if streaming s && timing_established t && pps_phase_lock_enabled t then
    let pps_virtual2 := Int.u64 (virtual_micros_offset t + pps_micros) in
    let interval2 := sample_interval_us t in
    if interval2 >? 0 then
      let phase2 := signed_phase pps_virtual2 (timing_base_micros t) interval2 in
      if (phase2 >? 5) || (phase2 <? -5) then
        let samples_per_second :=
          Int.u32 (trunc (F32.add (stream_rate s) (to_float (F64.lit 1 2)))) in
        let samples_per_second :=
          if samples_per_second =? 0 then 1 else samples_per_second in
        let '(per_sample2, samples_needed2) := spread phase2 samples_per_second in
        s |> timing (set_phase_error_us (F64.of_Z phase2))
          |> timing (set_per_sample_phase_adjust_us per_sample2)
          |> timing (set_phase_adjust_samples_remaining samples_needed2)
          |> timing (set_phase_alignment_active true)
          |> println (Msg [Str "DEBUG:PPS lock adjust: phase="; Num (Int.i32 phase2);
                           Str "us over "; Num samples_needed2; Str " samples"])
      else s
    else s
  else s.

(** The readings of [processPPS()]: its own [millis()] and the one of
    [sendSessionHeader()]. *)
Record PpsReadings : Type := mkPpsReadings {
  pps_millis : Z;
  pps_session_millis : Z
}.

(** What both start blocks of [processPPS()] do when the countdown reaches
    zero: "begin streaming exactly at this PPS edge". *)
Definition pps_begin_streaming (pps_micros : Z) (i : PpsReadings) (clear_sync : bool)
    (s : Firmware) : Firmware :=
  s |> timing (set_timing_base_micros pps_micros)
    |> timing (set_next_sample_micros pps_micros)
    |> timing (set_timing_established true)
    |> timing (set_waiting_for_sync_start false)
    |> (fun s => if clear_sync then timing (set_sync_on_pps false) s else s)
    |> timing (set_started_on_pps true)
    |> set_sequence 0
    |> set_streaming true
    |> sendSessionHeader (pps_session_millis i)
    |> (fun s => println (Msg [Str "OK:Streaming started at PPS with ";
                               Flt (stream_rate s) 2; Str "Hz"]) s).

(** "Handle PPS-locked start" at the end of [processPPS()]. *)
Definition pps_locked_start (pps_micros : Z) (i : PpsReadings) (s : Firmware) : Firmware :=
  let t := advanced_timing s in
  if sync_on_pps t && (pps_countdown t >? 0) then
    let countdown := Int.u8 (pps_countdown t - 1) in
    let s := s |> timing (set_pps_countdown countdown) in
    if countdown =? 0 then pps_begin_streaming pps_micros i false s else s
  else s.

(** [processPPS()] after its countdown block: validation, calibration,
    anchoring, phase plans and the start block at the end. *)
Definition processPPS_accept (pps_micros : Z) (i : PpsReadings) (s : Firmware) : Firmware :=
  let current_millis := pps_millis i in
  let t := advanced_timing s in
  if clock_reset_detected t &&
     (Int.u32 (current_millis - reset_detection_time t) <? 5000) then
    s |> println (Msg [Str "DEBUG:Ignoring PPS during reset recovery period"])
  else
    let pps_interval := Int.u32 (current_millis - last_pps_time t) in
    if pps_valid t && ((pps_interval <? 900) || (pps_interval >? 1100)) then
      s |> println (Msg [Str "WARNING:Invalid PPS interval: "; Num pps_interval;
                         Str "ms - ignoring"])
    else
      let s := pps_calibrate pps_micros s in
      let s :=
        if negb (pps_valid (advanced_timing s)) then
          s |> println (Msg [Str "DEBUG:GPS PPS acquired - count: ";
                             Num (pps_count (advanced_timing s))])
        else s in
      let s :=
        s |> timing (set_pps_valid true)
          |> timing (set_calibration_valid true)
          |> timing (set_cal_base_micros pps_micros)
          |> timing (set_cal_base_millis current_millis)
          |> timing (set_last_pps_time current_millis)
          |> pps_phase_nudge pps_micros
          |> pps_phase_lock pps_micros
          |> pps_locked_start pps_micros i in
      if clock_reset_detected (advanced_timing s) then
        s |> println (Msg [Str "DEBUG:PPS reacquired after reset - timing stabilizing"])
      else s.

(** [processPPS()]. *)
Definition processPPS (i : PpsReadings) (s : Firmware) : Firmware :=
  let pps_micros := pps_micros (advanced_timing s) in
  let current_millis := pps_millis i in
  let s := s |> timing (set_pps_count (Int.u32 (pps_count (advanced_timing s) + 1))) in
  let t := advanced_timing s in
  if sync_on_pps t && (pps_countdown t >? 0) then
    let countdown := Int.u8 (pps_countdown t - 1) in
    let s := s |> timing (set_pps_countdown countdown) in
    if countdown =? 0 then
      s |> pps_begin_streaming pps_micros i true
        |> timing (set_last_pps_time current_millis)
    else processPPS_accept pps_micros i s
  else processPPS_accept pps_micros i s.

(** ** Timing-quality state machine *)

(** The classification of [updateTimingSource()] (everything after the
    reset check and the PPS hand-over), at the [millis()] reading
    [current_millis] taken at the top of the function. *)
Definition classifyTimingSource (current_millis : Z) (s : Firmware) : Firmware :=
  let t := advanced_timing s in
  let time_since_reset := Int.u32 (current_millis - reset_detection_time t) in
  let recent_reset := clock_reset_detected t && (time_since_reset <? 30000) in
  let time_since_pps := Int.u32 (current_millis - last_pps_time t) in
  let seconds := F64.div (F64.of_Z time_since_pps) (F64.of_Z 1000) in
  let s :=
    if pps_valid t && (time_since_pps <? 1500) && negb recent_reset then
      s |> timing (set_current_source TIMING_PPS_ACTIVE)
        |> timing (set_timing_accuracy_us (F32.of_Z 1))
        |> timing (set_pps_miss_count 0)
    else if pps_valid t && (time_since_pps <? 60000) && negb recent_reset then
      s |> timing (set_current_source TIMING_PPS_HOLDOVER)
        |> timing (set_timing_accuracy_us
                     (to_float (F64.add (F64.of_Z 1) (F64.mul seconds (F64.lit 1 10)))))
        |> timing (set_pps_miss_count (Int.u32 (pps_miss_count t + 1)))
    else if calibration_valid t && (time_since_pps <? 300000) && negb recent_reset then
      s |> timing (set_current_source TIMING_INTERNAL_CAL)
        |> timing (set_timing_accuracy_us
                     (to_float (F64.add (F64.of_Z 10) (F64.mul seconds (F64.lit 3 10)))))
    else
      let s :=
        s |> timing (set_current_source TIMING_INTERNAL_RAW)
          |> timing (set_timing_accuracy_us
                       (if recent_reset then F32.of_Z 2000 else F32.of_Z 1000)) in
      if recent_reset && negb (reset_warned s) then
        s |> println (Msg [Str "WARNING:Using raw timing due to recent clock reset"])
          |> set_reset_warned true
          |> set_degradation_warned false
      else if pps_valid t && negb (degradation_warned s) && negb recent_reset then
        s |> println (Msg [Str "WARNING:GPS PPS lost for "; Num (time_since_pps / 1000);
                           Str "s - timing accuracy degraded"])
          |> timing (set_pps_valid false)
          |> set_degradation_warned true
          |> set_reset_warned false
      else s in
  if recent_reset && (time_since_reset >? 30000) then
    s |> timing (set_clock_reset_detected false)
      |> println (Msg [Str "DEBUG:Clock reset recovery period completed"])
  else s.

(** The readings of one [updateTimingSource()] call. *)
Record TickReadings : Type := mkTickReadings {
  tick_millis : Z;            (* current_millis = millis() *)
  detect_micros : Z;          (* detectClockReset(): micros() *)
  detect_millis : Z;          (* detectClockReset(): millis() *)
  tick_reset : ResetReadings; (* handleClockReset(), when it runs *)
  tick_pps : PpsReadings      (* processPPS(), when it runs *)
}.

(** [updateTimingSource()] up to the classification: the reset check and
    the consumption of a pending PPS edge. *)
Definition updateTimingSource_events (i : TickReadings) (s : Firmware) : Firmware :=
  let '(s, reset) := detectClockReset (detect_micros i) (detect_millis i) s in
  let s := if reset then handleClockReset (tick_reset i) s else s in
  if pps_received (advanced_timing s) then
    s |> processPPS (tick_pps i) |> timing (set_pps_received false)
  else s.

(** [updateTimingSource()]. *)
Definition updateTimingSource (i : TickReadings) (s : Firmware) : Firmware :=
  s |> updateTimingSource_events i |> classifyTimingSource (tick_millis i).

(** ** Scheduler reference *)

(** [establishSamplingTiming()]; [now_us] is the [micros()] reading of its
    [getVirtualMicros()]. *)
Definition establishSamplingTiming (now_us : Z) (s : Firmware) : Firmware :=
  let '(s, current_virtual_micros) := getVirtualMicros now_us s in
  let t := advanced_timing s in
  let offset_us := Int.u32 (current_virtual_micros mod sample_interval_us t) in
  let next_boundary_micros :=
    Int.u64 (current_virtual_micros + Int.u64 (sample_interval_us t - offset_us)) in
  s |> timing (set_timing_base_micros next_boundary_micros)
    |> timing (set_timing_base_virtual_micros next_boundary_micros)
    |> timing (set_timing_established true)
    |> timing (set_samples_generated 0)
    |> timing (set_sample_index 0)
    |> timing (set_next_sample_micros next_boundary_micros)
    |> timing (set_last_reference_update_sample 0)
    |> println (Msg [Str "DEBUG:Sampling established at "; Flt (stream_rate s) 2;
                     Str "Hz with "; Str (getTimingSourceName (current_source t));
                     Str " timing (+/-"; Flt (timing_accuracy_us t) 1;
                     Str "us) - overflow protected"]).

(** [updateTimingReference()].  Its local [expected_current_time] is
    computed and never used. *)
Definition updateTimingReference (now_us : Z) (s : Firmware) : Firmware :=
  let '(s, current_virtual_micros) := getVirtualMicros now_us s in
  let t := advanced_timing s in
  let samples_since_start := sample_index t in
  let count := Int.u32 (reference_updates_count t + 1) in
  s |> timing (set_timing_base_micros current_virtual_micros)
    |> timing (set_timing_base_virtual_micros current_virtual_micros)
    |> timing (set_sample_index 0)
    |> timing (set_next_sample_micros current_virtual_micros)
    |> timing (set_last_reference_update_sample samples_since_start)
    |> timing (set_reference_updates_count count)
    |> println (Msg [Str "DEBUG:Timing reference updated (#"; Num count; Str ") after ";
                     Num (Int.u32 samples_since_start);
                     Str " samples - overflow prevented"]).

(** [calculateCalibratedTimestamp()]. *)
Definition calculateCalibratedTimestamp (current_micros : Z) (s : Firmware) : Z :=
  let t := advanced_timing s in
  if negb (calibration_valid t) then current_micros
  else
    let elapsed_micros := Int.u64 (current_micros - cal_base_micros t) in
    let corrected_elapsed :=
      F64.mul (F64.of_Z elapsed_micros)
              (F64.add (F64.of_Z 1)
                       (F64.div (to_double (oscillator_calibration_ppm t))
                                (F64.of_Z 1000000))) in
    Int.u64 (cal_base_micros t + Int.u64 (trunc corrected_elapsed)).

(** [getPreciseTimestamp()]. *)
Definition getPreciseTimestamp (now_us : Z) (s : Firmware) : Firmware * Z :=
  let '(s, virtual_micros) := getVirtualMicros now_us s in
  match current_source (advanced_timing s) with
  | TIMING_PPS_ACTIVE | TIMING_PPS_HOLDOVER | TIMING_INTERNAL_CAL =>
      (s, calculateCalibratedTimestamp virtual_micros s)
  | TIMING_INTERNAL_RAW => (s, virtual_micros)
  end.

(** ** Back-pressure and sequence validation *)

(** [checkSerialBufferOverflow()]; [available_space] is the value of
    [Serial1.availableForWrite()] and [now_ms] the [millis()] read when the
    buffer is short. *)
Definition checkSerialBufferOverflow (available_space now_ms : Z) (s : Firmware)
  : Firmware * bool :=
  if available_space <? 20 then
    let s :=
      s |> monitor (set_buffer_overflows
                      (Int.u32 (buffer_overflows (serial_monitor s) + 1)))
        |> monitor (set_last_overflow_time now_ms) in
    let s :=
      if negb (overflow_warning_sent (serial_monitor s)) then
        s |> println (Msg [Str "WARNING:Serial buffer near overflow - available: ";
                           Num available_space; Str " bytes"])
          |> monitor (set_overflow_warning_sent true)
      else s in
    (s, true)
  else
    let s :=
      if available_space >? 50 then s |> monitor (set_overflow_warning_sent false)
      else s in
    (s, false).

(** The readings of one [outputDataWithOverflowProtection()] call. *)
Record TxReadings : Type := mkTxReadings {
  tx_free : Z;         (* availableForWrite() in checkSerialBufferOverflow() *)
  overflow_millis : Z; (* millis() in checkSerialBufferOverflow() *)
  oflow_millis : Z;    (* millis() of the OFLOW rate limit *)
  oflow_tx_free : Z    (* availableForWrite() printed in the OFLOW line *)
}.

(** [outputDataWithOverflowProtection()]. *)
Definition outputDataWithOverflowProtection (i : TxReadings) (seq timestamp : Z)
    (timing_source : Z) (accuracy : float) (v1 v2 v3 : Z) (s : Firmware) : Firmware :=
  let '(s, overflow) := checkSerialBufferOverflow (tx_free i) (overflow_millis i) s in
  if overflow then
    let s :=
      s |> monitor (set_samples_skipped_due_to_overflow
                      (Int.u32 (samples_skipped_due_to_overflow (serial_monitor s) + 1))) in
    let m := serial_monitor s in
    let current_time := oflow_millis i in
    if Int.u32 (current_time - last_oflow_message_time m) >=? oflow_report_interval_ms m
    then
      s |> println (OFLOW (samples_skipped_due_to_overflow m) (buffer_overflows m)
                      (oflow_tx_free i))
        |> monitor (set_oflow_message_count (Int.u32 (oflow_message_count m + 1)))
        |> monitor (set_last_oflow_message_time current_time)
    else s
  else if compact_output s then
    s |> println (SampleCompact seq (Int.u32 timestamp) v1 v2 v3)
      |> monitor (set_bytes_sent (Int.u32 (bytes_sent (serial_monitor s) + 25)))
  else
    s |> println (SampleFull seq (Int.u32 timestamp) timing_source accuracy v1 v2 v3)
      |> monitor (set_bytes_sent (Int.u32 (bytes_sent (serial_monitor s) + 40))).

(** [validateAndCorrectSequence(uint16_t& seq)]: the result is the state,
    the returned flag and the value of the reference parameter on return. *)
Definition validateAndCorrectSequence (seq : Z) (s : Firmware) : Firmware * bool * Z :=
  let v := seq_validator s in
  let expected := expected_sequence v in
  if negb (validation_enabled v) then (s, true, seq)
  else if (expected =? 0) && (seq =? 0) then
    (s |> validator (set_expected_sequence 1), true, seq)
  else if seq =? expected then
    (s |> validator (set_expected_sequence (Int.u16 ((expected + 1) mod 65536))), true, seq)
  else
    let gap_size :=
      if seq >? expected then Int.u16 (seq - expected)
      else Int.u16 ((65536 - expected) + seq) in
    if (seq <? expected) && (gap_size >? 1000) then
      (s |> println (SEQUENCE_RESET expected seq)
         |> validator (set_sequence_resets_detected
                         (Int.u32 (sequence_resets_detected v + 1)))
         |> validator (set_expected_sequence (Int.u16 ((seq + 1) mod 65536))),
       true, seq)
    else
      (s |> println (SEQUENCE_GAP expected seq gap_size)
         |> validator (set_sequence_gaps_detected
                         (Int.u32 (sequence_gaps_detected v + 1)))
         |> validator (set_expected_sequence (Int.u16 ((seq + 1) mod 65536))),
       true, seq).

(** ** Sample producer *)

Definition adc_rate_sps (rate : AdcRate) : Z :=
  match rate with
  | ADS126X_RATE_2_5 => 2
  | ADS126X_RATE_5 => 5
  | ADS126X_RATE_10 => 10
  | ADS126X_RATE_16_6 => 16
  | ADS126X_RATE_20 => 20
  | ADS126X_RATE_50 => 50
  | ADS126X_RATE_60 => 60
  | ADS126X_RATE_100 => 100
  | ADS126X_RATE_400 => 400
  | ADS126X_RATE_1200 => 1200
  | ADS126X_RATE_2400 => 2400
  | ADS126X_RATE_4800 => 4800
  | ADS126X_RATE_7200 => 7200
  | ADS126X_RATE_14400 => 14400
  | ADS126X_RATE_19200 => 19200
  | ADS126X_RATE_38400 => 38400
  end.

(** [verifyADCThroughput()]. *)
Definition verifyADCThroughput (s : Firmware) : Firmware * bool :=
  let required_samples_per_sec :=
    Int.u32 (trunc (F32.mul (F32.mul (F32.of_Z (num_channels s *
                                                Z.max 1 (current_dithering s)))
                                     (stream_rate s))
                            (F32.of_Z 2))) in
  let available := adc_rate_sps (current_adc_rate s) in
  let adequate := available >=? required_samples_per_sec in
  let sent := throughput_warning_sent (adc_monitor s) in
  if negb adequate && negb sent then
    (s |> println (Msg [Str "WARNING:ADC throughput inadequate - required: ";
                        Num required_samples_per_sec; Str " sps, available: ";
                        Num available; Str " sps"])
       |> adc_mon (set_throughput_warning_sent true), adequate)
  else if adequate && sent then
    (s |> adc_mon (set_throughput_warning_sent false), adequate)
  else (s, adequate).

(** What the data-ready wait of one [readADC()] call comes to: the 10 ms
    deadline passes, or the conversion is ready after [conversion_time]
    microseconds and [adc.readADC1()] gives [value]. *)
Inductive AdcRead : Type :=
| AdcTimeout
| AdcReady (conversion_time value : Z).

(** [readADC()]. *)
Definition readADC (r : AdcRead) (s : Firmware) : Firmware * Z :=
  match r with
  | AdcTimeout =>
      (s |> adc_mon (set_deadline_misses (Int.u32 (deadline_misses (adc_monitor s) + 1))),
       0)
  | AdcReady conversion_time value =>
      let s :=
        s |> adc_mon (set_total_conversions
                        (Int.u32 (total_conversions (adc_monitor s) + 1))) in
      let m := adc_monitor s in
      let s :=
        if total_conversions m =? 1 then
          s |> adc_mon (set_min_conversion_time_us conversion_time)
            |> adc_mon (set_max_conversion_time_us conversion_time)
        else
          let s :=
            if conversion_time >? max_conversion_time_us m
            then s |> adc_mon (set_max_conversion_time_us conversion_time) else s in
          if conversion_time <? min_conversion_time_us (adc_monitor s)
          then s |> adc_mon (set_min_conversion_time_us conversion_time) else s in
      (s, value)
  end.

(** The ADC reads of one sample are numbered from 0 in the order they are
    made; [reads k] is the outcome of read [k]. *)
Definition AdcReads := nat -> AdcRead.

(** The channels read once, in the order of the source ([always] is the
    single-sample path, where channel 1 is read whatever [num_channels]). *)
Definition read_channels (reads : AdcReads) (k : nat) (s : Firmware)
  : Firmware * nat * (Z * Z * Z) :=
  let '(s, a) := readADC (reads k) s in
  let k := S k in
  let '(s, k, b) :=
    if num_channels s >? 1
    then let '(s, b) := readADC (reads k) s in (s, S k, b)
    else (s, k, 0) in
  let '(s, k, c) :=
    if num_channels s >? 2
    then let '(s, c) := readADC (reads k) s in (s, S k, c)
    else (s, k, 0) in
  (s, k, (a, b, c)).

(** The oversampling loop: [n] rounds from read [k] on, adding to the sums.
    The sums are [long], 32 bits on the target: an addition that leaves the
    range wraps (two's complement, as the target computes it). *)
Fixpoint oversample (reads : AdcReads) (n : nat) (k : nat) (sums : Z * Z * Z)
    (s : Firmware) : Firmware * (Z * Z * Z) :=
  match n with
  | O => (s, sums)
  | S n' =>
      let '(sum1, sum2, sum3) := sums in
      let '(s, k, (a, b, c)) := read_channels reads k s in
      oversample reads n' k (Int.i32 (sum1 + a), Int.i32 (sum2 + b), Int.i32 (sum3 + c)) s
  end.

(** The acquisition of [generatePreciseSample()].  The values read are the
    [long] that [readADC()] returns; the means are quotients of [long]
    sums by the oversampling count. *)
Definition acquire (reads : AdcReads) (s : Firmware) : Firmware * (Z * Z * Z) :=
  if current_dithering s =? 0 then
    let '(s, _, values) := read_channels reads 0%nat s in (s, values)
  else
    let oversample_count := current_dithering s in
    let '(s, (sum1, sum2, sum3)) :=
      oversample reads (Z.to_nat oversample_count) 0%nat (0, 0, 0) s in
    (s, (Z.quot sum1 oversample_count,
         if num_channels s >? 1 then Z.quot sum2 oversample_count else 0,
         if num_channels s >? 2 then Z.quot sum3 oversample_count else 0)).

(** The readings of one [generatePreciseSample()] call. *)
Record SampleReadings : Type := mkSampleReadings {
  entry_micros : Z;   (* getVirtualMicros() at the top *)
  rebase_micros : Z;  (* getVirtualMicros() of updateTimingReference() *)
  stamp_micros : Z;   (* getVirtualMicros() of getPreciseTimestamp() *)
  adc_reads : AdcReads;
  tx : TxReadings
}.

(** [generatePreciseSample()] up to the call of
    [outputDataWithOverflowProtection()]: the state at that call and its
    arguments [seq], [timestamp], [v1], [v2], [v3].  The short wait for the
    scheduled time only lets time pass. *)
Definition prepareSample (i : SampleReadings) (s : Firmware)
  : Firmware * (Z * Z * (Z * Z * Z)) :=
  let '(s, current_virtual_micros) := getVirtualMicros (entry_micros i) s in
  let s :=
    if sample_index (advanced_timing s) >=? reference_update_interval (advanced_timing s)
    then updateTimingReference (rebase_micros i) s
    else s in
  let '(s, _) := verifyADCThroughput s in
  let '(s, precise_timestamp) := getPreciseTimestamp (stamp_micros i) s in
  let '(s, values) := acquire (adc_reads i) s in
  let '(s, _, seq) := validateAndCorrectSequence (sequence s) s in
  let s := set_sequence seq s in
  (s, (seq, precise_timestamp, values)).

(** [generatePreciseSample()]. *)
Definition generatePreciseSample (i : SampleReadings) (s : Firmware) : Firmware :=
  let '(s, (seq, precise_timestamp, (value1, value2, value3))) := prepareSample i s in
  let t := advanced_timing s in
  let s :=
    outputDataWithOverflowProtection (tx i) seq precise_timestamp
      (source_code (current_source t)) (timing_accuracy_us t) value1 value2 value3 s in
  let s := s |> set_sequence (Int.u16 ((sequence s + 1) mod 65536)) in
  let t := advanced_timing s in
  let s :=
    s |> timing (set_samples_generated (Int.u32 (samples_generated t + 1)))
      |> timing (set_sample_index (Int.u64 (sample_index t + 1))) in
  if clock_reset_detected (advanced_timing s) then
    s |> timing (set_reset_recovery_samples
                   (Int.u32 (reset_recovery_samples (advanced_timing s) + 1)))
  else s.

(** ** Fractional scheduler *)

(** The readings of the streaming block of [loop()]: the [micros()] of its
    own [getVirtualMicros()] and those of the sample it may fire. *)
Record StreamReadings : Type := mkStreamReadings {
  sched_micros : Z;
  sched_sample : SampleReadings
}.

(** "Advance next time with fractional accumulator" of [loop()]. *)
Definition advance_next_sample (s : Firmware) : Firmware :=
  let t := advanced_timing s in
  let step := F64.add (effective_interval_us t) (phase_acc_us t) in
  let '(s, step) :=
    if phase_alignment_active t && (phase_adjust_samples_remaining t >? 0) then
      let step := F64.add step (per_sample_phase_adjust_us t) in
      let remaining := Int.u32 (phase_adjust_samples_remaining t - 1) in
      let s := s |> timing (set_phase_adjust_samples_remaining remaining) in
      let s :=
        if remaining =? 0 then
          s |> timing (set_phase_alignment_active false)
            |> timing (set_per_sample_phase_adjust_us (F64.of_Z 0))
            |> timing (set_phase_error_us (F64.of_Z 0))
            |> println (Msg [Str "DEBUG:Phase alignment completed"])
        else s in
      (s, step)
    else (s, step) in
  let whole_us := Int.i64 (trunc step) in
  s |> timing (set_phase_acc_us (F64.sub step (F64.of_Z whole_us)))
    |> timing (set_next_sample_micros
                 (Int.u64 (next_sample_micros (advanced_timing s) + Int.u64 whole_us))).

(** "Skip-ahead" of [loop()]: [now_virtual] is the time read before the
    sample was generated.  A zero divisor (undefined in C++) gives 0 slots. *)
Definition skip_missed_slots (now_virtual : Z) (s : Firmware) : Firmware :=
  let t := advanced_timing s in
  let interval := Int.i64 (trunc (effective_interval_us t)) in
  let missed_slots :=
    Z.quot (Int.i64 (Int.i64 now_virtual - Int.i64 (next_sample_micros t))) interval in
  if missed_slots >? 0 then
    s |> timing (set_next_sample_micros
                   (Int.u64 (next_sample_micros t +
                             Int.u64 (Int.i64 (missed_slots * interval)))))
      |> println (Msg [Str "DEBUG:Skipped "; Num missed_slots; Str " missed slots"])
  else s.

(** "Handle precision streaming" of [loop()]: the only place where
    [generatePreciseSample()] is called. *)
Definition loop_streaming (i : StreamReadings) (s : Firmware) : Firmware :=
  if streaming s && timing_established (advanced_timing s) then
    let s :=
      if next_sample_micros (advanced_timing s) =? 0
      then s |> timing (set_next_sample_micros (timing_base_micros (advanced_timing s)))
      else s in
    let t := advanced_timing s in
    let s :=
      s |> timing (set_effective_interval_us
                     (F64.mul (F64.of_Z (sample_interval_us t))
                              (F64.sub (F64.of_Z 1)
                                       (F64.div (to_double (oscillator_calibration_ppm t))
                                                (F64.of_Z 1000000))))) in
    let '(s, now_virtual) := getVirtualMicros (sched_micros i) s in
    if Int.i64 (Int.i64 now_virtual - Int.i64 (next_sample_micros (advanced_timing s)))
       >=? 0
    then
      s |> generatePreciseSample (sched_sample i)
        |> skip_missed_slots now_virtual
        |> advance_next_sample
    else s
  else s.

(** ** Start-up *)

(** The global variables before [setup()]: the initialisers of the source,
    zero for the rest (static storage).  [e] is the content of the
    persistent store. *)
Definition power_on (e : EEPROMClass) : Firmware :=
  let zero := S754_zero false in
  {| current_adc_rate := ADS126X_RATE_19200;
     current_adc_gain := ADS126X_GAIN_1;
     current_adc_filter := ADS126X_SINC3;
     current_dithering := 4;
     num_channels := 3;
     adc_monitor := mkADCThroughputMonitor 0 0 0 0 false;
     streaming := false;
     stream_rate := F32.of_Z 100;
     sequence := 0;
     session_tracker := mkSessionTracker 0 0 false;
     serial_monitor := mkSerialBufferMonitor 0 0 0 0 false 0 0 0;
     compact_output := false;
     seq_validator := mkSequenceValidator 0 0 0 0 false;
     advanced_timing :=
       {| pps_received := false; pps_micros := 0; last_pps_time := 0; pps_count := 0;
          pps_valid := false; pps_timeout_ms := 0; current_source := TIMING_PPS_ACTIVE;
          oscillator_calibration_ppm := zero; cal_base_micros := 0; cal_base_millis := 0;
          cal_sample_count := 0; calibration_valid := false;
          last_micros := 0; last_millis := 0; micros_wraparound_count := 0;
          virtual_micros_offset := 0; clock_reset_detected := false;
          reset_detection_time := 0;
          pre_reset_virtual_time := 0; reset_recovery_samples := 0;
          timing_continuity_maintained := false;
          reference_update_interval := 0; last_reference_update_sample := 0;
          timing_base_virtual_micros := 0; reference_updates_count := 0;
          sample_interval_us := 0; effective_interval_us := zero; phase_acc_us := zero;
          next_sample_micros := 0; timing_base_micros := 0; timing_established := false;
          samples_generated := 0; sample_index := 0;
          started_on_pps := false; phase_nudge_applied := false;
          phase_alignment_active := false; phase_error_us := zero;
          per_sample_phase_adjust_us := zero; phase_adjust_samples_remaining := 0;
          pps_phase_lock_enabled := false;
          sync_start_enabled := false; sync_delay_ms := 0; sync_start_time := 0;
          waiting_for_sync_start := false; sync_start_target_us := 0;
          sync_on_pps := false; pps_countdown := 0;
          timing_accuracy_us := zero; pps_miss_count := 0; last_sync_time := 0;
          clock_resets_detected := 0;
          last_stat_time := 0; stat_interval_ms := 0;
          temp_coefficient_ppm_per_c := zero; reference_temp_c := zero;
          current_temp_c := zero; temp_compensation_enabled := false |};
     degradation_warned := false;
     reset_warned := false;
     eeprom := e;
     serial1 := [] |}.

(** [setupAdvancedTiming()], with its readings of [micros()] and [millis()]. *)
Definition setupAdvancedTiming (now_us now_ms : Z) (s : Firmware) : Firmware :=
  s |> timing (set_pps_received false)
    |> timing (set_pps_valid false)
    |> timing (set_pps_timeout_ms 2000)
    |> timing (set_current_source TIMING_INTERNAL_RAW)
    |> timing (set_oscillator_calibration_ppm (F32.of_Z 0))
    |> timing (set_timing_accuracy_us (F32.of_Z 1000))
    |> timing (set_pps_miss_count 0)
    |> timing (set_pps_count 0)
    |> timing (set_calibration_valid false)
    |> timing (set_last_micros now_us)
    |> timing (set_last_millis now_ms)
    |> timing (set_micros_wraparound_count 0)
    |> timing (set_virtual_micros_offset 0)
    |> timing (set_clock_reset_detected false)
    |> timing (set_reset_detection_time 0)
    |> timing (set_pre_reset_virtual_time 0)
    |> timing (set_reset_recovery_samples 0)
    |> timing (set_timing_continuity_maintained false)
    |> timing (set_clock_resets_detected 0)
    |> timing (set_reference_update_interval 1000000)
    |> timing (set_last_reference_update_sample 0)
    |> timing (set_timing_base_virtual_micros 0)
    |> timing (set_reference_updates_count 0)
    |> timing (set_sample_interval_us 10000)
    |> timing (set_effective_interval_us (F64.of_Z 10000))
    |> timing (set_phase_acc_us (F64.of_Z 0))
    |> timing (set_timing_base_micros 0)
    |> timing (set_timing_established false)
    |> timing (set_samples_generated 0)
    |> timing (set_sample_index 0)
    |> timing (set_next_sample_micros 0)
    |> timing (set_sync_start_enabled false)
    |> timing (set_sync_delay_ms 0)
    |> timing (set_sync_start_time 0)
    |> timing (set_waiting_for_sync_start false)
    |> timing (set_sync_start_target_us 0)
    |> timing (set_sync_on_pps false)
    |> timing (set_pps_countdown 0)
    |> timing (set_started_on_pps false)
    |> timing (set_phase_nudge_applied false)
    |> timing (set_phase_alignment_active false)
    |> timing (set_phase_error_us (F64.of_Z 0))
    |> timing (set_per_sample_phase_adjust_us (F64.of_Z 0))
    |> timing (set_phase_adjust_samples_remaining 0)
    |> timing (set_pps_phase_lock_enabled true)
    |> timing (set_last_stat_time 0)
    |> timing (set_stat_interval_ms 1000)
    |> timing (set_temp_coefficient_ppm_per_c (F32.of_Z 0))
    |> timing (set_reference_temp_c (F32.of_Z 25))
    |> timing (set_current_temp_c (F32.of_Z 25))
    |> timing (set_temp_compensation_enabled false)
    |> println (Msg [Str "DEBUG:Advanced timing system initialized with overflow protection"]).

(** [setup()]: [boot_ms] is the [millis()] that becomes the boot id.  The
    SPI and ADC initialisation acts on the hardware only. *)
Definition setup (boot_ms now_us now_ms : Z) (s : Firmware) : Firmware :=
  s |> println (Msg [Str "DEBUG:Starting Advanced ADS1263 with PPS Timing..."])
    |> set_serial_monitor (mkSerialBufferMonitor 0 0 0 0 false 0 0 1000)
    |> set_seq_validator (mkSequenceValidator 0 0 0 0 true)
    |> set_adc_monitor (mkADCThroughputMonitor 0 0 0 0 false)
    |> set_session_tracker (mkSessionTracker boot_ms 0 false)
    |> setupAdvancedTiming now_us now_ms
    |> loadOscillatorCalibration
    |> println (Msg [Str "READY:Advanced ADS1263 with PPS timing ready"])
    |> println (Msg [Str "DEBUG:PPS on pin 4, scientific-grade timing when GPS available"]).

(** The state after [setup()] on a blank store, used in the examples. *)
Definition blank_store : EEPROMClass := fun _ => Byte.xff.

Definition booted : Firmware := setup 0 0 0 (power_on blank_store).

(** ** Command surface *)

(** A received line, split at its first colon and with its parameters
    converted as the handler converts them ([toFloat], [toInt], the cast to
    the type of the variable assigned).  [None] stands for parameters
    without the comma a handler looks for. *)
Inductive Command : Type :=
| START_STREAM_SYNC (params : option (float * Z))
| SET_ADC_RATE (rateIndex : Z)
| SET_GAIN (gainIndex : Z)
| SET_FILTER (filterIndex : Z)
| SET_DITHERING (dithering : Z)
| GET_DITHERING
| GET_FILTER
| SET_CHANNELS (channels : Z)
| SET_PRECISE_INTERVAL (interval_us : Z)
| START_STREAM (rate : float)
| START_STREAM_PPS (params : option (float * Z))
| STOP_STREAM
| GET_STATUS
| GET_TIMING_STATUS
| SET_OUTPUT_FORMAT (params : string)
| GET_OUTPUT_FORMAT
| SET_SEQUENCE_VALIDATION (params : string)
| GET_SEQUENCE_VALIDATION
| RESET
| SET_CAL_PPM (ppm_value : float)
| UnknownCommand
| InvalidFormat.

(** The readings a command may take. *)
Record CommandReadings : Type := mkCommandReadings {
  cmd_micros : Z;         (* micros() of getVirtualMicros() *)
  cmd_millis : Z;         (* millis() of the sync start time *)
  cmd_session_millis : Z; (* millis() of sendSessionHeader() *)
  cmd_tx_free : Z         (* availableForWrite() printed by GET_STATUS *)
}.

(** [isRateChangeAllowed()]. *)
Definition isRateChangeAllowed (new_rate : float) (s : Firmware) : Firmware * bool :=
  let rate_change_ppm :=
    to_float (F64.mul (to_double (abs_macro (F32.div (F32.sub new_rate (stream_rate s))
                                                     (stream_rate s))))
                      (F64.of_Z 1000000)) in
  let pps_locked :=
    match current_source (advanced_timing s) with
    | TIMING_PPS_ACTIVE => true
    | _ => false
    end in
  if pps_locked && fgt rate_change_ppm (F32.of_Z 50) then
    (s |> println (Msg [Str "ERROR:Rate change too large while PPS locked (";
                        Flt rate_change_ppm 1; Str " ppm > 50 ppm limit)"]), false)
  else if fgt rate_change_ppm (F32.of_Z 1000) then
    (s |> println (Msg [Str "WARNING:Large rate change detected (";
                        Flt rate_change_ppm 1; Str " ppm)"]), true)
  else (s, true).

(** [(uint64_t)(1000000.0 / rate)]. *)
Definition interval_of_rate (rate : float) : Z :=
  Int.u64 (trunc (F64.div (F64.of_Z 1000000) (to_double rate))).

Definition rate_in_range (rate : float) : bool :=
  fgt rate (F32.of_Z 0) && fle rate (F32.of_Z 1000).

Definition filter_name (f : AdcFilter) : string :=
  match f with
  | ADS126X_SINC1 => "SINC1"
  | ADS126X_SINC2 => "SINC2"
  | ADS126X_SINC3 => "SINC3"
  | ADS126X_SINC4 => "SINC4"
  | ADS126X_FIR => "FIR"
  end.

Definition rate_name (r : AdcRate) : string :=
  match r with
  | ADS126X_RATE_2_5 => "ADS126X_RATE_2_5" | ADS126X_RATE_5 => "ADS126X_RATE_5"
  | ADS126X_RATE_10 => "ADS126X_RATE_10" | ADS126X_RATE_16_6 => "ADS126X_RATE_16_6"
  | ADS126X_RATE_20 => "ADS126X_RATE_20" | ADS126X_RATE_50 => "ADS126X_RATE_50"
  | ADS126X_RATE_60 => "ADS126X_RATE_60" | ADS126X_RATE_100 => "ADS126X_RATE_100"
  | ADS126X_RATE_400 => "ADS126X_RATE_400" | ADS126X_RATE_1200 => "ADS126X_RATE_1200"
  | ADS126X_RATE_2400 => "ADS126X_RATE_2400" | ADS126X_RATE_4800 => "ADS126X_RATE_4800"
  | ADS126X_RATE_7200 => "ADS126X_RATE_7200" | ADS126X_RATE_14400 => "ADS126X_RATE_14400"
  | ADS126X_RATE_19200 => "ADS126X_RATE_19200" | ADS126X_RATE_38400 => "ADS126X_RATE_38400"
  end.

(** The tables [rates[]], [gains[]] and [filters[]] of [processLine()]. *)
Definition rates : list AdcRate :=
  [ADS126X_RATE_2_5; ADS126X_RATE_5; ADS126X_RATE_10; ADS126X_RATE_16_6; ADS126X_RATE_20;
   ADS126X_RATE_50; ADS126X_RATE_60; ADS126X_RATE_100; ADS126X_RATE_400;
   ADS126X_RATE_1200; ADS126X_RATE_2400; ADS126X_RATE_4800; ADS126X_RATE_7200;
   ADS126X_RATE_14400; ADS126X_RATE_19200; ADS126X_RATE_38400].

Definition gains : list AdcGain :=
  [ADS126X_GAIN_1; ADS126X_GAIN_2; ADS126X_GAIN_4; ADS126X_GAIN_8; ADS126X_GAIN_16;
   ADS126X_GAIN_32].

Definition filters : list AdcFilter :=
  [ADS126X_SINC1; ADS126X_SINC2; ADS126X_SINC3; ADS126X_SINC4; ADS126X_FIR].

Definition while_stopped (body : Firmware -> Firmware) (s : Firmware) : Firmware :=
  if negb (streaming s) then body s
  else s |> println (Msg [Str "ERROR:Cannot change while streaming"]).

Definition or_already_streaming (body : Firmware -> Firmware) (s : Firmware) : Firmware :=
  if negb (streaming s) then body s
  else s |> println (Msg [Str "ERROR:Already streaming"]).

(** [processLine()] on a split line.  Calls into the ADC driver act on the
    hardware only. *)
Definition processLine (i : CommandReadings) (c : Command) (s : Firmware) : Firmware :=
  match c with
  | START_STREAM_SYNC params =>
      or_already_streaming (fun s =>
        match params with
        | Some (rate, delay_ms) =>
            if rate_in_range rate && (delay_ms <? 10000) then
              let s :=
                s |> set_stream_rate rate
                  |> timing (set_sample_interval_us (interval_of_rate rate))
                  |> timing (set_sync_delay_ms delay_ms)
                  |> timing (set_sync_start_time (Int.u32 (cmd_millis i + delay_ms))) in
              let '(s, now) := getVirtualMicros (cmd_micros i) s in
              s |> timing (set_sync_start_target_us
                             (Int.u64 (now + Int.u64 (delay_ms * 1000))))
                |> timing (set_sync_start_enabled true)
                |> timing (set_waiting_for_sync_start true)
                |> set_sequence 0
                |> set_streaming true
                |> sendSessionHeader (cmd_session_millis i)
                |> println (Msg [Str "OK:Synchronized streaming prepared at "; Flt rate 2;
                                 Str "Hz, delay: "; Num delay_ms; Str "ms"])
            else s |> println (Msg [Str "ERROR:Invalid rate or delay"])
        | None => s |> println (Msg [Str "ERROR:Invalid sync parameters"])
        end) s
  | SET_ADC_RATE rateIndex =>
      while_stopped (fun s =>
        if (rateIndex >=? 1) && (rateIndex <=? 16) then
          s |> set_current_adc_rate
                 (nth (Z.to_nat (rateIndex - 1)) rates ADS126X_RATE_19200)
            |> println (Msg [Str "OK:ADC rate set"])
        else s |> println (Msg [Str "ERROR:Invalid rate index"])) s
  | SET_GAIN gainIndex =>
      while_stopped (fun s =>
        if (gainIndex >=? 1) && (gainIndex <=? 6) then
          s |> set_current_adc_gain (nth (Z.to_nat (gainIndex - 1)) gains ADS126X_GAIN_1)
            |> println (Msg [Str "OK:Gain set"])
        else s |> println (Msg [Str "ERROR:Invalid gain index"])) s
  | SET_FILTER filterIndex =>
      while_stopped (fun s =>
        if (filterIndex >=? 1) && (filterIndex <=? 5) then
          let selectedFilter := nth (Z.to_nat (filterIndex - 1)) filters ADS126X_SINC3 in
          s |> set_current_adc_filter selectedFilter
            |> println (Msg [Str "OK:Filter set to "; Str (filter_name selectedFilter)])
        else s |> println (Msg [Str "ERROR:Invalid filter index (1-5)"])) s
  | SET_DITHERING dithering =>
      while_stopped (fun s =>
        if (dithering =? 0) || (dithering =? 2) || (dithering =? 3) || (dithering =? 4)
        then
          s |> set_current_dithering dithering
            |> println (Msg (Str "OK:Dithering set to " ::
                             if dithering =? 0 then [Str "OFF"]
                             else [Num dithering; Str "x oversampling"]))
        else s |> println (Msg [Str "ERROR:Invalid dithering value (0, 2, 3, or 4)"])) s
  | GET_DITHERING =>
      s |> println (Msg (Str "DITHERING:" :: Num (current_dithering s) :: Str "," ::
                         if current_dithering s =? 0 then [Str "OFF"]
                         else [Num (current_dithering s); Str "x oversampling"]))
  | GET_FILTER =>
      s |> println (Msg [Str "FILTER:"; Str (filter_name (current_adc_filter s)); Str ",";
                         Str (filter_name (current_adc_filter s))])
  | SET_CHANNELS channels =>
      while_stopped (fun s =>
        if (channels >=? 1) && (channels <=? 3) then
          s |> set_num_channels channels |> println (Msg [Str "OK:Channels set"])
        else s |> println (Msg [Str "ERROR:Invalid channel count"])) s
  | SET_PRECISE_INTERVAL interval_us =>
      if (interval_us >=? 9900) && (interval_us <=? 10100) then
        let new_rate := to_float (F64.div (F64.of_Z 1000000) (F64.of_Z interval_us)) in
        let '(s, allowed) := isRateChangeAllowed new_rate s in
        if allowed then
          s |> timing (set_sample_interval_us interval_us)
            |> set_stream_rate new_rate
            |> println (Msg [Str "OK:Precise interval set to "; Num interval_us;
                             Str "us ("; Flt new_rate 3; Str "Hz)"])
        else s
      else s |> println (Msg [Str "ERROR:Invalid interval (9900-10100 us)"])
  | START_STREAM rate =>
      or_already_streaming (fun s =>
        let start (s : Firmware) :=
          s |> set_sequence 0
            |> establishSamplingTiming (cmd_micros i)
            |> set_streaming true
            |> sendSessionHeader (cmd_session_millis i)
            |> (fun s =>
                  println (Msg [Str "OK:Streaming started at "; Flt (stream_rate s) 2;
                                Str "Hz with ";
                                Str (getTimingSourceName
                                       (current_source (advanced_timing s)));
                                Str " timing"]) s) in
        if rate_in_range rate then
          let '(s, allowed) := isRateChangeAllowed rate s in
          if allowed then
            s |> set_stream_rate rate
              |> timing (set_sample_interval_us (interval_of_rate rate))
              |> start
          else s
        else start s) s
  | START_STREAM_PPS params =>
      or_already_streaming (fun s =>
        match params with
        | Some (rate, pps_wait) =>
            if rate_in_range rate && (pps_wait >=? 1) && (pps_wait <=? 5) then
              s |> set_stream_rate rate
                |> timing (set_sample_interval_us (interval_of_rate rate))
                |> timing (set_sync_on_pps true)
                |> timing (set_pps_countdown (Int.u8 pps_wait))
                |> timing (set_waiting_for_sync_start true)
                |> println (Msg [Str "OK:Waiting for "; Num pps_wait;
                                 Str " PPS edges to start"])
            else s |> println (Msg [Str "ERROR:Invalid rate or PPS wait count (1-5)"])
        | None => s |> println (Msg [Str "ERROR:Invalid PPS start parameters"])
        end) s
  | STOP_STREAM =>
      s |> set_streaming false
        |> timing (set_timing_established false)
        |> timing (set_sync_on_pps false)
        |> timing (set_pps_countdown 0)
        |> timing (set_waiting_for_sync_start false)
        |> session (set_session_header_sent false)
        |> println (Msg [Str "DEBUG:Generated ";
                         Num (samples_generated (advanced_timing s)); Str " samples"])
        |> println (Msg [Str "OK:Streaming stopped"])
  | GET_STATUS =>
      let t := advanced_timing s in
      s |> println (Msg [Str "STATUS:streaming="; Num (b2z (streaming s));
                         Str ",samples_generated="; Num (samples_generated t);
                         Str ",stream_rate="; Flt (stream_rate s) 2;
                         Str ",channels="; Num (num_channels s);
                         Str ",filter="; Str (filter_name (current_adc_filter s));
                         Str ",sequence="; Num (sequence s);
                         Str ",timing_source="; Num (source_code (current_source t));
                         Str ",timing_accuracy_us="; Flt (timing_accuracy_us t) 1;
                         Str ",pps_valid="; Num (b2z (pps_valid t));
                         Str ",pps_count="; Num (pps_count t);
                         Str ",clock_resets="; Num (clock_resets_detected t);
                         Str ",wraparounds="; Num (micros_wraparound_count t);
                         Str ",ref_updates="; Num (reference_updates_count t);
                         Str ",buffer_overflows=";
                         Num (buffer_overflows (serial_monitor s));
                         Str ",samples_skipped=";
                         Num (samples_skipped_due_to_overflow (serial_monitor s));
                         Str ",buffer_available="; Num (cmd_tx_free i);
                         Str ",seq_gaps=";
                         Num (sequence_gaps_detected (seq_validator s));
                         Str ",seq_resets=";
                         Num (sequence_resets_detected (seq_validator s))])
  | GET_TIMING_STATUS =>
      let t := advanced_timing s in
      s |> println (Msg [Str "TIMING:source="; Str (getTimingSourceName (current_source t));
                         Str ",accuracy_us="; Flt (timing_accuracy_us t) 1;
                         Str ",pps_valid="; Num (b2z (pps_valid t));
                         Str ",pps_count="; Num (pps_count t);
                         Str ",calibration_ppm="; Flt (oscillator_calibration_ppm t) 3;
                         Str ",calibration_valid="; Num (b2z (calibration_valid t));
                         Str ",clock_resets="; Num (clock_resets_detected t);
                         Str ",wraparounds="; Num (micros_wraparound_count t);
                         Str ",virtual_offset=";
                         Num (Int.u32 (Z.shiftr (virtual_micros_offset t) 20));
                         Str ",reset_detected="; Num (b2z (clock_reset_detected t));
                         Str ",ref_updates="; Num (reference_updates_count t);
                         Str ",sample_index="; Num (Int.u32 (sample_index t));
                         Str ",pps_phase_lock="; Num (b2z (pps_phase_lock_enabled t))])
  | SET_OUTPUT_FORMAT params =>
      if String.eqb params "COMPACT" then
        s |> set_compact_output true |> println (Msg [Str "OK:Output format set to COMPACT"])
      else if String.eqb params "FULL" then
        s |> set_compact_output false |> println (Msg [Str "OK:Output format set to FULL"])
      else s |> println (Msg [Str "ERROR:Invalid format (COMPACT or FULL)"])
  | GET_OUTPUT_FORMAT =>
      s |> println (Msg [Str "OUTPUT_FORMAT:";
                         Str (if compact_output s then "COMPACT" else "FULL");
                         Str ",bytes_per_sample=";
                         Num (if compact_output s then 25 else 40)])
  | SET_SEQUENCE_VALIDATION params =>
      if String.eqb params "ON" then
        s |> validator (set_validation_enabled true)
          |> println (Msg [Str "OK:Sequence validation enabled"])
      else if String.eqb params "OFF" then
        s |> validator (set_validation_enabled false)
          |> println (Msg [Str "OK:Sequence validation disabled"])
      else s |> println (Msg [Str "ERROR:Invalid parameter (ON or OFF)"])
  | GET_SEQUENCE_VALIDATION =>
      let v := seq_validator s in
      s |> println (Msg [Str "SEQUENCE_VALIDATION:";
                         Str (if validation_enabled v then "ON" else "OFF");
                         Str ",gaps_detected="; Num (sequence_gaps_detected v);
                         Str ",resets_detected="; Num (sequence_resets_detected v);
                         Str ",expected_seq="; Num (expected_sequence v)])
  | RESET =>
      s |> set_streaming false
        |> timing (set_timing_established false)
        |> set_sequence 0
        |> session (set_session_header_sent false)
        |> println (Msg [Str "OK:Device reset"])
  | SET_CAL_PPM ppm_value =>
      s |> timing (set_oscillator_calibration_ppm ppm_value)
        |> timing (set_calibration_valid true)
        |> clampOscillatorCalibration
        |> saveOscillatorCalibration
        |> (fun s =>
              println (Msg [Str "OK:Manual calibration set to ";
                            Flt (oscillator_calibration_ppm (advanced_timing s)) 2;
                            Str " ppm"]) s)
  | UnknownCommand => s |> println (Msg [Str "ERROR:Unknown command"])
  | InvalidFormat => s |> println (Msg [Str "ERROR:Invalid command format"])
  end.

(** ** Main loop *)

(** [sendHealthBeacon()]; [current_time] is its reading of [millis()]. *)
Definition sendHealthBeacon (current_time : Z) (s : Firmware) : Firmware :=
  let t := advanced_timing s in
  if Int.u32 (current_time - last_stat_time t) >=? stat_interval_ms t then
    let pps_age_ms := Int.u32 (current_time - last_pps_time t) in
    s |> println (STAT (getTimingSourceName (current_source t)) (timing_accuracy_us t)
                    (oscillator_calibration_ppm t) (b2z (pps_valid t)) pps_age_ms
                    (micros_wraparound_count t) (buffer_overflows (serial_monitor s))
                    (samples_skipped_due_to_overflow (serial_monitor s))
                    (boot_id (session_tracker s)) (stream_id (session_tracker s))
                    (deadline_misses (adc_monitor s)))
      |> timing (set_last_stat_time current_time)
  else s.

(** [updateTemperatureCompensation()]. *)
Definition updateTemperatureCompensation (s : Firmware) : Firmware :=
  let t := advanced_timing s in
  if negb (temp_compensation_enabled t) then s
  else
    let new_temp := readInternalTemperature in
    let temp_change := F32.sub new_temp (reference_temp_c t) in
    let temp_correction := F32.mul temp_change (temp_coefficient_ppm_per_c t) in
    let s :=
      match current_source t with
      | TIMING_INTERNAL_CAL =>
          s |> timing (set_oscillator_calibration_ppm
                         (F32.add (oscillator_calibration_ppm t) temp_correction))
            |> clampOscillatorCalibration
            |> println (Msg [Str "DEBUG:Temperature compensation applied: ";
                             Flt temp_change 1; Str "C, correction: ";
                             Flt temp_correction 2; Str " ppm"])
      | _ => s
      end in
    s |> timing (set_current_temp_c new_temp).

(** "Handle synchronized start waiting" of [loop()], entered when
    [waiting_for_sync_start] holds; the loop iteration ends after it.  The
    delays only let time pass. *)
Definition loop_sync_wait (now_us : Z) (s : Firmware) : Firmware :=
  if sync_on_pps (advanced_timing s) then s
  else
    let '(s, now) := getVirtualMicros now_us s in
    let t := advanced_timing s in
    if Int.i64 (now - sync_start_target_us t) >=? 0 then
      s |> timing (set_timing_base_micros now)
        |> timing (set_next_sample_micros now)
        |> timing (set_timing_established true)
        |> timing (set_waiting_for_sync_start false)
        |> timing (set_samples_generated 0)
        |> timing (set_sample_index 0)
        |> println (Msg [Str "OK:Streaming started at "; Flt (stream_rate s) 2;
                         Str "Hz with "; Str (getTimingSourceName (current_source t));
                         Str " timing (strict target)"])
    else s.

(** The readings of one iteration of [loop()]; [loop_commands] are the
    complete lines found in the receive buffer, in order. *)
Record LoopReadings : Type := mkLoopReadings {
  loop_tick : TickReadings;
  loop_beacon_millis : Z;
  loop_commands : list (CommandReadings * Command);
  loop_wait_micros : Z;
  loop_stream : StreamReadings
}.

Definition process_lines (cs : list (CommandReadings * Command)) (s : Firmware)
  : Firmware :=
  fold_left (fun s c => processLine (fst c) (snd c) s) cs s.

(** [loop()]. *)
Definition loop (i : LoopReadings) (s : Firmware) : Firmware :=
  let s :=
    s |> updateTimingSource (loop_tick i)
      |> sendHealthBeacon (loop_beacon_millis i)
      |> updateTemperatureCompensation
      |> process_lines (loop_commands i) in
  if waiting_for_sync_start (advanced_timing s)
  then loop_sync_wait (loop_wait_micros i) s
  else loop_streaming (loop_stream i) s.

(** ** Predicates used in the statements *)

Definition is_sequence_report (l : Line) : bool :=
  match l with
  | SEQUENCE_GAP _ _ _ | SEQUENCE_RESET _ _ => true
  | _ => false
  end.

(** What [validateAndCorrectSequence] may change: the validator and the
    serial output, the latter by sequence reports only. *)
Definition validator_effect (s s' : Firmware) : Prop :=
  exists v lines,
    s' = (s |> set_seq_validator v |> set_serial1 (serial1 s ++ lines)) /\
    forallb is_sequence_report lines = true.

Definition count_samples (lines : list Line) : Z :=
  Z.of_nat (List.length (filter is_sample lines)).

Definition count_oflow (lines : list Line) : Z :=
  Z.of_nat (List.length (filter is_oflow lines)).

(** One attempted emission: the arguments and the readings of a call of
    [outputDataWithOverflowProtection]. *)
Record Emission : Type := mkEmission {
  em_tx : TxReadings;
  em_seq : Z;
  em_timestamp : Z;
  em_source : Z;
  em_accuracy : float;
  em_values : Z * Z * Z
}.

Definition emit (e : Emission) (s : Firmware) : Firmware :=
  let '(v1, v2, v3) := em_values e in
  outputDataWithOverflowProtection (em_tx e) (em_seq e) (em_timestamp e) (em_source e)
    (em_accuracy e) v1 v2 v3 s.

Definition emit_all (run : list Emission) (s : Firmware) : Firmware :=
  fold_left (fun s e => emit e s) run s.

(** The rate-limit readings of a run do not go backward, are 32-bit, and
    span less than one second. *)
Fixpoint ascending_from (t : Z) (times : list Z) : bool :=
  match times with
  | [] => true
  | x :: rest => (t <=? x) && ascending_from x rest
  end.

Definition times (run : list Emission) : list Z :=
  map (fun e => oflow_millis (em_tx e)) run.

Definition within_one_second (run : list Emission) : bool :=
  match times run with
  | [] => true
  | t0 :: rest =>
      (0 <=? t0) && (t0 <? 2 ^ 32) && ascending_from t0 rest &&
      forallb (fun t => (t <? t0 + 1000) && (t <? 2 ^ 32)) rest
  end.

(** The sample is dropped; the report interval has elapsed since the last
    [OFLOW] line. *)
Definition tx_short (i : TxReadings) : bool := tx_free i <? 20.

Definition oflow_due (i : TxReadings) (s : Firmware) : bool :=
  Int.u32 (oflow_millis i - last_oflow_message_time (serial_monitor s))
  >=? oflow_report_interval_ms (serial_monitor s).

(** Inputs of the examples: an emission with [free] bytes of TX space at
    [now] ms, and the readings of a sample taken at [now_us] microseconds
    with [free] bytes of TX space. *)
Definition emission_at (free now : Z) : Emission :=
  mkEmission (mkTxReadings free now now free) 0 0 3 (F32.of_Z 1000) (0, 0, 0).

Definition sample_at (now_us free : Z) : SampleReadings :=
  mkSampleReadings now_us now_us now_us (fun _ => AdcReady 100 0)
    (mkTxReadings free 0 0 free).

(** The sequence number agrees with the sample index. *)
Definition seq_tracks_index (s : Firmware) : Prop :=
  sequence s = sample_index (advanced_timing s) mod 65536.

(** The emissions of a run of [generatePreciseSample] calls: for each, the
    sequence number handed to the output and [sample_index] at that moment. *)
Fixpoint emissions (run : list SampleReadings) (s : Firmware) : list (Z * Z) :=
  match run with
  | [] => []
  | i :: rest =>
      let p := prepareSample i s in
      (fst (fst (snd p)), sample_index (advanced_timing (fst p)))
        :: emissions rest (generatePreciseSample i s)
  end.

Definition seq_is_index (e : Z * Z) : Prop := fst e = snd e mod 65536.

(** Readings of a main-loop iteration at [now_us] microseconds and
    [now_ms] milliseconds, with 64 bytes of TX space, receiving [commands]. *)
Definition loop_at (now_us now_ms : Z) (commands : list Command) : LoopReadings :=
  mkLoopReadings
    (mkTickReadings now_ms now_us now_ms (mkResetReadings now_ms now_us now_ms now_us)
       (mkPpsReadings now_ms now_ms))
    now_ms
    (map (fun c => (mkCommandReadings now_us now_ms now_ms 64, c)) commands)
    now_us
    (mkStreamReadings now_us (sample_at now_us 64)).

(** A stream started 5 s after boot, three samples, then the clock restarts
    from zero and the reset is handled. *)
Definition after_clock_reset : Firmware :=
  booted |> loop (loop_at 4995000 4995 [START_STREAM (F32.of_Z 100)])
         |> loop (loop_at 5000000 5000 [])
         |> loop (loop_at 5010000 5010 [])
         |> loop (loop_at 5020000 5020 [])
         |> loop (loop_at 100 0 []).

(** An observation of the timing state that does not depend on the three
    fields [getVirtualMicros] writes. *)
Definition clock_blind {A : Type} (f : AdvancedTiming -> A) : Prop :=
  (forall v t, f (set_last_micros v t) = f t) /\
  (forall v t, f (set_virtual_micros_offset v t) = f t) /\
  (forall v t, f (set_micros_wraparound_count v t) = f t).

(** The timing-quality table of the specification (section 4.D): the rows
    in order, the first whose condition holds gives state and accuracy; the
    accuracy is a [float] computed from the formula in double precision. *)
Definition accuracy_after (base slope : double) (age : Z) : float :=
  to_float (F64.add base (F64.mul (F64.div (F64.of_Z age) (F64.of_Z 1000)) slope)).

Definition quality_table (pps_valid cal_valid : bool) (age : Z) (recent_reset : bool)
  : list (bool * (TimingSource * float)) :=
  [ (pps_valid && (age <? 1500) && negb recent_reset,
     (TIMING_PPS_ACTIVE, F32.of_Z 1));
    (pps_valid && (age <? 60000) && negb recent_reset,
     (TIMING_PPS_HOLDOVER, accuracy_after (F64.of_Z 1) (F64.lit 1 10) age));
    (cal_valid && (age <? 300000) && negb recent_reset,
     (TIMING_INTERNAL_CAL, accuracy_after (F64.of_Z 10) (F64.lit 3 10) age)) ].

Fixpoint first_row {A : Type} (rows : list (bool * A)) (otherwise : A) : A :=
  match rows with
  | [] => otherwise
  | (cond, a) :: rest => if cond then a else first_row rest otherwise
  end.

Definition spec_quality (pps_valid cal_valid : bool) (age : Z) (recent_reset : bool)
  : TimingSource * float :=
  first_row (quality_table pps_valid cal_valid age recent_reset)
    (TIMING_INTERNAL_RAW, if recent_reset then F32.of_Z 2000 else F32.of_Z 1000).

(** The inputs of the table as [updateTimingSource] reads them. *)
Definition pps_age (now_ms : Z) (t : AdvancedTiming) : Z :=
  Int.u32 (now_ms - last_pps_time t).

Definition recent_reset (now_ms : Z) (t : AdvancedTiming) : bool :=
  clock_reset_detected t && (Int.u32 (now_ms - reset_detection_time t) <? 30000).

(** A stream at 100 Hz with a calibration of 50 ppm, one sample, stopped:
    the effective interval is 9999.5 us, so the fractional accumulator holds
    half a microsecond when the stream stops. *)
Definition stopped_mid_phase : Firmware :=
  booted |> loop (loop_at 4995000 4995 [SET_CAL_PPM (F32.of_Z 50);
                                        START_STREAM (F32.of_Z 100)])
         |> loop (loop_at 5000000 5000 [])
         |> loop (loop_at 5005000 5005 [STOP_STREAM]).

Definition is_zero (x : spec_float) : bool :=
  match x with
  | S754_zero _ => true
  | _ => false
  end.

(** [s'] has the sample lines of [s] and no more. *)
Definition no_new_sample (s s' : Firmware) : Prop :=
  count_samples (serial1 s') = count_samples (serial1 s).

(** An observation of the timing state that depends neither on the clock
    fields nor on the counters [generatePreciseSample] increments. *)
Definition sample_blind {A : Type} (f : AdvancedTiming -> A) : Prop :=
  clock_blind f /\
  (forall v t, f (set_samples_generated v t) = f t) /\
  (forall v t, f (set_sample_index v t) = f t) /\
  (forall v t, f (set_reset_recovery_samples v t) = f t).

(** [ceil_div a b] is the least integer not below [a / b], for positive [b]. *)
Definition ceil_div (a b : Z) : Z := (a + b - 1) / b.

(** The factor [1.0 - ppm / 1e6] of the effective interval when the
    calibration is zero. *)
Definition one : double := S754_finite false 4503599627370496 (-52).

(** A stream at 100 Hz without calibration, due for the sample scheduled at
    5 000 000 us. *)
Definition streaming_at_100Hz : Firmware :=
  booted |> loop (loop_at 4995000 4995 [START_STREAM (F32.of_Z 100)]).

(** Two PPS edges after boot, 1 000 500 us apart on the local clock (the
    oscillator is 500 ppm fast); the main loop takes up the second edge one
    second after it arrived. *)
Definition second_edge_500ppm : Firmware :=
  booted |> pps_interrupt 1000000 1000 |> loop (loop_at 1000100 1000 [])
         |> pps_interrupt 2000500 2000 |> loop (loop_at 3000500 3000 []).

(** Two PPS edges after boot, an outage of 4296 s during which the timing
    source degrades to raw and the microsecond counter wraps once, then a
    third edge, taken up at once: on the local clock it lies 2^32 + 1 000 504
    us after the first (the oscillator is 7.5 ppm slow). *)
Definition edge_after_outage : Firmware :=
  booted |> pps_interrupt 1000000 1000 |> loop (loop_at 1000100 1000 [])
         |> pps_interrupt 2000000 2000 |> loop (loop_at 2000100 2000 [])
         |> loop (loop_at 310000000 310000 [])
         |> loop (loop_at 4294000000 4294000 [])
         |> loop (loop_at 1000 4294968 [])
         |> pps_interrupt 2000504 4296968 |> loop (loop_at 2000604 4296968 []).

(** [START_STREAM_PPS:100,n] half a second after boot. *)
Definition armed (n : Z) : Firmware :=
  booted |> loop (loop_at 500000 500 [START_STREAM_PPS (Some (F32.of_Z 100, n))]).

(** The [k]-th PPS edge after boot and the loop iteration that takes it up. *)
Definition pps_edge (k : Z) (s : Firmware) : Firmware :=
  s |> pps_interrupt (k * 1000000) (k * 1000)
    |> loop (loop_at (k * 1000000 + 100) (k * 1000) []).

(** A PPS-locked start armed 5000 s after boot, when the microsecond
    counter has wrapped once, with the edge that starts the stream. *)
Definition armed_after_wrap : Firmware :=
  booted |> loop (loop_at 4294000000 4294000 [])
         |> loop (loop_at 1000 4294968 [])
         |> loop (loop_at 705032704 5000000 [START_STREAM_PPS (Some (F32.of_Z 100, 1))])
         |> pps_interrupt 706032704 5001000
         |> loop (loop_at 706032804 5001000 []).

(** An observation of the timing state that does not depend on the fields
    the oscillator calibration writes. *)
Definition calibration_blind {A : Type} (f : AdvancedTiming -> A) : Prop :=
  (forall v t, f (set_oscillator_calibration_ppm v t) = f t) /\
  (forall v t, f (set_temp_coefficient_ppm_per_c v t) = f t) /\
  (forall v t, f (set_temp_compensation_enabled v t) = f t).

(** ** Further predicates and example states *)

(** A state whose stored calibration is far outside the limit. *)
Definition miscalibrated : Firmware :=
  booted |> timing (set_oscillator_calibration_ppm (F32.of_Z 350)).

(** The state of [second_edge_500ppm] (calibration -500 ppm, calibration
    base 2 000 500 us) when the tenth PPS edge is about to be evaluated. *)
Definition tenth_edge_pending : Firmware :=
  second_edge_500ppm |> timing (set_pps_count 10).

(** A stream of three samples, stopped, and started again: the sequence
    counter is back at 0 while the validator still expects 3. *)
Definition restarted_stream : Firmware :=
  streaming_at_100Hz
    |> loop (loop_at 5000000 5000 [])
    |> loop (loop_at 5010000 5010 [])
    |> loop (loop_at 5020000 5020 [])
    |> loop (loop_at 5025000 5025 [STOP_STREAM])
    |> loop (loop_at 5035000 5035 [START_STREAM (F32.of_Z 100)]).

(** ** Runs

    The firmware runs as iterations of [loop()] with PPS interrupts taken
    between them. *)
Inductive Event : Type :=
| Iteration (i : LoopReadings)
| PpsEdge (now_us now_ms : Z).

Definition step (e : Event) (s : Firmware) : Firmware :=
  match e with
  | Iteration i => loop i s
  | PpsEdge now_us now_ms => pps_interrupt now_us now_ms s
  end.

Definition run (events : list Event) (s : Firmware) : Firmware :=
  fold_left (fun s e => step e s) events s.

(** A clock reset has been flagged. *)
Definition reset_latched (s : Firmware) : Prop :=
  clock_reset_detected (advanced_timing s) = true.

(** An update of the timing state that leaves a raised reset flag up. *)
Definition keeps_latch (g : AdvancedTiming -> AdvancedTiming) : Prop :=
  forall t, clock_reset_detected t = true -> clock_reset_detected (g t) = true.

(** No stream is running and none is pending. *)
Definition idle (s : Firmware) : Prop :=
  streaming s = false /\ sync_on_pps (advanced_timing s) = false /\
  waiting_for_sync_start (advanced_timing s) = false.

(** An update of the timing state that arms no start. *)
Definition keeps_idle (g : AdvancedTiming -> AdvancedTiming) : Prop :=
  forall t,
    sync_on_pps t = false -> waiting_for_sync_start t = false ->
    sync_on_pps (g t) = false /\ waiting_for_sync_start (g t) = false.

Definition is_start (c : Command) : bool :=
  match c with
  | START_STREAM _ | START_STREAM_SYNC _ | START_STREAM_PPS _ => true
  | _ => false
  end.

(** The events of a run carry no start command. *)
Definition no_start (e : Event) : bool :=
  match e with
  | Iteration i => forallb (fun c => negb (is_start (snd c))) (loop_commands i)
  | PpsEdge _ _ => true
  end.

(** The ADC reads made so far: completed conversions and timeouts. *)
Definition adc_reads_done (s : Firmware) : Z :=
  total_conversions (adc_monitor s) + deadline_misses (adc_monitor s).

(** [k] reads have been made since the counters stood at [T] and [M]. *)
Definition counted (T M k : Z) (s : Firmware) : Prop :=
  exists a b,
    0 <= a /\ 0 <= b /\ a + b = k /\
    total_conversions (adc_monitor s) = T + a /\
    deadline_misses (adc_monitor s) = M + b.

(** What one [readADC()] call returns. *)
Definition read_value (r : AdcRead) : Z :=
  match r with
  | AdcTimeout => 0
  | AdcReady _ value => value
  end.

(** A state with dithering [d] and [n] channels. *)
Definition configured (d n : Z) : Firmware :=
  booted |> set_current_dithering d |> set_num_channels n.

(** The reference temperature lies within 1 degree of what the placeholder
    [readInternalTemperature] returns, and the compensation is off: the
    state [setup] leaves. *)
Definition near_placeholder (r : float) : Prop :=
  fgt (to_double (abs_macro (F32.sub readInternalTemperature r))) (F64.of_Z 1) = false.

Definition temp_inert (s : Firmware) : Prop :=
  temp_compensation_enabled (advanced_timing s) = false /\
  near_placeholder (reference_temp_c (advanced_timing s)).

(** An update of the timing state that leaves the compensation off and the
    reference temperature alone. *)
Definition keeps_inert (g : AdvancedTiming -> AdvancedTiming) : Prop :=
  forall t,
    temp_compensation_enabled t = false ->
    temp_compensation_enabled (g t) = false /\ reference_temp_c (g t) = reference_temp_c t.

(** ** Command reception

    The serial loop of [loop()] and the text side of [processLine()].
    [String] is the string class of the Arduino core; its operations are
    written out below as the core defines them, for lines that carry no NUL
    character. *)

Module WString.

(** [isspace()] of the C library: the space and the controls 9 to 13. *)
Definition isspace (c : Ascii.ascii) : bool :=
  let n := Z.of_nat (Ascii.nat_of_ascii c) in
  (n =? 32) || ((9 <=? n) && (n <=? 13)).

Fixpoint trim_left (s : string) : string :=
  match s with
  | EmptyString => EmptyString
  | String c rest => if isspace c then trim_left rest else s
  end.

Fixpoint trim_right (s : string) : string :=
  match s with
  | EmptyString => EmptyString
  | String c rest =>
      match trim_right rest with
      | EmptyString => if isspace c then EmptyString else String c EmptyString
      | kept => String c kept
      end
  end.

(** [String::trim()]: leading and trailing white space removed. *)
Definition trim (s : string) : string := trim_right (trim_left s).

(** [String::indexOf(char)]: the first position of [ch], or -1. *)
Fixpoint indexOf (ch : Ascii.ascii) (s : string) : Z :=
  match s with
  | EmptyString => -1
  | String c rest =>
      if Ascii.eqb c ch then 0
      else let k := indexOf ch rest in if k <? 0 then -1 else k + 1
  end.

Fixpoint drop (n : nat) (s : string) : string :=
  match n, s with
  | O, _ => s
  | S n', String _ rest => drop n' rest
  | S _, EmptyString => EmptyString
  end.

Fixpoint take (n : nat) (s : string) : string :=
  match n, s with
  | S n', String c rest => String c (take n' rest)
  | _, _ => EmptyString
  end.

(** [String::substring(left, right)] and [String::substring(left)]. *)
Definition substring (left right : Z) (s : string) : string :=
  let first := if left >? right then right else left in
  let last := if left >? right then left else right in
  take (Z.to_nat (last - first)) (drop (Z.to_nat first) s).

Definition substring_from (left : Z) (s : string) : string :=
  drop (Z.to_nat left) s.

End WString.

(** The characters the firmware looks for: line feed, carriage return,
    comma and colon. *)
Definition LF : Ascii.ascii := Ascii.ascii_of_nat 10.
Definition CR : Ascii.ascii := Ascii.ascii_of_nat 13.
Definition comma : Ascii.ascii := Ascii.ascii_of_nat 44.
Definition colon : Ascii.ascii := Ascii.ascii_of_nat 58.

(** The receive loop of [loop()] over the characters available on
    [Serial1]: the lines handed to [processLine], in order, and what is left
    in [cmdBuffer]. *)
Fixpoint receive (chars : list Ascii.ascii) (cmdBuffer : string) : list string * string :=
  match chars with
  | [] => ([], cmdBuffer)
  | inChar :: rest =>
      if Ascii.eqb inChar LF then
        let '(lines, remaining) := receive rest EmptyString in
        (cmdBuffer :: lines, remaining)
      else if negb (Ascii.eqb inChar CR) then
        receive rest (cmdBuffer ++ String inChar EmptyString)
      else receive rest cmdBuffer
  end.

Section Text.

(** [String::toInt()] (a [long]) and [String::toFloat()] are the
    conversions of the C library; the text side is given for any such
    conversions. *)
Variable toInt : string -> Z.
Variable toFloat : string -> float.

(** The parameters of the two start commands that take a rate and a
    count: split at the first comma, if there is one behind the first
    character. *)
Definition split_at_comma (params : string) : option (string * string) :=
  let commaIndex := WString.indexOf comma params in
  if commaIndex >? 0
  then Some (WString.substring 0 commaIndex params,
             WString.substring_from (commaIndex + 1) params)
  else None.

(** The chain of comparisons of [processLine()], with the conversion each
    handler makes of its parameters. *)
Definition dispatch (command params : string) : Command :=
  if String.eqb command "START_STREAM_SYNC" then
    START_STREAM_SYNC
      match split_at_comma params with
      | Some (rate, delay) => Some (toFloat rate, Int.u32 (toInt delay))
      | None => None
      end
  else if String.eqb command "SET_ADC_RATE" then SET_ADC_RATE (toInt params)
  else if String.eqb command "SET_GAIN" then SET_GAIN (toInt params)
  else if String.eqb command "SET_FILTER" then SET_FILTER (toInt params)
  else if String.eqb command "SET_DITHERING" then SET_DITHERING (toInt params)
  else if String.eqb command "GET_DITHERING" then GET_DITHERING
  else if String.eqb command "GET_FILTER" then GET_FILTER
  else if String.eqb command "SET_CHANNELS" then SET_CHANNELS (toInt params)
  else if String.eqb command "SET_PRECISE_INTERVAL"
  then SET_PRECISE_INTERVAL (Int.u32 (toInt params))
  else if String.eqb command "START_STREAM" then START_STREAM (toFloat params)
  else if String.eqb command "START_STREAM_PPS" then
    START_STREAM_PPS
      match split_at_comma params with
      | Some (rate, wait) => Some (toFloat rate, toInt wait)
      | None => None
      end
  else if String.eqb command "STOP_STREAM" then STOP_STREAM
  else if String.eqb command "GET_STATUS" then GET_STATUS
  else if String.eqb command "GET_TIMING_STATUS" then GET_TIMING_STATUS
  else if String.eqb command "SET_OUTPUT_FORMAT" then SET_OUTPUT_FORMAT params
  else if String.eqb command "GET_OUTPUT_FORMAT" then GET_OUTPUT_FORMAT
  else if String.eqb command "SET_SEQUENCE_VALIDATION" then SET_SEQUENCE_VALIDATION params
  else if String.eqb command "GET_SEQUENCE_VALIDATION" then GET_SEQUENCE_VALIDATION
  else if String.eqb command "RESET" then RESET
  else if String.eqb command "SET_CAL_PPM" then SET_CAL_PPM (toFloat params)
  else UnknownCommand.

(** The head of [processLine()]: the line trimmed and split at its first
    colon, which must not be its first character. *)
Definition parseLine (line : string) : Command :=
  let line := WString.trim line in
  if WString.indexOf colon line >? 0 then
    let colonIndex := WString.indexOf colon line in
    let command := WString.substring 0 colonIndex line in
    let params := WString.substring_from (colonIndex + 1) line in
    dispatch command params
  else InvalidFormat.

(** [processLine(String line)]. *)
Definition processText (i : CommandReadings) (line : string) (s : Firmware) : Firmware :=
  processLine i (parseLine line) s.

End Text.

(** The characters of a string. *)
Definition has_char (ch : Ascii.ascii) (s : string) : bool :=
  existsb (Ascii.eqb ch) (list_ascii_of_string s).

Definition all_space (s : string) : bool :=
  forallb WString.isspace (list_ascii_of_string s).

Definition keep_char (c : Ascii.ascii) : bool := negb (Ascii.eqb c CR).

Definition string_of_chars (chars : list Ascii.ascii) : string := string_of_list_ascii chars.

(** ** Emissions of a run *)

(** The state in which [loop()] reaches its start and streaming blocks. *)
Definition before_streaming (i : LoopReadings) (s : Firmware) : Firmware :=
  s |> updateTimingSource (loop_tick i)
    |> sendHealthBeacon (loop_beacon_millis i)
    |> updateTemperatureCompensation
    |> process_lines (loop_commands i).

(** The state in which the streaming block of [loop()] calls
    [generatePreciseSample()], when it does. *)
Definition firing (j : StreamReadings) (s : Firmware) : option Firmware :=
  if streaming s && timing_established (advanced_timing s) then
    let s :=
      if next_sample_micros (advanced_timing s) =? 0
      then s |> timing (set_next_sample_micros (timing_base_micros (advanced_timing s)))
      else s in
    let t := advanced_timing s in
    let s :=
      s |> timing (set_effective_interval_us
                     (F64.mul (F64.of_Z (sample_interval_us t))
                              (F64.sub (F64.of_Z 1)
                                       (F64.div (to_double (oscillator_calibration_ppm t))
                                                (F64.of_Z 1000000))))) in
    let '(s, now_virtual) := getVirtualMicros (sched_micros j) s in
    if Int.i64 (Int.i64 now_virtual - Int.i64 (next_sample_micros (advanced_timing s)))
       >=? 0
    then Some s
    else None
  else None.

Definition loop_firing (i : LoopReadings) (s : Firmware) : option Firmware :=
  let s := before_streaming i s in
  if waiting_for_sync_start (advanced_timing s) then None
  else firing (loop_stream i) s.

(** What an iteration of [loop()] emits: the sequence number handed to the
    output and [sample_index] at that moment. *)
Definition loop_emissions (i : LoopReadings) (s : Firmware) : list (Z * Z) :=
  match loop_firing i s with
  | Some s' => emissions [sched_sample (loop_stream i)] s'
  | None => []
  end.

Fixpoint run_emissions (events : list Event) (s : Firmware) : list (Z * Z) :=
  match events with
  | [] => []
  | e :: rest =>
      match e with
      | Iteration i => loop_emissions i s
      | PpsEdge _ _ => []
      end ++ run_emissions rest (step e s)
  end.

(** The two counters agree where it matters: no PPS-locked start is armed,
    a waiting synchronized start has the sequence counter at 0, and while
    a stream is running the sequence counter is [sample_index mod 65536]. *)
Definition counters_agree (s : Firmware) : Prop :=
  sync_on_pps (advanced_timing s) = false /\
  (waiting_for_sync_start (advanced_timing s) = true -> sequence s = 0) /\
  (streaming s = true -> waiting_for_sync_start (advanced_timing s) = false ->
   seq_tracks_index s).

Definition is_pps_start (c : Command) : bool :=
  match c with
  | START_STREAM_PPS _ => true
  | _ => false
  end.

(** Nothing disturbs the counters in this step: [detectClockReset] reports
    no reset, no [START_STREAM_PPS] is received, and a firing finds
    [sample_index] below [reference_update_interval] (no rebase). *)
Definition undisturbed (e : Event) (s : Firmware) : Prop :=
  match e with
  | PpsEdge _ _ => True
  | Iteration i =>
      snd (detectClockReset (detect_micros (loop_tick i)) (detect_millis (loop_tick i)) s)
        = false /\
      forallb (fun c => negb (is_pps_start (snd c))) (loop_commands i) = true /\
      match loop_firing i s with
      | Some s' =>
          sample_index (advanced_timing s') < reference_update_interval (advanced_timing s')
      | None => True
      end
  end.

Fixpoint undisturbed_run (events : list Event) (s : Firmware) : Prop :=
  match events with
  | [] => True
  | e :: rest => undisturbed e s /\ undisturbed_run rest (step e s)
  end.

(** The five variables the agreement depends on. *)
Definition counters (s : Firmware) : Z * Z * bool * bool * bool :=
  (sequence s, sample_index (advanced_timing s), streaming s,
   waiting_for_sync_start (advanced_timing s), sync_on_pps (advanced_timing s)).

(** [s] has the counters of [s0]. *)
Definition unchanged (s0 s : Firmware) : Prop := counters s = counters s0.

(** An update of the timing state that leaves the counters alone. *)
Definition keeps_counters (g : AdvancedTiming -> AdvancedTiming) : Prop :=
  forall t,
    sample_index (g t) = sample_index t /\
    waiting_for_sync_start (g t) = waiting_for_sync_start t /\
    sync_on_pps (g t) = sync_on_pps t.

(** The commands that touch neither counter nor the stream state. *)
Definition is_neutral (c : Command) : bool :=
  match c with
  | START_STREAM _ | START_STREAM_SYNC _ | START_STREAM_PPS _ | STOP_STREAM | RESET => false
  | _ => true
  end.

(** A stream of three samples, stopped, and started again on a PPS edge
    ([START_STREAM_PPS:100,1]); the iteration that takes up the edge starts
    the stream. *)
Definition pps_restart_pending : Firmware :=
  streaming_at_100Hz
    |> loop (loop_at 5000000 5000 [])
    |> loop (loop_at 5010000 5010 [])
    |> loop (loop_at 5020000 5020 [])
    |> loop (loop_at 5025000 5025 [STOP_STREAM;
                                   START_STREAM_PPS (Some (F32.of_Z 100, 1))])
    |> pps_interrupt 6000000 6000.

(** The effective interval [loop()] computes from the nominal interval and
    the calibration. *)
Definition calibrated_interval (t : AdvancedTiming) : double :=
  F64.mul (F64.of_Z (sample_interval_us t))
          (F64.sub (F64.of_Z 1)
                   (F64.div (to_double (oscillator_calibration_ppm t)) (F64.of_Z 1000000))).

(** The step [loop()] adds to [next_sample_micros] after a firing, before
    its truncation to whole microseconds: the effective interval [E], the
    fractional accumulator and the per-sample adjustment of a running phase
    plan. *)
Definition step_after (E : double) (t : AdvancedTiming) : double :=
  let step := F64.add E (phase_acc_us t) in
  if phase_alignment_active t && (phase_adjust_samples_remaining t >? 0)
  then F64.add step (per_sample_phase_adjust_us t)
  else step.

(** [streaming_at_100Hz] with a phase plan running that shortens each of
    the next five steps by 20 us. *)
Definition phase_plan_running : Firmware :=
  streaming_at_100Hz
    |> timing (set_phase_alignment_active true)
    |> timing (set_per_sample_phase_adjust_us (F64.of_Z (-20)))
    |> timing (set_phase_adjust_samples_remaining 5).

(** A stream at 100 Hz with a calibration of 50 ppm: the effective
    interval is 9999.5 us, due for the sample scheduled at 5 000 000 us. *)
Definition calibrated_stream : Firmware :=
  booted |> loop (loop_at 4995000 4995 [SET_CAL_PPM (F32.of_Z 50);
                                        START_STREAM (F32.of_Z 100)]).

(** * Properties *)

(** ** Machine integers *)

Module IntFacts.

Lemma u16_range z : 0 <= Int.u16 z < 65536.
Proof. unfold Int.u16, Int.wrap. change (2 ^ 16) with 65536. apply Z.mod_pos_bound. lia. Qed.

Lemma u32_range z : 0 <= Int.u32 z < 2 ^ 32.
Proof. unfold Int.u32, Int.wrap. apply Z.mod_pos_bound. lia. Qed.

Lemma u64_range z : 0 <= Int.u64 z < 2 ^ 64.
Proof. unfold Int.u64, Int.wrap. apply Z.mod_pos_bound. lia. Qed.

Lemma u16_small z : 0 <= z < 65536 -> Int.u16 z = z.
Proof. intros H. unfold Int.u16, Int.wrap. apply Z.mod_small. exact H. Qed.

Lemma u32_small z : 0 <= z < 2 ^ 32 -> Int.u32 z = z.
Proof. intros H. unfold Int.u32, Int.wrap. apply Z.mod_small. exact H. Qed.

Lemma u64_small z : 0 <= z < 2 ^ 64 -> Int.u64 z = z.
Proof. intros H. unfold Int.u64, Int.wrap. apply Z.mod_small. exact H. Qed.

Lemma i64_small z : - 2 ^ 63 <= z < 2 ^ 63 -> Int.i64 z = z.
Proof. intros H. unfold Int.i64. rewrite Z.mod_small; lia. Qed.

Lemma i32_small z : - 2 ^ 31 <= z < 2 ^ 31 -> Int.i32 z = z.
Proof. intros H. unfold Int.i32. rewrite Z.mod_small; lia. Qed.

End IntFacts.

(** ** Virtual clock *)

Section VirtualClock.

Variable s : Firmware.
Variable m : Z.

Lemma getVirtualMicros_value :
  snd (getVirtualMicros m s) =
  Int.u64 (virtual_micros_offset (advanced_timing (fst (getVirtualMicros m s))) + m).
Proof. reflexivity. Qed.

Lemma getVirtualMicros_last :
  last_micros (advanced_timing (fst (getVirtualMicros m s))) = m.
Proof. reflexivity. Qed.

(** The offset grows by 2^32 exactly when the raw counter went backward by
    more than 10^9 microseconds. *)
Lemma getVirtualMicros_offset :
  virtual_micros_offset (advanced_timing (fst (getVirtualMicros m s))) =
  if (m <? last_micros (advanced_timing s)) &&
     (Int.u32 (last_micros (advanced_timing s) - m) >? 1000000000)
  then Int.u64 (virtual_micros_offset (advanced_timing s) + 4294967296)
  else virtual_micros_offset (advanced_timing s).
Proof.
  unfold getVirtualMicros.
  destruct (m <? _); [destruct (_ >? _)|]; reflexivity.
Qed.

End VirtualClock.




(** A clock reset that [handleClockReset] has processed does not break
    monotonicity: the virtual time before the reset becomes the offset. *)
Lemma handleClockReset_clock (i : ResetReadings) (s : Firmware) :
  reset_last_micros i <= reset_virtual_micros i ->
  let t := advanced_timing s in
  let t' := advanced_timing (handleClockReset i s) in
  virtual_micros_offset t' = Int.u64 (virtual_micros_offset t + last_micros t) /\
  (last_micros t' = reset_last_micros i \/ last_micros t' = reset_virtual_micros i).
Proof.
  intros Hle. cbv zeta. unfold handleClockReset.
  match goal with
  | |- context [if ?c then _ else _] => destruct c
  end.
  - match goal with
    | |- context [getVirtualMicros ?m ?s0] =>
        pose proof (getVirtualMicros_offset s0 m) as Ho;
        pose proof (getVirtualMicros_last s0 m) as Hl;
        destruct (getVirtualMicros m s0) as [s1 v]
    end.
    cbn [fst] in Ho, Hl. cbn in Ho |- *.
    replace (reset_virtual_micros i <? reset_last_micros i) with false in Ho
      by (symmetry; apply Z.ltb_ge; exact Hle).
    cbn [andb] in Ho. split; [exact Ho | right; exact Hl].
  - cbn. split; [reflexivity | left; reflexivity].
Qed.

(** X7: a clock reset that [handleClockReset] has processed does not
    take the virtual clock back: the virtual time of the last reading before
    the reset becomes the offset, so a [getVirtualMicros] after the handling
    returns at least what the one before it returned, however small the
    restarted raw counter is (the readings taken during and after the
    handling not going backward among themselves). *)
Lemma virtual_clock_monotone_across_reset (s : Firmware) (m1 m2 : Z) (i : ResetReadings) :
  Int.in_u32 m1 -> Int.in_u32 m2 ->
  0 <= virtual_micros_offset (advanced_timing s) < 2 ^ 64 - 2 ^ 34 ->
  reset_last_micros i <= reset_virtual_micros i <= m2 ->
  let first := getVirtualMicros m1 s in
  let second := getVirtualMicros m2 (handleClockReset i (fst first)) in
  snd first <= snd second.
Proof.
  unfold Int.in_u32. intros H1 H2 Ho Hr. cbv zeta.
  destruct (handleClockReset_clock i (fst (getVirtualMicros m1 s)) ltac:(lia)) as [Hoff Hlast].
  cbv zeta in Hoff, Hlast.
  rewrite (getVirtualMicros_value (handleClockReset i _) m2).
  rewrite (getVirtualMicros_offset (handleClockReset i _) m2), Hoff.
  rewrite getVirtualMicros_last.
  rewrite <- (getVirtualMicros_value s m1).
  assert (Hv : 0 <= snd (getVirtualMicros m1 s) < 2 ^ 64 - 2 ^ 33).
  { rewrite getVirtualMicros_value, getVirtualMicros_offset.
    destruct (_ && _); rewrite ?(IntFacts.u64_small (_ + 4294967296)) by lia;
      rewrite IntFacts.u64_small; lia. }
  set (v1 := snd (getVirtualMicros m1 s)) in *. clearbody v1.
  replace (m2 <? last_micros (advanced_timing (handleClockReset i (fst (getVirtualMicros m1 s)))))
    with false by (symmetry; apply Z.ltb_ge; destruct Hlast as [E|E]; rewrite E; lia).
  cbn [andb]. rewrite IntFacts.u64_small by lia. lia.
Qed.

Lemma virtual_clock_monotone_across_reset_witness :
  let first := getVirtualMicros 500000000 streaming_at_100Hz in
  let second :=
    getVirtualMicros 200 (handleClockReset (mkResetReadings 0 100 0 100) (fst first)) in
  snd first <= snd second.
Proof.
  apply (virtual_clock_monotone_across_reset streaming_at_100Hz 500000000 200
           (mkResetReadings 0 100 0 100)).
  - unfold Int.in_u32. lia.
  - unfold Int.in_u32. lia.
  - vm_compute. split; [intros E; discriminate E | reflexivity].
  - cbn. lia.
Defined.

(** ** Sequence validation *)

Lemma validator_effect_refl (s : Firmware) : validator_effect s s.
Proof.
  exists (seq_validator s), []. split; [|reflexivity].
  destruct s. cbn. rewrite app_nil_r. reflexivity.
Qed.

Lemma validator_effect_update (s : Firmware) (v : SequenceValidator) :
  validator_effect s (set_seq_validator v s).
Proof.
  exists v, []. split; [|reflexivity].
  destruct s. cbn. rewrite app_nil_r. reflexivity.
Qed.

Lemma validateAndCorrectSequence_result (seq : Z) (s : Firmware) :
  snd (fst (validateAndCorrectSequence seq s)) = true /\
  snd (validateAndCorrectSequence seq s) = seq.
Proof.
  unfold validateAndCorrectSequence.
  repeat match goal with
         | |- context [if ?c then _ else _] => destruct c
         end; split; reflexivity.
Qed.

Lemma validateAndCorrectSequence_effect (seq : Z) (s : Firmware) :
  validator_effect s (fst (fst (validateAndCorrectSequence seq s))).
Proof.
  unfold validateAndCorrectSequence.
  destruct (negb _); [apply validator_effect_refl|].
  destruct (_ && _); [apply validator_effect_update|].
  destruct (seq =? _); [apply validator_effect_update|].
  destruct (_ && _); cbn [fst].
  - eexists _, [_]. split; [reflexivity|reflexivity].
  - eexists _, [_]. split; [reflexivity|reflexivity].
Qed.

(** ** Frame properties of the sample producer

    Which parts of the state the steps of [generatePreciseSample] leave
    alone. *)

Ltac break_if :=
  match goal with
  | |- context [if ?c then _ else _] => destruct c
  end.

(** Replaces the first component [s1] of [E : f x = (s1, v)] by [fst (f x)]. *)
Ltac name_pair E :=
  match type of E with
  | ?call = (?a, ?b) =>
      let Ea := fresh in
      let Eb := fresh in
      assert (Ea : a = fst call) by (rewrite E; reflexivity);
      assert (Eb : b = snd call) by (rewrite E; reflexivity);
      clear E; subst a; subst b
  end.

Lemma getVirtualMicros_timing (m : Z) (s : Firmware) :
  advanced_timing (fst (getVirtualMicros m s)) =
  set_last_micros m
    (if (m <? last_micros (advanced_timing s)) &&
        (Int.u32 (last_micros (advanced_timing s) - m) >? 1000000000)
     then set_virtual_micros_offset
            (Int.u64 (virtual_micros_offset (advanced_timing s) + 4294967296))
            (set_micros_wraparound_count
               (Int.u32 (micros_wraparound_count (advanced_timing s) + 1))
               (advanced_timing s))
     else advanced_timing s).
Proof.
  unfold getVirtualMicros.
  destruct (m <? _); [destruct (_ >? _)|]; reflexivity.
Qed.

Lemma getVirtualMicros_sequence (m : Z) (s : Firmware) :
  sequence (fst (getVirtualMicros m s)) = sequence s.
Proof. unfold getVirtualMicros. repeat break_if; reflexivity. Qed.

Lemma updateTimingReference_sequence (m : Z) (s : Firmware) :
  sequence (updateTimingReference m s) = sequence s.
Proof.
  unfold updateTimingReference.
  destruct (getVirtualMicros m s) as [s1 v] eqn:E. name_pair E.
  cbn. apply getVirtualMicros_sequence.
Qed.

Lemma verifyADCThroughput_sequence (s : Firmware) :
  sequence (fst (verifyADCThroughput s)) = sequence s.
Proof. unfold verifyADCThroughput. repeat break_if; reflexivity. Qed.

Lemma verifyADCThroughput_timing (s : Firmware) :
  advanced_timing (fst (verifyADCThroughput s)) = advanced_timing s.
Proof. unfold verifyADCThroughput. repeat break_if; reflexivity. Qed.

Lemma getPreciseTimestamp_state (m : Z) (s : Firmware) :
  fst (getPreciseTimestamp m s) = fst (getVirtualMicros m s).
Proof.
  unfold getPreciseTimestamp.
  destruct (getVirtualMicros m s) as [s1 v].
  destruct (current_source _); reflexivity.
Qed.

(** The acquisition changes the ADC monitor only. *)
Lemma set_adc_monitor_same (s : Firmware) : set_adc_monitor (adc_monitor s) s = s.
Proof. destruct s; reflexivity. Qed.

Lemma readADC_effect (r : AdcRead) (s : Firmware) :
  exists m, fst (readADC r s) = set_adc_monitor m s.
Proof.
  destruct r; unfold readADC; repeat break_if; eexists; reflexivity.
Qed.

Lemma read_channels_effect (reads : AdcReads) (k : nat) (s : Firmware) :
  exists m, fst (fst (read_channels reads k s)) = set_adc_monitor m s.
Proof.
  unfold read_channels.
  repeat match goal with
         | |- context [readADC ?r ?s0] =>
             let m := fresh "m" in
             let H := fresh "H" in
             let s1 := fresh "s" in
             let a := fresh "a" in
             destruct (readADC_effect r s0) as [m H];
             destruct (readADC r s0) as [s1 a]; cbn [fst] in H; subst s1
         | |- context [if ?c then _ else _] => destruct c
         end;
    eexists; reflexivity.
Qed.

Lemma oversample_effect (reads : AdcReads) (n k : nat) (sums : Z * Z * Z) (s : Firmware) :
  exists m, fst (oversample reads n k sums s) = set_adc_monitor m s.
Proof.
  revert k sums s. induction n as [|n IH]; intros k sums s.
  - exists (adc_monitor s). cbn. symmetry. apply set_adc_monitor_same.
  - cbn [oversample]. destruct sums as [[sum1 sum2] sum3].
    destruct (read_channels_effect reads k s) as [m1 H1].
    destruct (read_channels reads k s) as [[s1 k1] [[a b] c]]. cbn [fst] in H1. subst s1.
    destruct (IH k1 (Int.i32 (sum1 + a), Int.i32 (sum2 + b), Int.i32 (sum3 + c))
                (set_adc_monitor m1 s)) as [m2 H2].
    exists m2. rewrite H2. reflexivity.
Qed.

Lemma acquire_effect (reads : AdcReads) (s : Firmware) :
  exists m, fst (acquire reads s) = set_adc_monitor m s.
Proof.
  unfold acquire. destruct (current_dithering s =? 0).
  - destruct (read_channels_effect reads 0%nat s) as [m H].
    destruct (read_channels reads 0%nat s) as [[s1 k1] values]. exists m. exact H.
  - destruct (oversample_effect reads (Z.to_nat (current_dithering s)) 0%nat (0, 0, 0) s)
      as [m H].
    destruct (oversample _ _ _ _ s) as [s1 [[sum1 sum2] sum3]]. exists m. exact H.
Qed.

Lemma validateAndCorrectSequence_frame (seq : Z) (s : Firmware) :
  let s' := fst (fst (validateAndCorrectSequence seq s)) in
  sequence s' = sequence s /\ advanced_timing s' = advanced_timing s /\
  serial_monitor s' = serial_monitor s /\ compact_output s' = compact_output s.
Proof.
  destruct (validateAndCorrectSequence_effect seq s) as (v & lines & H & _).
  cbv zeta. rewrite H. repeat split; reflexivity.
Qed.

(** The state and the sequence number that [prepareSample] hands to the
    output. *)
Lemma prepareSample_sequence (i : SampleReadings) (s : Firmware) :
  sequence (fst (prepareSample i s)) = sequence s /\
  fst (fst (snd (prepareSample i s))) = sequence s.
Proof.
  unfold prepareSample.
  destruct (getVirtualMicros (entry_micros i) s) as [s1 v1] eqn:E1. name_pair E1.
  set (s2 := if _ >=? _ then _ else _).
  assert (H2 : sequence s2 = sequence s).
  { subst s2. destruct (_ >=? _).
    - rewrite updateTimingReference_sequence. apply getVirtualMicros_sequence.
    - apply getVirtualMicros_sequence. }
  clearbody s2.
  destruct (verifyADCThroughput s2) as [s3 ok] eqn:E3. name_pair E3.
  destruct (getPreciseTimestamp (stamp_micros i) _) as [s4 ts] eqn:E4. name_pair E4.
  rewrite getPreciseTimestamp_state.
  set (s4 := fst (getVirtualMicros _ _)).
  assert (H4 : sequence s4 = sequence s).
  { subst s4. rewrite getVirtualMicros_sequence, verifyADCThroughput_sequence. exact H2. }
  clearbody s4.
  destruct (acquire_effect (adc_reads i) s4) as [m H5].
  destruct (acquire (adc_reads i) s4) as [s5 values]. cbn [fst] in H5. subst s5.
  pose proof (validateAndCorrectSequence_result
                (sequence (set_adc_monitor m s4)) (set_adc_monitor m s4)) as [_ H6].
  destruct (validateAndCorrectSequence _ _) as [[s6 ok6] seq6]. cbn [snd] in H6.
  subst seq6. cbn. rewrite H4. split; reflexivity.
Qed.

(** ** Back-pressure *)

Lemma count_samples_app (l1 l2 : list Line) :
  count_samples (l1 ++ l2) = count_samples l1 + count_samples l2.
Proof.
  unfold count_samples. rewrite filter_app, length_app. lia.
Qed.

Lemma count_oflow_app (l1 l2 : list Line) :
  count_oflow (l1 ++ l2) = count_oflow l1 + count_oflow l2.
Proof.
  unfold count_oflow. rewrite filter_app, length_app. lia.
Qed.

Ltac open_emit e :=
  unfold emit, outputDataWithOverflowProtection, checkSerialBufferOverflow,
    tx_short, oflow_due;
  destruct (em_values e) as [[? ?] ?].

Section OneEmission.

Variable e : Emission.
Variable s : Firmware.

Lemma emit_samples :
  count_samples (serial1 (emit e s)) =
  count_samples (serial1 s) + (if tx_short (em_tx e) then 0 else 1).
Proof.
  open_emit e. destruct (tx_free _ <? 20);
    repeat break_if; cbn; rewrite ?count_samples_app; cbn; lia.
Qed.

Lemma emit_counters :
  buffer_overflows (serial_monitor (emit e s)) =
    (if tx_short (em_tx e) then Int.u32 (buffer_overflows (serial_monitor s) + 1)
     else buffer_overflows (serial_monitor s)) /\
  samples_skipped_due_to_overflow (serial_monitor (emit e s)) =
    (if tx_short (em_tx e)
     then Int.u32 (samples_skipped_due_to_overflow (serial_monitor s) + 1)
     else samples_skipped_due_to_overflow (serial_monitor s)).
Proof.
  open_emit e. destruct (tx_free _ <? 20); repeat break_if; split; reflexivity.
Qed.

Lemma emit_oflow :
  count_oflow (serial1 (emit e s)) =
    count_oflow (serial1 s) + (if tx_short (em_tx e) && oflow_due (em_tx e) s then 1 else 0) /\
  last_oflow_message_time (serial_monitor (emit e s)) =
    (if tx_short (em_tx e) && oflow_due (em_tx e) s then oflow_millis (em_tx e)
     else last_oflow_message_time (serial_monitor s)) /\
  oflow_report_interval_ms (serial_monitor (emit e s)) =
    oflow_report_interval_ms (serial_monitor s).
Proof.
  open_emit e. destruct (tx_free _ <? 20); cbn [andb].
  - destruct (negb _); cbn; destruct (_ >=? _);
      cbn; rewrite ?count_oflow_app; cbn; repeat split; lia.
  - repeat break_if; cbn; rewrite ?count_oflow_app; cbn; repeat split; lia.
Qed.

Lemma emit_warning_flag :
  overflow_warning_sent (serial_monitor (emit e s)) =
    if tx_short (em_tx e) then true
    else if tx_free (em_tx e) >? 50 then false
    else overflow_warning_sent (serial_monitor s).
Proof.
  open_emit e. destruct (tx_free _ <? 20).
  - destruct (overflow_warning_sent (serial_monitor s)) eqn:E;
      cbn; rewrite ?E; cbn; repeat break_if; cbn; rewrite ?E; reflexivity.
  - repeat break_if; reflexivity.
Qed.

End OneEmission.

(** After an [OFLOW] line at time [t1], attempts before [t1 + 1000] print
    none. *)
Lemma emit_all_blocked (run : list Emission) (s : Firmware) :
  oflow_report_interval_ms (serial_monitor s) = 1000 ->
  0 <= last_oflow_message_time (serial_monitor s) ->
  Forall (fun e =>
            last_oflow_message_time (serial_monitor s) <= oflow_millis (em_tx e) <
            last_oflow_message_time (serial_monitor s) + 1000 /\
            oflow_millis (em_tx e) < 2 ^ 32) run ->
  count_oflow (serial1 (emit_all run s)) = count_oflow (serial1 s).
Proof.
  revert s. induction run as [|e run IH]; intros s Hi Ht Hall; [reflexivity|].
  inversion Hall as [|e' run' He Hrest]; subst.
  destruct (emit_oflow e s) as (Hc & Hl & Hi').
  assert (Hdue : oflow_due (em_tx e) s = false).
  { unfold oflow_due. rewrite Hi, IntFacts.u32_small by lia.
    rewrite Z.geb_leb. apply Z.leb_gt. lia. }
  rewrite Hdue, andb_false_r in Hc, Hl.
  cbn [emit_all fold_left]. change (fold_left _ run (emit e s)) with (emit_all run (emit e s)).
  rewrite IH; [lia | congruence | congruence |].
  rewrite Hl. exact Hrest.
Qed.

Lemma ascending_from_lower (t : Z) (l : list Z) :
  ascending_from t l = true -> Forall (fun x => t <= x) l.
Proof.
  revert t. induction l as [|x l IH]; intros t H; [constructor|].
  cbn in H. apply andb_true_iff in H. destruct H as [Hx Hl].
  apply Z.leb_le in Hx. constructor; [exact Hx|].
  eapply Forall_impl; [|apply IH; exact Hl]. cbn. intros; lia.
Qed.

(** In a run whose rate-limit readings ascend from [lo] and stay below
    [lo + 1000], at most one [OFLOW] line is printed. *)
Lemma emit_all_window (run : list Emission) (s : Firmware) (lo hi : Z) :
  oflow_report_interval_ms (serial_monitor s) = 1000 ->
  0 <= lo -> hi <= lo + 1000 -> hi <= 2 ^ 32 ->
  ascending_from lo (times run) = true ->
  Forall (fun t => t < hi) (times run) ->
  count_oflow (serial1 (emit_all run s)) <= count_oflow (serial1 s) + 1.
Proof.
  revert s lo. induction run as [|e run IH]; intros s lo Hi Hlo Hhi H32 Hasc Hall.
  - cbn. lia.
  - cbn in Hasc. apply andb_true_iff in Hasc. destruct Hasc as [Hle Hasc].
    apply Z.leb_le in Hle. cbn in Hall. inversion Hall as [|t l Ht Hrest]; subst.
    destruct (emit_oflow e s) as (Hc & Hl & Hi').
    cbn [emit_all fold_left].
    change (fold_left _ run (emit e s)) with (emit_all run (emit e s)).
    destruct (tx_short (em_tx e) && oflow_due (em_tx e) s).
    + rewrite emit_all_blocked; [lia | congruence | lia |].
      rewrite Hl. apply ascending_from_lower in Hasc.
      unfold times in Hasc, Hrest. rewrite Forall_map in Hasc, Hrest.
      rewrite Forall_forall in *. intros x Hx.
      specialize (Hasc x Hx). specialize (Hrest x Hx). cbn in *. lia.
    + specialize (IH (emit e s) (oflow_millis (em_tx e))).
      rewrite Z.add_0_r in Hc. rewrite <- Hc.
      apply IH; try assumption; try lia; congruence.
Qed.

(** C7: on every attempted emission the sample is dropped exactly when
    [availableForWrite()] is below 20; then both counters are incremented
    and an [OFLOW] line is printed only if the report interval has elapsed
    since the last one, whose time is then reset, so that over any run of
    attempts spanning less than a second at most one [OFLOW] line appears;
    and above 50 free bytes the one-shot warning is rearmed. *)
Theorem backpressure_drop_and_report (e : Emission) (s : Firmware) (run : list Emission) :
  let m := serial_monitor s in
  let m' := serial_monitor (emit e s) in
  count_samples (serial1 (emit e s)) =
    count_samples (serial1 s) + (if tx_free (em_tx e) <? 20 then 0 else 1) /\
  buffer_overflows m' =
    (if tx_free (em_tx e) <? 20 then Int.u32 (buffer_overflows m + 1)
     else buffer_overflows m) /\
  samples_skipped_due_to_overflow m' =
    (if tx_free (em_tx e) <? 20 then Int.u32 (samples_skipped_due_to_overflow m + 1)
     else samples_skipped_due_to_overflow m) /\
  count_oflow (serial1 (emit e s)) =
    count_oflow (serial1 s) +
    (if (tx_free (em_tx e) <? 20) && oflow_due (em_tx e) s then 1 else 0) /\
  last_oflow_message_time m' =
    (if (tx_free (em_tx e) <? 20) && oflow_due (em_tx e) s then oflow_millis (em_tx e)
     else last_oflow_message_time m) /\
  (50 < tx_free (em_tx e) -> overflow_warning_sent m' = false) /\
  (oflow_report_interval_ms m = 1000 -> within_one_second run = true ->
   count_oflow (serial1 (emit_all run s)) <= count_oflow (serial1 s) + 1).
Proof.
  cbv zeta.
  pose proof (emit_samples e s) as Hs. pose proof (emit_counters e s) as [Hb Hk].
  pose proof (emit_oflow e s) as (Hc & Hl & _).
  pose proof (emit_warning_flag e s) as Hw. unfold tx_short in *.
  repeat split; try assumption.
  - intros H50. rewrite Hw.
    destruct (tx_free (em_tx e) <? 20) eqn:H20.
    + apply Z.ltb_lt in H20. lia.
    + rewrite Z.gtb_ltb. apply Z.ltb_lt in H50. rewrite H50. reflexivity.
  - intros Hi Hrun. unfold within_one_second in Hrun.
    destruct (times run) as [|t0 rest] eqn:Et.
    + destruct run; [cbn; lia | discriminate Et].
    + repeat (apply andb_true_iff in Hrun; destruct Hrun as [Hrun ?]).
      apply Z.leb_le in Hrun.
      match goal with H : (t0 <? 2 ^ 32) = true |- _ => apply Z.ltb_lt in H end.
      apply (emit_all_window run s t0 (Z.min (t0 + 1000) (2 ^ 32))); try lia; try assumption.
      * rewrite Et. cbn. rewrite Z.leb_refl. assumption.
      * rewrite Et. constructor; [lia|].
        match goal with H : forallb _ rest = true |- _ => rewrite forallb_forall in H;
          rename H into Hall end.
        apply Forall_forall. intros x Hx. specialize (Hall x Hx).
        apply andb_true_iff in Hall. destruct Hall as [Ha Hb'].
        apply Z.ltb_lt in Ha, Hb'. lia.
Qed.

Lemma backpressure_drop_and_report_witness :
  overflow_warning_sent (serial_monitor (emit (emission_at 60 1000) booted)) = false /\
  count_oflow
    (serial1 (emit_all [emission_at 10 1000; emission_at 10 1300; emission_at 10 1900]
                booted))
  <= count_oflow (serial1 booted) + 1.
Proof.
  destruct (backpressure_drop_and_report (emission_at 60 1000) booted
              [emission_at 10 1000; emission_at 10 1300; emission_at 10 1900])
    as (_ & _ & _ & _ & _ & Hw & Hr).
  split.
  - apply Hw. vm_compute. reflexivity.
  - apply Hr; vm_compute; reflexivity.
Defined.

(** ** The sample is emitted whatever the validator finds *)

Lemma generatePreciseSample_serial (i : SampleReadings) (s : Firmware) :
  20 <= tx_free (tx i) ->
  exists line,
    sample_seq line = Some (sequence s) /\
    serial1 (generatePreciseSample i s) = serial1 (fst (prepareSample i s)) ++ [line].
Proof.
  intros H20. unfold generatePreciseSample.
  pose proof (prepareSample_sequence i s) as [_ Hq].
  destruct (prepareSample i s) as [s1 [[q ts] [[a b] c]]]. cbn [fst snd] in Hq. subst q.
  unfold outputDataWithOverflowProtection, checkSerialBufferOverflow.
  assert (E : (tx_free (tx i) <? 20) = false) by (apply Z.ltb_ge; exact H20).
  rewrite E. cbn [fst].
  repeat break_if; eexists; (split; [|reflexivity]); reflexivity.
Qed.

(** C10: [validateAndCorrectSequence] returns true and leaves its argument
    as it was, for every validator state and every sequence value; it
    changes the validator and prints sequence reports, nothing else; and
    [generatePreciseSample] hands the unchanged sequence number to the
    output, which prints the sample whenever the TX buffer has room. *)
Theorem validation_never_suppresses (seq : Z) (i : SampleReadings) (s : Firmware) :
  let r := validateAndCorrectSequence seq s in
  snd (fst r) = true /\
  snd r = seq /\
  validator_effect s (fst (fst r)) /\
  fst (fst (snd (prepareSample i s))) = sequence s /\
  (20 <= tx_free (tx i) ->
   exists line,
     sample_seq line = Some (sequence s) /\
     serial1 (generatePreciseSample i s) = serial1 (fst (prepareSample i s)) ++ [line]).
Proof.
  cbv zeta. pose proof (validateAndCorrectSequence_result seq s) as [Ht Hs].
  repeat split; try assumption.
  - apply validateAndCorrectSequence_effect.
  - apply prepareSample_sequence.
  - apply generatePreciseSample_serial.
Qed.

Lemma validation_never_suppresses_witness :
  exists line,
    sample_seq line = Some (sequence (set_sequence 7 booted)) /\
    serial1 (generatePreciseSample (sample_at 20000 64) (set_sequence 7 booted)) =
    serial1 (fst (prepareSample (sample_at 20000 64) (set_sequence 7 booted))) ++ [line].
Proof.
  destruct (validation_never_suppresses 7 (sample_at 20000 64) (set_sequence 7 booted))
    as (_ & _ & _ & _ & H).
  apply H. vm_compute. intros E. discriminate E.
Defined.

(** ** Sequence number and sample index *)

Lemma getVirtualMicros_blind {A : Type} (f : AdvancedTiming -> A) (m : Z) (s : Firmware) :
  clock_blind f ->
  f (advanced_timing (fst (getVirtualMicros m s))) = f (advanced_timing s).
Proof.
  intros (Hl & Ho & Hw). rewrite getVirtualMicros_timing, Hl.
  destruct (_ && _); [rewrite Ho, Hw|]; reflexivity.
Qed.

Ltac blind := repeat split; intros; reflexivity.

Lemma acquire_timing (reads : AdcReads) (s : Firmware) :
  advanced_timing (fst (acquire reads s)) = advanced_timing s.
Proof. destruct (acquire_effect reads s) as [m H]. rewrite H. reflexivity. Qed.

Lemma prepareSample_blind {A : Type} (f : AdvancedTiming -> A) (i : SampleReadings)
    (s : Firmware) :
  clock_blind f ->
  sample_index (advanced_timing s) < reference_update_interval (advanced_timing s) ->
  f (advanced_timing (fst (prepareSample i s))) = f (advanced_timing s).
Proof.
  intros Hf Hlt. unfold prepareSample.
  destruct (getVirtualMicros (entry_micros i) s) as [s1 v1] eqn:E1. name_pair E1.
  rewrite (getVirtualMicros_blind sample_index), (getVirtualMicros_blind reference_update_interval)
    by blind.
  destruct (_ >=? _) eqn:E; [apply Z.geb_le in E; lia|]. clear E.
  destruct (verifyADCThroughput _) as [s3 ok] eqn:E3. name_pair E3.
  destruct (getPreciseTimestamp (stamp_micros i) _) as [s4 ts] eqn:E4. name_pair E4.
  rewrite getPreciseTimestamp_state.
  pose proof (acquire_timing (adc_reads i)
                (fst (getVirtualMicros (stamp_micros i)
                        (fst (verifyADCThroughput
                                (fst (getVirtualMicros (entry_micros i) s))))))) as H5.
  destruct (acquire _ _) as [s5 values]. cbn [fst] in H5.
  pose proof (validateAndCorrectSequence_frame (sequence s5) s5) as (_ & H6 & _).
  cbv zeta in H6.
  destruct (validateAndCorrectSequence _ _) as [[s6 ok6] seq6]. cbn [fst] in H6 |- *.
  change (advanced_timing (set_sequence seq6 s6)) with (advanced_timing s6).
  rewrite H6, H5, getVirtualMicros_blind, verifyADCThroughput_timing by assumption.
  apply getVirtualMicros_blind. assumption.
Qed.

Lemma output_frame (i : TxReadings) (seq ts src : Z) (acc : float) (v1 v2 v3 : Z)
    (s : Firmware) :
  let s' := outputDataWithOverflowProtection i seq ts src acc v1 v2 v3 s in
  sequence s' = sequence s /\ advanced_timing s' = advanced_timing s.
Proof.
  cbv zeta. unfold outputDataWithOverflowProtection, checkSerialBufferOverflow.
  repeat break_if; split; reflexivity.
Qed.

(** One firing without rebase: what is emitted, and the counters after. *)
Lemma generatePreciseSample_counters (i : SampleReadings) (s : Firmware) :
  sample_index (advanced_timing s) < reference_update_interval (advanced_timing s) ->
  let s' := generatePreciseSample i s in
  sample_index (advanced_timing s') = Int.u64 (sample_index (advanced_timing s) + 1) /\
  reference_update_interval (advanced_timing s') =
    reference_update_interval (advanced_timing s) /\
  sequence s' = Int.u16 ((sequence s + 1) mod 65536).
Proof.
  intros Hlt. cbv zeta. unfold generatePreciseSample.
  pose proof (prepareSample_blind sample_index i s ltac:(blind) Hlt) as Hi.
  pose proof (prepareSample_blind reference_update_interval i s ltac:(blind) Hlt) as Hr.
  pose proof (prepareSample_sequence i s) as [Hs _].
  destruct (prepareSample i s) as [s1 [[q ts] [[a b] c]]]. cbn [fst] in Hi, Hr, Hs.
  pose proof (output_frame (tx i) q ts (source_code (current_source (advanced_timing s1)))
                (timing_accuracy_us (advanced_timing s1)) a b c s1) as [Ho1 Ho2].
  set (s2 := outputDataWithOverflowProtection _ _ _ _ _ _ _ _ _) in *. clearbody s2.
  break_if; cbn; rewrite Ho1, Ho2, Hi, Hr, Hs; repeat split; reflexivity.
Qed.

(** C1, as stated, fails: in the run [after_clock_reset] (a stream of three
    samples, then a handled clock reset) the next sample carries sequence
    number 3 while [sample_index] is 0 at its emission. *)
Lemma seq_not_index_after_reset :
  emissions [sample_at 10100 64] after_clock_reset = [(3, 0)] /\
  ~ Forall seq_is_index (emissions [sample_at 10100 64] after_clock_reset).
Proof.
  assert (E : emissions [sample_at 10100 64] after_clock_reset = [(3, 0)])
    by (vm_compute; reflexivity).
  split; [exact E|]. rewrite E. intros H. inversion H as [|x l Hx Hl]; subst.
  unfold seq_is_index in Hx. cbn in Hx. discriminate Hx.
Qed.

(** Firings back to back: from a state where the two counters agree,
    every emission carries [sample_index mod 65536] as long as
    [sample_index] stays below [reference_update_interval] (no rebase).
    Whole runs, with the main loop, commands and PPS interrupts between
    the firings, are treated further down. *)
Lemma seq_tracks_index_until_rebase (run : list SampleReadings) (s : Firmware) :
  seq_tracks_index s ->
  0 <= sample_index (advanced_timing s) ->
  sample_index (advanced_timing s) + Z.of_nat (List.length run)
    <= reference_update_interval (advanced_timing s) ->
  reference_update_interval (advanced_timing s) < 2 ^ 64 ->
  Forall seq_is_index (emissions run s).
Proof.
  revert s. induction run as [|i run IH]; intros s Hinv H0 Hn HR; [constructor|].
  cbn [List.length] in Hn. rewrite Nat2Z.inj_succ in Hn.
  assert (Hlt : sample_index (advanced_timing s) < reference_update_interval (advanced_timing s))
    by lia.
  cbn [emissions]. constructor.
  - unfold seq_is_index. cbn [fst snd].
    destruct (prepareSample_sequence i s) as [_ Hq]. rewrite Hq.
    rewrite (prepareSample_blind sample_index) by (assumption || blind). exact Hinv.
  - destruct (generatePreciseSample_counters i s Hlt) as (Hi & Hr & Hs).
    assert (Hi' : sample_index (advanced_timing (generatePreciseSample i s)) =
                  sample_index (advanced_timing s) + 1).
    { rewrite Hi. apply IntFacts.u64_small. lia. }
    apply IH.
    + unfold seq_tracks_index in *. rewrite Hs, Hi', Hinv.
      rewrite IntFacts.u16_small by (apply Z.mod_pos_bound; lia).
      apply Z.add_mod_idemp_l. lia.
    + lia.
    + rewrite Hi', Hr. lia.
    + rewrite Hr. exact HR.
Qed.

Lemma seq_tracks_index_until_rebase_witness :
  Forall seq_is_index
    (emissions [sample_at 5000000 64; sample_at 5010000 10; sample_at 5020000 64]
       (processLine (mkCommandReadings 4995000 4995 4995 64) (START_STREAM (F32.of_Z 100))
          booted)).
Proof.
  apply seq_tracks_index_until_rebase.
  - vm_compute. reflexivity.
  - vm_compute. intros E. discriminate E.
  - vm_compute. intros E. discriminate E.
  - vm_compute. reflexivity.
Defined.

(** What breaks the agreement: a rebase zeroes [sample_index] and keeps
    [sequence]. *)
Lemma rebase_resets_index_only (m : Z) (s : Firmware) :
  sample_index (advanced_timing (updateTimingReference m s)) = 0 /\
  sequence (updateTimingReference m s) = sequence s.
Proof.
  split; [|apply updateTimingReference_sequence].
  unfold updateTimingReference. destruct (getVirtualMicros m s) as [s1 v]. reflexivity.
Qed.

(** ** Timing-quality state machine *)

Lemma classifyTimingSource_quality (now_ms : Z) (s : Firmware) :
  let t := advanced_timing s in
  let t' := advanced_timing (classifyTimingSource now_ms s) in
  (current_source t', timing_accuracy_us t') =
  spec_quality (pps_valid t) (calibration_valid t) (pps_age now_ms t)
    (recent_reset now_ms t).
Proof.
  cbv zeta. unfold classifyTimingSource, spec_quality, quality_table, first_row,
    accuracy_after, pps_age, recent_reset.
  destruct (pps_valid (advanced_timing s)), (calibration_valid (advanced_timing s)),
    (clock_reset_detected (advanced_timing s) && _);
    cbn [andb negb];
    repeat match goal with
           | |- context [?a <? ?b] =>
               lazymatch b with
               | 1500 => destruct (a <? b)
               | 60000 => destruct (a <? b)
               | 300000 => destruct (a <? b)
               end
           end;
    cbn [andb negb]; repeat break_if; reflexivity.
Qed.

(** C5: after [updateTimingSource], state and accuracy are the value of
    the specification's table at [pps_valid], [cal_valid], the PPS age and
    the recent-reset flag, all taken after the function has handled a
    clock reset and consumed a pending PPS edge. *)
Theorem timing_quality_is_table (i : TickReadings) (s : Firmware) :
  let t := advanced_timing (updateTimingSource_events i s) in
  let t' := advanced_timing (updateTimingSource i s) in
  (current_source t', timing_accuracy_us t') =
  spec_quality (pps_valid t) (calibration_valid t) (pps_age (tick_millis i) t)
    (recent_reset (tick_millis i) t).
Proof.
  cbv zeta. unfold updateTimingSource. apply classifyTimingSource_quality.
Qed.

(** The thresholds of the table: 1.5 s, 60 s and 300 s after the last edge. *)
Lemma quality_thresholds :
  fst (spec_quality true true 1499 false) = TIMING_PPS_ACTIVE /\
  fst (spec_quality true true 1500 false) = TIMING_PPS_HOLDOVER /\
  fst (spec_quality true true 59999 false) = TIMING_PPS_HOLDOVER /\
  fst (spec_quality true true 60000 false) = TIMING_INTERNAL_CAL /\
  fst (spec_quality true true 299999 false) = TIMING_INTERNAL_CAL /\
  fst (spec_quality true true 300000 false) = TIMING_INTERNAL_RAW /\
  spec_quality true true 0 true = (TIMING_INTERNAL_RAW, F32.of_Z 2000).
Proof. repeat split; reflexivity. Qed.

(** ** Establishing the sampling grid *)

(** C9, as stated, fails on the accumulator: a stream restarted after
    [stopped_mid_phase] is established with [phase_acc_us] still at 0.5. *)
Lemma establish_keeps_phase_acc :
  let s' := establishSamplingTiming 6000010 stopped_mid_phase in
  phase_acc_us (advanced_timing s') = F64.lit 1 2 /\
  is_zero (phase_acc_us (advanced_timing s')) = false.
Proof. cbv zeta. split; vm_compute; reflexivity. Qed.

(** C9 (amended): after [establishSamplingTiming] the timing base is the
    least multiple of the sample interval strictly above the virtual time
    that the function read, [next_sample_micros] equals that base and
    [sample_index] is 0; [phase_acc_us] is left as it was (it is zero at
    the first start after boot, not after a stopped stream).  The interval
    is positive and fits 32 bits, and the base fits 64 bits. *)
Theorem establish_snaps_to_next_boundary (now_us : Z) (s : Firmware) :
  let interval := sample_interval_us (advanced_timing s) in
  let now := snd (getVirtualMicros now_us s) in
  let t' := advanced_timing (establishSamplingTiming now_us s) in
  0 < interval < 2 ^ 32 ->
  now + interval < 2 ^ 64 ->
  timing_base_micros t' mod interval = 0 /\
  now < timing_base_micros t' <= now + interval /\
  next_sample_micros t' = timing_base_micros t' /\
  sample_index t' = 0 /\
  timing_established t' = true /\
  phase_acc_us t' = phase_acc_us (advanced_timing s).
Proof.
  cbv zeta. intros HI Hfit. unfold establishSamplingTiming.
  pose proof (getVirtualMicros_blind sample_interval_us now_us s ltac:(blind)) as Hint.
  pose proof (getVirtualMicros_blind phase_acc_us now_us s ltac:(blind)) as Hacc.
  assert (Hnow : 0 <= snd (getVirtualMicros now_us s) < 2 ^ 64).
  { rewrite getVirtualMicros_value. apply IntFacts.u64_range. }
  destruct (getVirtualMicros now_us s) as [s1 now]. cbn [fst snd] in *.
  cbn. rewrite Hint, Hacc.
  set (I := sample_interval_us (advanced_timing s)) in *. clearbody I.
  pose proof (Z.mod_pos_bound now I ltac:(lia)) as Hmod.
  rewrite (IntFacts.u32_small (now mod I)) by lia.
  rewrite (IntFacts.u64_small (I - now mod I)) by lia.
  rewrite (IntFacts.u64_small (now + (I - now mod I))) by lia.
  repeat split; try lia.
  replace (now + (I - now mod I)) with (I * (now / I) + 1 * I)
    by (pose proof (Z.div_mod now I ltac:(lia)); lia).
  rewrite Z.mod_add by lia. rewrite Z.mul_comm. apply Z.mod_mul. lia.
Qed.

Lemma establish_snaps_to_next_boundary_witness :
  let t' := advanced_timing (establishSamplingTiming 4995123 booted) in
  timing_base_micros t' mod 10000 = 0 /\
  4995123 < timing_base_micros t' <= 4995123 + 10000 /\
  next_sample_micros t' = timing_base_micros t' /\
  sample_index t' = 0 /\
  timing_established t' = true /\
  phase_acc_us t' = phase_acc_us (advanced_timing booted).
Proof.
  apply (establish_snaps_to_next_boundary 4995123 booted).
  - vm_compute. split; reflexivity.
  - vm_compute. reflexivity.
Defined.

(** ** Only [generatePreciseSample] prints samples *)

Lemma serial1_timing (f : AdvancedTiming -> AdvancedTiming) (s : Firmware) :
  serial1 (timing f s) = serial1 s.
Proof. reflexivity. Qed.

Lemma count_samples_println (l : Line) (s : Firmware) :
  count_samples (serial1 (println l s)) =
  count_samples (serial1 s) + (if is_sample l then 1 else 0).
Proof.
  cbn [println serial1 set_serial1]. rewrite count_samples_app.
  unfold count_samples. cbn. destruct (is_sample l); cbn; lia.
Qed.

Lemma no_new_sample_refl (s : Firmware) : no_new_sample s s.
Proof. reflexivity. Qed.

Lemma no_new_sample_trans (s1 s2 s3 : Firmware) :
  no_new_sample s1 s2 -> no_new_sample s2 s3 -> no_new_sample s1 s3.
Proof. unfold no_new_sample. intros H1 H2. rewrite H2. exact H1. Qed.

Create HintDb quiet.

Lemma quiet_same (s0 s s' : Firmware) :
  serial1 s' = serial1 s -> no_new_sample s0 s -> no_new_sample s0 s'.
Proof. unfold no_new_sample. intros E H. rewrite E. exact H. Qed.

Lemma quiet_println (l : Line) (s0 s : Firmware) :
  is_sample l = false -> no_new_sample s0 s -> no_new_sample s0 (println l s).
Proof.
  unfold no_new_sample. intros E H. rewrite count_samples_println, E, H. lia.
Qed.

Section QuietSetters.

Variables s0 s : Firmware.
Hypothesis H : no_new_sample s0 s.

Lemma quiet_timing f : no_new_sample s0 (timing f s).
Proof. exact (quiet_same s0 s _ eq_refl H). Qed.

Lemma quiet_monitor f : no_new_sample s0 (monitor f s).
Proof. exact (quiet_same s0 s _ eq_refl H). Qed.

Lemma quiet_validator f : no_new_sample s0 (validator f s).
Proof. exact (quiet_same s0 s _ eq_refl H). Qed.

Lemma quiet_session f : no_new_sample s0 (session f s).
Proof. exact (quiet_same s0 s _ eq_refl H). Qed.

Lemma quiet_adc_mon f : no_new_sample s0 (adc_mon f s).
Proof. exact (quiet_same s0 s _ eq_refl H). Qed.

Lemma quiet_set_sequence v : no_new_sample s0 (set_sequence v s).
Proof. exact (quiet_same s0 s _ eq_refl H). Qed.

Lemma quiet_set_streaming v : no_new_sample s0 (set_streaming v s).
Proof. exact (quiet_same s0 s _ eq_refl H). Qed.

Lemma quiet_set_stream_rate v : no_new_sample s0 (set_stream_rate v s).
Proof. exact (quiet_same s0 s _ eq_refl H). Qed.

Lemma quiet_set_compact_output v : no_new_sample s0 (set_compact_output v s).
Proof. exact (quiet_same s0 s _ eq_refl H). Qed.

Lemma quiet_set_degradation_warned v : no_new_sample s0 (set_degradation_warned v s).
Proof. exact (quiet_same s0 s _ eq_refl H). Qed.

Lemma quiet_set_reset_warned v : no_new_sample s0 (set_reset_warned v s).
Proof. exact (quiet_same s0 s _ eq_refl H). Qed.

Lemma quiet_set_eeprom v : no_new_sample s0 (set_eeprom v s).
Proof. exact (quiet_same s0 s _ eq_refl H). Qed.

Lemma quiet_set_current_adc_rate v : no_new_sample s0 (set_current_adc_rate v s).
Proof. exact (quiet_same s0 s _ eq_refl H). Qed.

Lemma quiet_set_current_adc_gain v : no_new_sample s0 (set_current_adc_gain v s).
Proof. exact (quiet_same s0 s _ eq_refl H). Qed.

Lemma quiet_set_current_adc_filter v : no_new_sample s0 (set_current_adc_filter v s).
Proof. exact (quiet_same s0 s _ eq_refl H). Qed.

Lemma quiet_set_current_dithering v : no_new_sample s0 (set_current_dithering v s).
Proof. exact (quiet_same s0 s _ eq_refl H). Qed.

Lemma quiet_set_num_channels v : no_new_sample s0 (set_num_channels v s).
Proof. exact (quiet_same s0 s _ eq_refl H). Qed.

Lemma quiet_set_adc_monitor v : no_new_sample s0 (set_adc_monitor v s).
Proof. exact (quiet_same s0 s _ eq_refl H). Qed.

Lemma quiet_set_serial_monitor v : no_new_sample s0 (set_serial_monitor v s).
Proof. exact (quiet_same s0 s _ eq_refl H). Qed.

Lemma quiet_set_seq_validator v : no_new_sample s0 (set_seq_validator v s).
Proof. exact (quiet_same s0 s _ eq_refl H). Qed.

Lemma quiet_set_session_tracker v : no_new_sample s0 (set_session_tracker v s).
Proof. exact (quiet_same s0 s _ eq_refl H). Qed.

End QuietSetters.

#[export] Hint Resolve no_new_sample_refl quiet_println quiet_timing quiet_monitor
  quiet_validator quiet_session quiet_adc_mon quiet_set_sequence quiet_set_streaming
  quiet_set_stream_rate quiet_set_compact_output quiet_set_degradation_warned
  quiet_set_reset_warned quiet_set_eeprom quiet_set_current_adc_rate
  quiet_set_current_adc_gain quiet_set_current_adc_filter quiet_set_current_dithering
  quiet_set_num_channels quiet_set_adc_monitor quiet_set_serial_monitor
  quiet_set_seq_validator quiet_set_session_tracker : quiet.
#[export] Hint Extern 1 (is_sample _ = false) => reflexivity : quiet.

(** Closes [no_new_sample s0 (F ... s)] once [F] is unfolded: conditionals
    are split, calls that return a pair are named, and the updates are
    peeled off with the lemmas of the [quiet] database. *)
Ltac name_calls :=
  repeat match goal with
         | |- context [let '(_, _) := ?call in _] =>
             let E := fresh "E" in
             destruct call as [? ?] eqn:E; name_pair E
         end.

Ltac quiet := repeat (break_if || name_calls); cbn [fst snd]; auto 80 with quiet.

Lemma getVirtualMicros_quiet (m : Z) (s0 s : Firmware) :
  no_new_sample s0 s -> no_new_sample s0 (fst (getVirtualMicros m s)).
Proof. intros H. unfold getVirtualMicros. quiet. Qed.
#[export] Hint Resolve getVirtualMicros_quiet : quiet.

Lemma detectClockReset_quiet (us ms : Z) (s0 s : Firmware) :
  no_new_sample s0 s -> no_new_sample s0 (fst (detectClockReset us ms s)).
Proof. intros H. unfold detectClockReset. quiet. Qed.
#[export] Hint Resolve detectClockReset_quiet : quiet.

Lemma handleClockReset_quiet (i : ResetReadings) (s0 s : Firmware) :
  no_new_sample s0 s -> no_new_sample s0 (handleClockReset i s).
Proof. intros H. unfold handleClockReset. quiet. Qed.
#[export] Hint Resolve handleClockReset_quiet : quiet.

Lemma sendSessionHeader_quiet (ms : Z) (s0 s : Firmware) :
  no_new_sample s0 s -> no_new_sample s0 (sendSessionHeader ms s).
Proof. intros H. unfold sendSessionHeader. quiet. Qed.
#[export] Hint Resolve sendSessionHeader_quiet : quiet.

Lemma clampOscillatorCalibration_quiet (s0 s : Firmware) :
  no_new_sample s0 s -> no_new_sample s0 (clampOscillatorCalibration s).
Proof. intros H. unfold clampOscillatorCalibration. quiet. Qed.
#[export] Hint Resolve clampOscillatorCalibration_quiet : quiet.

Lemma saveOscillatorCalibration_quiet (s0 s : Firmware) :
  no_new_sample s0 s -> no_new_sample s0 (saveOscillatorCalibration s).
Proof. intros H. unfold saveOscillatorCalibration. quiet. Qed.
#[export] Hint Resolve saveOscillatorCalibration_quiet : quiet.

Lemma learn_temperature_quiet (s0 s : Firmware) :
  no_new_sample s0 s -> no_new_sample s0 (learn_temperature s).
Proof. intros H. unfold learn_temperature. quiet. Qed.
#[export] Hint Resolve learn_temperature_quiet : quiet.

Lemma pps_calibrate_quiet (m : Z) (s0 s : Firmware) :
  no_new_sample s0 s -> no_new_sample s0 (pps_calibrate m s).
Proof. intros H. unfold pps_calibrate. quiet. Qed.
#[export] Hint Resolve pps_calibrate_quiet : quiet.

Lemma pps_phase_nudge_quiet (m : Z) (s0 s : Firmware) :
  no_new_sample s0 s -> no_new_sample s0 (pps_phase_nudge m s).
Proof. intros H. unfold pps_phase_nudge. quiet. Qed.
#[export] Hint Resolve pps_phase_nudge_quiet : quiet.

Lemma pps_phase_lock_quiet (m : Z) (s0 s : Firmware) :
  no_new_sample s0 s -> no_new_sample s0 (pps_phase_lock m s).
Proof. intros H. unfold pps_phase_lock. quiet. Qed.
#[export] Hint Resolve pps_phase_lock_quiet : quiet.

Lemma pps_begin_streaming_quiet (m : Z) (i : PpsReadings) (b : bool) (s0 s : Firmware) :
  no_new_sample s0 s -> no_new_sample s0 (pps_begin_streaming m i b s).
Proof. intros H. unfold pps_begin_streaming. quiet. Qed.
#[export] Hint Resolve pps_begin_streaming_quiet : quiet.

Lemma pps_locked_start_quiet (m : Z) (i : PpsReadings) (s0 s : Firmware) :
  no_new_sample s0 s -> no_new_sample s0 (pps_locked_start m i s).
Proof. intros H. unfold pps_locked_start. quiet. Qed.
#[export] Hint Resolve pps_locked_start_quiet : quiet.

Lemma processPPS_accept_quiet (m : Z) (i : PpsReadings) (s0 s : Firmware) :
  no_new_sample s0 s -> no_new_sample s0 (processPPS_accept m i s).
Proof. intros H. unfold processPPS_accept. quiet. Qed.
#[export] Hint Resolve processPPS_accept_quiet : quiet.

Lemma processPPS_quiet (i : PpsReadings) (s0 s : Firmware) :
  no_new_sample s0 s -> no_new_sample s0 (processPPS i s).
Proof. intros H. unfold processPPS. quiet. Qed.
#[export] Hint Resolve processPPS_quiet : quiet.

Lemma classifyTimingSource_quiet (ms : Z) (s0 s : Firmware) :
  no_new_sample s0 s -> no_new_sample s0 (classifyTimingSource ms s).
Proof. intros H. unfold classifyTimingSource. quiet. Qed.
#[export] Hint Resolve classifyTimingSource_quiet : quiet.

Lemma updateTimingSource_quiet (i : TickReadings) (s0 s : Firmware) :
  no_new_sample s0 s -> no_new_sample s0 (updateTimingSource i s).
Proof. intros H. unfold updateTimingSource, updateTimingSource_events. quiet. Qed.
#[export] Hint Resolve updateTimingSource_quiet : quiet.

Lemma sendHealthBeacon_quiet (ms : Z) (s0 s : Firmware) :
  no_new_sample s0 s -> no_new_sample s0 (sendHealthBeacon ms s).
Proof. intros H. unfold sendHealthBeacon. quiet. Qed.
#[export] Hint Resolve sendHealthBeacon_quiet : quiet.

Lemma updateTemperatureCompensation_quiet (s0 s : Firmware) :
  no_new_sample s0 s -> no_new_sample s0 (updateTemperatureCompensation s).
Proof.
  intros H. unfold updateTemperatureCompensation.
  destruct (current_source (advanced_timing s)); quiet.
Qed.
#[export] Hint Resolve updateTemperatureCompensation_quiet : quiet.

Lemma establishSamplingTiming_quiet (m : Z) (s0 s : Firmware) :
  no_new_sample s0 s -> no_new_sample s0 (establishSamplingTiming m s).
Proof. intros H. unfold establishSamplingTiming. quiet. Qed.
#[export] Hint Resolve establishSamplingTiming_quiet : quiet.

Lemma updateTimingReference_quiet (m : Z) (s0 s : Firmware) :
  no_new_sample s0 s -> no_new_sample s0 (updateTimingReference m s).
Proof. intros H. unfold updateTimingReference. quiet. Qed.
#[export] Hint Resolve updateTimingReference_quiet : quiet.

Lemma isRateChangeAllowed_quiet (r : float) (s0 s : Firmware) :
  no_new_sample s0 s -> no_new_sample s0 (fst (isRateChangeAllowed r s)).
Proof.
  intros H. unfold isRateChangeAllowed.
  destruct (current_source (advanced_timing s)); quiet.
Qed.
#[export] Hint Resolve isRateChangeAllowed_quiet : quiet.

Lemma processLine_quiet (i : CommandReadings) (c : Command) (s0 s : Firmware) :
  no_new_sample s0 s -> no_new_sample s0 (processLine i c s).
Proof.
  intros H. destruct c; unfold processLine, or_already_streaming, while_stopped;
    try match goal with
        | p : option (float * Z) |- _ => destruct p as [[? ?]|]
        end;
    quiet.
Qed.
#[export] Hint Resolve processLine_quiet : quiet.

Lemma process_lines_quiet (cs : list (CommandReadings * Command)) (s0 s : Firmware) :
  no_new_sample s0 s -> no_new_sample s0 (process_lines cs s).
Proof.
  revert s. induction cs as [|c cs IH]; intros s H; [exact H|].
  cbn [process_lines fold_left]. apply IH. auto with quiet.
Qed.
#[export] Hint Resolve process_lines_quiet : quiet.

Lemma loop_sync_wait_quiet (m : Z) (s0 s : Firmware) :
  no_new_sample s0 s -> no_new_sample s0 (loop_sync_wait m s).
Proof. intros H. unfold loop_sync_wait. quiet. Qed.
#[export] Hint Resolve loop_sync_wait_quiet : quiet.

Lemma verifyADCThroughput_quiet (s0 s : Firmware) :
  no_new_sample s0 s -> no_new_sample s0 (fst (verifyADCThroughput s)).
Proof. intros H. unfold verifyADCThroughput. quiet. Qed.
#[export] Hint Resolve verifyADCThroughput_quiet : quiet.

Lemma getPreciseTimestamp_quiet (m : Z) (s0 s : Firmware) :
  no_new_sample s0 s -> no_new_sample s0 (fst (getPreciseTimestamp m s)).
Proof. intros H. rewrite getPreciseTimestamp_state. auto with quiet. Qed.
#[export] Hint Resolve getPreciseTimestamp_quiet : quiet.

Lemma acquire_quiet (reads : AdcReads) (s0 s : Firmware) :
  no_new_sample s0 s -> no_new_sample s0 (fst (acquire reads s)).
Proof.
  intros H. destruct (acquire_effect reads s) as [m E]. rewrite E. auto with quiet.
Qed.
#[export] Hint Resolve acquire_quiet : quiet.

Lemma validateAndCorrectSequence_quiet (seq : Z) (s0 s : Firmware) :
  no_new_sample s0 s -> no_new_sample s0 (fst (fst (validateAndCorrectSequence seq s))).
Proof. intros H. unfold validateAndCorrectSequence. quiet. Qed.
#[export] Hint Resolve validateAndCorrectSequence_quiet : quiet.

Lemma prepareSample_quiet (i : SampleReadings) (s0 s : Firmware) :
  no_new_sample s0 s -> no_new_sample s0 (fst (prepareSample i s)).
Proof.
  intros H. unfold prepareSample.
  destruct (getVirtualMicros (entry_micros i) s) as [s1 v1] eqn:E1. name_pair E1.
  set (s2 := if _ >=? _ then _ else _).
  assert (H2 : no_new_sample s0 s2) by (subst s2; quiet). clearbody s2.
  destruct (verifyADCThroughput s2) as [s3 ok] eqn:E3. name_pair E3.
  destruct (getPreciseTimestamp _ _) as [s4 ts] eqn:E4. name_pair E4.
  destruct (acquire _ _) as [s5 values] eqn:E5. name_pair E5.
  destruct (validateAndCorrectSequence _ _) as [[s6 ok6] seq6] eqn:E6.
  assert (E : s6 = fst (fst (validateAndCorrectSequence
                               (sequence (fst (acquire (adc_reads i)
                                  (fst (getPreciseTimestamp (stamp_micros i)
                                     (fst (verifyADCThroughput s2)))))))
                               (fst (acquire (adc_reads i)
                                  (fst (getPreciseTimestamp (stamp_micros i)
                                     (fst (verifyADCThroughput s2))))))))).
  { rewrite E6. reflexivity. }
  cbn [fst]. rewrite E. auto 20 with quiet.
Qed.

Lemma skip_missed_slots_quiet (now : Z) (s0 s : Firmware) :
  no_new_sample s0 s -> no_new_sample s0 (skip_missed_slots now s).
Proof. intros H. unfold skip_missed_slots. quiet. Qed.
#[export] Hint Resolve skip_missed_slots_quiet : quiet.

Lemma advance_next_sample_quiet (s0 s : Firmware) :
  no_new_sample s0 s -> no_new_sample s0 (advance_next_sample s).
Proof.
  intros H. unfold advance_next_sample.
  destruct (_ && _); [destruct (_ =? 0)|]; quiet.
Qed.
#[export] Hint Resolve advance_next_sample_quiet : quiet.

(** One call of [generatePreciseSample] prints at most one sample. *)
Lemma generatePreciseSample_samples (i : SampleReadings) (s : Firmware) :
  count_samples (serial1 (generatePreciseSample i s)) =
  count_samples (serial1 s) + (if tx_free (tx i) <? 20 then 0 else 1).
Proof.
  unfold generatePreciseSample.
  pose proof (prepareSample_quiet i s s (no_new_sample_refl s)) as Hp.
  destruct (prepareSample i s) as [s1 [[q ts] [[a b] c]]]. cbn [fst] in Hp.
  pose proof (emit_samples
                (mkEmission (tx i) q ts (source_code (current_source (advanced_timing s1)))
                   (timing_accuracy_us (advanced_timing s1)) (a, b, c)) s1) as He.
  unfold emit, tx_short in He. cbn [em_values em_tx em_seq em_timestamp em_source
                                     em_accuracy] in He.
  set (s2 := outputDataWithOverflowProtection _ _ _ _ _ _ _ _ _) in *. clearbody s2.
  unfold no_new_sample in Hp. rewrite <- Hp, <- He.
  break_if; reflexivity.
Qed.

(** ** Exact conversions between integers and doubles *)

Lemma digits2_pos_bounds (p : positive) :
  2 ^ (Zpos (digits2_pos p) - 1) <= Zpos p < 2 ^ Zpos (digits2_pos p).
Proof.
  induction p as [p IH|p IH|]; cbn [digits2_pos].
  - rewrite Pos2Z.inj_succ. replace (Z.succ (Zpos (digits2_pos p)) - 1)
      with (Z.succ (Zpos (digits2_pos p) - 1)) by lia.
    rewrite !Z.pow_succ_r by lia. lia.
  - rewrite Pos2Z.inj_succ. replace (Z.succ (Zpos (digits2_pos p)) - 1)
      with (Z.succ (Zpos (digits2_pos p) - 1)) by lia.
    rewrite !Z.pow_succ_r by lia. lia.
  - cbn. lia.
Qed.

Lemma iter_xO_value (p d : positive) :
  Zpos (Pos.iter xO p d) = Zpos p * 2 ^ Zpos d.
Proof.
  induction d as [|d IH] using Pos.peano_ind.
  - cbn. lia.
  - rewrite Pos.iter_succ, Pos2Z.inj_succ, Z.pow_succ_r by lia.
    rewrite Pos2Z.inj_xO, IH. lia.
Qed.

Lemma iter_xO_digits (p d : positive) :
  digits2_pos (Pos.iter xO p d) = (digits2_pos p + d)%positive.
Proof.
  induction d as [|d IH] using Pos.peano_ind.
  - cbn. lia.
  - rewrite Pos.iter_succ. cbn [digits2_pos]. rewrite IH. lia.
Qed.

Lemma binary_round_aux_canonical (s : bool) (m : positive) (e : Z) :
  Zpos (digits2_pos m) = 53 -> -1074 <= e <= 971 ->
  binary_round_aux 53 1024 s (Zpos m) e loc_Exact = S754_finite s m e.
Proof.
  intros Hd He. unfold binary_round_aux, shr_fexp, fexp, emin.
  cbn [Zdigits2 shr_record_of_loc]. rewrite Hd.
  replace (Z.max (53 + e - 53) (3 - 1024 - 53) - e) with 0 by lia.
  cbn [shr shr_m loc_of_shr_record round_nearest_even Zdigits2 shr_record_of_loc].
  rewrite Hd.
  replace (Z.max (53 + e - 53) (3 - 1024 - 53) - e) with 0 by lia.
  cbn [shr shr_m]. 
  replace (e <=? 1024 - 53) with true by (symmetry; apply Z.leb_le; lia).
  reflexivity.
Qed.

(** The double of a positive integer below 2^53: the integer itself,
    shifted to 53 bits. *)
Lemma F64_of_Z_exact (p : positive) :
  Zpos p < 2 ^ 53 ->
  exists m e, F64.of_Z (Zpos p) = S754_finite false m e /\
              Zpos (digits2_pos m) = 53 /\ -52 <= e <= 0 /\
              Zpos m = Zpos p * 2 ^ (- e).
Proof.
  intros Hp. pose proof (digits2_pos_bounds p) as [Hlo Hhi].
  assert (Hn : 1 <= Zpos (digits2_pos p) <= 53).
  { split; [lia|]. destruct (Z_le_gt_dec (Zpos (digits2_pos p)) 53) as [|Hgt]; [assumption|].
    assert (2 ^ 53 <= 2 ^ (Zpos (digits2_pos p) - 1)) by (apply Z.pow_le_mono_r; lia). lia. }
  unfold F64.of_Z, F64.prec, F64.emax, binary_normalize, binary_round, fexp, emin.
  rewrite Z.add_0_r.
  replace (Z.max (Zpos (digits2_pos p) - 53) (3 - 1024 - 53))
    with (Zpos (digits2_pos p) - 53) by lia.
  unfold shl_align. rewrite Z.sub_0_r.
  destruct (Zpos (digits2_pos p) - 53) as [|q|d] eqn:Ed; try lia.
  - exists p, 0. rewrite binary_round_aux_canonical by lia.
    repeat split; try lia.
  - exists (Pos.iter xO p d), (Zneg d).
    assert (Hd : Zpos (digits2_pos (Pos.iter xO p d)) = 53).
    { rewrite iter_xO_digits. lia. }
    rewrite binary_round_aux_canonical by lia.
    repeat split; try lia. rewrite iter_xO_value. reflexivity.
Qed.


Lemma F64_mul_one (m : positive) (e : Z) :
  Zpos (digits2_pos m) = 53 -> -1022 <= e <= 971 ->
  F64.mul (S754_finite false m e) one = S754_finite false m e.
Proof.
  intros Hd He. unfold F64.mul, SFmul, one, F64.prec, F64.emax. cbn [xorb].
  rewrite Pos.mul_comm. cbn [Pos.mul].
  unfold binary_round_aux, shr_fexp, fexp, emin.
  cbn [Zdigits2 digits2_pos shr_record_of_loc].
  rewrite !Pos2Z.inj_succ, Hd.
  match goal with |- context [shr ?r ?e0 ?n] => replace n with 52 by lia end.
  cbn [shr]. cbv [iter_pos]. cbn [shr_1 orb shr_m loc_of_shr_record round_nearest_even].
  cbn [Zdigits2 shr_record_of_loc]. rewrite Hd.
  match goal with |- context [shr ?r ?e0 ?n] => replace n with 0 by lia end.
  cbn [shr shr_m].
  replace (e + -52 + 52) with e by lia.
  replace (e <=? 1024 - 53) with true by (symmetry; apply Z.leb_le; lia).
  reflexivity.
Qed.

Lemma trunc_exact (p m : positive) (e : Z) :
  -52 <= e <= 0 -> Zpos m = Zpos p * 2 ^ (- e) ->
  trunc (S754_finite false m e) = Zpos p.
Proof.
  intros He Hm. unfold trunc. destruct e as [|q|q]; try lia.
  rewrite Hm. cbn [Z.opp]. apply Z.div_mul. lia.
Qed.

(** With a zero calibration the effective interval is the nominal one. *)
Lemma effective_interval_undisciplined (I : Z) :
  0 < I < 2 ^ 53 ->
  exists m e,
    F64.mul (F64.of_Z I)
      (F64.sub (F64.of_Z 1)
         (F64.div (to_double (S754_zero false)) (F64.of_Z 1000000)))
    = S754_finite false m e /\
    trunc (S754_finite false m e) = I.
Proof.
  intros HI. destruct I as [|p|p]; try lia.
  destruct (F64_of_Z_exact p ltac:(lia)) as (m & e & Hx & Hd & He & Hm).
  exists m, e. rewrite Hx.
  change (F64.sub (F64.of_Z 1) (F64.div (to_double (S754_zero false)) (F64.of_Z 1000000)))
    with one.
  rewrite F64_mul_one by lia. split; [reflexivity|].
  apply trunc_exact; assumption.
Qed.

(** ** Fractional scheduler *)

Lemma generatePreciseSample_blind {A : Type} (f : AdvancedTiming -> A)
    (i : SampleReadings) (s : Firmware) :
  sample_blind f ->
  sample_index (advanced_timing s) < reference_update_interval (advanced_timing s) ->
  f (advanced_timing (generatePreciseSample i s)) = f (advanced_timing s).
Proof.
  intros (Hc & Hg & Hi & Hr) Hlt. unfold generatePreciseSample.
  pose proof (prepareSample_blind f i s Hc Hlt) as Hp.
  destruct (prepareSample i s) as [s1 [[q ts] [[a b] c]]]. cbn [fst] in Hp.
  pose proof (output_frame (tx i) q ts (source_code (current_source (advanced_timing s1)))
                (timing_accuracy_us (advanced_timing s1)) a b c s1) as [_ Ho].
  set (s2 := outputDataWithOverflowProtection _ _ _ _ _ _ _ _ _) in *. clearbody s2.
  break_if;
    cbn [advanced_timing timing set_advanced_timing set_sequence];
    rewrite ?Hr, Hi, Hg, Ho; exact Hp.
Qed.

Lemma generatePreciseSample_streaming (i : SampleReadings) (s : Firmware) :
  sequence (generatePreciseSample i s) = Int.u16 ((sequence s + 1) mod 65536).
Proof.
  unfold generatePreciseSample.
  pose proof (prepareSample_sequence i s) as [Hs _].
  destruct (prepareSample i s) as [s1 [[q ts] [[a b] c]]]. cbn [fst] in Hs.
  pose proof (output_frame (tx i) q ts (source_code (current_source (advanced_timing s1)))
                (timing_accuracy_us (advanced_timing s1)) a b c s1) as [Ho _].
  set (s2 := outputDataWithOverflowProtection _ _ _ _ _ _ _ _ _) in *. clearbody s2.
  break_if; cbn; rewrite Ho, Hs; reflexivity.
Qed.

(** The skip-ahead moves [next_sample_micros] by the whole slots missed. *)
Lemma skip_missed_slots_next (now : Z) (s : Firmware) :
  let t := advanced_timing s in
  let E := Int.i64 (trunc (effective_interval_us t)) in
  let missed := Z.quot (Int.i64 (Int.i64 now - Int.i64 (next_sample_micros t))) E in
  let t' := advanced_timing (skip_missed_slots now s) in
  next_sample_micros t' =
    (if missed >? 0
     then Int.u64 (next_sample_micros t + Int.u64 (Int.i64 (missed * E)))
     else next_sample_micros t) /\
  effective_interval_us t' = effective_interval_us t /\
  phase_acc_us t' = phase_acc_us t /\
  phase_alignment_active t' = phase_alignment_active t /\
  sequence (skip_missed_slots now s) = sequence s.
Proof.
  cbv zeta. unfold skip_missed_slots. break_if; repeat split; reflexivity.
Qed.

(** Without a phase plan the regular advance is the integer part of the
    effective interval plus the accumulator. *)
Lemma advance_next_sample_next (s : Firmware) :
  let t := advanced_timing s in
  phase_alignment_active t = false ->
  next_sample_micros (advanced_timing (advance_next_sample s)) =
    Int.u64 (next_sample_micros t +
             Int.u64 (Int.i64 (trunc (F64.add (effective_interval_us t) (phase_acc_us t)))))
  /\ sequence (advance_next_sample s) = sequence s.
Proof.
  cbv zeta. intros Hp. unfold advance_next_sample. rewrite Hp. cbn [andb].
  split; reflexivity.
Qed.

Lemma getVirtualMicros_after_interval (m : Z) (x : double) (s : Firmware) :
  snd (getVirtualMicros m (timing (set_effective_interval_us x) s)) =
  snd (getVirtualMicros m s).
Proof.
  rewrite !getVirtualMicros_value, !getVirtualMicros_offset. reflexivity.
Qed.

(** One iteration of the streaming block on an undisciplined stream (zero
    calibration, empty accumulator, no phase plan) that is due: exactly one
    firing, and [next_sample_micros] moves to the first slot after [now]. *)
Lemma loop_streaming_fire (j : StreamReadings) (s : Firmware) :
  let t := advanced_timing s in
  let I := sample_interval_us t in
  let next := next_sample_micros t in
  let now := snd (getVirtualMicros (sched_micros j) s) in
  let s' := loop_streaming j s in
  streaming s = true -> timing_established t = true ->
  oscillator_calibration_ppm t = S754_zero false ->
  phase_acc_us t = S754_zero false ->
  phase_alignment_active t = false ->
  sample_index t < reference_update_interval t ->
  0 < I < 2 ^ 53 ->
  0 < next <= now -> now < 2 ^ 62 ->
  next_sample_micros (advanced_timing s') = next + ((now - next) / I + 1) * I /\
  now < next_sample_micros (advanced_timing s') /\
  sequence s' = Int.u16 ((sequence s + 1) mod 65536) /\
  count_samples (serial1 s') =
    count_samples (serial1 s) + (if tx_free (tx (sched_sample j)) <? 20 then 0 else 1).
Proof.
  cbv zeta. intros Hs He Hppm Hacc Hpa Hidx HI Hnext Hnow.
  unfold loop_streaming. rewrite Hs, He. cbn [andb].
  destruct (next_sample_micros (advanced_timing s) =? 0) eqn:E0;
    [apply Z.eqb_eq in E0; lia|]. clear E0.
  rewrite Hppm.
  destruct (effective_interval_undisciplined (sample_interval_us (advanced_timing s)) HI)
    as (m & e & Heff & Htr).
  rewrite Heff.
  set (s1 := timing (set_effective_interval_us (S754_finite false m e)) s).
  pose proof (getVirtualMicros_after_interval (sched_micros j) (S754_finite false m e) s)
    as Hv. fold s1 in Hv.
  pose proof (getVirtualMicros_blind next_sample_micros (sched_micros j) s1 ltac:(blind))
    as Hn2.
  pose proof (getVirtualMicros_blind sample_index (sched_micros j) s1 ltac:(blind)) as Hi2.
  pose proof (getVirtualMicros_blind reference_update_interval (sched_micros j) s1
                ltac:(blind)) as Hr2.
  pose proof (getVirtualMicros_blind effective_interval_us (sched_micros j) s1
                ltac:(blind)) as He2.
  pose proof (getVirtualMicros_blind phase_acc_us (sched_micros j) s1 ltac:(blind)) as Ha2.
  pose proof (getVirtualMicros_blind phase_alignment_active (sched_micros j) s1
                ltac:(blind)) as Hp2.
  pose proof (getVirtualMicros_sequence (sched_micros j) s1) as Hq2.
  pose proof (getVirtualMicros_quiet (sched_micros j) s s1
                (quiet_timing s s (no_new_sample_refl s) _)) as Hc2.
  destruct (getVirtualMicros (sched_micros j) s1) as [s2 now]. cbn [fst snd] in *.
  subst now. set (now := snd (getVirtualMicros (sched_micros j) s)) in *. clearbody now.
  change (next_sample_micros (advanced_timing s1))
    with (next_sample_micros (advanced_timing s)) in Hn2.
  change (sample_index (advanced_timing s1)) with (sample_index (advanced_timing s)) in Hi2.
  change (reference_update_interval (advanced_timing s1))
    with (reference_update_interval (advanced_timing s)) in Hr2.
  change (effective_interval_us (advanced_timing s1)) with (S754_finite false m e) in He2.
  change (phase_acc_us (advanced_timing s1)) with (phase_acc_us (advanced_timing s)) in Ha2.
  change (phase_alignment_active (advanced_timing s1))
    with (phase_alignment_active (advanced_timing s)) in Hp2.
  change (sequence s1) with (sequence s) in Hq2.
  clearbody s1.
  set (I := sample_interval_us (advanced_timing s)) in *.
  set (next := next_sample_micros (advanced_timing s)) in *.
  rewrite Hn2.
  assert (Hlate : Int.i64 (Int.i64 now - Int.i64 next) = now - next).
  { rewrite (IntFacts.i64_small now), (IntFacts.i64_small next) by lia.
    apply IntFacts.i64_small. lia. }
  rewrite Hlate.
  destruct (now - next >=? 0) eqn:Edue; [|rewrite Z.geb_leb in Edue; apply Z.leb_gt in Edue; lia].
  clear Edue.
  assert (Hlt2 : sample_index (advanced_timing s2) < reference_update_interval (advanced_timing s2))
    by (rewrite Hi2, Hr2; exact Hidx).
  pose proof (generatePreciseSample_blind next_sample_micros (sched_sample j) s2
                ltac:(blind) Hlt2) as Hn3.
  pose proof (generatePreciseSample_blind effective_interval_us (sched_sample j) s2
                ltac:(blind) Hlt2) as He3.
  pose proof (generatePreciseSample_blind phase_acc_us (sched_sample j) s2
                ltac:(blind) Hlt2) as Ha3.
  pose proof (generatePreciseSample_blind phase_alignment_active (sched_sample j) s2
                ltac:(blind) Hlt2) as Hp3.
  pose proof (generatePreciseSample_streaming (sched_sample j) s2) as Hq3.
  pose proof (generatePreciseSample_samples (sched_sample j) s2) as Hc3.
  set (s3 := generatePreciseSample (sched_sample j) s2) in *. clearbody s3.
  pose proof (skip_missed_slots_next now s3) as (Hn4 & He4 & Ha4 & Hp4 & Hq4).
  cbv zeta in Hn4.
  pose proof (skip_missed_slots_quiet now s3 s3 (no_new_sample_refl s3)) as Hc4.
  set (s4 := skip_missed_slots now s3) in *. clearbody s4.
  assert (Hp5 : phase_alignment_active (advanced_timing s4) = false) by congruence.
  pose proof (advance_next_sample_next s4 Hp5) as [Hn5 Hq5].
  pose proof (advance_next_sample_quiet s4 s4 (no_new_sample_refl s4)) as Hc5.
  set (s5 := advance_next_sample s4) in *. clearbody s5.
  rewrite He3, He2, Htr, Hn3, Hn2, Hlate in Hn4.
  rewrite (IntFacts.i64_small I) in Hn4 by lia.
  rewrite Z.quot_div_nonneg in Hn4 by lia.
  rewrite He4, He3, He2, Ha4, Ha3, Ha2, Hacc in Hn5.
  change (F64.add (S754_finite false m e) (S754_zero false)) with (S754_finite false m e)
    in Hn5.
  rewrite Htr, (IntFacts.i64_small I), (IntFacts.u64_small I) in Hn5 by lia.
  set (q := (now - next) / I) in *.
  assert (Hq : 0 <= q /\ q * I <= now - next < (q + 1) * I).
  { subst q. pose proof (Z.div_mod (now - next) I ltac:(lia)) as Hdm.
    pose proof (Z.mod_pos_bound (now - next) I ltac:(lia)) as Hmb.
    split; [apply Z.div_pos; lia|]. nia. }
  assert (Hn4' : next_sample_micros (advanced_timing s4) = next + q * I).
  { rewrite Hn4. destruct (q >? 0) eqn:Eq.
    - rewrite (IntFacts.i64_small (q * I)) by nia.
      rewrite (IntFacts.u64_small (q * I)) by nia.
      apply IntFacts.u64_small. nia.
    - rewrite Z.gtb_ltb in Eq. apply Z.ltb_ge in Eq.
      assert (q = 0) by lia. subst q. lia. }
  rewrite Hn4' in Hn5. rewrite (IntFacts.u64_small (next + q * I + I)) in Hn5 by nia.
  unfold no_new_sample in *.
  repeat split.
  - rewrite Hn5. lia.
  - rewrite Hn5. nia.
  - rewrite Hq5, Hq4, Hq3, Hq2. reflexivity.
  - rewrite Hc5, Hc4, Hc3, Hc2. reflexivity.
Qed.

Lemma loop_streaming_samples (j : StreamReadings) (s : Firmware) :
  count_samples (serial1 s) <= count_samples (serial1 (loop_streaming j s))
  <= count_samples (serial1 s) + 1.
Proof.
  unfold loop_streaming. destruct (streaming s && _); [|lia].
  set (s1 := timing _ (if _ =? 0 then _ else _)).
  assert (H1 : no_new_sample s s1) by (subst s1; quiet). clearbody s1.
  pose proof (getVirtualMicros_quiet (sched_micros j) s s1 H1) as H2.
  destruct (getVirtualMicros (sched_micros j) s1) as [s2 now]. cbn [fst] in H2.
  unfold no_new_sample in *. destruct (_ >=? 0); [|lia].
  pose proof (generatePreciseSample_samples (sched_sample j) s2) as H3.
  set (s3 := generatePreciseSample (sched_sample j) s2) in *. clearbody s3.
  pose proof (skip_missed_slots_quiet now s3 s3 (no_new_sample_refl s3)) as H4.
  set (s4 := skip_missed_slots now s3) in *. clearbody s4.
  pose proof (advance_next_sample_quiet s4 s4 (no_new_sample_refl s4)) as H5.
  unfold no_new_sample in *. rewrite H5, H4, H3, H2.
  destruct (_ <? 20); lia.
Qed.

(** One iteration of [loop] prints at most one sample. *)
Lemma loop_samples (i : LoopReadings) (s : Firmware) :
  count_samples (serial1 s) <= count_samples (serial1 (loop i s))
  <= count_samples (serial1 s) + 1.
Proof.
  unfold loop.
  set (s1 := process_lines _ _).
  assert (H1 : no_new_sample s s1) by (subst s1; auto 10 with quiet). clearbody s1.
  destruct (waiting_for_sync_start _).
  - pose proof (loop_sync_wait_quiet (loop_wait_micros i) s s1 H1) as H2.
    unfold no_new_sample in H2. lia.
  - pose proof (loop_streaming_samples (loop_stream i) s1) as H2.
    unfold no_new_sample in H1. lia.
Qed.

(** C6, as stated, fails.  From [streaming_at_100Hz] (interval 10 000 us,
    next sample due at 5 000 000 us): an iteration that comes 2 intervals
    late moves [next_sample_micros] by 3 intervals, not by ceil(2) = 2; and
    after a sample fired on time, an iteration 2.5 intervals after the
    firing moves it by 2 intervals, not by ceil(2.5) = 3. *)
Lemma stall_advance_is_not_ceiling :
  let late := loop (loop_at 5020000 5020 []) streaming_at_100Hz in
  let fired := loop (loop_at 5000000 5000 []) streaming_at_100Hz in
  let stalled := loop (loop_at 5025000 5025 []) fired in
  next_sample_micros (advanced_timing streaming_at_100Hz) = 5000000 /\
  next_sample_micros (advanced_timing late) = 5000000 + 3 * 10000 /\
  next_sample_micros (advanced_timing late)
    <> 5000000 + ceil_div (5020000 - 5000000) 10000 * 10000 /\
  next_sample_micros (advanced_timing fired) = 5010000 /\
  next_sample_micros (advanced_timing stalled) = 5010000 + 2 * 10000 /\
  next_sample_micros (advanced_timing stalled)
    <> 5010000 + ceil_div (5025000 - 5000000) 10000 * 10000.
Proof.
  cbv zeta.
  assert (E1 : next_sample_micros
                 (advanced_timing (loop (loop_at 5020000 5020 []) streaming_at_100Hz))
               = 5030000) by (vm_compute; reflexivity).
  assert (E2 : next_sample_micros
                 (advanced_timing
                    (loop (loop_at 5025000 5025 [])
                       (loop (loop_at 5000000 5000 []) streaming_at_100Hz)))
               = 5030000) by (vm_compute; reflexivity).
  rewrite E1, E2.
  repeat split; try (vm_compute; reflexivity); vm_compute; intros E; discriminate E.
Qed.

(** The regular advance, with or without a phase plan. *)
Lemma advance_next_sample_step (s : Firmware) :
  let t := advanced_timing s in
  next_sample_micros (advanced_timing (advance_next_sample s)) =
    Int.u64 (next_sample_micros t +
             Int.u64 (Int.i64 (trunc (step_after (effective_interval_us t) t)))) /\
  sequence (advance_next_sample s) = sequence s.
Proof.
  cbv zeta. unfold advance_next_sample, step_after.
  destruct (phase_alignment_active (advanced_timing s) &&
            (phase_adjust_samples_remaining (advanced_timing s) >? 0)).
  - destruct (Int.u32 (phase_adjust_samples_remaining (advanced_timing s) - 1) =? 0);
      split; reflexivity.
  - split; reflexivity.
Qed.

Lemma skip_missed_slots_plan (now : Z) (s : Firmware) :
  let t := advanced_timing s in
  let t' := advanced_timing (skip_missed_slots now s) in
  phase_adjust_samples_remaining t' = phase_adjust_samples_remaining t /\
  per_sample_phase_adjust_us t' = per_sample_phase_adjust_us t.
Proof. cbv zeta. unfold skip_missed_slots. break_if; split; reflexivity. Qed.

Lemma step_after_fields (E : double) (t t' : AdvancedTiming) :
  phase_acc_us t' = phase_acc_us t ->
  phase_alignment_active t' = phase_alignment_active t ->
  phase_adjust_samples_remaining t' = phase_adjust_samples_remaining t ->
  per_sample_phase_adjust_us t' = per_sample_phase_adjust_us t ->
  step_after E t' = step_after E t.
Proof. intros H1 H2 H3 H4. unfold step_after. rewrite H1, H2, H3, H4. reflexivity. Qed.

(** One iteration of the streaming block that is due, whatever the
    calibration, the accumulator and the phase plan: one firing, and
    [next_sample_micros] moves by the whole slots missed (in whole
    microseconds of the effective interval) plus the whole microseconds of
    the step. *)
Lemma loop_streaming_fire_general (j : StreamReadings) (s : Firmware) :
  let t := advanced_timing s in
  let next := next_sample_micros t in
  let now := snd (getVirtualMicros (sched_micros j) s) in
  let W := Int.i64 (trunc (calibrated_interval t)) in
  let whole := Int.i64 (trunc (step_after (calibrated_interval t) t)) in
  let s' := loop_streaming j s in
  streaming s = true -> timing_established t = true ->
  sample_index t < reference_update_interval t ->
  0 < next <= now -> now < 2 ^ 62 ->
  sequence s' = Int.u16 ((sequence s + 1) mod 65536) /\
  (0 < W -> 0 <= whole < 2 ^ 62 ->
   next_sample_micros (advanced_timing s') = next + ((now - next) / W) * W + whole).
Proof.
  cbv zeta. intros Hs He Hidx Hnext Hnow.
  unfold loop_streaming. rewrite Hs, He. cbn [andb].
  destruct (next_sample_micros (advanced_timing s) =? 0) eqn:E0;
    [apply Z.eqb_eq in E0; lia|]. clear E0.
  fold (calibrated_interval (advanced_timing s)).
  generalize (step_after_fields (calibrated_interval (advanced_timing s))).
  generalize (calibrated_interval (advanced_timing s)). intros E Hstep.
  set (s1 := timing (set_effective_interval_us E) s).
  pose proof (getVirtualMicros_after_interval (sched_micros j) E s) as Hv. fold s1 in Hv.
  pose proof (getVirtualMicros_blind next_sample_micros (sched_micros j) s1 ltac:(blind))
    as Hn2.
  pose proof (getVirtualMicros_blind sample_index (sched_micros j) s1 ltac:(blind)) as Hi2.
  pose proof (getVirtualMicros_blind reference_update_interval (sched_micros j) s1
                ltac:(blind)) as Hr2.
  pose proof (getVirtualMicros_blind effective_interval_us (sched_micros j) s1
                ltac:(blind)) as He2.
  pose proof (getVirtualMicros_blind phase_acc_us (sched_micros j) s1 ltac:(blind)) as Ha2.
  pose proof (getVirtualMicros_blind phase_alignment_active (sched_micros j) s1
                ltac:(blind)) as Hp2.
  pose proof (getVirtualMicros_blind phase_adjust_samples_remaining (sched_micros j) s1
                ltac:(blind)) as Hm2.
  pose proof (getVirtualMicros_blind per_sample_phase_adjust_us (sched_micros j) s1
                ltac:(blind)) as Hj2.
  pose proof (getVirtualMicros_sequence (sched_micros j) s1) as Hq2.
  destruct (getVirtualMicros (sched_micros j) s1) as [s2 now]. cbn [fst snd] in *.
  subst now. set (now := snd (getVirtualMicros (sched_micros j) s)) in *. clearbody now.
  change (next_sample_micros (advanced_timing s1))
    with (next_sample_micros (advanced_timing s)) in Hn2.
  change (sample_index (advanced_timing s1)) with (sample_index (advanced_timing s)) in Hi2.
  change (reference_update_interval (advanced_timing s1))
    with (reference_update_interval (advanced_timing s)) in Hr2.
  change (effective_interval_us (advanced_timing s1)) with E in He2.
  change (phase_acc_us (advanced_timing s1)) with (phase_acc_us (advanced_timing s)) in Ha2.
  change (phase_alignment_active (advanced_timing s1))
    with (phase_alignment_active (advanced_timing s)) in Hp2.
  change (phase_adjust_samples_remaining (advanced_timing s1))
    with (phase_adjust_samples_remaining (advanced_timing s)) in Hm2.
  change (per_sample_phase_adjust_us (advanced_timing s1))
    with (per_sample_phase_adjust_us (advanced_timing s)) in Hj2.
  change (sequence s1) with (sequence s) in Hq2.
  clearbody s1.
  set (next := next_sample_micros (advanced_timing s)) in *.
  rewrite Hn2.
  assert (Hlate : Int.i64 (Int.i64 now - Int.i64 next) = now - next).
  { rewrite (IntFacts.i64_small now), (IntFacts.i64_small next) by lia.
    apply IntFacts.i64_small. lia. }
  rewrite Hlate.
  destruct (now - next >=? 0) eqn:Edue; [|rewrite Z.geb_leb in Edue; apply Z.leb_gt in Edue; lia].
  clear Edue.
  assert (Hlt2 : sample_index (advanced_timing s2) < reference_update_interval (advanced_timing s2))
    by (rewrite Hi2, Hr2; exact Hidx).
  pose proof (generatePreciseSample_blind next_sample_micros (sched_sample j) s2
                ltac:(blind) Hlt2) as Hn3.
  pose proof (generatePreciseSample_blind effective_interval_us (sched_sample j) s2
                ltac:(blind) Hlt2) as He3.
  pose proof (generatePreciseSample_blind phase_acc_us (sched_sample j) s2
                ltac:(blind) Hlt2) as Ha3.
  pose proof (generatePreciseSample_blind phase_alignment_active (sched_sample j) s2
                ltac:(blind) Hlt2) as Hp3.
  pose proof (generatePreciseSample_blind phase_adjust_samples_remaining (sched_sample j) s2
                ltac:(blind) Hlt2) as Hm3.
  pose proof (generatePreciseSample_blind per_sample_phase_adjust_us (sched_sample j) s2
                ltac:(blind) Hlt2) as Hj3.
  pose proof (generatePreciseSample_streaming (sched_sample j) s2) as Hq3.
  set (s3 := generatePreciseSample (sched_sample j) s2) in *. clearbody s3.
  pose proof (skip_missed_slots_next now s3) as (Hn4 & He4 & Ha4 & Hp4 & Hq4).
  pose proof (skip_missed_slots_plan now s3) as (Hm4 & Hj4).
  cbv zeta in Hn4, Hm4, Hj4.
  set (s4 := skip_missed_slots now s3) in *. clearbody s4.
  pose proof (advance_next_sample_step s4) as [Hn5 Hq5]. cbv zeta in Hn5.
  set (s5 := advance_next_sample s4) in *. clearbody s5.
  split; [rewrite Hq5, Hq4, Hq3, Hq2; reflexivity|].
  intros HW Hwhole.
  rewrite He4, He3, He2 in Hn5.
  rewrite (Hstep (advanced_timing s) (advanced_timing s4)) in Hn5
    by (congruence).
  rewrite He3, He2, Hn3, Hn2, Hlate in Hn4.
  set (W := Int.i64 (trunc E)) in *.
  set (whole := Int.i64 (trunc (step_after E (advanced_timing s)))) in *.
  clearbody W whole.
  rewrite Z.quot_div_nonneg in Hn4 by lia.
  set (q := (now - next) / W) in *.
  assert (Hq : 0 <= q /\ q * W <= now - next < (q + 1) * W).
  { subst q. pose proof (Z.div_mod (now - next) W ltac:(lia)) as Hdm.
    pose proof (Z.mod_pos_bound (now - next) W ltac:(lia)) as Hmb.
    split; [apply Z.div_pos; lia|]. nia. }
  assert (Hn4' : next_sample_micros (advanced_timing s4) = next + q * W).
  { rewrite Hn4. destruct (q >? 0) eqn:Eq.
    - rewrite (IntFacts.i64_small (q * W)) by nia.
      rewrite (IntFacts.u64_small (q * W)) by nia.
      apply IntFacts.u64_small. nia.
    - rewrite Z.gtb_ltb in Eq. apply Z.ltb_ge in Eq.
      assert (q = 0) by lia. subst q. lia. }
  rewrite Hn5, Hn4'. rewrite (IntFacts.u64_small whole) by lia.
  apply IntFacts.u64_small. nia.
Qed.

(** C6 (amended): an iteration of [loop] prints at most one sample.  When
    the streaming block finds the next sample due (lateness
    [L = now - next >= 0], no rebase in the firing) it fires exactly once and
    moves [next_sample_micros] by [floor(L / W) * W + step]: [W] is the
    whole-microsecond part of the effective (calibrated) interval, [step]
    the whole-microsecond part of effective interval + fractional
    accumulator + the per-sample adjustment of a running phase plan.  The
    new [next_sample_micros] lies after [now] exactly when [L mod W < step];
    a phase plan that shortens the step can leave it at or before [now].  On
    an undisciplined stream (zero calibration, empty accumulator, no phase
    plan) [W] and [step] are the interval, and the advance is
    [floor(k) + 1] intervals for a lateness of [k] intervals, which is
    [ceil(k)] unless [k] is a whole number. *)
Theorem scheduler_fires_once_and_skips_ahead (i : LoopReadings) (s0 : Firmware)
    (j : StreamReadings) (s : Firmware) :
  let t := advanced_timing s in
  let I := sample_interval_us t in
  let next := next_sample_micros t in
  let now := snd (getVirtualMicros (sched_micros j) s) in
  let W := Int.i64 (trunc (calibrated_interval t)) in
  let whole := Int.i64 (trunc (step_after (calibrated_interval t) t)) in
  let s' := loop_streaming j s in
  count_samples (serial1 (loop i s0)) <= count_samples (serial1 s0) + 1 /\
  (streaming s = true -> timing_established t = true ->
   sample_index t < reference_update_interval t ->
   0 < next <= now -> now < 2 ^ 62 ->
   sequence s' = Int.u16 ((sequence s + 1) mod 65536) /\
   (0 < W -> 0 <= whole < 2 ^ 62 ->
    next_sample_micros (advanced_timing s') = next + ((now - next) / W) * W + whole /\
    (now < next_sample_micros (advanced_timing s') <-> (now - next) mod W < whole)) /\
   (oscillator_calibration_ppm t = S754_zero false ->
    phase_acc_us t = S754_zero false ->
    phase_alignment_active t = false ->
    0 < I < 2 ^ 53 ->
    next_sample_micros (advanced_timing s') = next + ((now - next) / I + 1) * I /\
    now < next_sample_micros (advanced_timing s') /\
    ((now - next) mod I <> 0 -> (now - next) / I + 1 = ceil_div (now - next) I))).
Proof.
  cbv zeta. split; [apply loop_samples|].
  intros Hs He Hidx Hnext Hnow.
  destruct (loop_streaming_fire_general j s Hs He Hidx Hnext Hnow) as [G1 G2].
  cbv zeta in G2.
  split; [exact G1|]. split.
  - revert G2.
    generalize (Int.i64 (trunc (step_after (calibrated_interval (advanced_timing s))
                                  (advanced_timing s)))).
    generalize (Int.i64 (trunc (calibrated_interval (advanced_timing s)))).
    generalize (next_sample_micros (advanced_timing (loop_streaming j s))).
    intros n' W whole G2 HW Hwhole. specialize (G2 HW Hwhole).
    split; [exact G2|].
    set (L := snd (getVirtualMicros (sched_micros j) s)
              - next_sample_micros (advanced_timing s)) in *.
    pose proof (Z.div_mod L W ltac:(lia)) as Hdm.
    pose proof (Z.mod_pos_bound L W ltac:(lia)) as Hmb.
    subst L. split; intros H; nia.
  - intros Hppm Hacc Hpa HI.
    destruct (loop_streaming_fire j s Hs He Hppm Hacc Hpa Hidx HI Hnext Hnow)
      as (H1 & H2 & _).
    repeat split; try assumption.
    intros Hm. unfold ceil_div.
    set (L := snd (getVirtualMicros (sched_micros j) s)
              - next_sample_micros (advanced_timing s)) in *.
    set (I := sample_interval_us (advanced_timing s)) in *.
    pose proof (Z.div_mod L I ltac:(lia)) as Hdm.
    pose proof (Z.mod_pos_bound L I ltac:(lia)) as Hmb.
    apply (Z.div_unique (L + I - 1) I (L / I + 1) (L mod I - 1)); lia.
Qed.

Lemma scheduler_fires_once_and_skips_ahead_witness :
  let j := mkStreamReadings 5009990 (sample_at 5009990 64) in
  let s' := loop_streaming j phase_plan_running in
  sequence s' = 1 /\
  next_sample_micros (advanced_timing s') = 5000000 + 0 * 10000 + 9980 /\
  ~ 5009990 < next_sample_micros (advanced_timing s').
Proof.
  pose proof (scheduler_fires_once_and_skips_ahead (loop_at 0 0 []) booted
                (mkStreamReadings 5009990 (sample_at 5009990 64)) phase_plan_running)
    as [_ H].
  cbv zeta in H.
  assert (Hdue : 0 < next_sample_micros (advanced_timing phase_plan_running)
                 <= snd (getVirtualMicros
                           (sched_micros (mkStreamReadings 5009990 (sample_at 5009990 64)))
                           phase_plan_running))
    by (vm_compute; split; [reflexivity | intros E; discriminate E]).
  specialize (H eq_refl eq_refl eq_refl Hdue eq_refl).
  destruct H as (H1 & H2 & _).
  assert (HW : Int.i64 (trunc (calibrated_interval (advanced_timing phase_plan_running)))
               = 10000) by (vm_compute; reflexivity).
  assert (Hwhole : Int.i64 (trunc (step_after
                                     (calibrated_interval (advanced_timing phase_plan_running))
                                     (advanced_timing phase_plan_running))) = 9980)
    by (vm_compute; reflexivity).
  rewrite HW, Hwhole in H2.
  specialize (H2 ltac:(lia) ltac:(lia)). destruct H2 as [H2 H3].
  change (next_sample_micros (advanced_timing phase_plan_running)) with 5000000 in H2, H3.
  change (snd (getVirtualMicros
                 (sched_micros (mkStreamReadings 5009990 (sample_at 5009990 64)))
                 phase_plan_running)) with 5009990 in H2, H3.
  cbv zeta. split; [exact H1|].
  change ((5009990 - 5000000) / 10000) with 0 in H2.
  change ((5009990 - 5000000) mod 10000) with 9990 in H3.
  split; [exact H2|]. intros Hlt. apply H3 in Hlt. lia.
Defined.

(** A running phase plan can leave the next sample due: from
    [phase_plan_running], an iteration 9990 us late puts
    [next_sample_micros] 10 us before [now], and the next iteration fires
    again at once. *)
Lemma phase_plan_can_leave_sample_due :
  let late := loop (loop_at 5009990 5009 []) phase_plan_running in
  let again := loop (loop_at 5009995 5009 []) late in
  next_sample_micros (advanced_timing late) = 5009980 /\
  sequence late = 1 /\ sequence again = 2 /\
  next_sample_micros (advanced_timing again) = 5019960.
Proof. vm_compute. repeat split; reflexivity. Qed.

(** With a calibration the slots skipped are counted in whole microseconds
    of the effective interval: at 50 ppm (effective interval 9999.5 us) an
    iteration 25 000 us late skips 2 slots of 9999 us and adds a step of
    9999 us, the half microsecond going to the accumulator; the next step
    is 10 000 us. *)
Lemma calibrated_stream_skips_whole_microseconds :
  let late := loop (loop_at 5025000 5025 []) calibrated_stream in
  let next := loop (loop_at 5030000 5030 []) late in
  next_sample_micros (advanced_timing calibrated_stream) = 5000000 /\
  next_sample_micros (advanced_timing late) = 5000000 + 2 * 9999 + 9999 /\
  next_sample_micros (advanced_timing next) = 5000000 + 2 * 9999 + 9999 + 10000.
Proof. vm_compute. repeat split; reflexivity. Qed.

(** ** Calibration persistence *)

Lemma valid_binary32_cases (m : positive) (e : Z) :
  valid_binary 24 128 (S754_finite false m e) = true ->
  (2 ^ 23 <= Zpos m < 2 ^ 24 /\ -149 <= e <= 104) \/ (Zpos m < 2 ^ 23 /\ e = -149).
Proof.
  unfold valid_binary, bounded, canonical_mantissa, fexp, emin. intros H.
  apply andb_true_iff in H. destruct H as [Hc He].
  apply Z.eqb_eq in Hc. apply Z.leb_le in He.
  pose proof (digits2_pos_bounds m) as [Hlo Hhi].
  set (n := Zpos (digits2_pos m)) in *.
  assert (Hn : 1 <= n) by (subst n; lia).
  destruct (Z_le_gt_dec n 23) as [H23|H23].
  - right. assert (2 ^ n <= 2 ^ 23) by (apply Z.pow_le_mono_r; lia). lia.
  - left. assert (Hn24 : n = 24 \/ 24 < n) by lia. destruct Hn24 as [E|Hgt].
    + rewrite E in *. change (24 - 1) with 23 in Hlo. lia.
    + lia.
Qed.

Lemma bits_fields (sign ex mant : Z) :
  0 <= sign <= 1 -> 0 <= ex < 2 ^ 8 -> 0 <= mant < 2 ^ 23 ->
  let b := sign * 2 ^ 31 + ex * 2 ^ 23 + mant in
  (2 ^ 31 <=? b) = (sign =? 1) /\ (b / 2 ^ 23) mod 2 ^ 8 = ex /\ b mod 2 ^ 23 = mant /\
  0 <= b < 2 ^ 32.
Proof.
  intros Hs He Hm. cbv zeta.
  assert (Hdiv : (sign * 2 ^ 31 + ex * 2 ^ 23 + mant) / 2 ^ 23 = sign * 2 ^ 8 + ex).
  { symmetry. apply (Z.div_unique _ _ _ mant); lia. }
  repeat split.
  - destruct (sign =? 1) eqn:E.
    + apply Z.eqb_eq in E. apply Z.leb_le. lia.
    + apply Z.eqb_neq in E. apply Z.leb_gt. lia.
  - rewrite Hdiv. symmetry. apply (Z.mod_unique _ _ sign); lia.
  - symmetry. apply (Z.mod_unique _ _ (sign * 2 ^ 8 + ex)); lia.
  - lia.
  - lia.
Qed.

Lemma float_of_bits_of_float (x : float) :
  F32.valid x = true -> float_of_bits (bits_of_float x) = x /\ 0 <= bits_of_float x < 2 ^ 32.
Proof.
  intros Hv. destruct x as [s|s| |s m e].
  - destruct s; split; try reflexivity; cbn; lia.
  - destruct s; split; try reflexivity; cbn; lia.
  - split; [reflexivity | cbn; lia].
  - assert (Hc : valid_binary 24 128 (S754_finite false m e) = true) by exact Hv.
    apply valid_binary32_cases in Hc.
    unfold bits_of_float.
    destruct Hc as [[Hm He]|[Hm He]].
    + replace (2 ^ 23 <=? Zpos m) with true by (symmetry; apply Z.leb_le; lia).
      pose proof (bits_fields (if s then 1 else 0) (e + 150) (Zpos m - 2 ^ 23)
                    ltac:(destruct s; lia) ltac:(lia) ltac:(lia)) as (Hs & Hx & Hmt & Hb).
      replace ((if s then 2 ^ 31 else 0) + ((e + 150) * 2 ^ 23 + (Zpos m - 2 ^ 23)))
        with ((if s then 1 else 0) * 2 ^ 31 + (e + 150) * 2 ^ 23 + (Zpos m - 2 ^ 23))
        by (destruct s; lia).
      split; [|exact Hb].
      unfold float_of_bits. rewrite Hs, Hx, Hmt.
      replace (e + 150 =? 0) with false by (symmetry; apply Z.eqb_neq; lia).
      replace (e + 150 =? 255) with false by (symmetry; apply Z.eqb_neq; lia).
      replace (Zpos m - 2 ^ 23 + 2 ^ 23) with (Zpos m) by lia.
      replace (e + 150 - 150) with e by lia. destruct s; reflexivity.
    + replace (2 ^ 23 <=? Zpos m) with false by (symmetry; apply Z.leb_gt; lia).
      pose proof (bits_fields (if s then 1 else 0) 0 (Zpos m)
                    ltac:(destruct s; lia) ltac:(lia) ltac:(lia)) as (Hs & Hx & Hmt & Hb).
      replace ((if s then 2 ^ 31 else 0) + Zpos m)
        with ((if s then 1 else 0) * 2 ^ 31 + 0 * 2 ^ 23 + Zpos m) by (destruct s; lia).
      split; [|exact Hb].
      unfold float_of_bits. rewrite Hs, Hx, Hmt. cbn [Z.eqb]. subst e.
      destruct s; reflexivity.
Qed.

Lemma EEPROM_read_write_same (addr : Z) (bytes : list byte) (e : EEPROMClass) :
  EEPROM_read addr (List.length bytes) (EEPROM_write addr bytes e) = bytes.
Proof.
  unfold EEPROM_read.
  apply nth_ext with (d := EEPROM_write addr bytes e (addr + Z.of_nat 0)) (d' := Byte.x00).
  - rewrite length_map, length_seq. reflexivity.
  - rewrite length_map, length_seq. intros n Hn.
    rewrite (map_nth (fun k => EEPROM_write addr bytes e (addr + Z.of_nat k))).
    rewrite seq_nth by exact Hn. cbn [Nat.add]. unfold EEPROM_write.
    replace (addr <=? addr + Z.of_nat n) with true by (symmetry; apply Z.leb_le; lia).
    replace (addr + Z.of_nat n <? addr + Z.of_nat (List.length bytes)) with true
      by (symmetry; apply Z.ltb_lt; lia).
    cbn [andb]. f_equal. lia.
Qed.

Lemma EEPROM_read_write_other (addr addr' : Z) (n : nat) (bytes : list byte)
    (e : EEPROMClass) :
  addr + Z.of_nat n <= addr' \/ addr' + Z.of_nat (List.length bytes) <= addr ->
  EEPROM_read addr n (EEPROM_write addr' bytes e) = EEPROM_read addr n e.
Proof.
  intros H. unfold EEPROM_read, EEPROM_write. apply map_ext_in.
  intros k Hk. apply in_seq in Hk.
  destruct (addr' <=? addr + Z.of_nat k) eqn:E1;
    destruct (addr + Z.of_nat k <? addr' + Z.of_nat (List.length bytes)) eqn:E2;
    try reflexivity.
  apply Z.leb_le in E1. apply Z.ltb_lt in E2. lia.
Qed.

Lemma EEPROM_get_put_u32 (addr v : Z) (e : EEPROMClass) :
  0 <= v < 2 ^ 32 -> EEPROM_get_u32 addr (EEPROM_put_u32 addr v e) = v.
Proof.
  intros Hv. unfold EEPROM_get_u32, EEPROM_put_u32.
  change 4%nat with (List.length (le_split 4 v)) at 1.
  rewrite EEPROM_read_write_same, le_combine_split. apply Z.mod_small. exact Hv.
Qed.

Lemma EEPROM_get_put_float (addr : Z) (x : float) (e : EEPROMClass) :
  F32.valid x = true -> EEPROM_get_float addr (EEPROM_put_float addr x e) = x.
Proof.
  intros Hv. destruct (float_of_bits_of_float x Hv) as [Hx Hb].
  unfold EEPROM_get_float, EEPROM_put_float.
  change 4%nat with (List.length (le_split 4 (bits_of_float x))) at 1.
  rewrite EEPROM_read_write_same, le_combine_split.
  rewrite Z.mod_small by exact Hb. exact Hx.
Qed.

(** The macro [abs] and [fabs] agree in every comparison. *)
Lemma abs_macro_le (x : float) (c : double) :
  fle (to_double (abs_macro x)) c = fle (to_double (fabs x)) c.
Proof.
  destruct x as [s|s| |s m e]; try (destruct s; reflexivity); reflexivity.
Qed.

(** What saving leaves in the store. *)
Lemma saveOscillatorCalibration_store (s : Firmware) :
  F32.valid (oscillator_calibration_ppm (advanced_timing s)) = true ->
  let e := eeprom (saveOscillatorCalibration s) in
  EEPROM_get_u32 EEPROM_CAL_MAGIC_ADDR e = EEPROM_CAL_MAGIC /\
  EEPROM_get_float EEPROM_CAL_PPM_ADDR e = oscillator_calibration_ppm (advanced_timing s).
Proof.
  intros Hv. cbv zeta. unfold saveOscillatorCalibration.
  cbn [eeprom println set_serial1 set_eeprom advanced_timing].
  split.
  - unfold EEPROM_get_u32, EEPROM_put_float, EEPROM_CAL_MAGIC_ADDR, EEPROM_CAL_PPM_ADDR.
    rewrite EEPROM_read_write_other by (left; cbn; lia).
    apply EEPROM_get_put_u32. cbv. split; [intros E; discriminate E | reflexivity].
  - apply EEPROM_get_put_float. exact Hv.
Qed.

(** C8: for every binary32 value [ppm] with |ppm| <= 200, saving the
    calibration and loading it back, in any state that holds the saved
    store (such as the state of the next boot), yields the same [ppm] and
    marks the calibration valid. *)
Theorem calibration_roundtrip (ppm : float) (s boot : Firmware) :
  F32.valid ppm = true ->
  fle (to_double (fabs ppm)) (F64.of_Z 200) = true ->
  eeprom boot =
    eeprom (saveOscillatorCalibration (timing (set_oscillator_calibration_ppm ppm) s)) ->
  let t := advanced_timing (loadOscillatorCalibration boot) in
  oscillator_calibration_ppm t = ppm /\ calibration_valid t = true.
Proof.
  intros Hv Hr He. cbv zeta.
  destruct (saveOscillatorCalibration_store
              (timing (set_oscillator_calibration_ppm ppm) s) Hv) as [Hm Hp].
  cbv zeta in Hm, Hp. rewrite <- He in Hm, Hp.
  change (oscillator_calibration_ppm
            (advanced_timing (timing (set_oscillator_calibration_ppm ppm) s)))
    with ppm in Hp.
  unfold loadOscillatorCalibration. rewrite Hm, Hp, Z.eqb_refl, abs_macro_le, Hr.
  cbn [andb]. split; reflexivity.
Qed.

Lemma calibration_roundtrip_witness :
  let ppm := to_float (F64.lit (-1275) 100) in
  let saved :=
    saveOscillatorCalibration (timing (set_oscillator_calibration_ppm ppm) booted) in
  let t := advanced_timing (loadOscillatorCalibration (power_on (eeprom saved))) in
  oscillator_calibration_ppm t = ppm /\ calibration_valid t = true.
Proof.
  cbv zeta.
  apply (calibration_roundtrip (to_float (F64.lit (-1275) 100)) booted).
  - vm_compute. reflexivity.
  - vm_compute. reflexivity.
  - reflexivity.
Defined.

(** ** Discipline engine: the initial calibration is not clamped *)

(** Comparison of floats is antisymmetric. *)
Lemma SFcompare_antisym (a b : spec_float) :
  SFcompare b a = option_map CompOpp (SFcompare a b).
Proof.
  destruct a as [sa|sa| |sa ma ea], b as [sb|sb| |sb mb eb]; cbn;
    try reflexivity; try (destruct sa; reflexivity); try (destruct sb; reflexivity);
    try (destruct sa, sb; reflexivity).
  destruct sa, sb; cbn; try reflexivity.
  - rewrite (Z.compare_antisym ea eb). destruct (ea ?= eb); cbn; try reflexivity.
    rewrite !Pos.compare_cont_spec. cbn. rewrite (Pos.compare_antisym ma mb).
    destruct (ma ?= mb)%positive; reflexivity.
  - rewrite (Z.compare_antisym ea eb). destruct (ea ?= eb); cbn; try reflexivity.
    rewrite !Pos.compare_cont_spec. cbn. rewrite (Pos.compare_antisym ma mb).
    destruct (ma ?= mb)%positive; reflexivity.
Qed.

Lemma not_lt_le (a b : spec_float) :
  SFcompare a b <> None -> SFltb a b = false -> SFleb b a = true.
Proof.
  unfold SFltb, SFleb. rewrite (SFcompare_antisym a b).
  destruct (SFcompare a b) as [[| |]|]; cbn; congruence.
Qed.

(** After [clampOscillatorCalibration] a calibration that is a number lies
    in [-200, 200]. *)
Lemma clampOscillatorCalibration_bound (s : Firmware) :
  let ppm := oscillator_calibration_ppm (advanced_timing s) in
  let ppm' := oscillator_calibration_ppm (advanced_timing (clampOscillatorCalibration s)) in
  to_double ppm <> S754_nan ->
  fle (F64.of_Z (-200)) (to_double ppm') = true /\
  fle (to_double ppm') (F64.of_Z 200) = true.
Proof.
  cbv zeta. intros Hn. unfold clampOscillatorCalibration, fgt, flt, fle.
  destruct (SFltb (F64.of_Z 200) _) eqn:E1.
  - split; vm_compute; reflexivity.
  - destruct (SFltb _ (F64.of_Z (-200))) eqn:E2.
    + split; vm_compute; reflexivity.
    + split.
      * apply not_lt_le; [|exact E2].
        destruct (to_double _) as [z|z| |z m e]; try congruence; destruct z; discriminate.
      * apply not_lt_le; [|exact E1].
        destruct (to_double _) as [z|z| |z m e]; try congruence; destruct z; discriminate.
Qed.

Lemma learn_temperature_ppm (s : Firmware) :
  oscillator_calibration_ppm (advanced_timing (learn_temperature s)) =
  oscillator_calibration_ppm (advanced_timing s).
Proof. unfold learn_temperature. repeat break_if; reflexivity. Qed.

(** The tail of the smoothing branch for any smoothed value [x]: store,
    clamp, save, learn, and print the debug line every tenth pulse.  What
    is left in [oscillator_calibration_ppm] is within the limit. *)
Lemma smoothing_tail_bound (x : float) (c : bool) (l : Firmware -> Line) (s : Firmware) :
  to_double x <> S754_nan ->
  let s2 :=
    learn_temperature
      (saveOscillatorCalibration
         (clampOscillatorCalibration (timing (set_oscillator_calibration_ppm x) s))) in
  let ppm' :=
    oscillator_calibration_ppm (advanced_timing (if c then println (l s2) s2 else s2)) in
  fle (F64.of_Z (-200)) (to_double ppm') = true /\
  fle (to_double ppm') (F64.of_Z 200) = true.
Proof.
  intros Hn s2 ppm'.
  assert (E : ppm' =
              oscillator_calibration_ppm
                (advanced_timing
                   (clampOscillatorCalibration
                      (timing (set_oscillator_calibration_ppm x) s)))).
  { subst ppm' s2. destruct c; cbn [advanced_timing println set_serial1];
      rewrite learn_temperature_ppm; reflexivity. }
  rewrite E.
  apply (clampOscillatorCalibration_bound (timing (set_oscillator_calibration_ppm x) s)).
  exact Hn.
Qed.

(** X4: from the tenth PPS on, an accepted calibration update (measured
    error below 1000 ppm, no clock reset flagged) stores a calibration in
    [-200, 200] ppm, provided the smoothed value is a number: the smoothing
    branch of [processPPS] clamps what it stores. *)
Lemma pps_calibrate_smoothing_bound (pps_micros : Z) (s : Firmware) :
  let t := advanced_timing s in
  let error_ppm := error_ppm_of (Int.u64 (pps_micros - cal_base_micros t)) in
  let smoothed :=
    to_float (F64.add (F64.mul (F64.lit 9 10) (to_double (oscillator_calibration_ppm t)))
                      (F64.mul (F64.lit 1 10) (to_double (SFopp error_ppm)))) in
  let ppm' := oscillator_calibration_ppm (advanced_timing (pps_calibrate pps_micros s)) in
  10 <= pps_count t -> calibration_valid t = true -> clock_reset_detected t = false ->
  flt (abs_macro error_ppm) (F32.of_Z 1000) = true ->
  to_double smoothed <> S754_nan ->
  fle (F64.of_Z (-200)) (to_double ppm') = true /\
  fle (to_double ppm') (F64.of_Z 200) = true.
Proof.
  cbv zeta. intros Hc Hv Hr He. unfold pps_calibrate. rewrite Hv, Hr, He.
  replace (pps_count (advanced_timing s) >? 1) with true
    by (symmetry; rewrite Z.gtb_ltb; apply Z.ltb_lt; lia).
  replace (pps_count (advanced_timing s) <? 10) with false
    by (symmetry; apply Z.ltb_ge; lia).
  cbn [andb negb].
  generalize (to_float
                (F64.add
                   (F64.mul (F64.lit 9 10)
                      (to_double (oscillator_calibration_ppm (advanced_timing s))))
                   (F64.mul (F64.lit 1 10)
                      (to_double
                         (SFopp (error_ppm_of
                                   (Int.u64 (pps_micros - cal_base_micros (advanced_timing s))))))))).
  intros x Hn.
  exact (smoothing_tail_bound x (pps_count (advanced_timing s) mod 10 =? 0)
           (fun s2 => Msg [Str "DEBUG:Oscillator cal: ";
                           Flt (oscillator_calibration_ppm (advanced_timing s2)) 2;
                           Str "ppm, interval: ";
                           Num (Int.u64 (pps_micros - cal_base_micros (advanced_timing s)));
                           Str "us"]) s Hn).
Qed.

Lemma pps_calibrate_smoothing_bound_witness :
  let ppm' :=
    oscillator_calibration_ppm (advanced_timing (pps_calibrate 3000800 tenth_edge_pending)) in
  fle (F64.of_Z (-200)) (to_double ppm') = true /\
  fle (to_double ppm') (F64.of_Z 200) = true.
Proof.
  apply (pps_calibrate_smoothing_bound 3000800 tenth_edge_pending).
  - vm_compute. intros E. discriminate E.
  - vm_compute. reflexivity.
  - vm_compute. reflexivity.
  - vm_compute. reflexivity.
  - vm_compute. intros E. discriminate E.
Defined.

(** In the initial calibration the measured error is stored as it is. *)
Lemma pps_calibrate_initial (pps_micros : Z) (s : Firmware) :
  let t := advanced_timing s in
  let error_ppm := error_ppm_of (Int.u64 (pps_micros - cal_base_micros t)) in
  1 < pps_count t < 10 -> calibration_valid t = true -> clock_reset_detected t = false ->
  flt (abs_macro error_ppm) (F32.of_Z 1000) = true ->
  oscillator_calibration_ppm (advanced_timing (pps_calibrate pps_micros s)) =
  SFopp error_ppm.
Proof.
  cbv zeta. intros Hc Hv Hr He. unfold pps_calibrate. rewrite Hv, Hr, He.
  replace (pps_count (advanced_timing s) >? 1) with true
    by (symmetry; rewrite Z.gtb_ltb; apply Z.ltb_lt; lia).
  replace (pps_count (advanced_timing s) <? 10) with true
    by (symmetry; apply Z.ltb_lt; lia).
  cbn [andb negb]. break_if; reflexivity.
Qed.

(** C2 fails on the code: in [second_edge_500ppm] the second accepted PPS
    measures an error of +500 ppm and the stored calibration becomes -500
    ppm; in [edge_after_outage] the third PPS stores -504 ppm.  Neither is
    clamped to [-200, 200]: [clampOscillatorCalibration] runs in the
    smoothing branch only. *)
Theorem initial_calibration_exceeds_limit :
  let t := advanced_timing second_edge_500ppm in
  let u := advanced_timing edge_after_outage in
  pps_count t = 2 /\ calibration_valid t = true /\
  oscillator_calibration_ppm t = F32.of_Z (-500) /\
  fle (to_double (fabs (oscillator_calibration_ppm t))) (F64.of_Z 200) = false /\
  pps_count u = 3 /\ calibration_valid u = true /\
  oscillator_calibration_ppm u = F32.of_Z (-504) /\
  fle (to_double (fabs (oscillator_calibration_ppm u))) (F64.of_Z 200) = false.
Proof. cbv zeta. repeat split; vm_compute; reflexivity. Qed.

(** ** PPS-locked start *)

Lemma clampOscillatorCalibration_blind {A : Type} (f : AdvancedTiming -> A) (s : Firmware) :
  calibration_blind f ->
  f (advanced_timing (clampOscillatorCalibration s)) = f (advanced_timing s) /\
  streaming (clampOscillatorCalibration s) = streaming s.
Proof.
  intros (Hp & _). unfold clampOscillatorCalibration.
  repeat break_if; cbn [advanced_timing timing println set_serial1 set_advanced_timing];
    rewrite ?Hp; split; reflexivity.
Qed.

Lemma learn_temperature_blind {A : Type} (f : AdvancedTiming -> A) (s : Firmware) :
  calibration_blind f ->
  f (advanced_timing (learn_temperature s)) = f (advanced_timing s) /\
  streaming (learn_temperature s) = streaming s.
Proof.
  intros (_ & Hc & He). unfold learn_temperature.
  repeat break_if; cbn [advanced_timing timing println set_serial1 set_advanced_timing];
    rewrite ?He, ?Hc; split; reflexivity.
Qed.

Lemma pps_calibrate_blind {A : Type} (f : AdvancedTiming -> A) (m : Z) (s : Firmware) :
  calibration_blind f ->
  f (advanced_timing (pps_calibrate m s)) = f (advanced_timing s) /\
  streaming (pps_calibrate m s) = streaming s.
Proof.
  intros Hf. pose proof Hf as (Hp & _). unfold pps_calibrate.
  destruct (_ && _); [|split; reflexivity].
  destruct (flt _ _); [|split; reflexivity].
  set (s1 := if _ <? 10 then _ else _).
  assert (H1 : f (advanced_timing s1) = f (advanced_timing s) /\ streaming s1 = streaming s).
  { subst s1. destruct (_ <? 10).
    - cbn [advanced_timing timing set_advanced_timing]. rewrite Hp. split; reflexivity.
    - destruct (learn_temperature_blind f
                  (saveOscillatorCalibration
                     (clampOscillatorCalibration
                        (timing (set_oscillator_calibration_ppm
                           (to_float
                              (F64.add
                                 (F64.mul (F64.lit 9 10)
                                    (to_double (oscillator_calibration_ppm (advanced_timing s))))
                                 (F64.mul (F64.lit 1 10)
                                    (to_double
                                       (SFopp (error_ppm_of
                                          (Int.u64 (m - cal_base_micros (advanced_timing s)))))))))) s)))
                  Hf) as [Ha Hb].
      rewrite Ha, Hb.
      change (advanced_timing (saveOscillatorCalibration ?x)) with (advanced_timing x).
      change (streaming (saveOscillatorCalibration ?x)) with (streaming x).
      destruct (clampOscillatorCalibration_blind f
                  (timing (set_oscillator_calibration_ppm
                     (to_float
                        (F64.add
                           (F64.mul (F64.lit 9 10)
                              (to_double (oscillator_calibration_ppm (advanced_timing s))))
                           (F64.mul (F64.lit 1 10)
                              (to_double
                                 (SFopp (error_ppm_of
                                    (Int.u64 (m - cal_base_micros (advanced_timing s)))))))))) s)
                  Hf) as [Hc Hd].
      rewrite Hc, Hd. cbn [advanced_timing timing set_advanced_timing]. rewrite Hp.
      split; reflexivity. }
  clearbody s1. break_if; exact H1.
Qed.

(** Neither phase plan of [processPPS] does anything while not streaming. *)
Lemma pps_phase_nudge_idle (m : Z) (s : Firmware) :
  streaming s = false -> pps_phase_nudge m s = s.
Proof. intros H. unfold pps_phase_nudge. rewrite H. reflexivity. Qed.

Lemma pps_phase_lock_idle (m : Z) (s : Firmware) :
  streaming s = false -> pps_phase_lock m s = s.
Proof. intros H. unfold pps_phase_lock. rewrite H. reflexivity. Qed.

(** The start block at the end of [processPPS] with one edge left. *)
Lemma pps_locked_start_last (m : Z) (i : PpsReadings) (s : Firmware) :
  sync_on_pps (advanced_timing s) = true -> pps_countdown (advanced_timing s) = 1 ->
  pps_locked_start m i s = pps_begin_streaming m i false (timing (set_pps_countdown 0) s).
Proof. intros Hy Hc. unfold pps_locked_start. rewrite Hy, Hc. reflexivity. Qed.

Lemma pps_begin_streaming_effect (m : Z) (i : PpsReadings) (s : Firmware) :
  let s' := pps_begin_streaming m i false s in
  streaming s' = true /\
  timing_established (advanced_timing s') = true /\
  pps_countdown (advanced_timing s') = pps_countdown (advanced_timing s) /\
  timing_base_micros (advanced_timing s') = m.
Proof.
  cbv zeta. unfold pps_begin_streaming, sendSessionHeader.
  repeat break_if; repeat split; reflexivity.
Qed.

(** Armed with a countdown of 2 before any PPS has been accepted, the
    first edge already starts the stream: the edge is counted down in the
    first block of [processPPS] and again in the start block at its end. *)
Lemma processPPS_counts_edge_twice (i : PpsReadings) (s : Firmware) :
  let t := advanced_timing s in
  let s' := processPPS i s in
  sync_on_pps t = true -> pps_countdown t = 2 ->
  clock_reset_detected t = false -> pps_valid t = false -> streaming s = false ->
  streaming s' = true /\
  timing_established (advanced_timing s') = true /\
  pps_countdown (advanced_timing s') = 0 /\
  timing_base_micros (advanced_timing s') = pps_micros t.
Proof.
  cbv zeta. intros Hsync Hcnt Hreset Hvalid Hstr. unfold processPPS.
  cbn [advanced_timing timing set_advanced_timing sync_on_pps pps_countdown set_pps_count].
  rewrite Hsync, Hcnt. cbn [andb Z.gtb Z.compare Int.u8 Int.wrap Z.sub Z.eqb].
  change (Int.u8 (2 - 1) =? 0) with false. cbv iota.
  change (Int.u8 (2 - 1)) with 1.
  set (s1 := timing (set_pps_countdown 1) (timing (set_pps_count _) s)).
  unfold processPPS_accept.
  change (clock_reset_detected (advanced_timing s1)) with (clock_reset_detected (advanced_timing s)).
  change (pps_valid (advanced_timing s1)) with (pps_valid (advanced_timing s)).
  rewrite Hreset, Hvalid. cbn [andb].
  destruct (pps_calibrate_blind pps_valid (pps_micros (advanced_timing s)) s1 ltac:(blind))
    as [Hv2 Hs2].
  destruct (pps_calibrate_blind sync_on_pps (pps_micros (advanced_timing s)) s1 ltac:(blind))
    as [Hy2 _].
  destruct (pps_calibrate_blind pps_countdown (pps_micros (advanced_timing s)) s1 ltac:(blind))
    as [Hc2 _].
  set (s2 := pps_calibrate (pps_micros (advanced_timing s)) s1) in *. clearbody s2.
  change (pps_valid (advanced_timing s1)) with (pps_valid (advanced_timing s)) in Hv2.
  change (sync_on_pps (advanced_timing s1)) with (sync_on_pps (advanced_timing s)) in Hy2.
  change (pps_countdown (advanced_timing s1)) with 1 in Hc2.
  change (streaming s1) with (streaming s) in Hs2.
  rewrite Hv2, Hvalid. cbn [negb].
  set (s3 := timing (set_last_pps_time _) _).
  assert (H3 : streaming s3 = false /\ sync_on_pps (advanced_timing s3) = true /\
               pps_countdown (advanced_timing s3) = 1).
  { subst s3. cbn. rewrite Hs2, Hy2, Hc2. auto. }
  clearbody s3. destruct H3 as (Hs3 & Hy3 & Hc3).
  rewrite (pps_phase_nudge_idle _ s3 Hs3), (pps_phase_lock_idle _ s3 Hs3).
  rewrite (pps_locked_start_last _ i s3 Hy3 Hc3).
  set (s4 := timing (set_pps_countdown 0) s3).
  destruct (pps_begin_streaming_effect (pps_micros (advanced_timing s)) i s4)
    as (E1 & E2 & E3 & E4).
  set (s5 := pps_begin_streaming _ _ _ _) in *. clearbody s5.
  break_if; cbn [streaming advanced_timing println set_serial1];
    rewrite E1, E2, E3, E4; repeat split; reflexivity.
Qed.

(** C4 fails on the code: armed with n = 2 the stream is established on
    the first PPS edge ([processPPS] counts the edge down in its first
    block and again in its last); armed with n = 3 on the second; and the
    base is the raw [pps_micros], which after a wrap of the microsecond
    counter is 2^32 below the edge in virtual time. *)
Theorem pps_locked_start_is_early :
  let first_of_two := pps_edge 1 (armed 2) in
  let second_of_three := pps_edge 2 (pps_edge 1 (armed 3)) in
  pps_countdown (advanced_timing (armed 2)) = 2 /\
  streaming (armed 2) = false /\
  streaming first_of_two = true /\
  timing_established (advanced_timing first_of_two) = true /\
  pps_count (advanced_timing first_of_two) = 1 /\
  streaming (pps_edge 1 (armed 3)) = false /\
  streaming second_of_three = true /\
  timing_established (advanced_timing second_of_three) = true /\
  streaming armed_after_wrap = true /\
  virtual_micros_offset (advanced_timing armed_after_wrap) = 2 ^ 32 /\
  pps_micros (advanced_timing armed_after_wrap) = 706032704 /\
  timing_base_micros (advanced_timing armed_after_wrap) = 706032704.
Proof. cbv zeta. repeat split; vm_compute; reflexivity. Qed.

(** With n = 1 the stream starts on the first edge, as armed. *)
Lemma pps_locked_start_on_first_edge :
  streaming (armed 1) = false /\ streaming (pps_edge 1 (armed 1)) = true /\
  timing_base_micros (advanced_timing (pps_edge 1 (armed 1))) = 1000000.
Proof. repeat split; vm_compute; reflexivity. Qed.

(** ** The calibration limit *)

(** Rounding to a format treats the sign apart: the result for a negative
    number is the opposite of the result for its absolute value. *)
Lemma binary_round_sign (prec emax : Z) (s : bool) (m : positive) (e : Z) :
  binary_round prec emax s m e =
  (if s then SFopp (binary_round prec emax false m e) else binary_round prec emax false m e).
Proof.
  unfold binary_round. destruct (shl_align _ _ _) as [mz ez].
  unfold binary_round_aux. destruct (shr_fexp _ _ _ _ _) as [mrs' e'].
  destruct (shr_fexp _ _ _ _ _) as [mrs'' e''].
  destruct s; [|reflexivity].
  destruct (shr_m mrs''); [reflexivity| |reflexivity].
  destruct (_ <=? _); reflexivity.
Qed.

(** Shifting right keeps a mantissa that is not negative so. *)
Lemma shr_1_nonneg (r : shr_record) : 0 <= shr_m r -> 0 <= shr_m (shr_1 r).
Proof.
  destruct r as [m r s]. cbn [shr_m]. intros H.
  destruct m as [|p|p]; [cbn; lia| |lia]. destruct p; cbn; lia.
Qed.

Lemma iter_shr_1_nonneg (n : positive) (r : shr_record) :
  0 <= shr_m r -> 0 <= shr_m (iter_pos shr_1 n r).
Proof.
  revert r. induction n as [n IH|n IH|]; intros r H; cbn [iter_pos].
  - apply IH, IH, shr_1_nonneg, H.
  - apply IH, IH, H.
  - apply shr_1_nonneg, H.
Qed.

Lemma shr_fexp_nonneg (prec emax m e : Z) (l : location) :
  0 <= m -> 0 <= shr_m (fst (shr_fexp prec emax m e l)).
Proof.
  intros H. unfold shr_fexp, shr.
  assert (H0 : 0 <= shr_m (shr_record_of_loc m l)).
  { destruct l as [|[| |]]; exact H. }
  destruct (_ - e); cbn [fst]; try exact H0. apply iter_shr_1_nonneg, H0.
Qed.

(** Rounding a number never gives a NaN. *)
Lemma binary_round_aux_not_nan (prec emax : Z) (s : bool) (m e : Z) (l : location) :
  0 <= m -> binary_round_aux prec emax s m e l <> S754_nan.
Proof.
  intros H. unfold binary_round_aux.
  pose proof (shr_fexp_nonneg prec emax m e l H) as H1.
  destruct (shr_fexp prec emax m e l) as [mrs' e']. cbn [fst] in H1.
  assert (H2 : 0 <= round_nearest_even (shr_m mrs') (loc_of_shr_record mrs')).
  { unfold round_nearest_even. destruct (loc_of_shr_record mrs') as [|[| |]];
      try destruct (Z.even _); lia. }
  pose proof (shr_fexp_nonneg prec emax _ e' loc_Exact H2) as H3.
  destruct (shr_fexp prec emax _ e' loc_Exact) as [mrs'' e'']. cbn [fst] in H3.
  destruct (shr_m mrs''); [discriminate| |lia].
  destruct (_ <=? _); discriminate.
Qed.

Lemma binary_round_not_nan (prec emax : Z) (s : bool) (m : positive) (e : Z) :
  binary_round prec emax s m e <> S754_nan.
Proof.
  unfold binary_round. destruct (shl_align _ _ _) as [mz ez].
  apply binary_round_aux_not_nan. lia.
Qed.

Lemma to_double_not_nan (x : float) : x <> S754_nan -> to_double x <> S754_nan.
Proof.
  destruct x as [s|s| |s m e]; try congruence; intros _; try discriminate.
  apply binary_round_not_nan.
Qed.

Lemma to_double_opp (x : float) : to_double (SFopp x) = SFopp (to_double x).
Proof.
  destruct x as [s|s| |s m e]; try reflexivity.
  cbn [SFopp to_double]. rewrite (binary_round_sign _ _ s), (binary_round_sign _ _ (negb s)).
  destruct s; cbn [negb]; [|reflexivity].
  destruct (binary_round _ _ false m e) as [z|z| |z m' e']; try reflexivity;
    cbn [SFopp]; rewrite negb_involutive; reflexivity.
Qed.

Lemma SFcompare_opp (a b : spec_float) :
  SFcompare (SFopp a) (SFopp b) = SFcompare b a.
Proof.
  rewrite (SFcompare_antisym a b).
  destruct a as [sa|sa| |sa ma ea], b as [sb|sb| |sb mb eb]; cbn;
    try reflexivity; try (destruct sa; reflexivity); try (destruct sb; reflexivity);
    try (destruct sa, sb; reflexivity).
  destruct sa, sb; cbn; try reflexivity; destruct (ea ?= eb); cbn; try reflexivity;
    rewrite CompOpp_involutive; reflexivity.
Qed.

Lemma le_not_lt (a b : spec_float) : SFleb a b = true -> SFltb b a = false.
Proof.
  unfold SFltb, SFleb. rewrite (SFcompare_antisym a b).
  destruct (SFcompare a b) as [[| |]|]; cbn; congruence.
Qed.

Lemma SFcompare_not_nan (a b : spec_float) :
  a <> S754_nan -> b <> S754_nan -> SFcompare a b <> None.
Proof.
  destruct a as [sa|sa| |sa ma ea], b as [sb|sb| |sb mb eb]; cbn; try congruence;
    intros _ _; try discriminate;
    try (destruct sa; discriminate); try (destruct sb; discriminate);
    try (destruct sa, sb; discriminate).
Qed.

(** A number whose absolute value, as the macro [abs] computes it, is at
    most 200 lies in [-200, 200], and conversely. *)
Lemma abs_le_200 (x : float) :
  fle (to_double (abs_macro x)) (F64.of_Z 200) = true <->
  fle (F64.of_Z (-200)) (to_double x) = true /\ fle (to_double x) (F64.of_Z 200) = true.
Proof.
  rewrite abs_macro_le. unfold fle, fabs.
  destruct x as [s|s| |s m e]; try (destruct s; cbn; intuition congruence);
    try (cbn; intuition congruence).
  cbn [SFabs to_double]. rewrite (binary_round_sign _ _ s).
  pose proof (binary_round_not_nan F64.prec F64.emax false m e) as Hn.
  assert (Hs : match binary_round F64.prec F64.emax false m e with
               | S754_zero z | S754_infinity z | S754_finite z _ _ => z = false
               | S754_nan => True
               end).
  { unfold binary_round. destruct (shl_align _ _ _) as [mz ez].
    unfold binary_round_aux. destruct (shr_fexp _ _ _ _ _) as [mrs' e'].
    destruct (shr_fexp _ _ _ _ _) as [mrs'' e''].
    destruct (shr_m mrs''); try exact I; [reflexivity|].
    destruct (_ <=? _); reflexivity. }
  set (d := binary_round F64.prec F64.emax false m e) in *. clearbody d.
  assert (Hc : exists m200 e200, F64.of_Z 200 = S754_finite false m200 e200)
    by (eexists _, _; vm_compute; reflexivity).
  destruct Hc as (m200 & e200 & Hc).
  destruct s.
  - unfold SFleb at 2. change (F64.of_Z (-200)) with (SFopp (F64.of_Z 200)).
    rewrite SFcompare_opp. fold (SFleb d (F64.of_Z 200)).
    split; [intros H; split; [exact H|] | intros [H _]; exact H].
    rewrite Hc.
    destruct d as [z|z| |z m' e']; try congruence; subst z; reflexivity.
  - split; [intros H; split; [|exact H] | intros [_ H]; exact H].
    change (F64.of_Z (-200)) with (SFopp (F64.of_Z 200)). rewrite Hc.
    destruct d as [z|z| |z m' e']; try congruence; subst z; reflexivity.
Qed.

(** A calibration inside the limit is left as it is. *)
Lemma clampOscillatorCalibration_inside (s : Firmware) :
  fle (F64.of_Z (-200)) (to_double (oscillator_calibration_ppm (advanced_timing s))) = true ->
  fle (to_double (oscillator_calibration_ppm (advanced_timing s))) (F64.of_Z 200) = true ->
  clampOscillatorCalibration s = s.
Proof.
  intros H1 H2. unfold clampOscillatorCalibration, fgt, flt.
  rewrite (le_not_lt _ _ H2), (le_not_lt _ _ H1). reflexivity.
Qed.

(** X1: [clampOscillatorCalibration] brings every calibration that is a
    number into [-200, 200] ppm; a calibration already inside is left as it
    is, with nothing printed; and clamping twice is clamping once. *)
Theorem clamp_enforces_limit (s : Firmware) :
  let ppm := oscillator_calibration_ppm (advanced_timing s) in
  let s' := clampOscillatorCalibration s in
  let ppm' := oscillator_calibration_ppm (advanced_timing s') in
  ppm <> S754_nan ->
  fle (F64.of_Z (-200)) (to_double ppm') = true /\
  fle (to_double ppm') (F64.of_Z 200) = true /\
  (fle (F64.of_Z (-200)) (to_double ppm) = true ->
   fle (to_double ppm) (F64.of_Z 200) = true -> s' = s) /\
  clampOscillatorCalibration s' = s'.
Proof.
  cbv zeta. intros Hn. apply to_double_not_nan in Hn.
  destruct (clampOscillatorCalibration_bound s Hn) as [Hlo Hhi]. cbv zeta in Hlo, Hhi.
  repeat split; try assumption.
  - apply clampOscillatorCalibration_inside.
  - apply clampOscillatorCalibration_inside; assumption.
Qed.

Lemma clamp_enforces_limit_witness :
  oscillator_calibration_ppm (advanced_timing (clampOscillatorCalibration miscalibrated))
  = F32.of_Z 200 /\
  clampOscillatorCalibration (clampOscillatorCalibration miscalibrated) =
  clampOscillatorCalibration miscalibrated.
Proof.
  destruct (clamp_enforces_limit miscalibrated) as (_ & _ & _ & H).
  - vm_compute. intros E. discriminate E.
  - split; [vm_compute; reflexivity | exact H].
Defined.

(** ** Calibration across a reboot *)

(** What [clampOscillatorCalibration] can leave in the calibration, and
    what it does not touch. *)
Lemma clampOscillatorCalibration_cases (s : Firmware) :
  let ppm := oscillator_calibration_ppm (advanced_timing s) in
  let s' := clampOscillatorCalibration s in
  (oscillator_calibration_ppm (advanced_timing s') = ppm \/
   oscillator_calibration_ppm (advanced_timing s') = F32.of_Z 200 \/
   oscillator_calibration_ppm (advanced_timing s') = F32.of_Z (-200)) /\
  eeprom s' = eeprom s.
Proof.
  cbv zeta. unfold clampOscillatorCalibration.
  repeat break_if; split; auto.
Qed.

(** Loading from a store that holds the magic number and a calibration
    within the limit installs that calibration. *)
Lemma loadOscillatorCalibration_accepts (ppm : float) (s : Firmware) :
  EEPROM_get_u32 EEPROM_CAL_MAGIC_ADDR (eeprom s) = EEPROM_CAL_MAGIC ->
  EEPROM_get_float EEPROM_CAL_PPM_ADDR (eeprom s) = ppm ->
  fle (F64.of_Z (-200)) (to_double ppm) = true -> fle (to_double ppm) (F64.of_Z 200) = true ->
  loadOscillatorCalibration s =
  s |> timing (set_oscillator_calibration_ppm ppm)
    |> timing (set_calibration_valid true)
    |> println (Msg [Str "DEBUG:Loaded oscillator calibration from EEPROM: ";
                     Flt ppm 2; Str " ppm"]).
Proof.
  intros Hm Hp Hlo Hhi. unfold loadOscillatorCalibration.
  rewrite Hm, Hp, Z.eqb_refl. cbn [andb].
  replace (fle (to_double (abs_macro ppm)) (F64.of_Z 200)) with true
    by (symmetry; apply abs_le_200; split; assumption).
  reflexivity.
Qed.

(** X2: a calibration set by hand with [SET_CAL_PPM] is clamped to
    [-200, 200] ppm, marked valid and written to the store, and the next
    boot installs exactly the clamped value: [setup] on the store the
    command left finds it valid. *)
Theorem manual_calibration_survives_reboot (i : CommandReadings) (x : float) (s : Firmware)
    (boot_ms now_us now_ms : Z) :
  F32.valid x = true -> x <> S754_nan ->
  let s1 := processLine i (SET_CAL_PPM x) s in
  let t1 := advanced_timing s1 in
  let t2 := advanced_timing (setup boot_ms now_us now_ms (power_on (eeprom s1))) in
  calibration_valid t1 = true /\
  fle (F64.of_Z (-200)) (to_double (oscillator_calibration_ppm t1)) = true /\
  fle (to_double (oscillator_calibration_ppm t1)) (F64.of_Z 200) = true /\
  (fle (F64.of_Z (-200)) (to_double x) = true -> fle (to_double x) (F64.of_Z 200) = true ->
   oscillator_calibration_ppm t1 = x) /\
  oscillator_calibration_ppm t2 = oscillator_calibration_ppm t1 /\
  calibration_valid t2 = true.
Proof.
  intros Hv Hn. cbv zeta. cbn [processLine].
  set (s0 := timing (set_calibration_valid true)
               (timing (set_oscillator_calibration_ppm x) s)).
  assert (Hn0 : oscillator_calibration_ppm (advanced_timing s0) <> S754_nan) by exact Hn.
  destruct (clampOscillatorCalibration_bound s0 (to_double_not_nan _ Hn0)) as [Hlo Hhi].
  cbv zeta in Hlo, Hhi.
  pose proof (clampOscillatorCalibration_inside s0) as Hsame.
  destruct (clampOscillatorCalibration_cases s0) as [Hc He]. cbv zeta in Hc, He.
  destruct (clampOscillatorCalibration_blind calibration_valid s0 ltac:(blind)) as [Hcv _].
  set (s2 := clampOscillatorCalibration s0) in *.
  assert (Hv2 : F32.valid (oscillator_calibration_ppm (advanced_timing s2)) = true).
  { destruct Hc as [E|[E|E]]; rewrite E; [exact Hv | reflexivity | reflexivity]. }
  destruct (saveOscillatorCalibration_store s2 Hv2) as [Hm Hp]. cbv zeta in Hm, Hp.
  clearbody s2.
  change (advanced_timing (println _ (saveOscillatorCalibration s2)))
    with (advanced_timing s2).
  change (eeprom (println _ (saveOscillatorCalibration s2)))
    with (eeprom (saveOscillatorCalibration s2)).
  split; [exact Hcv|]. split; [exact Hlo|]. split; [exact Hhi|].
  split; [intros H1 H2; apply (f_equal (fun s => oscillator_calibration_ppm (advanced_timing s)))
                            in Hsame; [exact Hsame | exact H1 | exact H2]|].
  unfold setup.
  set (pre := setupAdvancedTiming _ _ _).
  assert (Epre : eeprom pre = eeprom (saveOscillatorCalibration s2)) by reflexivity.
  rewrite <- Epre in Hm, Hp.
  rewrite (loadOscillatorCalibration_accepts _ pre Hm Hp Hlo Hhi).
  split; reflexivity.
Qed.

Lemma manual_calibration_survives_reboot_witness :
  let s1 := processLine (mkCommandReadings 0 0 0 64) (SET_CAL_PPM (F32.of_Z 350)) booted in
  let t1 := advanced_timing s1 in
  let t2 := advanced_timing (setup 7 0 0 (power_on (eeprom s1))) in
  oscillator_calibration_ppm t2 = oscillator_calibration_ppm t1 /\
  calibration_valid t2 = true.
Proof.
  destruct (manual_calibration_survives_reboot (mkCommandReadings 0 0 0 64) (F32.of_Z 350)
              booted 7 0 0) as (_ & _ & _ & _ & H1 & H2).
  - vm_compute. reflexivity.
  - vm_compute. intros E. discriminate E.
  - split; assumption.
Defined.

(** X3: whatever the persistent store holds at power-on, after [setup]
    the calibration lies in [-200, 200] ppm: the stored value is installed
    (and the calibration marked valid) exactly when the magic number is
    there and the stored value is within the limit; otherwise the
    calibration is 0 and not valid.  A NaN in the store is refused. *)
Theorem boot_calibration_within_limit (e : EEPROMClass) (boot_ms now_us now_ms : Z) :
  let t := advanced_timing (setup boot_ms now_us now_ms (power_on e)) in
  let stored := EEPROM_get_float EEPROM_CAL_PPM_ADDR e in
  let accepted :=
    (EEPROM_get_u32 EEPROM_CAL_MAGIC_ADDR e =? EEPROM_CAL_MAGIC) &&
    fle (to_double (abs_macro stored)) (F64.of_Z 200) in
  calibration_valid t = accepted /\
  oscillator_calibration_ppm t = (if accepted then stored else F32.of_Z 0) /\
  oscillator_calibration_ppm t <> S754_nan /\
  fle (F64.of_Z (-200)) (to_double (oscillator_calibration_ppm t)) = true /\
  fle (to_double (oscillator_calibration_ppm t)) (F64.of_Z 200) = true.
Proof.
  cbv zeta. unfold setup.
  set (pre := setupAdvancedTiming _ _ _).
  assert (Epre : eeprom pre = e) by reflexivity.
  assert (Hppm : oscillator_calibration_ppm (advanced_timing pre) = F32.of_Z 0) by reflexivity.
  assert (Hval : calibration_valid (advanced_timing pre) = false) by reflexivity.
  clearbody pre. unfold loadOscillatorCalibration. rewrite Epre.
  destruct (EEPROM_get_u32 EEPROM_CAL_MAGIC_ADDR e =? EEPROM_CAL_MAGIC); cbn [andb].
  - destruct (fle (to_double (abs_macro (EEPROM_get_float EEPROM_CAL_PPM_ADDR e)))
                (F64.of_Z 200)) eqn:Habs.
    + cbn [println set_serial1 advanced_timing timing set_advanced_timing
             calibration_valid set_calibration_valid oscillator_calibration_ppm
             set_oscillator_calibration_ppm].
      apply abs_le_200 in Habs as Hb. destruct Hb as [Hlo Hhi].
      repeat split; try assumption.
      intros E. rewrite E in Habs. discriminate Habs.
    + cbn [println set_serial1 advanced_timing]. rewrite Hppm, Hval.
      repeat split; try reflexivity. intros E. discriminate E.
  - cbn [println set_serial1 advanced_timing]. rewrite Hppm, Hval.
    repeat split; try reflexivity. intros E. discriminate E.
Qed.

(** ** Wraparound and reset detection *)

Ltac decide_cond c b :=
  let E := fresh "E" in
  assert (E : c = b)
    by (try rewrite Z.gtb_ltb; try rewrite Z.geb_leb;
        first [apply Z.ltb_lt | apply Z.ltb_ge | apply Z.leb_le | apply Z.leb_gt
              | apply Z.eqb_eq | apply Z.eqb_neq]; lia);
  rewrite E; clear E.

(** [detectClockReset] on the regular wraparound of [micros()]. *)
Lemma detectClockReset_wraparound (m ms : Z) (s : Firmware) :
  let t := advanced_timing s in
  4000000000 < last_micros t -> m < 300000000 ->
  detectClockReset m ms s =
  (s |> timing (set_micros_wraparound_count (Int.u32 (micros_wraparound_count t + 1)))
     |> timing (set_virtual_micros_offset (Int.u64 (virtual_micros_offset t + 4294967296)))
     |> println (Msg [Str "DEBUG:micros() wraparound detected (#";
                      Num (Int.u32 (micros_wraparound_count t + 1)); Str ")"])
     |> timing (set_last_micros m)
     |> timing (set_last_millis ms), false).
Proof.
  cbv zeta. intros Hl Hm. unfold detectClockReset.
  decide_cond (m <? last_micros (advanced_timing s)) true.
  decide_cond (last_micros (advanced_timing s) >? 4000000000) true.
  decide_cond (m <? 300000000) true.
  reflexivity.
Qed.

(** [detectClockReset] when neither counter went backward. *)
Lemma detectClockReset_steady (m ms : Z) (s : Firmware) :
  let t := advanced_timing s in
  last_micros t <= m -> last_millis t <= ms ->
  detectClockReset m ms s =
  (s |> timing (set_last_micros m) |> timing (set_last_millis ms), false).
Proof.
  cbv zeta. intros Hm Hms. unfold detectClockReset.
  decide_cond (m <? last_micros (advanced_timing s)) false.
  decide_cond (ms <? last_millis (advanced_timing s)) false.
  destruct (m <? 5000000) eqn:E1; [|reflexivity].
  destruct (ms <? 5000) eqn:E2; [|reflexivity].
  apply Z.ltb_lt in E1, E2.
  decide_cond (last_micros (advanced_timing s) >? 10000000) false.
  decide_cond (last_millis (advanced_timing s) >? 10000) false.
  reflexivity.
Qed.

(** X5: the regular wraparound of the 32-bit [micros()] counter (last
    reading above 4 000 000 000, new readings [m1 <= m2] with [m1] below
    300 000 000) is counted exactly once, whichever of [detectClockReset]
    and [getVirtualMicros] meets it first, provided [millis()] has not gone
    backward since the last reading and the virtual offset is below
    2^64 - 2^33: neither order flags a clock reset, both add 2^32 to the
    virtual offset and one to the wraparound count, and the virtual time
    read afterwards continues from the time before the wrap. *)
Theorem wraparound_counted_once (s : Firmware) (m1 m2 ms : Z) :
  let t := advanced_timing s in
  4000000000 < last_micros t < 2 ^ 32 ->
  0 <= m1 < 300000000 -> m1 <= m2 < 2 ^ 32 ->
  last_millis t <= ms ->
  0 <= virtual_micros_offset t < 2 ^ 64 - 2 ^ 33 ->
  let a := detectClockReset m1 ms s in
  let a2 := getVirtualMicros m2 (fst a) in
  let b := getVirtualMicros m1 s in
  let b2 := detectClockReset m2 ms (fst b) in
  snd a = false /\ snd b2 = false /\
  virtual_micros_offset (advanced_timing (fst a2)) = virtual_micros_offset t + 2 ^ 32 /\
  virtual_micros_offset (advanced_timing (fst b2)) = virtual_micros_offset t + 2 ^ 32 /\
  micros_wraparound_count (advanced_timing (fst a2)) =
    Int.u32 (micros_wraparound_count t + 1) /\
  micros_wraparound_count (advanced_timing (fst b2)) =
    Int.u32 (micros_wraparound_count t + 1) /\
  snd a2 = virtual_micros_offset t + 2 ^ 32 + m2 /\
  snd b = virtual_micros_offset t + 2 ^ 32 + m1.
Proof.
  cbv zeta. intros Hl Hm1 Hm2 Hms Ho.
  rewrite (detectClockReset_wraparound m1 ms s) by lia. cbn [fst snd].
  set (sa := timing (set_last_millis ms) _).
  assert (Ha : getVirtualMicros m2 sa =
               (timing (set_last_micros m2) sa,
                Int.u64 (Int.u64 (virtual_micros_offset (advanced_timing s) + 4294967296)
                         + m2))).
  { unfold getVirtualMicros.
    change (last_micros (advanced_timing sa)) with m1.
    decide_cond (m2 <? m1) false. reflexivity. }
  rewrite Ha. cbn [fst snd].
  assert (Hb : getVirtualMicros m1 s =
               (s |> timing (set_micros_wraparound_count
                               (Int.u32 (micros_wraparound_count (advanced_timing s) + 1)))
                  |> timing (set_virtual_micros_offset
                               (Int.u64 (virtual_micros_offset (advanced_timing s)
                                         + 4294967296)))
                  |> println (Msg [Str "DEBUG:Late wraparound detection in getVirtualMicros()"])
                  |> timing (set_last_micros m1),
                Int.u64 (Int.u64 (virtual_micros_offset (advanced_timing s) + 4294967296)
                         + m1))).
  { unfold getVirtualMicros.
    decide_cond (m1 <? last_micros (advanced_timing s)) true.
    rewrite (IntFacts.u32_small (last_micros (advanced_timing s) - m1)) by lia.
    decide_cond (last_micros (advanced_timing s) - m1 >? 1000000000) true.
    reflexivity. }
  rewrite Hb. cbn [fst snd].
  set (sb := timing (set_last_micros m1) _).
  rewrite (detectClockReset_steady m2 ms sb) by (subst sb; cbn; lia).
  cbn [fst snd]. subst sa sb.
  cbn [advanced_timing timing set_advanced_timing println set_serial1
         virtual_micros_offset micros_wraparound_count set_last_micros set_last_millis
         set_virtual_micros_offset set_micros_wraparound_count].
  rewrite (IntFacts.u64_small (_ + 4294967296)) by lia.
  rewrite !IntFacts.u64_small by lia.
  change (2 ^ 32) with 4294967296.
  repeat split; reflexivity.
Qed.

Lemma wraparound_counted_once_witness :
  let s := fst (getVirtualMicros 4294000000 booted) in
  snd (detectClockReset 1000 4294968 s) = false /\
  snd (getVirtualMicros 2000 (fst (detectClockReset 1000 4294968 s))) = 2 ^ 32 + 2000 /\
  snd (getVirtualMicros 1000 s) = 2 ^ 32 + 1000.
Proof.
  destruct (wraparound_counted_once (fst (getVirtualMicros 4294000000 booted))
              1000 2000 4294968) as (H1 & _ & _ & _ & _ & _ & H2 & H3).
  - vm_compute. split; reflexivity.
  - lia.
  - lia.
  - vm_compute. intros E. discriminate E.
  - vm_compute. split; [intros E; discriminate E | reflexivity].
  - repeat split; assumption.
Defined.

(** X6: readings that do not go backward are never taken for a clock
    reset: [detectClockReset] returns false, prints nothing, and records the
    two readings as the last ones. *)
Theorem steady_clock_is_no_reset (m ms : Z) (s : Firmware) :
  let t := advanced_timing s in
  let r := detectClockReset m ms s in
  last_micros t <= m -> last_millis t <= ms ->
  snd r = false /\ serial1 (fst r) = serial1 s /\
  last_micros (advanced_timing (fst r)) = m /\
  last_millis (advanced_timing (fst r)) = ms /\
  virtual_micros_offset (advanced_timing (fst r)) = virtual_micros_offset t /\
  clock_reset_detected (advanced_timing (fst r)) = clock_reset_detected t.
Proof.
  cbv zeta. intros Hm Hms. rewrite (detectClockReset_steady m ms s Hm Hms).
  repeat split; reflexivity.
Qed.

Lemma steady_clock_is_no_reset_witness :
  snd (detectClockReset 5000 5 booted) = false /\
  serial1 (fst (detectClockReset 5000 5 booted)) = serial1 booted.
Proof.
  destruct (steady_clock_is_no_reset 5000 5 booted) as (H1 & H2 & _).
  - vm_compute. intros E. discriminate E.
  - vm_compute. intros E. discriminate E.
  - split; assumption.
Defined.

(** ** The validator follows the sequence counter *)

Lemma getVirtualMicros_validator (m : Z) (s : Firmware) :
  seq_validator (fst (getVirtualMicros m s)) = seq_validator s.
Proof. unfold getVirtualMicros. repeat break_if; reflexivity. Qed.

Lemma updateTimingReference_validator (m : Z) (s : Firmware) :
  seq_validator (updateTimingReference m s) = seq_validator s.
Proof.
  unfold updateTimingReference.
  destruct (getVirtualMicros m s) as [s1 v] eqn:E. name_pair E.
  cbn. apply getVirtualMicros_validator.
Qed.

Lemma verifyADCThroughput_validator (s : Firmware) :
  seq_validator (fst (verifyADCThroughput s)) = seq_validator s.
Proof. unfold verifyADCThroughput. repeat break_if; reflexivity. Qed.

Lemma output_validator (i : TxReadings) (seq ts src : Z) (acc : float) (v1 v2 v3 : Z)
    (s : Firmware) :
  seq_validator (outputDataWithOverflowProtection i seq ts src acc v1 v2 v3 s) =
  seq_validator s.
Proof.
  unfold outputDataWithOverflowProtection, checkSerialBufferOverflow.
  repeat break_if; reflexivity.
Qed.

(** What [validateAndCorrectSequence] leaves in the validator depends on
    the validator and the sequence number only. *)
Lemma validateAndCorrectSequence_validator (seq : Z) (s1 s2 : Firmware) :
  seq_validator s1 = seq_validator s2 ->
  seq_validator (fst (fst (validateAndCorrectSequence seq s1))) =
  seq_validator (fst (fst (validateAndCorrectSequence seq s2))).
Proof.
  intros E. unfold validateAndCorrectSequence. rewrite E.
  repeat break_if; cbn [fst]; unfold validator;
    cbn [seq_validator println set_serial1 set_seq_validator]; rewrite ?E; reflexivity.
Qed.

(** After a sample the validator is what validating the sequence number of
    that sample makes of it. *)
Lemma generatePreciseSample_validator (i : SampleReadings) (s : Firmware) :
  seq_validator (generatePreciseSample i s) =
  seq_validator (fst (fst (validateAndCorrectSequence (sequence s) s))).
Proof.
  unfold generatePreciseSample.
  assert (Hp : seq_validator (fst (prepareSample i s)) =
               seq_validator (fst (fst (validateAndCorrectSequence (sequence s) s)))).
  { unfold prepareSample.
    destruct (getVirtualMicros (entry_micros i) s) as [s1 v1] eqn:E1. name_pair E1.
    set (s2 := if _ >=? _ then _ else _).
    assert (H2 : seq_validator s2 = seq_validator s /\ sequence s2 = sequence s).
    { subst s2. destruct (_ >=? _).
      - rewrite updateTimingReference_validator, updateTimingReference_sequence,
          getVirtualMicros_validator, getVirtualMicros_sequence. split; reflexivity.
      - rewrite getVirtualMicros_validator, getVirtualMicros_sequence. split; reflexivity. }
    clearbody s2. destruct H2 as [H2 H2'].
    destruct (verifyADCThroughput s2) as [s3 ok] eqn:E3. name_pair E3.
    destruct (getPreciseTimestamp (stamp_micros i) _) as [s4 ts] eqn:E4. name_pair E4.
    rewrite getPreciseTimestamp_state.
    set (s4 := fst (getVirtualMicros _ _)).
    assert (H4 : seq_validator s4 = seq_validator s /\ sequence s4 = sequence s).
    { subst s4. rewrite getVirtualMicros_validator, verifyADCThroughput_validator,
        getVirtualMicros_sequence, verifyADCThroughput_sequence. split; assumption. }
    clearbody s4. destruct H4 as [H4 H4'].
    destruct (acquire_effect (adc_reads i) s4) as [m H5].
    destruct (acquire (adc_reads i) s4) as [s5 values]. cbn [fst] in H5. subst s5.
    change (sequence (set_adc_monitor m s4)) with (sequence s4). rewrite H4'.
    pose proof (validateAndCorrectSequence_validator (sequence s) (set_adc_monitor m s4) s H4)
      as H6.
    destruct (validateAndCorrectSequence (sequence s) (set_adc_monitor m s4))
      as [[s6 ok6] seq6].
    cbn [fst] in H6 |- *. exact H6. }
  destruct (prepareSample i s) as [s1 [[q ts] [[a b] c]]]. cbn [fst] in Hp.
  pose proof (output_validator (tx i) q ts (source_code (current_source (advanced_timing s1)))
                (timing_accuracy_us (advanced_timing s1)) a b c s1) as Ho.
  set (s2 := outputDataWithOverflowProtection _ _ _ _ _ _ _ _ _) in *. clearbody s2.
  break_if; cbn [seq_validator timing set_advanced_timing set_sequence];
    rewrite Ho; exact Hp.
Qed.

(** X8: while the validator expects the sequence number the counter
    holds, a sample raises no alarm: after [generatePreciseSample] the gap
    and reset counts are as before and the validator again expects the
    (incremented, 16-bit) counter, also across the step from 65535 to 0; so
    a stream that starts in step stays in step. *)
Theorem samples_in_step_raise_no_alarm (i : SampleReadings) (s : Firmware) :
  let v := seq_validator s in
  let s' := generatePreciseSample i s in
  let v' := seq_validator s' in
  validation_enabled v = true -> expected_sequence v = sequence s ->
  0 <= sequence s < 65536 ->
  expected_sequence v' = sequence s' /\ 0 <= sequence s' < 65536 /\
  validation_enabled v' = true /\
  sequence_gaps_detected v' = sequence_gaps_detected v /\
  sequence_resets_detected v' = sequence_resets_detected v.
Proof.
  cbv zeta. intros Hen Hexp Hr.
  rewrite generatePreciseSample_validator, generatePreciseSample_streaming.
  unfold validateAndCorrectSequence. rewrite Hen, Hexp, Z.eqb_refl. cbn [negb].
  assert (Hu : 0 <= Int.u16 ((sequence s + 1) mod 65536) < 65536) by apply IntFacts.u16_range.
  destruct (sequence s =? 0) eqn:E0; cbn [andb fst].
  - apply Z.eqb_eq in E0. rewrite E0 in *.
    unfold validator. cbn. rewrite Hen. repeat split; try reflexivity; lia.
  - unfold validator. cbn. rewrite Hen. repeat split; try reflexivity; lia.
Qed.

Lemma samples_in_step_raise_no_alarm_witness :
  let s := set_seq_validator (mkSequenceValidator 65535 0 0 0 true)
             (set_sequence 65535 streaming_at_100Hz) in
  let s' := generatePreciseSample (sample_at 5000000 64) s in
  expected_sequence (seq_validator s') = sequence s' /\ sequence s' = 0 /\
  sequence_resets_detected (seq_validator s') = 0.
Proof.
  cbv zeta.
  destruct (samples_in_step_raise_no_alarm (sample_at 5000000 64)
              (set_seq_validator (mkSequenceValidator 65535 0 0 0 true)
                 (set_sequence 65535 streaming_at_100Hz)))
    as (H1 & _ & _ & _ & H2).
  - reflexivity.
  - reflexivity.
  - cbn. lia.
  - split; [exact H1|]. split; [vm_compute; reflexivity | exact H2].
Defined.

(** X9: a start command zeroes the sequence counter and leaves the
    validator alone, so the first sample of a stream that follows an
    earlier one (the validator still expecting [n], with 0 < n < 64536) is
    reported as a sequence reset: the reset count goes up by one, and the
    validator is in step again afterwards. *)
Theorem restart_is_reported_as_reset (i : SampleReadings) (s : Firmware) :
  let v := seq_validator s in
  let s' := generatePreciseSample i s in
  let v' := seq_validator s' in
  validation_enabled v = true -> sequence s = 0 ->
  0 < expected_sequence v < 64536 ->
  sequence_resets_detected v' = Int.u32 (sequence_resets_detected v + 1) /\
  sequence_gaps_detected v' = sequence_gaps_detected v /\
  expected_sequence v' = sequence s' /\ sequence s' = 1.
Proof.
  cbv zeta. intros Hen Hseq Hexp.
  rewrite generatePreciseSample_validator, generatePreciseSample_streaming.
  unfold validateAndCorrectSequence. rewrite Hen, Hseq. cbn [negb].
  decide_cond (expected_sequence (seq_validator s) =? 0) false. cbn [andb].
  decide_cond (0 =? expected_sequence (seq_validator s)) false.
  decide_cond (0 >? expected_sequence (seq_validator s)) false.
  decide_cond (0 <? expected_sequence (seq_validator s)) true.
  rewrite Z.add_0_r, IntFacts.u16_small by lia.
  decide_cond (65536 - expected_sequence (seq_validator s) >? 1000) true.
  cbn [andb fst]. unfold validator. cbn. repeat split; reflexivity.
Qed.

Lemma restart_is_reported_as_reset_witness :
  let s' := generatePreciseSample (sample_at 5040000 64) restarted_stream in
  sequence_resets_detected (seq_validator s') =
    Int.u32 (sequence_resets_detected (seq_validator restarted_stream) + 1) /\
  expected_sequence (seq_validator restarted_stream) = 3 /\
  sequence s' = 1.
Proof.
  cbv zeta.
  destruct (restart_is_reported_as_reset (sample_at 5040000 64) restarted_stream)
    as (H1 & _ & _ & H2).
  - vm_compute. reflexivity.
  - vm_compute. reflexivity.
  - vm_compute. split; reflexivity.
  - split; [exact H1|]. split; [vm_compute; reflexivity | exact H2].
Defined.

(** ** Phase of a PPS edge against the sampling grid *)

(** X10: the signed phase [processPPS] computes for a PPS edge lies in
    [-interval/2, interval/2] and differs from the distance between the
    edge and the timing base by a whole number of sample intervals (all
    times below 2^63, as the signed arithmetic of the source needs). *)
Theorem signed_phase_range (pps_virtual base interval : Z) :
  0 <= pps_virtual < 2 ^ 63 -> 0 <= base < 2 ^ 63 -> 0 < interval < 2 ^ 62 ->
  let phase := signed_phase pps_virtual base interval in
  - (interval / 2) <= phase <= interval / 2 /\
  (pps_virtual - base - phase) mod interval = 0.
Proof.
  intros Hp Hb HI. cbv zeta. unfold signed_phase.
  rewrite (IntFacts.i64_small pps_virtual), (IntFacts.i64_small base) by lia.
  rewrite (IntFacts.i64_small (pps_virtual - base)) by lia.
  rewrite (IntFacts.i64_small interval) by lia.
  set (delta := pps_virtual - base).
  pose proof (Z.quot_rem' delta interval) as Hq.
  assert (Hr1 : - interval < Z.rem delta interval < interval).
  { pose proof (Z.rem_bound_abs delta interval ltac:(lia)). lia. }
  set (r1 := Z.rem delta interval) in *.
  rewrite (Z.rem_mod_nonneg (r1 + interval) interval) by lia.
  pose proof (Z.mod_pos_bound (r1 + interval) interval ltac:(lia)) as Hpm.
  pose proof (Z.div_mod (r1 + interval) interval ltac:(lia)) as Hdm.
  set (pm := (r1 + interval) mod interval) in *.
  assert (Hhalf : 0 <= interval / 2 /\ 2 * (interval / 2) <= interval < 2 * (interval / 2) + 2).
  { pose proof (Z.div_mod interval 2 ltac:(lia)).
    pose proof (Z.mod_pos_bound interval 2 ltac:(lia)). lia. }
  rewrite (IntFacts.i64_small (interval / 2)) by lia.
  assert (Hcong : forall p, (pm - p) mod interval = 0 -> (delta - p) mod interval = 0).
  { intros p H.
    replace (delta - p)
      with ((pm - p) + (delta ÷ interval + (r1 + interval) / interval - 1) * interval) by lia.
    rewrite Z.mod_add by lia. exact H. }
  destruct (pm <=? interval / 2) eqn:E.
  - apply Z.leb_le in E. split; [lia|].
    apply Hcong. rewrite Z.sub_diag. reflexivity.
  - apply Z.leb_gt in E. rewrite (IntFacts.i64_small (pm - interval)) by lia.
    split; [lia|]. apply Hcong.
    replace (pm - (pm - interval)) with (1 * interval) by lia.
    apply Z.mod_mul. lia.
Qed.

Lemma signed_phase_range_witness :
  - (10000 / 2) <= signed_phase 7009990 5000000 10000 <= 10000 / 2 /\
  (7009990 - 5000000 - signed_phase 7009990 5000000 10000) mod 10000 = 0.
Proof. apply (signed_phase_range 7009990 5000000 10000); lia. Defined.

(** The double of an integer is never a NaN, and a quotient of two numbers
    is a NaN only as 0/0 or infinity/infinity. *)
Lemma F64_of_Z_not_nan (z : Z) : F64.of_Z z <> S754_nan.
Proof.
  unfold F64.of_Z, binary_normalize. destruct z; [discriminate| |];
    apply binary_round_not_nan.
Qed.

Lemma SFdiv_finite_not_nan (prec emax : Z) (x : spec_float) (s : bool) (m : positive)
    (e : Z) :
  x <> S754_nan -> SFdiv prec emax x (S754_finite s m e) <> S754_nan.
Proof.
  intros Hx. destruct x as [sx|sx| |sx mx ex]; try congruence; try discriminate.
  unfold SFdiv, SFdiv_core_binary.
  set (m' := match _ - _ - _ with Z0 => Zpos mx | Zpos _ => _ | Zneg _ => 0 end).
  assert (Hm : 0 <= m').
  { subst m'. destruct (_ - _ - _); try lia. apply Z.shiftl_nonneg. lia. }
  clearbody m'.
  pose proof (Z_div_mod m' (Zpos m) ltac:(lia)) as Hd.
  destruct (Z.div_eucl m' (Zpos m)) as [q r].
  apply binary_round_aux_not_nan. nia.
Qed.

(** X11: the per-sample phase adjustment [processPPS] plans never exceeds
    20 us in either direction, and the plan covers at least one sample
    (for a plan over a positive number of samples below 2^53: 200 in the
    one-shot nudge, the samples of one second in the continuous lock). *)
Theorem spread_is_capped (phase planned : Z) :
  0 < planned < 2 ^ 53 ->
  let per_sample := fst (spread phase planned) in
  let samples_needed := snd (spread phase planned) in
  fle (F64.of_Z (-20)) per_sample = true /\ fle per_sample (F64.of_Z 20) = true /\
  1 <= samples_needed < 2 ^ 32.
Proof.
  intros Hp. cbv zeta. unfold spread. cbn [fst snd].
  destruct planned as [|p|p]; try lia.
  destruct (F64_of_Z_exact p ltac:(lia)) as (m & e & Hy & _).
  rewrite Hy.
  pose proof (SFdiv_finite_not_nan F64.prec F64.emax (F64.of_Z phase) false m e
                (F64_of_Z_not_nan phase)) as Hn.
  fold (F64.div (F64.of_Z phase) (S754_finite false m e)) in Hn.
  set (p0 := F64.div (F64.of_Z phase) (S754_finite false m e)) in *. clearbody p0.
  assert (H20 : F64.of_Z 20 <> S754_nan) by apply F64_of_Z_not_nan.
  assert (Hm20 : F64.of_Z (-20) <> S754_nan) by apply F64_of_Z_not_nan.
  split; [|split].
  - unfold fgt, flt, fle. destruct (SFltb (F64.of_Z 20) p0) eqn:E1.
    + reflexivity.
    + destruct (SFltb p0 (F64.of_Z (-20))) eqn:E2; [reflexivity|].
      apply not_lt_le; [apply SFcompare_not_nan; assumption | exact E2].
  - unfold fgt, flt, fle. destruct (SFltb (F64.of_Z 20) p0) eqn:E1.
    + reflexivity.
    + destruct (SFltb p0 (F64.of_Z (-20))) eqn:E2; [reflexivity|].
      apply not_lt_le; [apply SFcompare_not_nan; assumption | exact E1].
  - match goal with
    | |- context [Int.u32 ?x] => pose proof (IntFacts.u32_range x) as Hu;
                                   set (n := Int.u32 x) in *
    end.
    clearbody n. destruct (n =? 0) eqn:E; [lia|]. apply Z.eqb_neq in E. lia.
Qed.

Lemma spread_is_capped_witness :
  fst (spread 4990 200) = F64.of_Z 20 /\ snd (spread 4990 200) = 250 /\
  fle (fst (spread 4990 200)) (F64.of_Z 20) = true.
Proof.
  destruct (spread_is_capped 4990 200) as (_ & H & _); [lia|].
  split; [vm_compute; reflexivity|]. split; [vm_compute; reflexivity | exact H].
Defined.

(** ** Health beacon, throughput warning and conversion statistics *)

(** X12: the health beacon is rate-limited by the 32-bit difference of
    [millis()] readings, so also across the wraparound of [millis()]: a call
    that is due prints one [STAT] line and records its time, and a later call
    less than the interval after it does nothing at all. *)
Theorem health_beacon_rate_limit (t1 t2 : Z) (s : Firmware) :
  let t := advanced_timing s in
  let s1 := sendHealthBeacon t1 s in
  stat_interval_ms t <= Int.u32 (t1 - last_stat_time t) ->
  Int.u32 (t2 - t1) < stat_interval_ms t ->
  (exists source accuracy ppm valid age wraps overflows skipped boot stream misses,
     serial1 s1 =
     serial1 s ++ [STAT source accuracy ppm valid age wraps overflows skipped boot stream
                     misses] /\
     age = Int.u32 (t1 - last_pps_time t)) /\
  last_stat_time (advanced_timing s1) = t1 /\
  sendHealthBeacon t2 s1 = s1.
Proof.
  cbv zeta. intros Hdue Hnot.
  pose proof (eq_refl (sendHealthBeacon t1 s)) as E. unfold sendHealthBeacon in E at 2.
  replace (Int.u32 (t1 - last_stat_time (advanced_timing s))
           >=? stat_interval_ms (advanced_timing s)) with true in E
    by (symmetry; rewrite Z.geb_leb; apply Z.leb_le; lia).
  rewrite E. split; [|split].
  - do 11 eexists. split; reflexivity.
  - reflexivity.
  - unfold sendHealthBeacon.
    cbn [advanced_timing timing set_advanced_timing println set_serial1 last_stat_time
           set_last_stat_time stat_interval_ms].
    decide_cond (Int.u32 (t2 - t1) >=? stat_interval_ms (advanced_timing s)) false.
    reflexivity.
Qed.

Lemma health_beacon_rate_limit_witness :
  last_stat_time (advanced_timing (sendHealthBeacon 4294967000 booted)) = 4294967000 /\
  sendHealthBeacon 500 (sendHealthBeacon 4294967000 booted) =
  sendHealthBeacon 4294967000 booted.
Proof.
  destruct (health_beacon_rate_limit 4294967000 500 booted) as (_ & H1 & H2).
  - vm_compute. intros E. discriminate E.
  - vm_compute. reflexivity.
  - split; assumption.
Defined.

(** X13: the throughput warning is issued once per episode:
    [verifyADCThroughput] called again on the state it left returns the same
    verdict and changes nothing; after an adequate verdict the warning flag is
    down, after an inadequate one it is up. *)
Theorem throughput_warning_is_issued_once (s : Firmware) :
  let r1 := verifyADCThroughput s in
  let r2 := verifyADCThroughput (fst r1) in
  r2 = r1 /\
  throughput_warning_sent (adc_monitor (fst r1)) = negb (snd r1) /\
  (throughput_warning_sent (adc_monitor s) = negb (snd r1) -> fst r1 = s).
Proof.
  cbv zeta. unfold verifyADCThroughput.
  set (required := Int.u32 (trunc (F32.mul (F32.mul (F32.of_Z (num_channels s *
                      Z.max 1 (current_dithering s))) (stream_rate s)) (F32.of_Z 2)))).
  set (available := adc_rate_sps (current_adc_rate s)).
  destruct (available >=? required) eqn:Ea;
    destruct (throughput_warning_sent (adc_monitor s)) eqn:Es; cbn [negb andb fst snd].
  - change (num_channels (adc_mon _ s)) with (num_channels s).
    change (current_dithering (adc_mon _ s)) with (current_dithering s).
    change (stream_rate (adc_mon _ s)) with (stream_rate s).
    change (current_adc_rate (adc_mon _ s)) with (current_adc_rate s).
    fold required available. rewrite Ea. cbn. repeat split; try reflexivity.
    intros E. discriminate E.
  - fold required available. rewrite Ea, Es. cbn. repeat split; reflexivity.
  - fold required available. rewrite Ea, Es. cbn. repeat split; reflexivity.
  - change (num_channels (adc_mon _ (println _ s))) with (num_channels s).
    change (current_dithering (adc_mon _ (println _ s))) with (current_dithering s).
    change (stream_rate (adc_mon _ (println _ s))) with (stream_rate s).
    change (current_adc_rate (adc_mon _ (println _ s))) with (current_adc_rate s).
    fold required available. rewrite Ea. cbn. repeat split; try reflexivity.
    intros E. discriminate E.
Qed.

(** X14: [readADC] keeps the conversion statistics consistent: after a
    completed conversion the time it took lies between the recorded minimum
    and maximum (so the minimum never exceeds the maximum), the conversion is
    counted and its value returned; a read that times out returns 0, counts
    a deadline miss and leaves the statistics alone. *)
Theorem conversion_statistics_bracket (conversion_time value : Z) (s : Firmware) :
  let m := adc_monitor s in
  let ready := readADC (AdcReady conversion_time value) s in
  let late := readADC AdcTimeout s in
  snd ready = value /\
  min_conversion_time_us (adc_monitor (fst ready)) <= conversion_time
    <= max_conversion_time_us (adc_monitor (fst ready)) /\
  total_conversions (adc_monitor (fst ready)) = Int.u32 (total_conversions m + 1) /\
  deadline_misses (adc_monitor (fst ready)) = deadline_misses m /\
  snd late = 0 /\
  deadline_misses (adc_monitor (fst late)) = Int.u32 (deadline_misses m + 1) /\
  total_conversions (adc_monitor (fst late)) = total_conversions m /\
  min_conversion_time_us (adc_monitor (fst late)) = min_conversion_time_us m /\
  max_conversion_time_us (adc_monitor (fst late)) = max_conversion_time_us m.
Proof.
  cbv zeta. unfold readADC.
  cbn [adc_monitor adc_mon set_adc_monitor total_conversions set_total_conversions
         max_conversion_time_us min_conversion_time_us].
  destruct (Int.u32 (total_conversions (adc_monitor s) + 1) =? 1).
  - cbn. repeat split; try reflexivity; lia.
  - destruct (conversion_time >? max_conversion_time_us (adc_monitor s)) eqn:E1;
      cbn [adc_monitor adc_mon set_adc_monitor min_conversion_time_us
             set_max_conversion_time_us set_total_conversions];
      destruct (conversion_time <? min_conversion_time_us (adc_monitor s)) eqn:E2;
      cbn; rewrite ?Z.gtb_ltb in E1;
      try apply Z.ltb_lt in E1; try apply Z.ltb_ge in E1;
      try apply Z.ltb_lt in E2; try apply Z.ltb_ge in E2;
      repeat split; try reflexivity; lia.
Qed.

(** ** Commands *)

Lemma getVirtualMicros_frame (m : Z) (s : Firmware) :
  let s' := fst (getVirtualMicros m s) in
  streaming s' = streaming s /\ stream_rate s' = stream_rate s /\
  session_tracker s' = session_tracker s /\ eeprom s' = eeprom s /\
  current_adc_rate s' = current_adc_rate s /\ current_adc_gain s' = current_adc_gain s /\
  current_adc_filter s' = current_adc_filter s /\
  current_dithering s' = current_dithering s /\ num_channels s' = num_channels s.
Proof. cbv zeta. unfold getVirtualMicros. repeat break_if; repeat split; reflexivity. Qed.

(** [establishSamplingTiming] establishes the timing and keeps rate and
    interval. *)
Lemma establishSamplingTiming_frame (m : Z) (s : Firmware) :
  let s' := establishSamplingTiming m s in
  timing_established (advanced_timing s') = true /\
  sample_interval_us (advanced_timing s') = sample_interval_us (advanced_timing s) /\
  streaming s' = streaming s /\ stream_rate s' = stream_rate s /\
  sequence s' = sequence s /\ session_tracker s' = session_tracker s.
Proof.
  cbv zeta. unfold establishSamplingTiming.
  pose proof (getVirtualMicros_blind sample_interval_us m s ltac:(blind)) as Hi.
  pose proof (getVirtualMicros_frame m s) as (Hs & Hr & Ht & _).
  pose proof (getVirtualMicros_sequence m s) as Hq.
  destruct (getVirtualMicros m s) as [s1 v]. cbn [fst] in *.
  cbn [advanced_timing timing set_advanced_timing println set_serial1 timing_established
         set_timing_established sample_interval_us set_timing_base_micros
         set_timing_base_virtual_micros set_samples_generated set_sample_index
         set_next_sample_micros set_last_reference_update_sample streaming stream_rate
         sequence session_tracker].
  repeat split; assumption.
Qed.

Lemma sendSessionHeader_frame (now_ms : Z) (s : Firmware) :
  let s' := sendSessionHeader now_ms s in
  advanced_timing s' = advanced_timing s /\ streaming s' = streaming s /\
  stream_rate s' = stream_rate s /\ sequence s' = sequence s /\
  session_header_sent (session_tracker s') = true.
Proof.
  cbv zeta. unfold sendSessionHeader.
  destruct (session_header_sent (session_tracker s)) eqn:E; repeat split; try reflexivity.
  exact E.
Qed.

Lemma isRateChangeAllowed_frame (rate : float) (s : Firmware) :
  let s' := fst (isRateChangeAllowed rate s) in
  advanced_timing s' = advanced_timing s /\ streaming s' = streaming s /\
  stream_rate s' = stream_rate s /\ sequence s' = sequence s /\
  session_tracker s' = session_tracker s /\
  current_adc_rate s' = current_adc_rate s /\ current_adc_gain s' = current_adc_gain s /\
  current_adc_filter s' = current_adc_filter s /\
  current_dithering s' = current_dithering s /\ num_channels s' = num_channels s /\
  (snd (isRateChangeAllowed rate s) = true \/
   exists line, s' = println line s).
Proof.
  cbv zeta. unfold isRateChangeAllowed.
  destruct (current_source (advanced_timing s)); cbn [andb];
    repeat break_if; cbn [fst snd]; repeat split; try reflexivity;
    try (left; reflexivity); right; eexists; reflexivity.
Qed.

(** The start sequence of [START_STREAM], whatever line it prints last. *)
Lemma start_block_effect (i : CommandReadings) (l : Firmware -> Line) (s0 : Firmware) :
  let s1 :=
    sendSessionHeader (cmd_session_millis i)
      (set_streaming true (establishSamplingTiming (cmd_micros i) (set_sequence 0 s0))) in
  let s2 := println (l s1) s1 in
  streaming s2 = true /\ timing_established (advanced_timing s2) = true /\
  sequence s2 = 0 /\ stream_rate s2 = stream_rate s0 /\
  sample_interval_us (advanced_timing s2) = sample_interval_us (advanced_timing s0).
Proof.
  cbv zeta.
  pose proof (sendSessionHeader_frame (cmd_session_millis i)
                (set_streaming true
                   (establishSamplingTiming (cmd_micros i) (set_sequence 0 s0)))) as H2.
  pose proof (establishSamplingTiming_frame (cmd_micros i) (set_sequence 0 s0)) as H1.
  cbv zeta in H1, H2. revert H1 H2.
  generalize (establishSamplingTiming (cmd_micros i) (set_sequence 0 s0)). intros s1.
  generalize (sendSessionHeader (cmd_session_millis i) (set_streaming true s1)).
  intros s2 (He & Hi & _ & Hr & Hq & _) (Ht & Hs2 & Hr2 & Hq2 & _).
  cbn [streaming advanced_timing sequence stream_rate println set_serial1].
  rewrite Ht, Hs2, Hr2, Hq2.
  cbn [streaming advanced_timing sequence stream_rate set_streaming].
  rewrite He, Hi, Hr, Hq.
  cbn [streaming advanced_timing sequence stream_rate set_sequence].
  repeat split; reflexivity.
Qed.

(** X15: what [START_STREAM] does when no stream is running.  A rate
    outside (0, 1000] (such as the 0 that [toFloat] gives for text that is
    no number) is ignored, not refused: the stream starts at the rate and
    interval in force.  A rate inside the range that [isRateChangeAllowed]
    rejects starts nothing.  Otherwise the stream starts at the new rate,
    with the interval derived from it; every start zeroes the sequence
    counter and establishes the timing. *)
Theorem start_stream_outcomes (i : CommandReadings) (rate : float) (s : Firmware) :
  let s' := processLine i (START_STREAM rate) s in
  let t := advanced_timing s in
  let t' := advanced_timing s' in
  let allowed := snd (isRateChangeAllowed rate s) in
  streaming s = false ->
  (rate_in_range rate = false ->
   streaming s' = true /\ timing_established t' = true /\ sequence s' = 0 /\
   stream_rate s' = stream_rate s /\ sample_interval_us t' = sample_interval_us t) /\
  (rate_in_range rate = true -> allowed = false ->
   streaming s' = false /\ t' = t /\ stream_rate s' = stream_rate s /\
   sequence s' = sequence s) /\
  (rate_in_range rate = true -> allowed = true ->
   streaming s' = true /\ timing_established t' = true /\ sequence s' = 0 /\
   stream_rate s' = rate /\ sample_interval_us t' = interval_of_rate rate).
Proof.
  cbv zeta. intros Hs. cbn [processLine]. unfold or_already_streaming. rewrite Hs.
  cbn [negb]. generalize (interval_of_rate rate). intros n.
  pose (l := fun s1 : Firmware =>
               Msg [Str "OK:Streaming started at "; Flt (stream_rate s1) 2; Str "Hz with ";
                    Str (getTimingSourceName (current_source (advanced_timing s1)));
                    Str " timing"]).
  destruct (rate_in_range rate).
  - pose proof (isRateChangeAllowed_frame rate s) as (Ht & Hs1 & Hr1 & Hq1 & _).
    cbv zeta in Ht, Hs1, Hr1, Hq1.
    destruct (isRateChangeAllowed rate s) as [s1 allowed]. cbn [fst snd] in *.
    split; [intros E; discriminate E|]. split; intros _ Ha; subst allowed.
    + rewrite Hs1, Hs. repeat split; assumption.
    + pose proof (start_block_effect i l
                    (timing (set_sample_interval_us n) (set_stream_rate rate s1))) as H.
      cbv zeta in H. exact H.
  - split; [intros _; exact (start_block_effect i l s)|].
    split; intros E; discriminate E.
Qed.

Lemma start_stream_outcomes_witness :
  let s' := processLine (mkCommandReadings 4995000 4995 4995 64)
              (START_STREAM (F32.of_Z 0)) booted in
  streaming s' = true /\ timing_established (advanced_timing s') = true /\
  sequence s' = 0 /\ stream_rate s' = stream_rate booted /\
  sample_interval_us (advanced_timing s') = sample_interval_us (advanced_timing booted).
Proof.
  destruct (start_stream_outcomes (mkCommandReadings 4995000 4995 4995 64) (F32.of_Z 0)
              booted) as (H & _).
  - reflexivity.
  - apply H. reflexivity.
Defined.

(** X16: while a stream is running no command changes the acquisition
    settings (ADC rate, gain, filter, oversampling, channel count), and
    the three start commands do nothing but answer [ERROR:Already
    streaming]. *)
Theorem streaming_locks_configuration (i : CommandReadings) (c : Command) (s : Firmware) :
  let s' := processLine i c s in
  streaming s = true ->
  (current_adc_rate s' = current_adc_rate s /\ current_adc_gain s' = current_adc_gain s /\
   current_adc_filter s' = current_adc_filter s /\
   current_dithering s' = current_dithering s /\ num_channels s' = num_channels s) /\
  match c with
  | START_STREAM _ | START_STREAM_SYNC _ | START_STREAM_PPS _ =>
      s' = println (Msg [Str "ERROR:Already streaming"]) s
  | _ => True
  end.
Proof.
  cbv zeta. intros Hs.
  destruct c; cbn [processLine]; unfold while_stopped, or_already_streaming;
    rewrite ?Hs; cbn [negb];
    try (split; [repeat split; reflexivity | first [exact I | reflexivity]]).
  - (* SET_PRECISE_INTERVAL *)
    split; [|exact I]. break_if; [|repeat split; reflexivity].
    pose proof (isRateChangeAllowed_frame
                  (to_float (F64.div (F64.of_Z 1000000) (F64.of_Z interval_us))) s)
      as (_ & _ & _ & _ & _ & H1 & H2 & H3 & H4 & H5 & _).
    cbv zeta in H1, H2, H3, H4, H5.
    destruct (isRateChangeAllowed _ s) as [s1 allowed]. cbn [fst] in *.
    destruct allowed; repeat split; assumption.
  - (* SET_OUTPUT_FORMAT *)
    split; [|exact I]. repeat break_if; repeat split; reflexivity.
  - (* SET_SEQUENCE_VALIDATION *)
    split; [|exact I]. repeat break_if; repeat split; reflexivity.
  - (* SET_CAL_PPM *)
    split; [|exact I]. unfold clampOscillatorCalibration.
    repeat break_if; repeat split; reflexivity.
Qed.

Lemma streaming_locks_configuration_witness :
  let s := set_streaming true booted in
  let s' := processLine (mkCommandReadings 0 0 0 64) (SET_CHANNELS 1) s in
  num_channels s' = 3 /\ current_dithering s' = 4.
Proof.
  destruct (streaming_locks_configuration (mkCommandReadings 0 0 0 64) (SET_CHANNELS 1)
              (set_streaming true booted)) as ((_ & _ & _ & H4 & H5) & _).
  - reflexivity.
  - split; [exact H5 | exact H4].
Defined.

(** ** Synchronized start *)

(** [getVirtualMicros] when the raw counter did not go backward. *)
Lemma getVirtualMicros_forward (m : Z) (s : Firmware) :
  last_micros (advanced_timing s) <= m ->
  getVirtualMicros m s =
  (timing (set_last_micros m) s, Int.u64 (virtual_micros_offset (advanced_timing s) + m)).
Proof.
  intros H. unfold getVirtualMicros.
  decide_cond (m <? last_micros (advanced_timing s)) false. reflexivity.
Qed.

(** X17: a synchronized start does not begin early.  Issued while no
    stream is running and no PPS-locked start is armed ([sync_on_pps]
    false), [START_STREAM_SYNC] with a valid rate and a delay below 10 s
    sets the target [delay] ms after the virtual time of the command and
    raises [waiting_for_sync_start]; the start block of [loop] leaves the
    timing unestablished for every reading before the target, and at a
    reading at or after it establishes the timing with base and first
    sample at that very reading (the raw counter neither wrapping nor going
    backward between the last reading, the command and the loop, the virtual
    offset below 2^62). *)
Theorem sync_start_waits_for_target (i : CommandReadings) (rate : float) (delay_ms m : Z)
    (s : Firmware) :
  let t := advanced_timing s in
  let s1 := processLine i (START_STREAM_SYNC (Some (rate, delay_ms))) s in
  let s2 := loop_sync_wait m s1 in
  let target := virtual_micros_offset t + cmd_micros i + delay_ms * 1000 in
  streaming s = false -> sync_on_pps t = false ->
  rate_in_range rate = true -> 0 <= delay_ms < 10000 ->
  0 <= last_micros t <= cmd_micros i -> cmd_micros i <= m < 2 ^ 32 ->
  0 <= virtual_micros_offset t < 2 ^ 62 ->
  streaming s1 = true /\ waiting_for_sync_start (advanced_timing s1) = true /\
  sync_start_target_us (advanced_timing s1) = target /\
  timing_established (advanced_timing s1) = timing_established t /\
  (virtual_micros_offset t + m < target ->
   timing_established (advanced_timing s2) = timing_established t /\
   waiting_for_sync_start (advanced_timing s2) = true) /\
  (target <= virtual_micros_offset t + m ->
   timing_established (advanced_timing s2) = true /\
   waiting_for_sync_start (advanced_timing s2) = false /\
   timing_base_micros (advanced_timing s2) = virtual_micros_offset t + m /\
   next_sample_micros (advanced_timing s2) = virtual_micros_offset t + m /\
   sample_index (advanced_timing s2) = 0).
Proof.
  cbv zeta. intros Hs Hy Hin Hd Hc Hm Ho.
  cbn [processLine]. unfold or_already_streaming. rewrite Hs, Hin. cbn [negb andb].
  decide_cond (delay_ms <? 10000) true.
  rewrite getVirtualMicros_forward by exact (proj2 Hc).
  set (s0 := timing (set_last_micros (cmd_micros i)) _).
  set (now := Int.u64 (virtual_micros_offset (advanced_timing (timing _ _)) + cmd_micros i)).
  assert (Hnow : now = virtual_micros_offset (advanced_timing s) + cmd_micros i).
  { subst now. cbn [advanced_timing timing set_advanced_timing virtual_micros_offset
                      set_sync_start_time set_sync_delay_ms set_sample_interval_us
                      set_stream_rate].
    apply IntFacts.u64_small. lia. }
  clearbody now. subst now.
  rewrite (IntFacts.u64_small (delay_ms * 1000)) by lia.
  rewrite (IntFacts.u64_small (_ + delay_ms * 1000)) by lia.
  set (target := virtual_micros_offset (advanced_timing s) + cmd_micros i + delay_ms * 1000).
  set (s1 := set_streaming true _).
  pose proof (sendSessionHeader_frame (cmd_session_millis i) s1) as (Ht & Hs2 & _).
  cbv zeta in Ht, Hs2.
  set (s2 := sendSessionHeader (cmd_session_millis i) s1) in *.
  assert (Ht1 : advanced_timing s1 =
                set_waiting_for_sync_start true
                  (set_sync_start_enabled true
                     (set_sync_start_target_us target (advanced_timing s0)))) by reflexivity.
  assert (Hs1 : streaming s1 = true) by reflexivity.
  clearbody s2 s1.
  assert (Ht0 : advanced_timing s0 =
                set_last_micros (cmd_micros i)
                  (set_sync_start_time (Int.u32 (cmd_millis i + delay_ms))
                     (set_sync_delay_ms delay_ms
                        (set_sample_interval_us (interval_of_rate rate)
                           (advanced_timing s))))) by reflexivity.
  clearbody s0.
  set (s3 := println _ s2).
  assert (Ht3 : advanced_timing s3 = advanced_timing s2) by reflexivity.
  assert (Hs3 : streaming s3 = streaming s2) by reflexivity.
  clearbody s3.
  split; [rewrite Hs3, Hs2; exact Hs1|].
  split; [rewrite Ht3, Ht, Ht1; reflexivity|].
  split; [rewrite Ht3, Ht, Ht1; reflexivity|].
  split; [rewrite Ht3, Ht, Ht1, Ht0; reflexivity|].
  assert (Et3 : advanced_timing s3 =
                set_waiting_for_sync_start true
                  (set_sync_start_enabled true
                     (set_sync_start_target_us target
                        (set_last_micros (cmd_micros i)
                           (set_sync_start_time (Int.u32 (cmd_millis i + delay_ms))
                              (set_sync_delay_ms delay_ms
                                 (set_sample_interval_us (interval_of_rate rate)
                                    (advanced_timing s))))))))
    by (rewrite Ht3, Ht, Ht1, Ht0; reflexivity).
  clear Ht3 Ht Ht1 Ht0.
  unfold loop_sync_wait. rewrite Et3.
  cbn [sync_on_pps set_waiting_for_sync_start set_sync_start_enabled
         set_sync_start_target_us set_last_micros set_sync_start_time set_sync_delay_ms
         set_sample_interval_us].
  rewrite Hy.
  rewrite getVirtualMicros_forward by (rewrite Et3; cbn; lia).
  cbn [advanced_timing timing set_advanced_timing println set_serial1].
  rewrite Et3.
  cbn [virtual_micros_offset set_last_micros set_waiting_for_sync_start
         set_sync_start_enabled set_sync_start_target_us set_sync_start_time
         set_sync_delay_ms set_sample_interval_us sync_start_target_us].
  rewrite (IntFacts.u64_small (virtual_micros_offset (advanced_timing s) + m)) by lia.
  split.
  - intros Hlt.
    rewrite (IntFacts.i64_small (_ - target)) by (subst target; lia).
    decide_cond (virtual_micros_offset (advanced_timing s) + m - target >=? 0) false.
    cbn [advanced_timing timing set_advanced_timing]. rewrite Et3. split; reflexivity.
  - intros Hge.
    rewrite (IntFacts.i64_small (_ - target)) by (subst target; lia).
    decide_cond (virtual_micros_offset (advanced_timing s) + m - target >=? 0) true.
    cbn [advanced_timing timing set_advanced_timing println set_serial1].
    repeat split; reflexivity.
Qed.

Lemma sync_start_waits_for_target_witness :
  let s1 := processLine (mkCommandReadings 1000000 1000 1000 64)
              (START_STREAM_SYNC (Some (F32.of_Z 100, 500))) booted in
  timing_established (advanced_timing (loop_sync_wait 1499999 s1)) = false /\
  timing_established (advanced_timing (loop_sync_wait 1500000 s1)) = true /\
  timing_base_micros (advanced_timing (loop_sync_wait 1500000 s1)) = 1500000.
Proof.
  cbv zeta.
  assert (H : forall m, 1000000 <= m < 2 ^ 32 -> _) by
    (intros m Hm;
     exact (sync_start_waits_for_target (mkCommandReadings 1000000 1000 1000 64)
              (F32.of_Z 100) 500 m booted eq_refl eq_refl eq_refl
              ltac:(lia) ltac:(vm_compute; split; intros E; discriminate E)
              Hm ltac:(vm_compute; split; [intros E; discriminate E | reflexivity]))).
  destruct (H 1499999 ltac:(lia)) as (_ & _ & _ & _ & Ha & _).
  destruct (H 1500000 ltac:(lia)) as (_ & _ & _ & _ & _ & Hb).
  destruct (Ha ltac:(vm_compute; reflexivity)) as [Ha1 _].
  destruct (Hb ltac:(vm_compute; intros E; discriminate E)) as (Hb1 & _ & Hb2 & _).
  split; [exact Ha1|]. split; [exact Hb1 | exact Hb2].
Defined.

(** ** Time stamps and PPS validation *)

(** The factor [1.0 + ppm / 1e6] of the calibrated time stamp when the
    calibration is zero. *)
Lemma unit_factor :
  F64.add (F64.of_Z 1) (F64.div (to_double (S754_zero false)) (F64.of_Z 1000000)) = one.
Proof. reflexivity. Qed.

(** X18: a calibration of zero is transparent: with it (or with the raw
    source, or without a valid calibration) the precise time stamp of a
    sample is the virtual time itself, as long as less than 2^53 us have
    passed since the calibration base, the range in which the conversion
    to [double] is exact. *)
Theorem zero_calibration_is_transparent (now_us : Z) (s : Firmware) :
  let t := advanced_timing s in
  let now := snd (getVirtualMicros now_us s) in
  oscillator_calibration_ppm t = S754_zero false ->
  0 <= cal_base_micros t < 2 ^ 64 ->
  Int.u64 (now - cal_base_micros t) < 2 ^ 53 ->
  getPreciseTimestamp now_us s = (fst (getVirtualMicros now_us s), now).
Proof.
  cbv zeta. intros Hppm Hb He. unfold getPreciseTimestamp.
  pose proof (getVirtualMicros_blind oscillator_calibration_ppm now_us s ltac:(blind)) as H1.
  pose proof (getVirtualMicros_blind cal_base_micros now_us s ltac:(blind)) as H2.
  pose proof (IntFacts.u64_range
                (virtual_micros_offset (advanced_timing (fst (getVirtualMicros now_us s)))
                 + now_us)) as Hr.
  rewrite <- getVirtualMicros_value in Hr.
  revert H1 H2 He Hr. generalize (getVirtualMicros now_us s). intros [s1 now].
  cbn [fst snd]. intros H1 H2 He Hr.
  assert (Hc : calculateCalibratedTimestamp now s1 = now).
  { unfold calculateCalibratedTimestamp. destruct (negb _); [reflexivity|].
    rewrite H1, H2, Hppm, unit_factor.
    set (base := cal_base_micros (advanced_timing s)) in *.
    pose proof (IntFacts.u64_range (now - base)) as Hu.
    set (elapsed := Int.u64 (now - base)) in *.
    assert (Hsum : Int.u64 (base + elapsed) = now).
    { subst elapsed. unfold Int.u64, Int.wrap in *.
      rewrite Z.add_mod_idemp_r by lia. replace (base + (now - base)) with now by lia.
      apply Z.mod_small. lia. }
    clearbody elapsed.
    destruct elapsed as [|p|p]; try lia.
    - change (trunc (F64.mul (F64.of_Z 0) one)) with 0. exact Hsum.
    - destruct (F64_of_Z_exact p ltac:(lia)) as (m & e & Hx & Hd & Hee & Hm).
      rewrite Hx, F64_mul_one by lia. rewrite (trunc_exact p m e Hee Hm).
      rewrite (IntFacts.u64_small (Zpos p)) by lia. exact Hsum. }
  destruct (current_source (advanced_timing s1)); rewrite ?Hc; reflexivity.
Qed.

Lemma zero_calibration_is_transparent_witness :
  getPreciseTimestamp 5000000 streaming_at_100Hz =
  (fst (getVirtualMicros 5000000 streaming_at_100Hz), 5000000).
Proof.
  apply (zero_calibration_is_transparent 5000000 streaming_at_100Hz).
  - reflexivity.
  - vm_compute. split; [intros E; discriminate E | reflexivity].
  - vm_compute. reflexivity.
Defined.

(** X19: once [pps_valid] is set, a PPS edge that the main loop takes up
    less than 900 ms after its interrupt is discarded: the interrupt handler
    has already stored its own [millis()] in [last_pps_time], so the interval
    [processPPS] validates is the time since this very edge.  The pulse is
    counted and one line is printed; calibration, calibration base and
    everything else stay as the interrupt left them (no PPS-locked start
    being armed). *)
Theorem prompt_pps_is_discarded (now_us now_ms : Z) (i : PpsReadings) (s : Firmware) :
  let t := advanced_timing s in
  let s1 := pps_interrupt now_us now_ms s in
  pps_valid t = true -> sync_on_pps t = false ->
  Int.u32 (pps_millis i - now_ms) < 900 ->
  exists line,
    processPPS i s1 =
    println line (timing (set_pps_count (Int.u32 (pps_count t + 1))) s1).
Proof.
  cbv zeta. intros Hv Hy Hp. unfold processPPS, pps_interrupt.
  cbn [advanced_timing timing set_advanced_timing sync_on_pps pps_count
         set_pps_received set_pps_micros set_last_pps_time set_pps_count].
  rewrite Hy. cbn [andb]. unfold processPPS_accept.
  cbn [advanced_timing timing set_advanced_timing clock_reset_detected
         reset_detection_time last_pps_time pps_valid
         set_pps_received set_pps_micros set_last_pps_time set_pps_count].
  rewrite Hv. cbn [andb].
  decide_cond (Int.u32 (pps_millis i - now_ms) <? 900) true. cbn [orb].
  destruct (clock_reset_detected (advanced_timing s) && _); eexists; reflexivity.
Qed.

Lemma prompt_pps_is_discarded_witness :
  exists line,
    processPPS (mkPpsReadings 2000 2000) (pps_interrupt 2000000 2000 (pps_edge 1 booted)) =
    println line
      (timing (set_pps_count (Int.u32 (pps_count (advanced_timing (pps_edge 1 booted)) + 1)))
         (pps_interrupt 2000000 2000 (pps_edge 1 booted))).
Proof.
  apply (prompt_pps_is_discarded 2000000 2000 (mkPpsReadings 2000 2000) (pps_edge 1 booted)).
  - vm_compute. reflexivity.
  - vm_compute. reflexivity.
  - vm_compute. reflexivity.
Defined.

(** ** The reset flag is never cleared *)

Create HintDb latch.

Lemma latch_timing (g : AdvancedTiming -> AdvancedTiming) (s : Firmware) :
  keeps_latch g -> reset_latched s -> reset_latched (timing g s).
Proof. unfold reset_latched. intros Hg H. apply Hg. exact H. Qed.

Lemma latch_same (s s' : Firmware) :
  advanced_timing s' = advanced_timing s -> reset_latched s -> reset_latched s'.
Proof. unfold reset_latched. intros E H. rewrite E. exact H. Qed.

Section LatchSetters.

Variable s : Firmware.
Hypothesis H : reset_latched s.

Lemma latch_println l : reset_latched (println l s).
Proof. exact (latch_same s _ eq_refl H). Qed.

Lemma latch_monitor f : reset_latched (monitor f s).
Proof. exact (latch_same s _ eq_refl H). Qed.

Lemma latch_validator f : reset_latched (validator f s).
Proof. exact (latch_same s _ eq_refl H). Qed.

Lemma latch_session f : reset_latched (session f s).
Proof. exact (latch_same s _ eq_refl H). Qed.

Lemma latch_adc_mon f : reset_latched (adc_mon f s).
Proof. exact (latch_same s _ eq_refl H). Qed.

Lemma latch_set_sequence v : reset_latched (set_sequence v s).
Proof. exact (latch_same s _ eq_refl H). Qed.

Lemma latch_set_streaming v : reset_latched (set_streaming v s).
Proof. exact (latch_same s _ eq_refl H). Qed.

Lemma latch_set_stream_rate v : reset_latched (set_stream_rate v s).
Proof. exact (latch_same s _ eq_refl H). Qed.

Lemma latch_set_compact_output v : reset_latched (set_compact_output v s).
Proof. exact (latch_same s _ eq_refl H). Qed.

Lemma latch_set_degradation_warned v : reset_latched (set_degradation_warned v s).
Proof. exact (latch_same s _ eq_refl H). Qed.

Lemma latch_set_reset_warned v : reset_latched (set_reset_warned v s).
Proof. exact (latch_same s _ eq_refl H). Qed.

Lemma latch_set_eeprom v : reset_latched (set_eeprom v s).
Proof. exact (latch_same s _ eq_refl H). Qed.

Lemma latch_set_current_adc_rate v : reset_latched (set_current_adc_rate v s).
Proof. exact (latch_same s _ eq_refl H). Qed.

Lemma latch_set_current_adc_gain v : reset_latched (set_current_adc_gain v s).
Proof. exact (latch_same s _ eq_refl H). Qed.

Lemma latch_set_current_adc_filter v : reset_latched (set_current_adc_filter v s).
Proof. exact (latch_same s _ eq_refl H). Qed.

Lemma latch_set_current_dithering v : reset_latched (set_current_dithering v s).
Proof. exact (latch_same s _ eq_refl H). Qed.

Lemma latch_set_num_channels v : reset_latched (set_num_channels v s).
Proof. exact (latch_same s _ eq_refl H). Qed.

Lemma latch_set_adc_monitor v : reset_latched (set_adc_monitor v s).
Proof. exact (latch_same s _ eq_refl H). Qed.

End LatchSetters.

#[export] Hint Resolve latch_timing latch_println latch_monitor latch_validator
  latch_session latch_adc_mon latch_set_sequence latch_set_streaming latch_set_stream_rate
  latch_set_compact_output latch_set_degradation_warned latch_set_reset_warned
  latch_set_eeprom latch_set_current_adc_rate latch_set_current_adc_gain
  latch_set_current_adc_filter latch_set_current_dithering latch_set_num_channels
  latch_set_adc_monitor : latch.
#[export] Hint Extern 1 (keeps_latch _) =>
  (let t := fresh "t" in let Ht := fresh "Ht" in
   intros t Ht; first [exact Ht | reflexivity]) : latch.

Ltac latch := repeat (break_if || name_calls); cbn [fst snd]; auto 80 with latch.

Lemma getVirtualMicros_latch (m : Z) (s : Firmware) :
  reset_latched s -> reset_latched (fst (getVirtualMicros m s)).
Proof. intros H. unfold getVirtualMicros. latch. Qed.
#[export] Hint Resolve getVirtualMicros_latch : latch.

Lemma detectClockReset_latch (us ms : Z) (s : Firmware) :
  reset_latched s -> reset_latched (fst (detectClockReset us ms s)).
Proof. intros H. unfold detectClockReset. latch. Qed.
#[export] Hint Resolve detectClockReset_latch : latch.

(** [handleClockReset] raises the flag whatever it was. *)
Lemma handleClockReset_raises (i : ResetReadings) (s : Firmware) :
  reset_latched (handleClockReset i s).
Proof.
  unfold handleClockReset.
  set (s1 := timing (set_current_source TIMING_INTERNAL_RAW) _).
  assert (H1 : reset_latched s1) by reflexivity.
  revert H1. generalize s1. clear s1. intros s1 H1. latch.
Qed.
#[export] Hint Resolve handleClockReset_raises : latch.

Lemma sendSessionHeader_latch (ms : Z) (s : Firmware) :
  reset_latched s -> reset_latched (sendSessionHeader ms s).
Proof. intros H. unfold sendSessionHeader. latch. Qed.
#[export] Hint Resolve sendSessionHeader_latch : latch.

Lemma clampOscillatorCalibration_latch (s : Firmware) :
  reset_latched s -> reset_latched (clampOscillatorCalibration s).
Proof. intros H. unfold clampOscillatorCalibration. latch. Qed.
#[export] Hint Resolve clampOscillatorCalibration_latch : latch.

Lemma saveOscillatorCalibration_latch (s : Firmware) :
  reset_latched s -> reset_latched (saveOscillatorCalibration s).
Proof. intros H. unfold saveOscillatorCalibration. latch. Qed.
#[export] Hint Resolve saveOscillatorCalibration_latch : latch.

Lemma learn_temperature_latch (s : Firmware) :
  reset_latched s -> reset_latched (learn_temperature s).
Proof. intros H. unfold learn_temperature. latch. Qed.
#[export] Hint Resolve learn_temperature_latch : latch.

Lemma pps_calibrate_latch (m : Z) (s : Firmware) :
  reset_latched s -> reset_latched (pps_calibrate m s).
Proof. intros H. unfold pps_calibrate. latch. Qed.
#[export] Hint Resolve pps_calibrate_latch : latch.

Lemma pps_phase_nudge_latch (m : Z) (s : Firmware) :
  reset_latched s -> reset_latched (pps_phase_nudge m s).
Proof.
  intros H. unfold pps_phase_nudge. latch.
Qed.
#[export] Hint Resolve pps_phase_nudge_latch : latch.

Lemma pps_phase_lock_latch (m : Z) (s : Firmware) :
  reset_latched s -> reset_latched (pps_phase_lock m s).
Proof.
  intros H. unfold pps_phase_lock. latch.
Qed.
#[export] Hint Resolve pps_phase_lock_latch : latch.

Lemma pps_begin_streaming_latch (m : Z) (i : PpsReadings) (b : bool) (s : Firmware) :
  reset_latched s -> reset_latched (pps_begin_streaming m i b s).
Proof. intros H. unfold pps_begin_streaming. latch. Qed.
#[export] Hint Resolve pps_begin_streaming_latch : latch.

Lemma pps_locked_start_latch (m : Z) (i : PpsReadings) (s : Firmware) :
  reset_latched s -> reset_latched (pps_locked_start m i s).
Proof. intros H. unfold pps_locked_start. latch. Qed.
#[export] Hint Resolve pps_locked_start_latch : latch.

Lemma processPPS_accept_latch (m : Z) (i : PpsReadings) (s : Firmware) :
  reset_latched s -> reset_latched (processPPS_accept m i s).
Proof. intros H. unfold processPPS_accept. latch. Qed.
#[export] Hint Resolve processPPS_accept_latch : latch.

Lemma processPPS_latch (i : PpsReadings) (s : Firmware) :
  reset_latched s -> reset_latched (processPPS i s).
Proof. intros H. unfold processPPS. latch. Qed.
#[export] Hint Resolve processPPS_latch : latch.

(** The branch of [updateTimingSource] that would clear the flag asks for
    a reset less than 30 s old and more than 30 s old at once: it never
    runs. *)
Lemma classifyTimingSource_latch (ms : Z) (s : Firmware) :
  reset_latched s -> reset_latched (classifyTimingSource ms s).
Proof.
  intros H. unfold classifyTimingSource.
  set (tsr := Int.u32 (ms - reset_detection_time (advanced_timing s))).
  assert (Hdead : clock_reset_detected (advanced_timing s) && (tsr <? 30000) &&
                  (tsr >? 30000) = false).
  { rewrite Z.gtb_ltb. destruct (tsr <? 30000) eqn:E1.
    - apply Z.ltb_lt in E1. replace (30000 <? tsr) with false
        by (symmetry; apply Z.ltb_ge; lia).
      apply andb_false_r.
    - rewrite andb_false_r. reflexivity. }
  rewrite Hdead. clearbody tsr. latch.
Qed.
#[export] Hint Resolve classifyTimingSource_latch : latch.

Lemma updateTimingSource_latch (i : TickReadings) (s : Firmware) :
  reset_latched s -> reset_latched (updateTimingSource i s).
Proof. intros H. unfold updateTimingSource, updateTimingSource_events. latch. Qed.
#[export] Hint Resolve updateTimingSource_latch : latch.

Lemma sendHealthBeacon_latch (ms : Z) (s : Firmware) :
  reset_latched s -> reset_latched (sendHealthBeacon ms s).
Proof. intros H. unfold sendHealthBeacon. latch. Qed.
#[export] Hint Resolve sendHealthBeacon_latch : latch.

Lemma updateTemperatureCompensation_latch (s : Firmware) :
  reset_latched s -> reset_latched (updateTemperatureCompensation s).
Proof.
  intros H. unfold updateTemperatureCompensation.
  destruct (current_source (advanced_timing s)); latch.
Qed.
#[export] Hint Resolve updateTemperatureCompensation_latch : latch.

Lemma establishSamplingTiming_latch (m : Z) (s : Firmware) :
  reset_latched s -> reset_latched (establishSamplingTiming m s).
Proof. intros H. unfold establishSamplingTiming. latch. Qed.
#[export] Hint Resolve establishSamplingTiming_latch : latch.

Lemma updateTimingReference_latch (m : Z) (s : Firmware) :
  reset_latched s -> reset_latched (updateTimingReference m s).
Proof. intros H. unfold updateTimingReference. latch. Qed.
#[export] Hint Resolve updateTimingReference_latch : latch.

Lemma isRateChangeAllowed_latch (r : float) (s : Firmware) :
  reset_latched s -> reset_latched (fst (isRateChangeAllowed r s)).
Proof.
  intros H. unfold isRateChangeAllowed.
  destruct (current_source (advanced_timing s)); latch.
Qed.
#[export] Hint Resolve isRateChangeAllowed_latch : latch.

Lemma processLine_latch (i : CommandReadings) (c : Command) (s : Firmware) :
  reset_latched s -> reset_latched (processLine i c s).
Proof.
  intros H. destruct c; unfold processLine, or_already_streaming, while_stopped;
    try match goal with
        | p : option (float * Z) |- _ => destruct p as [[? ?]|]
        end;
    latch.
Qed.
#[export] Hint Resolve processLine_latch : latch.

Lemma process_lines_latch (cs : list (CommandReadings * Command)) (s : Firmware) :
  reset_latched s -> reset_latched (process_lines cs s).
Proof.
  revert s. induction cs as [|c cs IH]; intros s H; [exact H|].
  cbn [process_lines fold_left]. apply IH. auto with latch.
Qed.
#[export] Hint Resolve process_lines_latch : latch.

Lemma loop_sync_wait_latch (m : Z) (s : Firmware) :
  reset_latched s -> reset_latched (loop_sync_wait m s).
Proof. intros H. unfold loop_sync_wait. latch. Qed.
#[export] Hint Resolve loop_sync_wait_latch : latch.

Lemma verifyADCThroughput_latch (s : Firmware) :
  reset_latched s -> reset_latched (fst (verifyADCThroughput s)).
Proof. intros H. unfold reset_latched. rewrite verifyADCThroughput_timing. exact H. Qed.
#[export] Hint Resolve verifyADCThroughput_latch : latch.

Lemma getPreciseTimestamp_latch (m : Z) (s : Firmware) :
  reset_latched s -> reset_latched (fst (getPreciseTimestamp m s)).
Proof. intros H. rewrite getPreciseTimestamp_state. auto with latch. Qed.
#[export] Hint Resolve getPreciseTimestamp_latch : latch.

Lemma acquire_latch (reads : AdcReads) (s : Firmware) :
  reset_latched s -> reset_latched (fst (acquire reads s)).
Proof. intros H. unfold reset_latched. rewrite acquire_timing. exact H. Qed.
#[export] Hint Resolve acquire_latch : latch.

Lemma validateAndCorrectSequence_latch (seq : Z) (s : Firmware) :
  reset_latched s -> reset_latched (fst (fst (validateAndCorrectSequence seq s))).
Proof.
  intros H. unfold reset_latched.
  destruct (validateAndCorrectSequence_frame seq s) as (_ & E & _). cbv zeta in E.
  rewrite E. exact H.
Qed.
#[export] Hint Resolve validateAndCorrectSequence_latch : latch.

Lemma prepareSample_latch (i : SampleReadings) (s : Firmware) :
  reset_latched s -> reset_latched (fst (prepareSample i s)).
Proof.
  intros H. unfold prepareSample.
  destruct (getVirtualMicros (entry_micros i) s) as [s1 v1] eqn:E1. name_pair E1.
  assert (H2 : reset_latched
                 (if sample_index (advanced_timing (fst (getVirtualMicros (entry_micros i) s)))
                     >=? reference_update_interval
                           (advanced_timing (fst (getVirtualMicros (entry_micros i) s)))
                  then updateTimingReference (rebase_micros i)
                         (fst (getVirtualMicros (entry_micros i) s))
                  else fst (getVirtualMicros (entry_micros i) s))) by latch.
  revert H2.
  generalize (if sample_index (advanced_timing (fst (getVirtualMicros (entry_micros i) s)))
                 >=? reference_update_interval
                       (advanced_timing (fst (getVirtualMicros (entry_micros i) s)))
              then updateTimingReference (rebase_micros i)
                     (fst (getVirtualMicros (entry_micros i) s))
              else fst (getVirtualMicros (entry_micros i) s)).
  intros s2 H2.
  destruct (verifyADCThroughput s2) as [s3 ok] eqn:E3. name_pair E3.
  destruct (getPreciseTimestamp _ _) as [s4 ts] eqn:E4. name_pair E4.
  destruct (acquire _ _) as [s5 values] eqn:E5. name_pair E5.
  pose proof (validateAndCorrectSequence_latch
                (sequence (fst (acquire (adc_reads i)
                   (fst (getPreciseTimestamp (stamp_micros i)
                      (fst (verifyADCThroughput s2)))))))
                (fst (acquire (adc_reads i)
                   (fst (getPreciseTimestamp (stamp_micros i)
                      (fst (verifyADCThroughput s2))))))
                ltac:(auto with latch)) as H6.
  destruct (validateAndCorrectSequence _ _) as [[s6 ok6] seq6]. cbn [fst] in H6 |- *.
  auto with latch.
Qed.

Lemma generatePreciseSample_latch (i : SampleReadings) (s : Firmware) :
  reset_latched s -> reset_latched (generatePreciseSample i s).
Proof.
  intros H. unfold generatePreciseSample.
  pose proof (prepareSample_latch i s H) as Hp.
  revert Hp. generalize (prepareSample i s). intros [s1 [[q ts] [[a b] c]]] Hp.
  cbn [fst] in Hp.
  pose proof (output_frame (tx i) q ts (source_code (current_source (advanced_timing s1)))
                (timing_accuracy_us (advanced_timing s1)) a b c s1) as [_ Ho].
  assert (H2 : reset_latched
                 (outputDataWithOverflowProtection (tx i) q ts
                    (source_code (current_source (advanced_timing s1)))
                    (timing_accuracy_us (advanced_timing s1)) a b c s1))
    by (unfold reset_latched; rewrite Ho; exact Hp).
  revert H2. clear Ho.
  generalize (outputDataWithOverflowProtection (tx i) q ts
                (source_code (current_source (advanced_timing s1)))
                (timing_accuracy_us (advanced_timing s1)) a b c s1).
  intros s2 H2. latch.
Qed.
#[export] Hint Resolve generatePreciseSample_latch : latch.

Lemma skip_missed_slots_latch (now : Z) (s : Firmware) :
  reset_latched s -> reset_latched (skip_missed_slots now s).
Proof. intros H. unfold skip_missed_slots. latch. Qed.
#[export] Hint Resolve skip_missed_slots_latch : latch.

Lemma advance_next_sample_latch (s : Firmware) :
  reset_latched s -> reset_latched (advance_next_sample s).
Proof.
  intros H. unfold advance_next_sample.
  destruct (_ && _); [destruct (_ =? 0)|]; latch.
Qed.
#[export] Hint Resolve advance_next_sample_latch : latch.

Lemma loop_streaming_latch (j : StreamReadings) (s : Firmware) :
  reset_latched s -> reset_latched (loop_streaming j s).
Proof. intros H. unfold loop_streaming. latch. Qed.
#[export] Hint Resolve loop_streaming_latch : latch.

Lemma loop_latch (i : LoopReadings) (s : Firmware) :
  reset_latched s -> reset_latched (loop i s).
Proof. intros H. unfold loop. latch. Qed.

(** X20: the clock-reset flag is never cleared.  Once
    [clock_reset_detected] is up it stays up through every iteration of the
    main loop, every command and every PPS interrupt: the only statement
    that clears it sits in a branch of [updateTimingSource] that cannot be
    taken.  From then on [processPPS] skips the oscillator calibration. *)
Theorem reset_flag_is_never_cleared (events : list Event) (m : Z) (s : Firmware) :
  reset_latched s ->
  reset_latched (run events s) /\
  pps_calibrate m (run events s) = run events s.
Proof.
  intros H.
  assert (Hrun : reset_latched (run events s)).
  { revert s H. induction events as [|e events IH]; intros s H; [exact H|].
    cbn [run fold_left]. apply IH. destruct e as [i|us ms]; cbn [step].
    - apply loop_latch. exact H.
    - exact H. }
  split; [exact Hrun|].
  unfold pps_calibrate. unfold reset_latched in Hrun. rewrite Hrun.
  rewrite andb_false_r. reflexivity.
Qed.

Lemma reset_flag_is_never_cleared_witness :
  let later :=
    run [Iteration (loop_at 40000000 40000 []); PpsEdge 41000000 41000;
         Iteration (loop_at 41000100 41000 [])] after_clock_reset in
  reset_latched later /\ pps_calibrate 41000000 later = later.
Proof.
  apply (reset_flag_is_never_cleared
           [Iteration (loop_at 40000000 40000 []); PpsEdge 41000000 41000;
            Iteration (loop_at 41000100 41000 [])] 41000000 after_clock_reset).
  vm_compute. reflexivity.
Defined.

(** ** An idle device stays idle *)

Create HintDb idle.

Lemma idle_timing (g : AdvancedTiming -> AdvancedTiming) (s : Firmware) :
  keeps_idle g -> idle s -> idle (timing g s).
Proof.
  unfold idle. intros Hg (Hs & Hy & Hw). destruct (Hg _ Hy Hw) as [Hy' Hw'].
  repeat split; assumption.
Qed.

Lemma idle_same (s s' : Firmware) :
  streaming s' = streaming s -> advanced_timing s' = advanced_timing s ->
  idle s -> idle s'.
Proof. unfold idle. intros E1 E2 H. rewrite E1, E2. exact H. Qed.

Section IdleSetters.

Variable s : Firmware.
Hypothesis H : idle s.

Lemma idle_println l : idle (println l s).
Proof. exact (idle_same s _ eq_refl eq_refl H). Qed.

Lemma idle_monitor f : idle (monitor f s).
Proof. exact (idle_same s _ eq_refl eq_refl H). Qed.

Lemma idle_validator f : idle (validator f s).
Proof. exact (idle_same s _ eq_refl eq_refl H). Qed.

Lemma idle_session f : idle (session f s).
Proof. exact (idle_same s _ eq_refl eq_refl H). Qed.

Lemma idle_adc_mon f : idle (adc_mon f s).
Proof. exact (idle_same s _ eq_refl eq_refl H). Qed.

Lemma idle_set_sequence v : idle (set_sequence v s).
Proof. exact (idle_same s _ eq_refl eq_refl H). Qed.

Lemma idle_set_streaming_false : idle (set_streaming false s).
Proof. destruct H as (_ & Hy & Hw). repeat split; assumption. Qed.

Lemma idle_set_stream_rate v : idle (set_stream_rate v s).
Proof. exact (idle_same s _ eq_refl eq_refl H). Qed.

Lemma idle_set_compact_output v : idle (set_compact_output v s).
Proof. exact (idle_same s _ eq_refl eq_refl H). Qed.

Lemma idle_set_degradation_warned v : idle (set_degradation_warned v s).
Proof. exact (idle_same s _ eq_refl eq_refl H). Qed.

Lemma idle_set_reset_warned v : idle (set_reset_warned v s).
Proof. exact (idle_same s _ eq_refl eq_refl H). Qed.

Lemma idle_set_eeprom v : idle (set_eeprom v s).
Proof. exact (idle_same s _ eq_refl eq_refl H). Qed.

Lemma idle_set_current_adc_rate v : idle (set_current_adc_rate v s).
Proof. exact (idle_same s _ eq_refl eq_refl H). Qed.

Lemma idle_set_current_adc_gain v : idle (set_current_adc_gain v s).
Proof. exact (idle_same s _ eq_refl eq_refl H). Qed.

Lemma idle_set_current_adc_filter v : idle (set_current_adc_filter v s).
Proof. exact (idle_same s _ eq_refl eq_refl H). Qed.

Lemma idle_set_current_dithering v : idle (set_current_dithering v s).
Proof. exact (idle_same s _ eq_refl eq_refl H). Qed.

Lemma idle_set_num_channels v : idle (set_num_channels v s).
Proof. exact (idle_same s _ eq_refl eq_refl H). Qed.

End IdleSetters.

#[export] Hint Resolve idle_timing idle_println idle_monitor idle_validator idle_session
  idle_adc_mon idle_set_sequence idle_set_streaming_false idle_set_stream_rate
  idle_set_compact_output idle_set_degradation_warned idle_set_reset_warned
  idle_set_eeprom idle_set_current_adc_rate idle_set_current_adc_gain
  idle_set_current_adc_filter idle_set_current_dithering idle_set_num_channels : idle.
#[export] Hint Extern 1 (keeps_idle _) =>
  (let t := fresh "t" in let Hy := fresh "Hy" in let Hw := fresh "Hw" in
   intros t Hy Hw; split; first [exact Hy | exact Hw | reflexivity]) : idle.

Ltac idle := repeat (break_if || name_calls); cbn [fst snd]; auto 80 with idle.

Lemma getVirtualMicros_idle (m : Z) (s : Firmware) :
  idle s -> idle (fst (getVirtualMicros m s)).
Proof. intros H. unfold getVirtualMicros. idle. Qed.
#[export] Hint Resolve getVirtualMicros_idle : idle.

Lemma detectClockReset_idle (us ms : Z) (s : Firmware) :
  idle s -> idle (fst (detectClockReset us ms s)).
Proof. intros H. unfold detectClockReset. idle. Qed.
#[export] Hint Resolve detectClockReset_idle : idle.

Lemma handleClockReset_idle (i : ResetReadings) (s : Firmware) :
  idle s -> idle (handleClockReset i s).
Proof. intros H. unfold handleClockReset. idle. Qed.
#[export] Hint Resolve handleClockReset_idle : idle.

Lemma clampOscillatorCalibration_idle (s : Firmware) :
  idle s -> idle (clampOscillatorCalibration s).
Proof. intros H. unfold clampOscillatorCalibration. idle. Qed.
#[export] Hint Resolve clampOscillatorCalibration_idle : idle.

Lemma saveOscillatorCalibration_idle (s : Firmware) :
  idle s -> idle (saveOscillatorCalibration s).
Proof. intros H. unfold saveOscillatorCalibration. idle. Qed.
#[export] Hint Resolve saveOscillatorCalibration_idle : idle.

Lemma learn_temperature_idle (s : Firmware) :
  idle s -> idle (learn_temperature s).
Proof. intros H. unfold learn_temperature. idle. Qed.
#[export] Hint Resolve learn_temperature_idle : idle.

Lemma pps_calibrate_idle (m : Z) (s : Firmware) :
  idle s -> idle (pps_calibrate m s).
Proof. intros H. unfold pps_calibrate. idle. Qed.
#[export] Hint Resolve pps_calibrate_idle : idle.

(** With no start armed, [processPPS] starts nothing. *)
Lemma pps_phase_nudge_stays_idle (m : Z) (s : Firmware) :
  idle s -> idle (pps_phase_nudge m s).
Proof. intros H. rewrite pps_phase_nudge_idle; [exact H | apply H]. Qed.
#[export] Hint Resolve pps_phase_nudge_stays_idle : idle.

Lemma pps_phase_lock_stays_idle (m : Z) (s : Firmware) :
  idle s -> idle (pps_phase_lock m s).
Proof. intros H. rewrite pps_phase_lock_idle; [exact H | apply H]. Qed.
#[export] Hint Resolve pps_phase_lock_stays_idle : idle.

Lemma pps_locked_start_stays_idle (m : Z) (i : PpsReadings) (s : Firmware) :
  idle s -> idle (pps_locked_start m i s).
Proof.
  intros H. unfold pps_locked_start. destruct H as (Hs & Hy & Hw). rewrite Hy.
  repeat split; assumption.
Qed.
#[export] Hint Resolve pps_locked_start_stays_idle : idle.

Lemma processPPS_accept_idle (m : Z) (i : PpsReadings) (s : Firmware) :
  idle s -> idle (processPPS_accept m i s).
Proof. intros H. unfold processPPS_accept. idle. Qed.
#[export] Hint Resolve processPPS_accept_idle : idle.

Lemma processPPS_idle (i : PpsReadings) (s : Firmware) :
  idle s -> idle (processPPS i s).
Proof.
  intros H. unfold processPPS.
  cbn [advanced_timing timing set_advanced_timing sync_on_pps set_pps_count].
  replace (sync_on_pps (advanced_timing s)) with false by (symmetry; apply H).
  cbn [andb]. auto with idle.
Qed.
#[export] Hint Resolve processPPS_idle : idle.

Lemma classifyTimingSource_idle (ms : Z) (s : Firmware) :
  idle s -> idle (classifyTimingSource ms s).
Proof. intros H. unfold classifyTimingSource. idle. Qed.
#[export] Hint Resolve classifyTimingSource_idle : idle.

Lemma updateTimingSource_idle (i : TickReadings) (s : Firmware) :
  idle s -> idle (updateTimingSource i s).
Proof. intros H. unfold updateTimingSource, updateTimingSource_events. idle. Qed.
#[export] Hint Resolve updateTimingSource_idle : idle.

Lemma sendHealthBeacon_idle (ms : Z) (s : Firmware) :
  idle s -> idle (sendHealthBeacon ms s).
Proof. intros H. unfold sendHealthBeacon. idle. Qed.
#[export] Hint Resolve sendHealthBeacon_idle : idle.

Lemma updateTemperatureCompensation_idle (s : Firmware) :
  idle s -> idle (updateTemperatureCompensation s).
Proof.
  intros H. unfold updateTemperatureCompensation.
  destruct (current_source (advanced_timing s)); idle.
Qed.
#[export] Hint Resolve updateTemperatureCompensation_idle : idle.

Lemma isRateChangeAllowed_idle (r : float) (s : Firmware) :
  idle s -> idle (fst (isRateChangeAllowed r s)).
Proof.
  intros H. unfold isRateChangeAllowed.
  destruct (current_source (advanced_timing s)); idle.
Qed.
#[export] Hint Resolve isRateChangeAllowed_idle : idle.

(** Every command but the three start commands leaves an idle device
    idle. *)
Lemma processLine_idle (i : CommandReadings) (c : Command) (s : Firmware) :
  is_start c = false -> idle s -> idle (processLine i c s).
Proof.
  intros Hc H. destruct c; try discriminate Hc;
    unfold processLine, or_already_streaming, while_stopped; idle.
Qed.

Lemma process_lines_idle (cs : list (CommandReadings * Command)) (s : Firmware) :
  forallb (fun c => negb (is_start (snd c))) cs = true ->
  idle s -> idle (process_lines cs s).
Proof.
  revert s. induction cs as [|c cs IH]; intros s Hc H; [exact H|].
  cbn [forallb] in Hc. apply andb_true_iff in Hc. destruct Hc as [Hc1 Hc2].
  cbn [process_lines fold_left]. apply IH; [exact Hc2|].
  apply processLine_idle; [|exact H]. apply negb_true_iff. exact Hc1.
Qed.

(** One iteration without a start command, from an idle state. *)
Lemma loop_idle (i : LoopReadings) (s : Firmware) :
  no_start (Iteration i) = true -> idle s ->
  idle (loop i s) /\ count_samples (serial1 (loop i s)) = count_samples (serial1 s).
Proof.
  intros Hc H. unfold loop.
  assert (H1 : idle (process_lines (loop_commands i)
                       (updateTemperatureCompensation
                          (sendHealthBeacon (loop_beacon_millis i)
                             (updateTimingSource (loop_tick i) s)))))
    by (apply process_lines_idle; [exact Hc | auto with idle]).
  assert (H2 : no_new_sample s
                 (process_lines (loop_commands i)
                    (updateTemperatureCompensation
                       (sendHealthBeacon (loop_beacon_millis i)
                          (updateTimingSource (loop_tick i) s)))))
    by auto 10 with quiet.
  revert H1 H2.
  generalize (process_lines (loop_commands i)
                (updateTemperatureCompensation
                   (sendHealthBeacon (loop_beacon_millis i)
                      (updateTimingSource (loop_tick i) s)))).
  intros s1 H1 H2. pose proof H1 as (Hs & _ & Hw). rewrite Hw.
  unfold loop_streaming. rewrite Hs. cbn [andb]. split; [exact H1 | exact H2].
Qed.

(** X21: an idle device stays idle.  From a state in which no stream is
    running, no PPS-locked start is armed and no synchronized start is
    waiting (the state after [setup], or after [STOP_STREAM]), a run of
    main-loop iterations and PPS interrupts that carries no start command
    starts no stream and prints no sample, whatever else happens: PPS edges,
    clock resets, wraparounds, any other command. *)
Theorem idle_until_started (events : list Event) (s : Firmware) :
  idle s -> forallb no_start events = true ->
  idle (run events s) /\
  count_samples (serial1 (run events s)) = count_samples (serial1 s).
Proof.
  revert s. induction events as [|e events IH]; intros s H Hc; [split; [exact H|reflexivity]|].
  cbn [forallb] in Hc. apply andb_true_iff in Hc. destruct Hc as [Hc1 Hc2].
  cbn [run fold_left]. fold (run events (step e s)).
  assert (H1 : idle (step e s) /\
               count_samples (serial1 (step e s)) = count_samples (serial1 s)).
  { destruct e as [i|us ms]; cbn [step].
    - apply loop_idle; assumption.
    - split; [|reflexivity]. unfold pps_interrupt. auto with idle. }
  destruct H1 as [H1 H2]. destruct (IH (step e s) H1 Hc2) as [H3 H4].
  split; [exact H3 | rewrite H4; exact H2].
Qed.

Lemma idle_until_started_witness :
  let stopped := processLine (mkCommandReadings 600000 600 600 64) STOP_STREAM (armed 2) in
  let later :=
    run [PpsEdge 1000000 1000; Iteration (loop_at 1000100 1000 []);
         PpsEdge 2000000 2000; Iteration (loop_at 2000100 2000 [GET_STATUS])] stopped in
  idle later /\ count_samples (serial1 later) = count_samples (serial1 stopped).
Proof.
  apply (idle_until_started
           [PpsEdge 1000000 1000; Iteration (loop_at 1000100 1000 []);
            PpsEdge 2000000 2000; Iteration (loop_at 2000100 2000 [GET_STATUS])]
           (processLine (mkCommandReadings 600000 600 600 64) STOP_STREAM (armed 2))).
  - vm_compute. repeat split; reflexivity.
  - reflexivity.
Defined.

(** ** Every firing is accounted for *)

Lemma getVirtualMicros_monitor (m : Z) (s : Firmware) :
  serial_monitor (fst (getVirtualMicros m s)) = serial_monitor s.
Proof. unfold getVirtualMicros. repeat break_if; reflexivity. Qed.

Lemma updateTimingReference_monitor (m : Z) (s : Firmware) :
  serial_monitor (updateTimingReference m s) = serial_monitor s.
Proof.
  unfold updateTimingReference.
  destruct (getVirtualMicros m s) as [s1 v] eqn:E. name_pair E.
  cbn. apply getVirtualMicros_monitor.
Qed.

Lemma verifyADCThroughput_monitor (s : Firmware) :
  serial_monitor (fst (verifyADCThroughput s)) = serial_monitor s.
Proof. unfold verifyADCThroughput. repeat break_if; reflexivity. Qed.

Lemma prepareSample_monitor (i : SampleReadings) (s : Firmware) :
  serial_monitor (fst (prepareSample i s)) = serial_monitor s.
Proof.
  unfold prepareSample.
  destruct (getVirtualMicros (entry_micros i) s) as [s1 v1] eqn:E1. name_pair E1.
  assert (H2 : serial_monitor
                 (if sample_index (advanced_timing (fst (getVirtualMicros (entry_micros i) s)))
                     >=? reference_update_interval
                           (advanced_timing (fst (getVirtualMicros (entry_micros i) s)))
                  then updateTimingReference (rebase_micros i)
                         (fst (getVirtualMicros (entry_micros i) s))
                  else fst (getVirtualMicros (entry_micros i) s)) = serial_monitor s).
  { break_if; rewrite ?updateTimingReference_monitor; apply getVirtualMicros_monitor. }
  revert H2.
  generalize (if sample_index (advanced_timing (fst (getVirtualMicros (entry_micros i) s)))
                 >=? reference_update_interval
                       (advanced_timing (fst (getVirtualMicros (entry_micros i) s)))
              then updateTimingReference (rebase_micros i)
                     (fst (getVirtualMicros (entry_micros i) s))
              else fst (getVirtualMicros (entry_micros i) s)).
  intros s2 H2.
  destruct (verifyADCThroughput s2) as [s3 ok] eqn:E3. name_pair E3.
  destruct (getPreciseTimestamp (stamp_micros i) _) as [s4 ts] eqn:E4. name_pair E4.
  rewrite getPreciseTimestamp_state.
  assert (H4 : serial_monitor
                 (fst (getVirtualMicros (stamp_micros i) (fst (verifyADCThroughput s2))))
               = serial_monitor s)
    by (rewrite getVirtualMicros_monitor, verifyADCThroughput_monitor; exact H2).
  revert H4.
  generalize (fst (getVirtualMicros (stamp_micros i) (fst (verifyADCThroughput s2)))).
  intros s4 H4.
  destruct (acquire_effect (adc_reads i) s4) as [m H5].
  destruct (acquire (adc_reads i) s4) as [s5 values]. cbn [fst] in H5. subst s5.
  pose proof (validateAndCorrectSequence_frame (sequence (set_adc_monitor m s4))
                (set_adc_monitor m s4)) as (_ & _ & H6 & _). cbv zeta in H6.
  destruct (validateAndCorrectSequence _ _) as [[s6 ok6] seq6].
  cbn [fst] in H6 |- *. cbn [serial_monitor set_sequence]. rewrite H6. exact H4.
Qed.

(** X22: every firing of [generatePreciseSample] is accounted for and
    consumes its sequence number.  The sample is printed exactly when the
    TX buffer has at least 20 bytes free; otherwise
    [samples_skipped_due_to_overflow] goes up by one (32-bit); in both cases
    the 16-bit sequence counter advances, so that a dropped sample shows as a
    gap in the sequence numbers the host receives. *)
Theorem firing_is_printed_or_counted (i : SampleReadings) (s : Firmware) :
  let s' := generatePreciseSample i s in
  let dropped := tx_free (tx i) <? 20 in
  count_samples (serial1 s') = count_samples (serial1 s) + (if dropped then 0 else 1) /\
  samples_skipped_due_to_overflow (serial_monitor s') =
    (if dropped then Int.u32 (samples_skipped_due_to_overflow (serial_monitor s) + 1)
     else samples_skipped_due_to_overflow (serial_monitor s)) /\
  sequence s' = Int.u16 ((sequence s + 1) mod 65536).
Proof.
  cbv zeta. split; [apply generatePreciseSample_samples|].
  split; [|apply generatePreciseSample_streaming].
  unfold generatePreciseSample.
  pose proof (prepareSample_monitor i s) as Hp.
  revert Hp. generalize (prepareSample i s). intros [s1 [[q ts] [[a b] c]]] Hp.
  cbn [fst] in Hp.
  pose proof (emit_counters
                (mkEmission (tx i) q ts (source_code (current_source (advanced_timing s1)))
                   (timing_accuracy_us (advanced_timing s1)) (a, b, c)) s1) as [_ He].
  unfold emit, tx_short in He.
  cbn [em_values em_tx em_seq em_timestamp em_source em_accuracy] in He.
  rewrite Hp in He. revert He.
  generalize (outputDataWithOverflowProtection (tx i) q ts
                (source_code (current_source (advanced_timing s1)))
                (timing_accuracy_us (advanced_timing s1)) a b c s1).
  intros s2 He. break_if; exact He.
Qed.

(** ** ADC reads of one sample *)

Lemma readADC_value (r : AdcRead) (s : Firmware) : snd (readADC r s) = read_value r.
Proof. destruct r; unfold readADC; repeat break_if; reflexivity. Qed.

Lemma readADC_config (r : AdcRead) (s : Firmware) :
  num_channels (fst (readADC r s)) = num_channels s /\
  current_dithering (fst (readADC r s)) = current_dithering s.
Proof. destruct (readADC_effect r s) as [m H]. rewrite H. split; reflexivity. Qed.

Lemma readADC_counted (T M k N : Z) (r : AdcRead) (s : Firmware) :
  0 <= T -> 0 <= M -> 0 <= k < N -> T + N < 2 ^ 32 -> M + N < 2 ^ 32 ->
  counted T M k s -> counted T M (k + 1) (fst (readADC r s)).
Proof.
  intros HT HM Hk HTN HMN (a & b & Ha & Hb & Hab & Et & Em).
  destruct r as [|c v].
  - exists a, (b + 1). unfold readADC. cbn. rewrite Et, Em.
    rewrite IntFacts.u32_small by lia. repeat split; lia.
  - exists (a + 1), b.
    assert (E : adc_monitor (fst (readADC (AdcReady c v) s)) =
                adc_monitor (fst (readADC (AdcReady c v) s))) by reflexivity.
    unfold readADC. cbv zeta.
    repeat break_if; cbn; rewrite ?Et, ?Em; rewrite ?IntFacts.u32_small by lia;
      repeat split; lia.
Qed.

Lemma read_channels_counted (T M k N : Z) (reads : AdcReads) (j : nat) (s : Firmware) :
  1 <= num_channels s <= 3 ->
  0 <= T -> 0 <= M -> 0 <= k -> k + num_channels s <= N ->
  T + N < 2 ^ 32 -> M + N < 2 ^ 32 ->
  counted T M k s ->
  counted T M (k + num_channels s) (fst (fst (read_channels reads j s))) /\
  num_channels (fst (fst (read_channels reads j s))) = num_channels s /\
  current_dithering (fst (fst (read_channels reads j s))) = current_dithering s.
Proof.
  intros Hn HT HM Hk HkN HTN HMN Hc.
  unfold read_channels.
  pose proof (readADC_counted T M k N (reads j) s HT HM ltac:(lia) HTN HMN Hc) as H1.
  pose proof (readADC_config (reads j) s) as [C1 D1].
  destruct (readADC (reads j) s) as [s1 a]. cbn [fst] in H1, C1, D1.
  rewrite C1.
  destruct (num_channels s >? 1) eqn:G1.
  - pose proof (readADC_counted T M (k + 1) N (reads (S j)) s1 HT HM ltac:(lia) HTN HMN H1)
      as H2.
    pose proof (readADC_config (reads (S j)) s1) as [C2 D2].
    destruct (readADC (reads (S j)) s1) as [s2 b]. cbn [fst] in H2, C2, D2.
    rewrite C2, C1.
    destruct (num_channels s >? 2) eqn:G2.
    + pose proof (readADC_counted T M (k + 1 + 1) N (reads (S (S j))) s2 HT HM
                    ltac:(lia) HTN HMN H2) as H3.
      pose proof (readADC_config (reads (S (S j))) s2) as [C3 D3].
      destruct (readADC (reads (S (S j))) s2) as [s3 c]. cbn [fst] in H3, C3, D3 |- *.
      replace (k + num_channels s) with (k + 1 + 1 + 1) by lia.
      split; [exact H3 | split; congruence].
    + cbn [fst]. replace (k + num_channels s) with (k + 1 + 1) by lia.
      split; [exact H2 | split; congruence].
  - assert (G2 : (num_channels s >? 2) = false) by lia.
    cbv beta iota. rewrite C1, G2. cbn [fst].
    replace (k + num_channels s) with (k + 1) by lia.
    split; [exact H1 | split; congruence].
Qed.

Lemma oversample_counted (T M N : Z) (reads : AdcReads) (n : nat) :
  forall (k : Z) (j : nat) (sums : Z * Z * Z) (s : Firmware),
    1 <= num_channels s <= 3 ->
    0 <= T -> 0 <= M -> 0 <= k -> k + Z.of_nat n * num_channels s <= N ->
    T + N < 2 ^ 32 -> M + N < 2 ^ 32 ->
    counted T M k s ->
    counted T M (k + Z.of_nat n * num_channels s) (fst (oversample reads n j sums s)).
Proof.
  induction n as [|n IH]; intros k j sums s Hn HT HM Hk HkN HTN HMN Hc.
  - cbn. replace (k + 0) with k by lia. exact Hc.
  - cbn [oversample]. destruct sums as [[sum1 sum2] sum3].
    pose proof (read_channels_counted T M k N reads j s Hn HT HM Hk ltac:(nia) HTN HMN Hc)
      as (H1 & C1 & D1).
    destruct (read_channels reads j s) as [[s1 j1] [[a b] c]]. cbn [fst] in H1, C1, D1.
    replace (k + Z.of_nat (S n) * num_channels s)
      with (k + num_channels s + Z.of_nat n * num_channels s1) by (rewrite C1; nia).
    apply IH; rewrite ?C1; try assumption; try lia; nia.
Qed.

(** X23: one sample costs [num_channels * max(1, current_dithering)] ADC
    reads, the figure [verifyADCThroughput] budgets for: with one to three
    channels, each read ends as a counted conversion or as a counted
    deadline miss, so the two counters together advance by that number
    (as long as neither wraps). *)
Theorem reads_per_sample (reads : AdcReads) (s : Firmware) :
  let n := num_channels s * Z.max 1 (current_dithering s) in
  1 <= num_channels s <= 3 ->
  0 <= current_dithering s ->
  0 <= total_conversions (adc_monitor s) ->
  0 <= deadline_misses (adc_monitor s) ->
  total_conversions (adc_monitor s) + n < 2 ^ 32 ->
  deadline_misses (adc_monitor s) + n < 2 ^ 32 ->
  let s' := fst (acquire reads s) in
  adc_reads_done s' = adc_reads_done s + n /\
  total_conversions (adc_monitor s) <= total_conversions (adc_monitor s') /\
  deadline_misses (adc_monitor s) <= deadline_misses (adc_monitor s').
Proof.
  cbv zeta. intros Hn Hd HT HM HTN HMN.
  assert (Hc : counted (total_conversions (adc_monitor s)) (deadline_misses (adc_monitor s))
                 0 s) by (exists 0, 0; repeat split; lia).
  assert (G : counted (total_conversions (adc_monitor s)) (deadline_misses (adc_monitor s))
                (num_channels s * Z.max 1 (current_dithering s)) (fst (acquire reads s))).
  { unfold acquire. destruct (current_dithering s =? 0) eqn:E0.
    - apply Z.eqb_eq in E0. rewrite E0 in *.
      pose proof (read_channels_counted _ _ 0 (num_channels s * Z.max 1 0) reads 0%nat s
                    Hn HT HM ltac:(lia) ltac:(lia) HTN HMN Hc) as (H1 & _).
      destruct (read_channels reads 0%nat s) as [[s1 j1] values]. cbn [fst] in H1 |- *.
      replace (num_channels s * Z.max 1 0) with (0 + num_channels s) by lia. exact H1.
    - apply Z.eqb_neq in E0.
      pose proof (oversample_counted _ _ (num_channels s * Z.max 1 (current_dithering s))
                    reads (Z.to_nat (current_dithering s)) 0 0%nat (0, 0, 0) s
                    Hn HT HM ltac:(lia) ltac:(rewrite Z2Nat.id by lia; nia) HTN HMN Hc)
        as H1.
      destruct (oversample _ _ _ _ s) as [s1 [[sum1 sum2] sum3]]. cbn [fst] in H1 |- *.
      rewrite Z2Nat.id in H1 by lia.
      replace (num_channels s * Z.max 1 (current_dithering s))
        with (0 + current_dithering s * num_channels s) by nia.
      exact H1. }
  destruct G as (a & b & Ha & Hb & Hab & Et & Em).
  unfold adc_reads_done. rewrite Et, Em. repeat split; lia.
Qed.

Lemma reads_per_sample_witness :
  let s := configured 4 3 in
  let s' := fst (acquire (fun k => if Nat.even k then AdcReady 100 7 else AdcTimeout) s) in
  adc_reads_done s' = adc_reads_done s + 12 /\
  total_conversions (adc_monitor s) <= total_conversions (adc_monitor s') /\
  deadline_misses (adc_monitor s) <= deadline_misses (adc_monitor s').
Proof.
  cbv zeta.
  apply (reads_per_sample (fun k => if Nat.even k then AdcReady 100 7 else AdcTimeout)
           (configured 4 3)); vm_compute; try split; congruence.
Defined.

Lemma read_channels_values (reads : AdcReads) (j : nat) (s : Firmware) (v : Z) :
  (forall k, read_value (reads k) = v) ->
  snd (read_channels reads j s) =
    (v, if num_channels s >? 1 then v else 0, if num_channels s >? 2 then v else 0) /\
  num_channels (fst (fst (read_channels reads j s))) = num_channels s /\
  current_dithering (fst (fst (read_channels reads j s))) = current_dithering s.
Proof.
  intros Hv. unfold read_channels.
  pose proof (readADC_value (reads j) s) as V1.
  pose proof (readADC_config (reads j) s) as [C1 D1].
  destruct (readADC (reads j) s) as [s1 a]. cbn [fst snd] in V1, C1, D1.
  rewrite C1, Hv in *. subst a.
  destruct (num_channels s >? 1) eqn:G1.
  - pose proof (readADC_value (reads (S j)) s1) as V2.
    pose proof (readADC_config (reads (S j)) s1) as [C2 D2].
    destruct (readADC (reads (S j)) s1) as [s2 b]. cbn [fst snd] in V2, C2, D2.
    rewrite C2, C1. rewrite Hv in V2. subst b.
    destruct (num_channels s >? 2).
    + pose proof (readADC_value (reads (S (S j))) s2) as V3.
      pose proof (readADC_config (reads (S (S j))) s2) as [C3 D3].
      destruct (readADC (reads (S (S j))) s2) as [s3 c]. cbn [fst snd] in V3, C3, D3 |- *.
      rewrite Hv in V3. subst c. repeat split; congruence.
    + cbn [fst snd]. repeat split; congruence.
  - assert (G2 : (num_channels s >? 2) = false) by lia.
    cbv beta iota. rewrite C1, G2.
    cbn [fst snd]. repeat split; congruence.
Qed.

Lemma oversample_values (reads : AdcReads) (v : Z) (n : nat) :
  (forall k, read_value (reads k) = v) ->
  forall (j : nat) (m : Z) (s : Firmware),
    0 <= m -> - 2 ^ 31 <= (m + Z.of_nat n) * v < 2 ^ 31 ->
    snd (oversample reads n j
           (m * v, m * (if num_channels s >? 1 then v else 0),
            m * (if num_channels s >? 2 then v else 0)) s) =
      ((m + Z.of_nat n) * v,
       (m + Z.of_nat n) * (if num_channels s >? 1 then v else 0),
       (m + Z.of_nat n) * (if num_channels s >? 2 then v else 0)) /\
    num_channels (fst (oversample reads n j
                         (m * v, m * (if num_channels s >? 1 then v else 0),
                          m * (if num_channels s >? 2 then v else 0)) s)) = num_channels s.
Proof.
  intros Hv. induction n as [|n IH]; intros j m s Hm Hb.
  - cbn [oversample snd fst Z.of_nat]. rewrite Z.add_0_r. split; reflexivity.
  - cbn [oversample].
    pose proof (read_channels_values reads j s v Hv) as (V1 & C1 & _).
    destruct (read_channels reads j s) as [[s1 j1] [[a b] c]]. cbn [fst snd] in V1, C1.
    injection V1 as -> -> ->.
    rewrite Nat2Z.inj_succ in Hb |- *.
    assert (R1 : - 2 ^ 31 <= (m + 1) * v < 2 ^ 31) by nia.
    assert (E1 : Int.i32 (m * v + v) = (m + 1) * v)
      by (replace (m * v + v) with ((m + 1) * v) by lia; apply IntFacts.i32_small; exact R1).
    assert (E0 : Int.i32 (m * 0 + 0) = (m + 1) * 0)
      by (rewrite Z.mul_0_r, Z.mul_0_r; reflexivity).
    assert (E2 : Int.i32 (m * (if num_channels s >? 1 then v else 0)
                          + (if num_channels s >? 1 then v else 0))
                 = (m + 1) * (if num_channels s >? 1 then v else 0))
      by (destruct (num_channels s >? 1); assumption).
    assert (E3 : Int.i32 (m * (if num_channels s >? 2 then v else 0)
                          + (if num_channels s >? 2 then v else 0))
                 = (m + 1) * (if num_channels s >? 2 then v else 0))
      by (destruct (num_channels s >? 2); assumption).
    rewrite E1, E2, E3. rewrite <- C1.
    destruct (IH j1 (m + 1) s1 ltac:(lia)
                ltac:(replace (m + 1 + Z.of_nat n) with (m + Z.succ (Z.of_nat n)) by lia;
                      exact Hb)) as [V2 C2].
    rewrite V2, C2.
    replace (m + 1 + Z.of_nat n) with (m + Z.succ (Z.of_nat n)) by lia.
    split; reflexivity.
Qed.

(** X24: a constant input is reproduced.  When every read of a sample
    returns [v] (a timed-out read returns 0) and the sum of
    [current_dithering] such values fits the 32-bit [long] it is kept in,
    the sample carries [v] for each enabled channel and 0 for each disabled
    one, with or without oversampling: the mean over [current_dithering]
    reads is exact. *)
Theorem constant_input_is_reproduced (reads : AdcReads) (s : Firmware) (v : Z) :
  0 <= current_dithering s ->
  (forall k, read_value (reads k) = v) ->
  - 2 ^ 31 <= current_dithering s * v < 2 ^ 31 ->
  snd (acquire reads s) =
    (v, if num_channels s >? 1 then v else 0, if num_channels s >? 2 then v else 0).
Proof.
  intros Hd Hv Hb. unfold acquire. destruct (current_dithering s =? 0) eqn:E0.
  - pose proof (read_channels_values reads 0%nat s v Hv) as (V1 & _).
    destruct (read_channels reads 0%nat s) as [[s1 j1] values]. exact V1.
  - apply Z.eqb_neq in E0.
    pose proof (oversample_values reads v (Z.to_nat (current_dithering s)) Hv
                  0%nat 0 s ltac:(lia)
                  ltac:(rewrite Z2Nat.id, Z.add_0_l by lia; exact Hb)) as [V C].
    cbn [Z.mul] in V, C.
    destruct (oversample _ _ _ _ s) as [s1 [[sum1 sum2] sum3]]. cbn [fst snd] in V, C |- *.
    injection V as -> -> ->. rewrite C, Z2Nat.id by lia.
    assert (Q : forall x, Z.quot ((0 + current_dithering s) * x) (current_dithering s) = x).
    { intros x. rewrite Z.add_0_l, Z.mul_comm. apply Z.quot_mul. exact E0. }
    rewrite Q. destruct (num_channels s >? 1), (num_channels s >? 2); rewrite ?Q; reflexivity.
Qed.

(** Beyond that bound the 32-bit sum wraps and the mean is wrong: four
    reads of 1 000 000 000 give a sample value of -73 741 824. *)
Lemma oversampling_sum_wraps :
  snd (acquire (fun _ => AdcReady 100 1000000000) (configured 4 1)) = (-73741824, 0, 0).
Proof. vm_compute. reflexivity. Qed.

Lemma constant_input_is_reproduced_witness :
  snd (acquire (fun _ => AdcReady 100 (-7)) (configured 3 2)) = (-7, -7, 0).
Proof.
  apply (constant_input_is_reproduced (fun _ => AdcReady 100 (-7)) (configured 3 2) (-7)).
  - vm_compute. congruence.
  - intros k. reflexivity.
  - vm_compute. split; congruence.
Defined.

(** ** Temperature compensation with the placeholder sensor *)

Create HintDb inert.

Lemma inert_timing (g : AdvancedTiming -> AdvancedTiming) (s : Firmware) :
  keeps_inert g -> temp_inert s -> temp_inert (timing g s).
Proof.
  unfold temp_inert. intros Hg [He Hn]. destruct (Hg _ He) as [He' Hr].
  cbn [advanced_timing timing set_advanced_timing]. rewrite Hr. split; assumption.
Qed.

Lemma inert_same (s s' : Firmware) :
  advanced_timing s' = advanced_timing s -> temp_inert s -> temp_inert s'.
Proof. unfold temp_inert. intros E H. rewrite E. exact H. Qed.

Section InertSetters.

Variable s : Firmware.
Hypothesis H : temp_inert s.

Lemma inert_println l : temp_inert (println l s).
Proof. exact (inert_same s _ eq_refl H). Qed.

Lemma inert_monitor f : temp_inert (monitor f s).
Proof. exact (inert_same s _ eq_refl H). Qed.

Lemma inert_validator f : temp_inert (validator f s).
Proof. exact (inert_same s _ eq_refl H). Qed.

Lemma inert_session f : temp_inert (session f s).
Proof. exact (inert_same s _ eq_refl H). Qed.

Lemma inert_adc_mon f : temp_inert (adc_mon f s).
Proof. exact (inert_same s _ eq_refl H). Qed.

Lemma inert_set_sequence v : temp_inert (set_sequence v s).
Proof. exact (inert_same s _ eq_refl H). Qed.

Lemma inert_set_streaming v : temp_inert (set_streaming v s).
Proof. exact (inert_same s _ eq_refl H). Qed.

Lemma inert_set_stream_rate v : temp_inert (set_stream_rate v s).
Proof. exact (inert_same s _ eq_refl H). Qed.

Lemma inert_set_compact_output v : temp_inert (set_compact_output v s).
Proof. exact (inert_same s _ eq_refl H). Qed.

Lemma inert_set_degradation_warned v : temp_inert (set_degradation_warned v s).
Proof. exact (inert_same s _ eq_refl H). Qed.

Lemma inert_set_reset_warned v : temp_inert (set_reset_warned v s).
Proof. exact (inert_same s _ eq_refl H). Qed.

Lemma inert_set_eeprom v : temp_inert (set_eeprom v s).
Proof. exact (inert_same s _ eq_refl H). Qed.

Lemma inert_set_current_adc_rate v : temp_inert (set_current_adc_rate v s).
Proof. exact (inert_same s _ eq_refl H). Qed.

Lemma inert_set_current_adc_gain v : temp_inert (set_current_adc_gain v s).
Proof. exact (inert_same s _ eq_refl H). Qed.

Lemma inert_set_current_adc_filter v : temp_inert (set_current_adc_filter v s).
Proof. exact (inert_same s _ eq_refl H). Qed.

Lemma inert_set_current_dithering v : temp_inert (set_current_dithering v s).
Proof. exact (inert_same s _ eq_refl H). Qed.

Lemma inert_set_num_channels v : temp_inert (set_num_channels v s).
Proof. exact (inert_same s _ eq_refl H). Qed.

Lemma inert_set_adc_monitor v : temp_inert (set_adc_monitor v s).
Proof. exact (inert_same s _ eq_refl H). Qed.

End InertSetters.

#[export] Hint Resolve inert_timing inert_println inert_monitor inert_validator
  inert_session inert_adc_mon inert_set_sequence inert_set_streaming inert_set_stream_rate
  inert_set_compact_output inert_set_degradation_warned inert_set_reset_warned
  inert_set_eeprom inert_set_current_adc_rate inert_set_current_adc_gain
  inert_set_current_adc_filter inert_set_current_dithering inert_set_num_channels
  inert_set_adc_monitor : inert.
#[export] Hint Extern 1 (keeps_inert _) =>
  (let t := fresh "t" in let Ht := fresh "Ht" in
   intros t Ht; split; first [exact Ht | reflexivity]) : inert.

Ltac inert := repeat (break_if || name_calls); cbn [fst snd]; auto 80 with inert.

Lemma getVirtualMicros_inert (m : Z) (s : Firmware) :
  temp_inert s -> temp_inert (fst (getVirtualMicros m s)).
Proof. intros H. unfold getVirtualMicros. inert. Qed.
#[export] Hint Resolve getVirtualMicros_inert : inert.

Lemma detectClockReset_inert (us ms : Z) (s : Firmware) :
  temp_inert s -> temp_inert (fst (detectClockReset us ms s)).
Proof. intros H. unfold detectClockReset. inert. Qed.
#[export] Hint Resolve detectClockReset_inert : inert.

Lemma handleClockReset_inert (i : ResetReadings) (s : Firmware) :
  temp_inert s -> temp_inert (handleClockReset i s).
Proof. intros H. unfold handleClockReset. inert. Qed.
#[export] Hint Resolve handleClockReset_inert : inert.

Lemma sendSessionHeader_inert (ms : Z) (s : Firmware) :
  temp_inert s -> temp_inert (sendSessionHeader ms s).
Proof. intros H. unfold sendSessionHeader. inert. Qed.
#[export] Hint Resolve sendSessionHeader_inert : inert.

Lemma clampOscillatorCalibration_inert (s : Firmware) :
  temp_inert s -> temp_inert (clampOscillatorCalibration s).
Proof. intros H. unfold clampOscillatorCalibration. inert. Qed.
#[export] Hint Resolve clampOscillatorCalibration_inert : inert.

Lemma saveOscillatorCalibration_inert (s : Firmware) :
  temp_inert s -> temp_inert (saveOscillatorCalibration s).
Proof. intros H. unfold saveOscillatorCalibration. inert. Qed.
#[export] Hint Resolve saveOscillatorCalibration_inert : inert.

(** The placeholder never moves away from the reference: nothing is
    learned. *)
Lemma learn_temperature_off (s : Firmware) :
  temp_inert s -> learn_temperature s = s.
Proof.
  intros [He Hn]. unfold learn_temperature. unfold near_placeholder in Hn.
  rewrite Hn. break_if; reflexivity.
Qed.

Lemma learn_temperature_inert (s : Firmware) :
  temp_inert s -> temp_inert (learn_temperature s).
Proof. intros H. rewrite learn_temperature_off; assumption. Qed.
#[export] Hint Resolve learn_temperature_inert : inert.

Lemma pps_calibrate_inert (m : Z) (s : Firmware) :
  temp_inert s -> temp_inert (pps_calibrate m s).
Proof. intros H. unfold pps_calibrate. inert. Qed.
#[export] Hint Resolve pps_calibrate_inert : inert.

Lemma pps_phase_nudge_inert (m : Z) (s : Firmware) :
  temp_inert s -> temp_inert (pps_phase_nudge m s).
Proof.
  intros H. unfold pps_phase_nudge. inert.
Qed.
#[export] Hint Resolve pps_phase_nudge_inert : inert.

Lemma pps_phase_lock_inert (m : Z) (s : Firmware) :
  temp_inert s -> temp_inert (pps_phase_lock m s).
Proof.
  intros H. unfold pps_phase_lock. inert.
Qed.
#[export] Hint Resolve pps_phase_lock_inert : inert.

Lemma pps_begin_streaming_inert (m : Z) (i : PpsReadings) (b : bool) (s : Firmware) :
  temp_inert s -> temp_inert (pps_begin_streaming m i b s).
Proof. intros H. unfold pps_begin_streaming. inert. Qed.
#[export] Hint Resolve pps_begin_streaming_inert : inert.

Lemma pps_locked_start_inert (m : Z) (i : PpsReadings) (s : Firmware) :
  temp_inert s -> temp_inert (pps_locked_start m i s).
Proof. intros H. unfold pps_locked_start. inert. Qed.
#[export] Hint Resolve pps_locked_start_inert : inert.

Lemma processPPS_accept_inert (m : Z) (i : PpsReadings) (s : Firmware) :
  temp_inert s -> temp_inert (processPPS_accept m i s).
Proof. intros H. unfold processPPS_accept. inert. Qed.
#[export] Hint Resolve processPPS_accept_inert : inert.

Lemma processPPS_inert (i : PpsReadings) (s : Firmware) :
  temp_inert s -> temp_inert (processPPS i s).
Proof. intros H. unfold processPPS. inert. Qed.
#[export] Hint Resolve processPPS_inert : inert.

Lemma classifyTimingSource_inert (ms : Z) (s : Firmware) :
  temp_inert s -> temp_inert (classifyTimingSource ms s).
Proof. intros H. unfold classifyTimingSource. inert. Qed.
#[export] Hint Resolve classifyTimingSource_inert : inert.

Lemma updateTimingSource_inert (i : TickReadings) (s : Firmware) :
  temp_inert s -> temp_inert (updateTimingSource i s).
Proof. intros H. unfold updateTimingSource, updateTimingSource_events. inert. Qed.
#[export] Hint Resolve updateTimingSource_inert : inert.

Lemma sendHealthBeacon_inert (ms : Z) (s : Firmware) :
  temp_inert s -> temp_inert (sendHealthBeacon ms s).
Proof. intros H. unfold sendHealthBeacon. inert. Qed.
#[export] Hint Resolve sendHealthBeacon_inert : inert.

Lemma updateTemperatureCompensation_off (s : Firmware) :
  temp_inert s -> updateTemperatureCompensation s = s.
Proof. intros [He Hn]. unfold updateTemperatureCompensation. rewrite He. reflexivity. Qed.

Lemma updateTemperatureCompensation_inert (s : Firmware) :
  temp_inert s -> temp_inert (updateTemperatureCompensation s).
Proof. intros H. rewrite updateTemperatureCompensation_off; assumption. Qed.
#[export] Hint Resolve updateTemperatureCompensation_inert : inert.

Lemma establishSamplingTiming_inert (m : Z) (s : Firmware) :
  temp_inert s -> temp_inert (establishSamplingTiming m s).
Proof. intros H. unfold establishSamplingTiming. inert. Qed.
#[export] Hint Resolve establishSamplingTiming_inert : inert.

Lemma updateTimingReference_inert (m : Z) (s : Firmware) :
  temp_inert s -> temp_inert (updateTimingReference m s).
Proof. intros H. unfold updateTimingReference. inert. Qed.
#[export] Hint Resolve updateTimingReference_inert : inert.

Lemma isRateChangeAllowed_inert (r : float) (s : Firmware) :
  temp_inert s -> temp_inert (fst (isRateChangeAllowed r s)).
Proof.
  intros H. unfold isRateChangeAllowed.
  destruct (current_source (advanced_timing s)); inert.
Qed.
#[export] Hint Resolve isRateChangeAllowed_inert : inert.

Lemma processLine_inert (i : CommandReadings) (c : Command) (s : Firmware) :
  temp_inert s -> temp_inert (processLine i c s).
Proof.
  intros H. destruct c; unfold processLine, or_already_streaming, while_stopped;
    try match goal with
        | p : option (float * Z) |- _ => destruct p as [[? ?]|]
        end;
    inert.
Qed.
#[export] Hint Resolve processLine_inert : inert.

Lemma process_lines_inert (cs : list (CommandReadings * Command)) (s : Firmware) :
  temp_inert s -> temp_inert (process_lines cs s).
Proof.
  revert s. induction cs as [|c cs IH]; intros s H; [exact H|].
  cbn [process_lines fold_left]. apply IH. auto with inert.
Qed.
#[export] Hint Resolve process_lines_inert : inert.

Lemma loop_sync_wait_inert (m : Z) (s : Firmware) :
  temp_inert s -> temp_inert (loop_sync_wait m s).
Proof. intros H. unfold loop_sync_wait. inert. Qed.
#[export] Hint Resolve loop_sync_wait_inert : inert.

Lemma verifyADCThroughput_inert (s : Firmware) :
  temp_inert s -> temp_inert (fst (verifyADCThroughput s)).
Proof. intros H. unfold temp_inert. rewrite verifyADCThroughput_timing. exact H. Qed.
#[export] Hint Resolve verifyADCThroughput_inert : inert.

Lemma getPreciseTimestamp_inert (m : Z) (s : Firmware) :
  temp_inert s -> temp_inert (fst (getPreciseTimestamp m s)).
Proof. intros H. rewrite getPreciseTimestamp_state. auto with inert. Qed.
#[export] Hint Resolve getPreciseTimestamp_inert : inert.

Lemma acquire_inert (reads : AdcReads) (s : Firmware) :
  temp_inert s -> temp_inert (fst (acquire reads s)).
Proof. intros H. unfold temp_inert. rewrite acquire_timing. exact H. Qed.
#[export] Hint Resolve acquire_inert : inert.

Lemma validateAndCorrectSequence_inert (seq : Z) (s : Firmware) :
  temp_inert s -> temp_inert (fst (fst (validateAndCorrectSequence seq s))).
Proof.
  intros H. unfold temp_inert.
  destruct (validateAndCorrectSequence_frame seq s) as (_ & E & _). cbv zeta in E.
  rewrite E. exact H.
Qed.
#[export] Hint Resolve validateAndCorrectSequence_inert : inert.

Lemma prepareSample_inert (i : SampleReadings) (s : Firmware) :
  temp_inert s -> temp_inert (fst (prepareSample i s)).
Proof.
  intros H. unfold prepareSample.
  destruct (getVirtualMicros (entry_micros i) s) as [s1 v1] eqn:E1. name_pair E1.
  assert (H2 : temp_inert
                 (if sample_index (advanced_timing (fst (getVirtualMicros (entry_micros i) s)))
                     >=? reference_update_interval
                           (advanced_timing (fst (getVirtualMicros (entry_micros i) s)))
                  then updateTimingReference (rebase_micros i)
                         (fst (getVirtualMicros (entry_micros i) s))
                  else fst (getVirtualMicros (entry_micros i) s))) by inert.
  revert H2.
  generalize (if sample_index (advanced_timing (fst (getVirtualMicros (entry_micros i) s)))
                 >=? reference_update_interval
                       (advanced_timing (fst (getVirtualMicros (entry_micros i) s)))
              then updateTimingReference (rebase_micros i)
                     (fst (getVirtualMicros (entry_micros i) s))
              else fst (getVirtualMicros (entry_micros i) s)).
  intros s2 H2.
  destruct (verifyADCThroughput s2) as [s3 ok] eqn:E3. name_pair E3.
  destruct (getPreciseTimestamp _ _) as [s4 ts] eqn:E4. name_pair E4.
  destruct (acquire _ _) as [s5 values] eqn:E5. name_pair E5.
  pose proof (validateAndCorrectSequence_inert
                (sequence (fst (acquire (adc_reads i)
                   (fst (getPreciseTimestamp (stamp_micros i)
                      (fst (verifyADCThroughput s2)))))))
                (fst (acquire (adc_reads i)
                   (fst (getPreciseTimestamp (stamp_micros i)
                      (fst (verifyADCThroughput s2))))))
                ltac:(auto with inert)) as H6.
  destruct (validateAndCorrectSequence _ _) as [[s6 ok6] seq6]. cbn [fst] in H6 |- *.
  auto with inert.
Qed.

Lemma generatePreciseSample_inert (i : SampleReadings) (s : Firmware) :
  temp_inert s -> temp_inert (generatePreciseSample i s).
Proof.
  intros H. unfold generatePreciseSample.
  pose proof (prepareSample_inert i s H) as Hp.
  revert Hp. generalize (prepareSample i s). intros [s1 [[q ts] [[a b] c]]] Hp.
  cbn [fst] in Hp.
  pose proof (output_frame (tx i) q ts (source_code (current_source (advanced_timing s1)))
                (timing_accuracy_us (advanced_timing s1)) a b c s1) as [_ Ho].
  assert (H2 : temp_inert
                 (outputDataWithOverflowProtection (tx i) q ts
                    (source_code (current_source (advanced_timing s1)))
                    (timing_accuracy_us (advanced_timing s1)) a b c s1))
    by (unfold temp_inert; rewrite Ho; exact Hp).
  revert H2. clear Ho.
  generalize (outputDataWithOverflowProtection (tx i) q ts
                (source_code (current_source (advanced_timing s1)))
                (timing_accuracy_us (advanced_timing s1)) a b c s1).
  intros s2 H2. inert.
Qed.
#[export] Hint Resolve generatePreciseSample_inert : inert.

Lemma skip_missed_slots_inert (now : Z) (s : Firmware) :
  temp_inert s -> temp_inert (skip_missed_slots now s).
Proof. intros H. unfold skip_missed_slots. inert. Qed.
#[export] Hint Resolve skip_missed_slots_inert : inert.

Lemma advance_next_sample_inert (s : Firmware) :
  temp_inert s -> temp_inert (advance_next_sample s).
Proof.
  intros H. unfold advance_next_sample.
  destruct (_ && _); [destruct (_ =? 0)|]; inert.
Qed.
#[export] Hint Resolve advance_next_sample_inert : inert.

Lemma loop_streaming_inert (j : StreamReadings) (s : Firmware) :
  temp_inert s -> temp_inert (loop_streaming j s).
Proof. intros H. unfold loop_streaming. inert. Qed.
#[export] Hint Resolve loop_streaming_inert : inert.

Lemma loop_inert (i : LoopReadings) (s : Firmware) :
  temp_inert s -> temp_inert (loop i s).
Proof. intros H. unfold loop. inert. Qed.

(** X25: with the placeholder temperature sensor the temperature
    compensation never switches on.  [readInternalTemperature] returns the
    constant 25.0; from a state with the compensation off and a reference
    temperature within 1 degree of it (as [setup] leaves it), every run of
    main-loop iterations, commands and PPS interrupts keeps the compensation
    off, so that [updateTemperatureCompensation] changes nothing and the
    calibration learns no temperature coefficient. *)
Theorem temperature_compensation_stays_off (events : list Event) (s : Firmware) :
  temp_inert s ->
  temp_inert (run events s) /\
  updateTemperatureCompensation (run events s) = run events s /\
  learn_temperature (run events s) = run events s.
Proof.
  intros H.
  assert (Hrun : temp_inert (run events s)).
  { revert s H. induction events as [|e events IH]; intros s H; [exact H|].
    cbn [run fold_left]. apply IH. destruct e as [i|us ms]; cbn [step].
    - apply loop_inert. exact H.
    - unfold pps_interrupt. auto with inert. }
  split; [exact Hrun|].
  split; [apply updateTemperatureCompensation_off | apply learn_temperature_off]; exact Hrun.
Qed.

Lemma temperature_compensation_stays_off_witness :
  let later :=
    run [Iteration (loop_at 3000500 3000 [GET_STATUS]); PpsEdge 4001000 4000;
         Iteration (loop_at 5001000 5000 [])] tenth_edge_pending in
  temp_inert later /\
  updateTemperatureCompensation later = later /\
  learn_temperature later = later.
Proof.
  apply (temperature_compensation_stays_off
           [Iteration (loop_at 3000500 3000 [GET_STATUS]); PpsEdge 4001000 4000;
            Iteration (loop_at 5001000 5000 [])] tenth_edge_pending).
  split; vm_compute; reflexivity.
Defined.

(** ** Cancelling a pending start *)

Lemma pps_begin_streaming_starts (m : Z) (i : PpsReadings) (b : bool) (s : Firmware) :
  let s' := pps_begin_streaming m i b s in
  streaming s' = true /\
  timing_established (advanced_timing s') = true /\
  waiting_for_sync_start (advanced_timing s') = false /\
  timing_base_micros (advanced_timing s') = m /\
  sequence s' = 0.
Proof.
  cbv zeta. unfold pps_begin_streaming, sendSessionHeader.
  destruct b; repeat break_if; repeat split; reflexivity.
Qed.

(** The edge that brings the countdown of an armed start to zero. *)
Lemma processPPS_last_edge (i : PpsReadings) (s : Firmware) :
  sync_on_pps (advanced_timing s) = true ->
  pps_countdown (advanced_timing s) = 1 ->
  let s' := processPPS i s in
  streaming s' = true /\
  timing_established (advanced_timing s') = true /\
  waiting_for_sync_start (advanced_timing s') = false /\
  timing_base_micros (advanced_timing s') = pps_micros (advanced_timing s) /\
  sequence s' = 0.
Proof.
  intros Hy Hc. cbv zeta. unfold processPPS.
  cbn [advanced_timing timing set_advanced_timing sync_on_pps pps_countdown set_pps_count].
  rewrite Hy, Hc. cbn [andb Z.gtb Z.compare Int.u8 Int.wrap Z.sub Z.eqb].
  change (Int.u8 (1 - 1) =? 0) with true. cbv iota.
  generalize (timing (set_pps_countdown (Int.u8 (1 - 1)))
                (timing (set_pps_count (Int.u32 (pps_count (advanced_timing s) + 1))) s)).
  intros s1.
  pose proof (pps_begin_streaming_starts (pps_micros (advanced_timing s)) i true s1) as H.
  cbv zeta in H. revert H.
  generalize (pps_begin_streaming (pps_micros (advanced_timing s)) i true s1).
  intros s2 (H1 & H2 & H3 & H4 & H5).
  repeat split; cbn; assumption.
Qed.

(** X26: [RESET] does not cancel a pending PPS-locked start, [STOP_STREAM]
    does.  With a start armed and one PPS edge to go, [STOP_STREAM] leaves
    the device idle and the next edge starts nothing; [RESET] stops the
    stream flag only: the start stays armed, and the next edge starts the
    stream at that edge. *)
Theorem reset_leaves_start_armed (c : CommandReadings) (i : PpsReadings) (s : Firmware) :
  sync_on_pps (advanced_timing s) = true ->
  pps_countdown (advanced_timing s) = 1 ->
  let stopped := processLine c STOP_STREAM s in
  let reset := processLine c RESET s in
  (idle stopped /\ idle (processPPS i stopped)) /\
  (streaming reset = false /\ sync_on_pps (advanced_timing reset) = true /\
   streaming (processPPS i reset) = true /\
   timing_established (advanced_timing (processPPS i reset)) = true /\
   timing_base_micros (advanced_timing (processPPS i reset)) = pps_micros (advanced_timing s)).
Proof.
  intros Hy Hc. cbv zeta. split.
  - assert (H : idle (processLine c STOP_STREAM s)) by (repeat split; reflexivity).
    split; [exact H | apply processPPS_idle; exact H].
  - split; [reflexivity|]. split; [exact Hy|].
    assert (Hy1 : sync_on_pps (advanced_timing (processLine c RESET s)) = true) by exact Hy.
    assert (Hc1 : pps_countdown (advanced_timing (processLine c RESET s)) = 1) by exact Hc.
    assert (Hm : pps_micros (advanced_timing (processLine c RESET s)) =
                 pps_micros (advanced_timing s)) by reflexivity.
    revert Hy1 Hc1 Hm. generalize (processLine c RESET s). intros s1 Hy1 Hc1 Hm.
    pose proof (processPPS_last_edge i s1 Hy1 Hc1) as H. cbv zeta in H.
    rewrite Hm in H. destruct H as (H1 & H2 & _ & H4 & _). repeat split; assumption.
Qed.

Lemma reset_leaves_start_armed_witness :
  let c := mkCommandReadings 600000 600 600 64 in
  let i := mkPpsReadings 1000 1000 in
  let s := pps_interrupt 1000000 1000 (armed 1) in
  (idle (processLine c STOP_STREAM s) /\ idle (processPPS i (processLine c STOP_STREAM s))) /\
  (streaming (processLine c RESET s) = false /\
   sync_on_pps (advanced_timing (processLine c RESET s)) = true /\
   streaming (processPPS i (processLine c RESET s)) = true /\
   timing_established (advanced_timing (processPPS i (processLine c RESET s))) = true /\
   timing_base_micros (advanced_timing (processPPS i (processLine c RESET s))) =
     pps_micros (advanced_timing s)).
Proof.
  apply (reset_leaves_start_armed (mkCommandReadings 600000 600 600 64)
           (mkPpsReadings 1000 1000) (pps_interrupt 1000000 1000 (armed 1)));
    vm_compute; reflexivity.
Defined.

(** ** Command reception *)

Lemma receive_app (chars1 chars2 : list Ascii.ascii) :
  forall cmdBuffer,
    receive (chars1 ++ chars2) cmdBuffer =
      (fst (receive chars1 cmdBuffer) ++
         fst (receive chars2 (snd (receive chars1 cmdBuffer))),
       snd (receive chars2 (snd (receive chars1 cmdBuffer)))).
Proof.
  induction chars1 as [|c chars1 IH]; intros cmdBuffer.
  - cbn [app receive fst snd]. destruct (receive chars2 cmdBuffer); reflexivity.
  - cbn [app receive]. destruct (Ascii.eqb c LF).
    + rewrite IH. destruct (receive chars1 EmptyString) as [lines1 left1].
      cbn [fst snd]. reflexivity.
    + destruct (negb (Ascii.eqb c CR)); apply IH.
Qed.

Lemma receive_filter (chars : list Ascii.ascii) :
  forall cmdBuffer, receive (filter keep_char chars) cmdBuffer = receive chars cmdBuffer.
Proof.
  induction chars as [|c chars IH]; intros cmdBuffer; [reflexivity|].
  cbn [filter]. unfold keep_char at 1.
  destruct (Ascii.eqb c CR) eqn:E.
  - cbn [negb]. apply Ascii.eqb_eq in E. subst c. cbn [receive].
    change (Ascii.eqb CR LF) with false. cbv iota.
    change (negb (Ascii.eqb CR CR)) with false. cbv iota. apply IH.
  - cbn [negb receive]. rewrite E. cbn [negb].
    destruct (Ascii.eqb c LF); rewrite IH; reflexivity.
Qed.

(** X27: lines are assembled across iterations of [loop()], and carriage
    returns do not count.  Feeding the receive loop two chunks of
    characters one after the other, with [cmdBuffer] carried over, hands
    [processLine] the same lines and leaves the same buffer as feeding it
    the whole at once; and removing every carriage return from the input
    changes neither. *)
Theorem reception_is_chunking_invariant (chars1 chars2 : list Ascii.ascii) (cmdBuffer : string) :
  let first := receive chars1 cmdBuffer in
  let second := receive chars2 (snd first) in
  receive (chars1 ++ chars2) cmdBuffer = (fst first ++ fst second, snd second) /\
  receive (filter keep_char (chars1 ++ chars2)) cmdBuffer =
    receive (chars1 ++ chars2) cmdBuffer.
Proof. cbv zeta. split; [apply receive_app | apply receive_filter]. Qed.

Lemma append_assoc (a b c : string) : ((a ++ b) ++ c)%string = (a ++ (b ++ c))%string.
Proof. induction a as [|x a IH]; cbn; [reflexivity | rewrite IH; reflexivity]. Qed.

Lemma append_empty_r (a : string) : (a ++ EmptyString)%string = a.
Proof. induction a as [|x a IH]; cbn; [reflexivity | rewrite IH; reflexivity]. Qed.

Lemma length_append (a b : string) :
  String.length (a ++ b)%string = (String.length a + String.length b)%nat.
Proof. induction a as [|x a IH]; cbn; [reflexivity | rewrite IH; reflexivity]. Qed.

(** X28: text without a newline is only buffered.  As long as no line
    feed arrives, the receive loop hands nothing to [processLine] and
    appends every character but the carriage returns to [cmdBuffer], which
    has no length limit. *)
Theorem unterminated_text_is_buffered (chars : list Ascii.ascii) (cmdBuffer : string) :
  forallb (fun c => negb (Ascii.eqb c LF)) chars = true ->
  receive chars cmdBuffer =
    ([], (cmdBuffer ++ string_of_chars (filter keep_char chars))%string) /\
  String.length (snd (receive chars cmdBuffer)) =
    (String.length cmdBuffer + List.length (filter keep_char chars))%nat.
Proof.
  intros H.
  assert (G : receive chars cmdBuffer =
              ([], (cmdBuffer ++ string_of_chars (filter keep_char chars))%string)).
  { revert cmdBuffer. induction chars as [|c chars IH]; intros cmdBuffer.
    - cbn. rewrite append_empty_r. reflexivity.
    - cbn [forallb] in H. apply andb_true_iff in H. destruct H as [H1 H2].
      apply negb_true_iff in H1. cbn [receive filter]. rewrite H1. unfold keep_char at 1.
      destruct (negb (Ascii.eqb c CR)).
      + rewrite (IH H2). unfold string_of_chars. cbn [string_of_list_ascii].
        rewrite append_assoc. reflexivity.
      + apply IH. exact H2. }
  split; [exact G|]. rewrite G. cbn [snd]. rewrite length_append. f_equal.
  unfold string_of_chars. generalize (filter keep_char chars). intros l.
  induction l as [|x l IHl]; cbn; [reflexivity | rewrite IHl; reflexivity].
Qed.

Lemma unterminated_text_is_buffered_witness :
  receive (list_ascii_of_string "STREAM:100") "START_" = ([], "START_STREAM:100"%string) /\
  String.length (snd (receive (list_ascii_of_string "STREAM:100") "START_")) = 16%nat.
Proof.
  apply (unterminated_text_is_buffered (list_ascii_of_string "STREAM:100") "START_").
  reflexivity.
Defined.

(** *** The text side of [processLine] *)

Lemma has_char_cons (ch c : Ascii.ascii) (s : string) :
  has_char ch (String c s) = Ascii.eqb ch c || has_char ch s.
Proof. reflexivity. Qed.

Lemma indexOf_range (ch : Ascii.ascii) (s : string) : -1 <= WString.indexOf ch s.
Proof.
  induction s as [|c s IH]; cbn [WString.indexOf]; [lia|].
  destruct (Ascii.eqb c ch); [lia|]. destruct (WString.indexOf ch s <? 0) eqn:E; [lia|].
  apply Z.ltb_ge in E. lia.
Qed.

Lemma indexOf_absent (ch : Ascii.ascii) (s : string) :
  has_char ch s = false -> WString.indexOf ch s = -1.
Proof.
  induction s as [|c s IH]; intros H; [reflexivity|].
  rewrite has_char_cons in H. apply orb_false_iff in H. destruct H as [H1 H2].
  cbn [WString.indexOf]. rewrite Ascii.eqb_sym, H1, (IH H2). reflexivity.
Qed.

Lemma trim_left_chars (ch : Ascii.ascii) (s : string) :
  has_char ch s = false -> has_char ch (WString.trim_left s) = false.
Proof.
  induction s as [|c s IH]; intros H; [reflexivity|].
  cbn [WString.trim_left]. destruct (WString.isspace c); [|exact H].
  rewrite has_char_cons in H. apply orb_false_iff in H. apply IH. apply H.
Qed.

Lemma trim_right_chars (ch : Ascii.ascii) (s : string) :
  has_char ch s = false -> has_char ch (WString.trim_right s) = false.
Proof.
  induction s as [|c s IH]; intros H; [reflexivity|].
  rewrite has_char_cons in H. apply orb_false_iff in H. destruct H as [H1 H2].
  specialize (IH H2). cbn [WString.trim_right].
  destruct (WString.trim_right s) as [|c' kept].
  - destruct (WString.isspace c); [reflexivity|].
    rewrite has_char_cons, H1. reflexivity.
  - rewrite has_char_cons, H1, IH. reflexivity.
Qed.

(** X29: a command needs its colon.  A line that carries no colon is no
    command, whatever its text (also the name of a command that takes no
    parameter, as [STOP_STREAM]): [processLine] answers
    [ERROR:Invalid command format] and changes nothing else. *)
Theorem command_needs_colon (toInt : string -> Z) (toFloat : string -> float)
    (i : CommandReadings) (line : string) (s : Firmware) :
  has_char colon line = false ->
  parseLine toInt toFloat line = InvalidFormat /\
  processText toInt toFloat i line s =
    println (Msg [Str "ERROR:Invalid command format"]) s.
Proof.
  intros H.
  assert (G : parseLine toInt toFloat line = InvalidFormat).
  { unfold parseLine. cbv zeta. unfold WString.trim.
    rewrite (indexOf_absent _ _ (trim_right_chars _ _ (trim_left_chars _ _ H))).
    reflexivity. }
  split; [exact G|]. unfold processText. rewrite G. reflexivity.
Qed.

Lemma command_needs_colon_witness :
  parseLine (fun _ => 0) (fun _ => F32.of_Z 0) "STOP_STREAM" = InvalidFormat /\
  processText (fun _ => 0) (fun _ => F32.of_Z 0) (mkCommandReadings 0 0 0 64)
    "STOP_STREAM" streaming_at_100Hz =
    println (Msg [Str "ERROR:Invalid command format"]) streaming_at_100Hz.
Proof.
  apply (command_needs_colon (fun _ => 0) (fun _ => F32.of_Z 0)
           (mkCommandReadings 0 0 0 64) "STOP_STREAM" streaming_at_100Hz).
  reflexivity.
Defined.

Lemma trim_left_pad (pad s : string) :
  all_space pad = true -> WString.trim_left (pad ++ s)%string = WString.trim_left s.
Proof.
  induction pad as [|c pad IH]; intros H; [reflexivity|].
  cbn in H. apply andb_true_iff in H. destruct H as [H1 H2].
  cbn [append WString.trim_left]. rewrite H1. apply IH. exact H2.
Qed.

Lemma trim_left_head (name rest : string) :
  name <> EmptyString -> WString.trim_left name = name ->
  WString.trim_left (name ++ rest)%string = (name ++ rest)%string.
Proof.
  intros Hn Ht. destruct name as [|c name]; [congruence|].
  cbn [append WString.trim_left] in *. destruct (WString.isspace c) eqn:E; [|reflexivity].
  exfalso.
  assert (L : forall s, (String.length (WString.trim_left s) <= String.length s)%nat).
  { induction s as [|x s IHs]; cbn [WString.trim_left]; [lia|].
    destruct (WString.isspace x); cbn [String.length] in *; lia. }
  pose proof (L name) as L1. rewrite Ht in L1. cbn [String.length] in L1. lia.
Qed.

Lemma trim_right_pad (s pad : string) :
  all_space pad = true -> WString.trim_right (s ++ pad)%string = WString.trim_right s.
Proof.
  intros H.
  assert (P : WString.trim_right pad = EmptyString).
  { induction pad as [|c pad IH]; [reflexivity|].
    cbn in H. apply andb_true_iff in H. destruct H as [H1 H2].
    cbn [WString.trim_right]. rewrite (IH H2), H1. reflexivity. }
  induction s as [|c s IH]; [exact P|].
  cbn [append WString.trim_right]. rewrite IH. reflexivity.
Qed.

Lemma trim_right_tail (head tail : string) :
  WString.trim_right tail = tail -> tail <> EmptyString ->
  WString.trim_right (head ++ tail)%string = (head ++ tail)%string.
Proof.
  intros Ht Hn. induction head as [|c head IH]; [exact Ht|].
  cbn [append WString.trim_right]. rewrite IH.
  destruct (head ++ tail)%string eqn:E; [|reflexivity].
  destruct head; cbn in E; congruence.
Qed.

Lemma trim_right_colon (params : string) :
  WString.trim_right params = params ->
  WString.trim_right (String colon params) = String colon params.
Proof.
  intros H. cbn [WString.trim_right]. rewrite H. destruct params; reflexivity.
Qed.

Lemma indexOf_first (ch : Ascii.ascii) (name rest : string) :
  has_char ch name = false ->
  WString.indexOf ch (name ++ String ch rest)%string = Z.of_nat (String.length name).
Proof.
  induction name as [|c name IH]; intros H.
  - cbn [append WString.indexOf]. rewrite Ascii.eqb_refl. reflexivity.
  - rewrite has_char_cons in H. apply orb_false_iff in H. destruct H as [H1 H2].
    cbn [append WString.indexOf String.length]. rewrite Ascii.eqb_sym, H1, (IH H2).
    destruct (Z.of_nat (String.length name) <? 0) eqn:E; [apply Z.ltb_lt in E; lia|].
    lia.
Qed.

Lemma take_append (name rest : string) :
  WString.take (String.length name) (name ++ rest)%string = name.
Proof. induction name as [|c name IH]; cbn; [destruct rest|rewrite IH]; reflexivity. Qed.

Lemma drop_append (name rest : string) :
  WString.drop (String.length name) (name ++ rest)%string = rest.
Proof. induction name as [|c name IH]; cbn; [reflexivity | exact IH]. Qed.

(** X30: a line is split at its first colon.  For a line made of white
    space, a name, a colon, parameters and white space, where the name is
    not empty, holds no colon and does not begin with white space, and the
    parameters do not end with white space, [processLine] dispatches on
    exactly that name with exactly those parameters: surrounding white space
    is dropped, and further colons belong to the parameters. *)
Theorem line_is_split_at_first_colon (toInt : string -> Z) (toFloat : string -> float)
    (before name params after : string) :
  all_space before = true -> all_space after = true ->
  name <> EmptyString -> WString.trim_left name = name ->
  has_char colon name = false ->
  WString.trim_right params = params ->
  parseLine toInt toFloat (before ++ name ++ String colon params ++ after)%string =
    dispatch toInt toFloat name params.
Proof.
  intros Hb Ha Hn Hl Hc Hr. unfold parseLine. cbv zeta. unfold WString.trim.
  rewrite (trim_left_pad _ _ Hb), (trim_left_head _ _ Hn Hl).
  replace (name ++ String colon params ++ after)%string
    with ((name ++ String colon params) ++ after)%string
    by (rewrite append_assoc; reflexivity).
  rewrite (trim_right_pad _ _ Ha).
  rewrite (trim_right_tail name _ (trim_right_colon _ Hr)) by discriminate.
  rewrite (indexOf_first _ _ _ Hc).
  assert (Hpos : 0 < Z.of_nat (String.length name)).
  { destruct name; [congruence | cbn [String.length]; lia]. }
  replace (Z.of_nat (String.length name) >? 0) with true
    by (symmetry; apply Z.gtb_lt; lia).
  unfold WString.substring, WString.substring_from.
  replace (0 >? Z.of_nat (String.length name)) with false
    by (symmetry; rewrite Z.gtb_ltb; apply Z.ltb_ge; lia).
  rewrite Z.sub_0_r, Nat2Z.id. cbn [Z.to_nat WString.drop].
  rewrite take_append.
  replace (Z.to_nat (Z.of_nat (String.length name) + 1))
    with (String.length (name ++ String colon EmptyString)%string)
    by (rewrite length_append; cbn [String.length]; lia).
  replace (name ++ String colon params)%string
    with ((name ++ String colon EmptyString) ++ params)%string
    by (rewrite append_assoc; reflexivity).
  rewrite drop_append. reflexivity.
Qed.

Lemma line_is_split_at_first_colon_witness :
  parseLine (fun _ => 0) (fun _ => F32.of_Z 0)
    (" " ++ "SET_OUTPUT_FORMAT" ++ String colon "A:B" ++ String CR EmptyString)%string =
  SET_OUTPUT_FORMAT "A:B"%string.
Proof.
  apply (line_is_split_at_first_colon (fun _ => 0) (fun _ => F32.of_Z 0)
           " "%string "SET_OUTPUT_FORMAT"%string "A:B"%string (String CR EmptyString));
    try reflexivity.
  discriminate.
Defined.

(** ** Sequence number and sample index over runs *)

Create HintDb counters.

Lemma unchanged_refl (s : Firmware) : unchanged s s.
Proof. reflexivity. Qed.

#[export] Hint Resolve unchanged_refl : counters.

Lemma unchanged_timing (g : AdvancedTiming -> AdvancedTiming) (s0 s : Firmware) :
  keeps_counters g -> unchanged s0 s -> unchanged s0 (timing g s).
Proof.
  unfold unchanged, counters. intros Hg H.
  destruct (Hg (advanced_timing s)) as (H1 & H2 & H3).
  cbn [advanced_timing timing set_advanced_timing sequence streaming].
  rewrite H1, H2, H3. exact H.
Qed.

Lemma unchanged_same (s0 s s' : Firmware) :
  sequence s' = sequence s -> streaming s' = streaming s ->
  advanced_timing s' = advanced_timing s ->
  unchanged s0 s -> unchanged s0 s'.
Proof. unfold unchanged, counters. intros E1 E2 E3 H. rewrite E1, E2, E3. exact H. Qed.

Section CounterSetters.

Variables s0 s : Firmware.
Hypothesis H : unchanged s0 s.

Lemma unchanged_println l : unchanged s0 (println l s).
Proof. exact (unchanged_same s0 s _ eq_refl eq_refl eq_refl H). Qed.

Lemma unchanged_monitor f : unchanged s0 (monitor f s).
Proof. exact (unchanged_same s0 s _ eq_refl eq_refl eq_refl H). Qed.

Lemma unchanged_validator f : unchanged s0 (validator f s).
Proof. exact (unchanged_same s0 s _ eq_refl eq_refl eq_refl H). Qed.

Lemma unchanged_session f : unchanged s0 (session f s).
Proof. exact (unchanged_same s0 s _ eq_refl eq_refl eq_refl H). Qed.

Lemma unchanged_adc_mon f : unchanged s0 (adc_mon f s).
Proof. exact (unchanged_same s0 s _ eq_refl eq_refl eq_refl H). Qed.

Lemma unchanged_set_stream_rate v : unchanged s0 (set_stream_rate v s).
Proof. exact (unchanged_same s0 s _ eq_refl eq_refl eq_refl H). Qed.

Lemma unchanged_set_compact_output v : unchanged s0 (set_compact_output v s).
Proof. exact (unchanged_same s0 s _ eq_refl eq_refl eq_refl H). Qed.

Lemma unchanged_set_degradation_warned v : unchanged s0 (set_degradation_warned v s).
Proof. exact (unchanged_same s0 s _ eq_refl eq_refl eq_refl H). Qed.

Lemma unchanged_set_reset_warned v : unchanged s0 (set_reset_warned v s).
Proof. exact (unchanged_same s0 s _ eq_refl eq_refl eq_refl H). Qed.

Lemma unchanged_set_eeprom v : unchanged s0 (set_eeprom v s).
Proof. exact (unchanged_same s0 s _ eq_refl eq_refl eq_refl H). Qed.

Lemma unchanged_set_current_adc_rate v : unchanged s0 (set_current_adc_rate v s).
Proof. exact (unchanged_same s0 s _ eq_refl eq_refl eq_refl H). Qed.

Lemma unchanged_set_current_adc_gain v : unchanged s0 (set_current_adc_gain v s).
Proof. exact (unchanged_same s0 s _ eq_refl eq_refl eq_refl H). Qed.

Lemma unchanged_set_current_adc_filter v : unchanged s0 (set_current_adc_filter v s).
Proof. exact (unchanged_same s0 s _ eq_refl eq_refl eq_refl H). Qed.

Lemma unchanged_set_current_dithering v : unchanged s0 (set_current_dithering v s).
Proof. exact (unchanged_same s0 s _ eq_refl eq_refl eq_refl H). Qed.

Lemma unchanged_set_num_channels v : unchanged s0 (set_num_channels v s).
Proof. exact (unchanged_same s0 s _ eq_refl eq_refl eq_refl H). Qed.

End CounterSetters.

#[export] Hint Resolve unchanged_timing unchanged_println unchanged_monitor
  unchanged_validator unchanged_session unchanged_adc_mon unchanged_set_stream_rate
  unchanged_set_compact_output unchanged_set_degradation_warned unchanged_set_reset_warned
  unchanged_set_eeprom unchanged_set_current_adc_rate unchanged_set_current_adc_gain
  unchanged_set_current_adc_filter unchanged_set_current_dithering
  unchanged_set_num_channels : counters.
#[export] Hint Extern 1 (keeps_counters _) =>
  (let t := fresh "t" in intros t; repeat split; reflexivity) : counters.

Ltac counters_tac := repeat (break_if || name_calls); cbn [fst snd]; auto 80 with counters.

Lemma getVirtualMicros_unchanged (m : Z) (s0 s : Firmware) :
  unchanged s0 s -> unchanged s0 (fst (getVirtualMicros m s)).
Proof. intros H. unfold getVirtualMicros. counters_tac. Qed.
#[export] Hint Resolve getVirtualMicros_unchanged : counters.

Lemma detectClockReset_unchanged (us ms : Z) (s0 s : Firmware) :
  unchanged s0 s -> unchanged s0 (fst (detectClockReset us ms s)).
Proof. intros H. unfold detectClockReset. counters_tac. Qed.
#[export] Hint Resolve detectClockReset_unchanged : counters.

Lemma sendSessionHeader_unchanged (ms : Z) (s0 s : Firmware) :
  unchanged s0 s -> unchanged s0 (sendSessionHeader ms s).
Proof. intros H. unfold sendSessionHeader. counters_tac. Qed.
#[export] Hint Resolve sendSessionHeader_unchanged : counters.

Lemma clampOscillatorCalibration_unchanged (s0 s : Firmware) :
  unchanged s0 s -> unchanged s0 (clampOscillatorCalibration s).
Proof. intros H. unfold clampOscillatorCalibration. counters_tac. Qed.
#[export] Hint Resolve clampOscillatorCalibration_unchanged : counters.

Lemma saveOscillatorCalibration_unchanged (s0 s : Firmware) :
  unchanged s0 s -> unchanged s0 (saveOscillatorCalibration s).
Proof. intros H. unfold saveOscillatorCalibration. counters_tac. Qed.
#[export] Hint Resolve saveOscillatorCalibration_unchanged : counters.

Lemma learn_temperature_unchanged (s0 s : Firmware) :
  unchanged s0 s -> unchanged s0 (learn_temperature s).
Proof. intros H. unfold learn_temperature. counters_tac. Qed.
#[export] Hint Resolve learn_temperature_unchanged : counters.

Lemma pps_calibrate_unchanged (m : Z) (s0 s : Firmware) :
  unchanged s0 s -> unchanged s0 (pps_calibrate m s).
Proof. intros H. unfold pps_calibrate. counters_tac. Qed.
#[export] Hint Resolve pps_calibrate_unchanged : counters.

Lemma pps_phase_nudge_unchanged (m : Z) (s0 s : Firmware) :
  unchanged s0 s -> unchanged s0 (pps_phase_nudge m s).
Proof. intros H. unfold pps_phase_nudge. counters_tac. Qed.
#[export] Hint Resolve pps_phase_nudge_unchanged : counters.

Lemma pps_phase_lock_unchanged (m : Z) (s0 s : Firmware) :
  unchanged s0 s -> unchanged s0 (pps_phase_lock m s).
Proof. intros H. unfold pps_phase_lock. counters_tac. Qed.
#[export] Hint Resolve pps_phase_lock_unchanged : counters.

Lemma unchanged_sync (s0 s : Firmware) :
  unchanged s0 s -> sync_on_pps (advanced_timing s) = sync_on_pps (advanced_timing s0).
Proof. unfold unchanged, counters. intros H. congruence. Qed.

(** With no start armed the start blocks of [processPPS] do nothing. *)
Lemma pps_locked_start_unchanged (m : Z) (i : PpsReadings) (s0 s : Firmware) :
  sync_on_pps (advanced_timing s0) = false ->
  unchanged s0 s -> unchanged s0 (pps_locked_start m i s).
Proof.
  intros Hy H. unfold pps_locked_start. rewrite (unchanged_sync s0 s H), Hy. exact H.
Qed.
#[export] Hint Resolve pps_locked_start_unchanged : counters.

Lemma processPPS_accept_unchanged (m : Z) (i : PpsReadings) (s0 s : Firmware) :
  sync_on_pps (advanced_timing s0) = false ->
  unchanged s0 s -> unchanged s0 (processPPS_accept m i s).
Proof. intros Hy H. unfold processPPS_accept. counters_tac. Qed.
#[export] Hint Resolve processPPS_accept_unchanged : counters.

Lemma processPPS_unchanged (i : PpsReadings) (s0 s : Firmware) :
  sync_on_pps (advanced_timing s0) = false ->
  unchanged s0 s -> unchanged s0 (processPPS i s).
Proof.
  intros Hy H. unfold processPPS.
  cbn [advanced_timing timing set_advanced_timing sync_on_pps set_pps_count].
  rewrite (unchanged_sync s0 s H), Hy. cbn [andb]. auto with counters.
Qed.
#[export] Hint Resolve processPPS_unchanged : counters.

Lemma classifyTimingSource_unchanged (ms : Z) (s0 s : Firmware) :
  unchanged s0 s -> unchanged s0 (classifyTimingSource ms s).
Proof. intros H. unfold classifyTimingSource. counters_tac. Qed.
#[export] Hint Resolve classifyTimingSource_unchanged : counters.

(** Without a clock reset and with no start armed, [updateTimingSource]
    leaves the counters alone. *)
Lemma updateTimingSource_unchanged (i : TickReadings) (s0 s : Firmware) :
  sync_on_pps (advanced_timing s0) = false ->
  snd (detectClockReset (detect_micros i) (detect_millis i) s) = false ->
  unchanged s0 s -> unchanged s0 (updateTimingSource i s).
Proof.
  intros Hy Hr H. unfold updateTimingSource, updateTimingSource_events.
  pose proof (detectClockReset_unchanged (detect_micros i) (detect_millis i) s0 s H) as H1.
  destruct (detectClockReset (detect_micros i) (detect_millis i) s) as [s1 r].
  cbn [fst snd] in Hr, H1. subst r. apply classifyTimingSource_unchanged.
  destruct (pps_received (advanced_timing s1)); auto with counters.
Qed.

Lemma sendHealthBeacon_unchanged (ms : Z) (s0 s : Firmware) :
  unchanged s0 s -> unchanged s0 (sendHealthBeacon ms s).
Proof. intros H. unfold sendHealthBeacon. counters_tac. Qed.
#[export] Hint Resolve sendHealthBeacon_unchanged : counters.

Lemma updateTemperatureCompensation_unchanged (s0 s : Firmware) :
  unchanged s0 s -> unchanged s0 (updateTemperatureCompensation s).
Proof.
  intros H. unfold updateTemperatureCompensation.
  destruct (current_source (advanced_timing s)); counters_tac.
Qed.
#[export] Hint Resolve updateTemperatureCompensation_unchanged : counters.

Lemma isRateChangeAllowed_unchanged (r : float) (s0 s : Firmware) :
  unchanged s0 s -> unchanged s0 (fst (isRateChangeAllowed r s)).
Proof.
  intros H. unfold isRateChangeAllowed.
  destruct (current_source (advanced_timing s)); counters_tac.
Qed.
#[export] Hint Resolve isRateChangeAllowed_unchanged : counters.

Lemma skip_missed_slots_unchanged (now : Z) (s0 s : Firmware) :
  unchanged s0 s -> unchanged s0 (skip_missed_slots now s).
Proof. intros H. unfold skip_missed_slots. counters_tac. Qed.
#[export] Hint Resolve skip_missed_slots_unchanged : counters.

Lemma advance_next_sample_unchanged (s0 s : Firmware) :
  unchanged s0 s -> unchanged s0 (advance_next_sample s).
Proof.
  intros H. unfold advance_next_sample.
  destruct (_ && _); [destruct (_ =? 0)|]; counters_tac.
Qed.
#[export] Hint Resolve advance_next_sample_unchanged : counters.

(** A neutral command leaves the counters alone. *)
Lemma processLine_unchanged (i : CommandReadings) (c : Command) (s0 s : Firmware) :
  is_neutral c = true -> unchanged s0 s -> unchanged s0 (processLine i c s).
Proof.
  intros Hc H. destruct c; try discriminate Hc;
    unfold processLine, or_already_streaming, while_stopped; counters_tac.
Qed.

(** The agreement depends on the counters only. *)
Lemma counters_agree_unchanged (s0 s : Firmware) :
  unchanged s0 s -> counters_agree s0 -> counters_agree s.
Proof.
  unfold unchanged, counters, counters_agree, seq_tracks_index.
  intros H (Hy & Hw & Hs). injection H as E1 E2 E3 E4 E5.
  rewrite E1, E2, E3, E4, E5. repeat split; assumption.
Qed.

Lemma establishSamplingTiming_counters (m : Z) (s : Firmware) :
  let s' := establishSamplingTiming m s in
  sample_index (advanced_timing s') = 0 /\
  sync_on_pps (advanced_timing s') = sync_on_pps (advanced_timing s) /\
  waiting_for_sync_start (advanced_timing s') = waiting_for_sync_start (advanced_timing s).
Proof.
  cbv zeta. unfold establishSamplingTiming.
  pose proof (getVirtualMicros_blind sync_on_pps m s ltac:(blind)) as Hy.
  pose proof (getVirtualMicros_blind waiting_for_sync_start m s ltac:(blind)) as Hw.
  destruct (getVirtualMicros m s) as [s1 v]. cbn [fst] in *.
  repeat split; assumption.
Qed.

(** The start sequence of [START_STREAM] brings both counters to 0. *)
Lemma start_block_counters (i : CommandReadings) (l : Firmware -> Line) (s : Firmware) :
  let s1 :=
    sendSessionHeader (cmd_session_millis i)
      (set_streaming true (establishSamplingTiming (cmd_micros i) (set_sequence 0 s))) in
  let s2 := println (l s1) s1 in
  sync_on_pps (advanced_timing s) = false ->
  counters_agree s2.
Proof.
  cbv zeta. intros Hy.
  pose proof (sendSessionHeader_frame (cmd_session_millis i)
                (set_streaming true
                   (establishSamplingTiming (cmd_micros i) (set_sequence 0 s)))) as H2.
  pose proof (establishSamplingTiming_frame (cmd_micros i) (set_sequence 0 s)) as H1.
  pose proof (establishSamplingTiming_counters (cmd_micros i) (set_sequence 0 s)) as H3.
  cbv zeta in H1, H2, H3. revert H1 H2 H3.
  generalize (establishSamplingTiming (cmd_micros i) (set_sequence 0 s)). intros s1.
  generalize (sendSessionHeader (cmd_session_millis i) (set_streaming true s1)).
  intros s2 (_ & _ & _ & _ & Hq & _) (Ht & _ & _ & Hq2 & _) (Hi & Hy1 & Hw1).
  unfold counters_agree, seq_tracks_index.
  cbn [streaming advanced_timing sequence println set_serial1].
  rewrite Ht, Hq2. cbn [streaming advanced_timing sequence set_streaming].
  rewrite Hq, Hi, Hy1. cbn [sequence set_sequence advanced_timing].
  repeat split; auto.
Qed.

(** Every command but [START_STREAM_PPS] keeps the agreement. *)
Lemma processLine_counters_agree (i : CommandReadings) (c : Command) (s : Firmware) :
  is_pps_start c = false -> counters_agree s -> counters_agree (processLine i c s).
Proof.
  intros Hc H.
  destruct (is_neutral c) eqn:En.
  - apply (counters_agree_unchanged s); [|exact H].
    apply processLine_unchanged; [exact En | apply unchanged_refl].
  - destruct c; try discriminate En; try discriminate Hc.
    + (* START_STREAM_SYNC *)
      unfold processLine, or_already_streaming.
      destruct (negb (streaming s));
        [|apply (counters_agree_unchanged s); [auto using unchanged_refl with counters | exact H]].
      destruct params as [[rate delay_ms]|];
        [|apply (counters_agree_unchanged s); [auto using unchanged_refl with counters | exact H]].
      destruct (rate_in_range rate && (delay_ms <? 10000));
        [|apply (counters_agree_unchanged s); [auto using unchanged_refl with counters | exact H]].
      destruct H as (Hy & Hw & Hs).
      pose proof (getVirtualMicros_blind sync_on_pps (cmd_micros i)
                    (timing (set_sync_start_time (Int.u32 (cmd_millis i + delay_ms)))
                       (timing (set_sync_delay_ms delay_ms)
                          (timing (set_sample_interval_us (interval_of_rate rate))
                             (set_stream_rate rate s)))) ltac:(blind)) as Hy1.
      destruct (getVirtualMicros (cmd_micros i) _) as [s1 now]. cbn [fst] in Hy1.
      cbn [advanced_timing timing set_advanced_timing sync_on_pps set_sync_start_time
             set_sync_delay_ms set_sample_interval_us set_stream_rate] in Hy1.
      pose proof (sendSessionHeader_frame (cmd_session_millis i)
                    (set_streaming true
                       (set_sequence 0
                          (timing (set_waiting_for_sync_start true)
                             (timing (set_sync_start_enabled true)
                                (timing (set_sync_start_target_us
                                           (Int.u64 (now + Int.u64 (delay_ms * 1000)))) s1))))))
        as (Ht & _ & _ & Hq & _).
      cbv zeta in Ht, Hq. revert Ht Hq.
      generalize (sendSessionHeader (cmd_session_millis i)
                    (set_streaming true
                       (set_sequence 0
                          (timing (set_waiting_for_sync_start true)
                             (timing (set_sync_start_enabled true)
                                (timing (set_sync_start_target_us
                                           (Int.u64 (now + Int.u64 (delay_ms * 1000)))) s1)))))).
      intros s2 Ht Hq.
      unfold counters_agree.
      cbn [streaming advanced_timing sequence println set_serial1].
      rewrite Ht, Hq.
      cbn [advanced_timing timing set_advanced_timing set_streaming set_sequence sequence
             sync_on_pps waiting_for_sync_start set_waiting_for_sync_start
             set_sync_start_enabled set_sync_start_target_us].
      rewrite Hy1, Hy. repeat split; auto. intros _ E. discriminate E.
    + (* START_STREAM *)
      unfold processLine, or_already_streaming.
      destruct (negb (streaming s));
        [|apply (counters_agree_unchanged s); [auto using unchanged_refl with counters | exact H]].
      destruct (rate_in_range rate).
      * pose proof (isRateChangeAllowed_unchanged rate s s (unchanged_refl s)) as Hu.
        destruct (isRateChangeAllowed rate s) as [s1 allowed]. cbn [fst] in Hu.
        pose proof (counters_agree_unchanged s s1 Hu H) as H1.
        destruct allowed; [|exact H1].
        destruct H1 as (Hy & Hw & _).
        exact (start_block_counters i
                 (fun s1 => Msg [Str "OK:Streaming started at "; Flt (stream_rate s1) 2;
                                 Str "Hz with ";
                                 Str (getTimingSourceName
                                        (current_source (advanced_timing s1)));
                                 Str " timing"])
                 (timing (set_sample_interval_us (interval_of_rate rate))
                    (set_stream_rate rate s1)) Hy).
      * destruct H as (Hy & Hw & _).
        exact (start_block_counters i
                 (fun s1 => Msg [Str "OK:Streaming started at "; Flt (stream_rate s1) 2;
                                 Str "Hz with ";
                                 Str (getTimingSourceName
                                        (current_source (advanced_timing s1)));
                                 Str " timing"]) s Hy).
    + (* STOP_STREAM *)
      unfold processLine, counters_agree.
      repeat split; try reflexivity; intros E; discriminate E.
    + (* RESET *)
      destruct H as (Hy & Hw & Hs).
      unfold processLine, counters_agree. repeat split; try assumption; try reflexivity.
      intros E; discriminate E.
Qed.

Lemma process_lines_counters_agree (cs : list (CommandReadings * Command)) (s : Firmware) :
  forallb (fun c => negb (is_pps_start (snd c))) cs = true ->
  counters_agree s -> counters_agree (process_lines cs s).
Proof.
  revert s. induction cs as [|c cs IH]; intros s Hc H; [exact H|].
  cbn [forallb] in Hc. apply andb_true_iff in Hc. destruct Hc as [Hc1 Hc2].
  cbn [process_lines fold_left]. apply IH; [exact Hc2|].
  apply processLine_counters_agree; [|exact H]. apply negb_true_iff. exact Hc1.
Qed.

(** [loop()] up to its start and streaming blocks. *)
Lemma before_streaming_counters_agree (i : LoopReadings) (s : Firmware) :
  snd (detectClockReset (detect_micros (loop_tick i)) (detect_millis (loop_tick i)) s)
    = false ->
  forallb (fun c => negb (is_pps_start (snd c))) (loop_commands i) = true ->
  counters_agree s -> counters_agree (before_streaming i s).
Proof.
  intros Hr Hc H. unfold before_streaming.
  apply process_lines_counters_agree; [exact Hc|].
  apply (counters_agree_unchanged s); [|exact H].
  apply updateTemperatureCompensation_unchanged, sendHealthBeacon_unchanged.
  apply updateTimingSource_unchanged; [apply H | exact Hr | apply unchanged_refl].
Qed.

(** The start block: at the target both counters are 0. *)
Lemma loop_sync_wait_counters_agree (m : Z) (s : Firmware) :
  waiting_for_sync_start (advanced_timing s) = true ->
  counters_agree s -> counters_agree (loop_sync_wait m s).
Proof.
  intros Hw H. pose proof H as (Hy & Hq & _). specialize (Hq Hw).
  unfold loop_sync_wait. rewrite Hy.
  pose proof (getVirtualMicros_unchanged m s s (unchanged_refl s)) as Hu.
  pose proof (counters_agree_unchanged s _ Hu H) as H1.
  pose proof (getVirtualMicros_sequence m s) as Hs1.
  destruct (getVirtualMicros m s) as [s1 now]. cbn [fst] in Hu, H1, Hs1.
  destruct (_ >=? 0); [|exact H1].
  destruct H1 as (Hy1 & _ & _).
  unfold counters_agree, seq_tracks_index.
  cbn [streaming advanced_timing sequence println set_serial1 timing set_advanced_timing
         sync_on_pps waiting_for_sync_start sample_index set_sample_index
         set_samples_generated set_waiting_for_sync_start set_timing_established
         set_next_sample_micros set_timing_base_micros].
  rewrite Hs1, Hq. repeat split; auto.
Qed.

(** [firing] is the state at the call of [generatePreciseSample]: the
    streaming block continues from it when it fires, and changes neither
    counters nor output when it does not. *)
Lemma firing_some (j : StreamReadings) (s s' : Firmware) :
  firing j s = Some s' ->
  unchanged s s' /\
  exists now,
    loop_streaming j s =
    advance_next_sample (skip_missed_slots now (generatePreciseSample (sched_sample j) s')).
Proof.
  unfold firing, loop_streaming. destruct (streaming s && _); [|discriminate].
  set (s1 := timing _ (if _ =? 0 then _ else _)).
  assert (H1 : unchanged s s1) by (subst s1; counters_tac).
  clearbody s1.
  pose proof (getVirtualMicros_unchanged (sched_micros j) s s1 H1) as H2.
  destruct (getVirtualMicros (sched_micros j) s1) as [s2 now]. cbn [fst] in H2.
  destruct (_ >=? 0); [|discriminate].
  intros E. injection E as <-. split; [exact H2|]. exists now. reflexivity.
Qed.

Lemma firing_none (j : StreamReadings) (s : Firmware) :
  firing j s = None ->
  unchanged s (loop_streaming j s) /\ no_new_sample s (loop_streaming j s).
Proof.
  unfold firing, loop_streaming.
  destruct (streaming s && _); [|intros _; split; [apply unchanged_refl | apply no_new_sample_refl]].
  set (s1 := timing _ (if _ =? 0 then _ else _)).
  assert (H1 : unchanged s s1) by (subst s1; counters_tac).
  assert (Q1 : no_new_sample s s1) by (subst s1; quiet).
  clearbody s1.
  pose proof (getVirtualMicros_unchanged (sched_micros j) s s1 H1) as H2.
  pose proof (getVirtualMicros_quiet (sched_micros j) s s1 Q1) as Q2.
  destruct (getVirtualMicros (sched_micros j) s1) as [s2 now]. cbn [fst] in H2, Q2.
  destruct (_ >=? 0); [discriminate|]. intros _. split; assumption.
Qed.

Lemma firing_streams (j : StreamReadings) (s s' : Firmware) :
  firing j s = Some s' -> streaming s = true.
Proof.
  unfold firing. destruct (streaming s) eqn:E; [reflexivity|]. cbn [andb]. discriminate.
Qed.

Lemma loop_before_streaming (i : LoopReadings) (s : Firmware) :
  loop i s =
  if waiting_for_sync_start (advanced_timing (before_streaming i s))
  then loop_sync_wait (loop_wait_micros i) (before_streaming i s)
  else loop_streaming (loop_stream i) (before_streaming i s).
Proof. reflexivity. Qed.

(** The samples [loop] prints are those of [loop_firing]. *)
Lemma loop_firing_prints (i : LoopReadings) (s : Firmware) :
  count_samples (serial1 (loop i s)) =
  count_samples (serial1 s) +
  match loop_firing i s with
  | Some _ => if tx_free (tx (sched_sample (loop_stream i))) <? 20 then 0 else 1
  | None => 0
  end.
Proof.
  rewrite loop_before_streaming. unfold loop_firing.
  assert (Q1 : no_new_sample s (before_streaming i s))
    by (unfold before_streaming; auto 10 with quiet).
  revert Q1. generalize (before_streaming i s). intros s1 Q1.
  destruct (waiting_for_sync_start (advanced_timing s1)).
  - pose proof (loop_sync_wait_quiet (loop_wait_micros i) s s1 Q1) as Q2.
    unfold no_new_sample in Q2. lia.
  - destruct (firing (loop_stream i) s1) as [s2|] eqn:Ef.
    + destruct (firing_some _ _ _ Ef) as [_ [now E]]. rewrite E. clear E.
      assert (Q2 : no_new_sample s s2).
      { revert Ef. unfold firing. destruct (streaming s1 && _); [|discriminate].
        set (s1' := timing _ (if _ =? 0 then _ else _)).
        assert (Q1' : no_new_sample s s1') by (subst s1'; quiet). clearbody s1'.
        pose proof (getVirtualMicros_quiet (sched_micros (loop_stream i)) s s1' Q1') as Q.
        destruct (getVirtualMicros _ s1') as [s2' now']. cbn [fst] in Q.
        destruct (_ >=? 0); [|discriminate]. intros E. injection E as <-. exact Q. }
      pose proof (generatePreciseSample_samples (sched_sample (loop_stream i)) s2) as H3.
      revert H3. generalize (generatePreciseSample (sched_sample (loop_stream i)) s2).
      intros s3 H3.
      pose proof (skip_missed_slots_quiet now s3 s3 (no_new_sample_refl s3)) as H4.
      revert H4. generalize (skip_missed_slots now s3). intros s4 H4.
      pose proof (advance_next_sample_quiet s4 s4 (no_new_sample_refl s4)) as H5.
      unfold no_new_sample in *. rewrite H5, H4, H3, Q2. reflexivity.
    + destruct (firing_none _ _ Ef) as [_ Q2]. unfold no_new_sample in *. lia.
Qed.

(** A firing without rebase keeps the agreement and emits [sample_index mod
    65536]. *)
Lemma firing_keeps_agreement (x : SampleReadings) (s : Firmware) :
  counters_agree s -> streaming s = true ->
  waiting_for_sync_start (advanced_timing s) = false ->
  sample_index (advanced_timing s) < reference_update_interval (advanced_timing s) ->
  Forall seq_is_index (emissions [x] s) /\
  counters_agree (generatePreciseSample x s).
Proof.
  intros (Hy & _ & Hs) Hst Hw Hlt. specialize (Hs Hst Hw). unfold seq_tracks_index in Hs.
  split.
  - cbn [emissions]. constructor; [|constructor]. unfold seq_is_index. cbn [fst snd].
    destruct (prepareSample_sequence x s) as [_ Hq]. rewrite Hq.
    rewrite (prepareSample_blind sample_index) by (assumption || blind). exact Hs.
  - destruct (generatePreciseSample_counters x s Hlt) as (Hi & _ & Hq).
    pose proof (generatePreciseSample_blind sync_on_pps x s ltac:(blind) Hlt) as Hy'.
    pose proof (generatePreciseSample_blind waiting_for_sync_start x s ltac:(blind) Hlt)
      as Hw'.
    revert Hi Hq Hy' Hw'. generalize (generatePreciseSample x s). intros s' Hi Hq Hy' Hw'.
    unfold counters_agree, seq_tracks_index. rewrite Hy', Hw', Hq, Hi, Hs.
    split; [exact Hy|]. split; [rewrite Hw; intros E; discriminate E|]. intros _ _.
    unfold Int.u16, Int.u64, Int.wrap. change (2 ^ 16) with 65536.
    rewrite Z.mod_mod by lia. rewrite Z.add_mod_idemp_l by lia.
    change (2 ^ 64) with (65536 * 281474976710656).
    rewrite Z.rem_mul_r by lia.
    rewrite Z.mul_comm, Z.mod_add by lia. rewrite Z.mod_mod by lia. reflexivity.
Qed.

(** One iteration of [loop]. *)
Lemma loop_keeps_agreement (i : LoopReadings) (s : Firmware) :
  counters_agree s -> undisturbed (Iteration i) s ->
  Forall seq_is_index (loop_emissions i s) /\ counters_agree (loop i s).
Proof.
  intros H (Hr & Hc & Hlt). rewrite loop_before_streaming.
  unfold loop_emissions. unfold loop_firing in Hlt |- *. cbv zeta in Hlt |- *.
  pose proof (before_streaming_counters_agree i s Hr Hc H) as H1.
  revert H1 Hlt. generalize (before_streaming i s). intros s1 H1 Hlt.
  destruct (waiting_for_sync_start (advanced_timing s1)) eqn:Ew.
  - split; [constructor|]. apply loop_sync_wait_counters_agree; assumption.
  - destruct (firing (loop_stream i) s1) as [s2|] eqn:Ef.
    + destruct (firing_some _ _ _ Ef) as [Hu [now E]]. rewrite E. clear E.
      pose proof (firing_streams _ _ _ Ef) as Hst.
      pose proof (counters_agree_unchanged s1 s2 Hu H1) as H2.
      assert (Hst2 : streaming s2 = true)
        by (unfold unchanged, counters in Hu; congruence).
      assert (Hw2 : waiting_for_sync_start (advanced_timing s2) = false)
        by (unfold unchanged, counters in Hu; congruence).
      destruct (firing_keeps_agreement (sched_sample (loop_stream i)) s2 H2 Hst2 Hw2 Hlt)
        as [He H3].
      split; [exact He|].
      revert H3. generalize (generatePreciseSample (sched_sample (loop_stream i)) s2).
      intros s3 H3.
      apply (counters_agree_unchanged s3); [|exact H3].
      auto using unchanged_refl with counters.
    + split; [constructor|]. destruct (firing_none _ _ Ef) as [Hu _].
      apply (counters_agree_unchanged s1); assumption.
Qed.

(** C1 (amended): the emitted sequence number is the free-running 16-bit
    counter [sequence], which every firing increments together with
    [sample_index].  From a state in which the two agree (no PPS-locked start
    armed; [START_STREAM] and the start block of a synchronized start bring
    both to 0), every emission of a run of main-loop iterations, with their
    commands, and PPS interrupts carries [sample_index mod 65536], as long as
    three things do not happen: a rebase ([sample_index] reaching
    [reference_update_interval] at a firing), a clock reset reported by
    [detectClockReset], and a [START_STREAM_PPS] command.  Each of them
    changes one counter and not the other. *)
Theorem seq_tracks_index_over_runs (events : list Event) (s : Firmware) :
  counters_agree s -> undisturbed_run events s ->
  Forall seq_is_index (run_emissions events s) /\ counters_agree (run events s).
Proof.
  revert s. induction events as [|e events IH]; intros s H Hu.
  - split; [constructor | exact H].
  - destruct Hu as [Hu1 Hu2]. cbn [run_emissions run fold_left].
    fold (run events (step e s)).
    assert (H1 : Forall seq_is_index
                   match e with
                   | Iteration i => loop_emissions i s
                   | PpsEdge _ _ => []
                   end /\ counters_agree (step e s)).
    { destruct e as [i|us ms]; cbn [step].
      - apply loop_keeps_agreement; assumption.
      - split; [constructor|]. apply (counters_agree_unchanged s); [|exact H].
        unfold pps_interrupt. auto using unchanged_refl with counters. }
    destruct H1 as [He H1]. destruct (IH (step e s) H1 Hu2) as [Hr H2].
    split; [|exact H2]. apply Forall_app. split; assumption.
Qed.

Lemma seq_tracks_index_over_runs_witness :
  let events :=
    [Iteration (loop_at 4995000 4995 [START_STREAM (F32.of_Z 100)]);
     Iteration (loop_at 5000000 5000 []); PpsEdge 5005000 5005;
     Iteration (loop_at 5010000 5010 [GET_STATUS]); Iteration (loop_at 5020000 5020 [])] in
  Forall seq_is_index (run_emissions events booted) /\
  counters_agree (run events booted).
Proof.
  apply (seq_tracks_index_over_runs
           [Iteration (loop_at 4995000 4995 [START_STREAM (F32.of_Z 100)]);
            Iteration (loop_at 5000000 5000 []); PpsEdge 5005000 5005;
            Iteration (loop_at 5010000 5010 [GET_STATUS]);
            Iteration (loop_at 5020000 5020 [])] booted).
  - repeat split; try reflexivity; intros E; discriminate E.
  - vm_compute. repeat split; reflexivity.
Defined.

(** What breaks the agreement besides rebase and clock reset: a PPS-locked
    start zeroes [sequence] and leaves [sample_index].  In
    [pps_restart_pending] a stream of three samples was stopped and armed
    again with [START_STREAM_PPS]; the iteration that takes up the PPS edge
    starts the stream and emits sequence number 0 at [sample_index] 3. *)
Lemma pps_locked_start_breaks_agreement :
  run_emissions [Iteration (loop_at 6000100 6000 [])] pps_restart_pending = [(0, 3)] /\
  ~ Forall seq_is_index
      (run_emissions [Iteration (loop_at 6000100 6000 [])] pps_restart_pending).
Proof.
  assert (E : run_emissions [Iteration (loop_at 6000100 6000 [])] pps_restart_pending
              = [(0, 3)]) by (vm_compute; reflexivity).
  split; [exact E|]. rewrite E. intros H. inversion H as [|x l Hx Hl]; subst.
  unfold seq_is_index in Hx. cbn in Hx. discriminate Hx.
Qed.
